(** * Ingesil crawlers: the resumable finite-state crawl orchestrator

    A shallow embedding of the Python sources
      - [python/src/ingesil_crawlers/fsm.py]        (module [Fsm])
      - [python/src/ingesil_crawlers/artifacts.py]  (module [Artifacts])
      - [python/crawlers/crawler_boe.py]            (module [Boe])
      - [python/crawlers/crawler_dogc.py]           (module [Dogc])
    with what they stand on: the PostgreSQL statements they issue
    (module [Sql]), the calls of [datetime] (module [Datetime]) and the
    libraries that act on the outside world, Selenium first (module
    [Outside]).  Module [Shared] holds the code that the two crawlers have
    word for word in common; the modules [DogcPages] and [BoePages] hold
    the functions of the crawlers that read a page, over the operations of
    a [WebElement] (module [Pages]).  The facts come after the
    definitions, one module per subject.

    Conventions.
      - A Python [str] is a [string] whose characters are code points
        below 256; [None] is [option]'s [None].
      - A Python function that mutates its arguments or the outside world
        is a function in the state-and-exception monad [M St]: it takes the
        state and returns [Ok v] or [Raise e] together with the new state
        (what was mutated before an exception stays mutated).
      - An exception or a log record keeps its format string and its
        arguments apart ([Msg fmt args]); nothing is rendered. *)

From Stdlib Require Import ZArith QArith Qround Lia Ascii Permutation Sorted.
From stdpp Require Import base option list gmap strings pretty.

Open Scope Z_scope.

(* ===================================================================== *)
(** * Python values shared by all modules *)
(* ===================================================================== *)

Module Py.

(** [datetime.date]: a calendar day.  Python builds only valid dates
    ([valid_date]); comparison is the lexicographic one on
    (year, month, day). *)
Record date := mkdate { year : Z; month : Z; day : Z }.

#[global] Instance date_eq_dec : EqDecision date.
Proof. solve_decision. Defined.

(** Arguments of a format string, before rendering. *)
Inductive pyval :=
| VInt (z : Z)
| VStr (s : string)
| VRepr (s : string)              (* rendered with [!r] or [%r] *)
| VDate (d : date)
| VDict (kv : list (string * string))
| VOpaque (name : string).         (* a value that is logged but not modelled *)

(** A format string with its arguments. *)
Inductive message := Msg (fmt : string) (args : list pyval).

(** The exception classes that the sources raise or let through. *)
Inductive exn :=
| RuntimeError (m : message)
| KeyError (m : message)
| ValueError (m : message)
| OverflowError (m : message)
| TypeError (m : message)
| WebDriverException (m : message)   (* selenium, [TimeoutException] included *)
| OSError (m : message).

(** [type(exc).__name__] *)
Definition exn_name (e : exn) : string :=
  match e with
  | RuntimeError _ => "RuntimeError"
  | KeyError _ => "KeyError"
  | ValueError _ => "ValueError"
  | OverflowError _ => "OverflowError"
  | TypeError _ => "TypeError"
  | WebDriverException _ => "WebDriverException"
  | OSError _ => "OSError"
  end.

Inductive Res (A : Type) :=
| Ok (a : A)
| Raise (e : exn).
Arguments Ok {A} a.
Arguments Raise {A} e.

(** State-and-exception monad. *)
Definition M (St A : Type) : Type := St -> Res A * St.

Definition ret {St A} (a : A) : M St A := fun s => (Ok a, s).

Definition raise {St A} (e : exn) : M St A := fun s => (Raise e, s).

Definition bind {St A B} (m : M St A) (k : A -> M St B) : M St B :=
  fun s =>
    match m s with
    | (Ok a, s') => k a s'
    | (Raise e, s') => (Raise e, s')
    end.

(** [try: m  except Exception: h] *)
Definition try_except {St A} (m : M St A) (h : exn -> M St A) : M St A :=
  fun s =>
    match m s with
    | (Ok a, s') => (Ok a, s')
    | (Raise e, s') => h e s'
    end.

Definition gets {St A} (f : St -> A) : M St A := fun s => (Ok (f s), s).
Definition modify {St} (f : St -> St) : M St unit := fun s => (Ok tt, f s).

(** Truthiness of [str | None]: [None] and [""] are falsy. *)
Definition truthy (o : option string) : bool :=
  match o with
  | Some s => negb (String.eqb s "")
  | None => false
  end.

(** [o or ""] for [o : str | None]. *)
Definition or_empty (o : option string) : string :=
  match o with
  | Some s => s
  | None => ""
  end.

(** [str.isspace] on one character, for code points below 256. *)
Definition isspace (c : ascii) : bool :=
  let n := Z.of_nat (nat_of_ascii c) in
  ((9 <=? n) && (n <=? 13)) || ((28 <=? n) && (n <=? 32))
  || (n =? 133) || (n =? 160).

Fixpoint lstrip (s : string) : string :=
  match s with
  | String c s' => if isspace c then lstrip s' else s
  | EmptyString => EmptyString
  end.

(** Drops the trailing white space: a character stays when it is not white
    space or when something stays after it. *)
Fixpoint rstrip (s : string) : string :=
  match s with
  | String c s' =>
      match rstrip s' with
      | EmptyString => if isspace c then EmptyString else String c EmptyString
      | r => String c r
      end
  | EmptyString => EmptyString
  end.

(** [str.strip()] *)
Definition strip (s : string) : string := rstrip (lstrip s).

Fixpoint all_space (s : string) : bool :=
  match s with
  | String c s' => isspace c && all_space s'
  | EmptyString => true
  end.

(** Logging: one record per call of [logger.info], [logger.warning] or
    [logger.exception] (level [ERROR]). *)
Inductive level := INFO | WARNING | ERROR.

Record LogRecord := mkLog { lvl : level; msg : message }.

Definition Logger := list LogRecord.

End Py.

Import Py.

Declare Scope py_scope.
Delimit Scope py_scope with py.
Notation "'let*' x := m 'in' k" := (bind m (fun x => k))
  (at level 10, x name, m at level 100, k at level 200) : py_scope.
Notation "m >> k" := (bind m (fun _ => k))
  (at level 90, right associativity) : py_scope.
Open Scope py_scope.

(* ===================================================================== *)
(** * The parts of Python's [datetime] that the crawlers use *)
(* ===================================================================== *)

Module Datetime.

Definition MINYEAR : Z := 1.
Definition MAXYEAR : Z := 9999.

(** [_is_leap] *)
Definition is_leap (y : Z) : bool :=
  (y mod 4 =? 0) && (negb (y mod 100 =? 0) || (y mod 400 =? 0)).

(** [_days_in_month] *)
Definition days_in_month (y m : Z) : Z :=
  if (m =? 2) && is_leap y then 29
  else nth (Z.to_nat m) [0; 31; 28; 31; 30; 31; 30; 31; 31; 30; 31; 30; 31] 0.

(** What the [date] constructor checks before it builds a date. *)
Definition valid_date (d : date) : bool :=
  (MINYEAR <=? year d) && (year d <=? MAXYEAR)
  && (1 <=? month d) && (month d <=? 12)
  && (1 <=? day d) && (day d <=? days_in_month (year d) (month d)).

(** [_days_before_year] *)
Definition days_before_year (y : Z) : Z :=
  let y1 := y - 1 in y1 * 365 + y1 / 4 - y1 / 100 + y1 / 400.

(** [_days_before_month] *)
Definition days_before_month (y m : Z) : Z :=
  nth (Z.to_nat m) [0; 0; 31; 59; 90; 120; 151; 181; 212; 243; 273; 304; 334] 0
  + (if (2 <? m) && is_leap y then 1 else 0).

(** [date.toordinal] : day 1 is 0001-01-01. *)
Definition toordinal (d : date) : Z :=
  days_before_year (year d) + days_before_month (year d) (month d) + day d.

(** [date.__lt__] and friends compare (year, month, day) tuples. *)
Definition date_cmp (a b : date) : comparison :=
  match year a ?= year b with
  | Eq => match month a ?= month b with
          | Eq => day a ?= day b
          | c => c
          end
  | c => c
  end.

Definition date_ltb (a b : date) : bool :=
  match date_cmp a b with Lt => true | _ => false end.

Definition date_leb (a b : date) : bool :=
  match date_cmp a b with Gt => false | _ => true end.

(** [a > b] *)
Definition date_gtb (a b : date) : bool := date_ltb b a.

(** [d + timedelta(days=1)]: the next calendar day, [OverflowError] past
    9999-12-31 ([toordinal_add_one_day] relates it to the ordinal of [d],
    on which Python computes). *)
Definition add_one_day (d : date) : Res date :=
  if day d <? days_in_month (year d) (month d)
  then Ok (mkdate (year d) (month d) (day d + 1))
  else if month d <? 12 then Ok (mkdate (year d) (month d + 1) 1)
  else if year d <? MAXYEAR then Ok (mkdate (year d + 1) 1 1)
  else Raise (OverflowError (Msg "date value out of range" [])).

Definition is_digit (c : ascii) : bool :=
  let n := Z.of_nat (nat_of_ascii c) in (48 <=? n) && (n <=? 57).

Definition digit (c : ascii) : Z := Z.of_nat (nat_of_ascii c) - 48.

Definition in_range (lo hi : Z) (c : ascii) : bool :=
  is_digit c && (lo <=? digit c) && (digit c <=? hi).

(** The directive [%m] of [strptime]: [1[0-2]|0[1-9]|[1-9]], the
    alternatives tried from the left.  Returns the number and the rest. *)
Definition match_m (s : string) : option (Z * string) :=
  match s with
  | String a rest =>
      match rest with
      | String b rest' =>
          if (digit a =? 1) && is_digit a && in_range 0 2 b
          then Some (10 + digit b, rest')
          else if (digit a =? 0) && is_digit a && in_range 1 9 b
          then Some (digit b, rest')
          else if in_range 1 9 a then Some (digit a, rest) else None
      | EmptyString => if in_range 1 9 a then Some (digit a, rest) else None
      end
  | EmptyString => None
  end.

(** The directive [%d]: [3[0-1]|[1-2]\d|0[1-9]|[1-9]| [1-9]]. *)
Definition match_d (s : string) : option (Z * string) :=
  match s with
  | String a rest =>
      match rest with
      | String b rest' =>
          if (digit a =? 3) && is_digit a && in_range 0 1 b
          then Some (30 + digit b, rest')
          else if in_range 1 2 a && is_digit b
          then Some (10 * digit a + digit b, rest')
          else if (digit a =? 0) && is_digit a && in_range 1 9 b
          then Some (digit b, rest')
          else if in_range 1 9 a then Some (digit a, rest)
          else if Ascii.eqb a " " && in_range 1 9 b then Some (digit b, rest')
          else None
      | EmptyString => if in_range 1 9 a then Some (digit a, rest) else None
      end
  | EmptyString => None
  end.

(** [datetime.strptime(s, "%Y-%m-%d").date()]; [None] is [ValueError]
    (no match, unconverted data left, or no such calendar day). *)
Definition strptime_ymd (s : string) : option date :=
  match s with
  | String y1 (String y2 (String y3 (String y4 (String dash1 rest)))) =>
      if is_digit y1 && is_digit y2 && is_digit y3 && is_digit y4
         && Ascii.eqb dash1 "-"
      then
        match match_m rest with
        | Some (m, String dash2 rest2) =>
            if Ascii.eqb dash2 "-" then
              match match_d rest2 with
              | Some (d, EmptyString) =>
                  let dt := mkdate (1000 * digit y1 + 100 * digit y2
                                    + 10 * digit y3 + digit y4) m d in
                  if valid_date dt then Some dt else None
              | _ => None
              end
            else None
        | _ => None
        end
      else None
  | _ => None
  end.

End Datetime.

Import Datetime.

(* ===================================================================== *)
(** * [fsm.py]: the state-machine engine *)
(* ===================================================================== *)

Module Fsm.

Record FSMConfig := mkConfig { max_steps : Z }.

(** [FSMConfig()] : the dataclass default. *)
Definition default_config : FSMConfig := {| max_steps := 50 |}.

Section Runner.
(** [S] is the [Enum] of states, [C] the context object. *)
Context {S C : Type} `{EqDecision S}.
(** [str(state)] of an [Enum] member, used in the [KeyError] text. *)
Variable str_of_state : S -> string.

Definition Handler := M C S.
Definition Hook := C -> S -> S -> Res unit * C.

Record FSMRunner := mkRunner {
  initial_state : S;
  terminal_state : S;
  handlers : S -> option Handler;     (* [dict.get] *)
  on_transition : option Hook;
  config : FSMConfig
}.

(** [FSMRunner.__init__]: [config or FSMConfig()]. *)
Definition init (initial_state terminal_state : S)
  (handlers : S -> option Handler) (on_transition : option Hook)
  (config : option FSMConfig) : FSMRunner :=
  mkRunner initial_state terminal_state handlers on_transition
           (default default_config config).

(** What the engine calls, in order. *)
Inductive Event :=
| HandlerCalled (state : S)
| HookCalled (from_state to_state : S).

#[global] Instance Event_eq_dec : EqDecision Event.
Proof. solve_decision. Defined.

Definition is_handler_call (e : Event) : bool :=
  match e with
  | HandlerCalled _ => true
  | HookCalled _ _ => false
  end.

(** Number of handler invocations in a trace. *)
Definition handler_calls (tr : list Event) : nat :=
  length (filter (fun e => is_handler_call e = true) tr).

Variable r : FSMRunner.

(** Lines 40-47 of [run]: one pass through the loop body, after the budget
    test.  Returns the next state. *)
Definition step (state : S) (context : C) : Res S * C * list Event :=
  match handlers r state with
  | None =>
      (Raise (KeyError (Msg "Missing FSM handler for state: {state}"
                            [VStr (str_of_state state)])),
       context, [])
  | Some handler =>
      match handler context with
      | (Raise e, context1) => (Raise e, context1, [HandlerCalled state])
      | (Ok next_state, context1) =>
          match on_transition r with
          | None => (Ok next_state, context1, [HandlerCalled state])
          | Some hook =>
              match hook context1 state next_state with
              | (Raise e, context2) =>
                  (Raise e, context2,
                   [HandlerCalled state; HookCalled state next_state])
              | (Ok _, context2) =>
                  (Ok next_state, context2,
                   [HandlerCalled state; HookCalled state next_state])
              end
          end
      end
  end.

Definition max_steps_error : exn :=
  RuntimeError (Msg "FSM max steps reached: {max_steps}"
                    [VInt (max_steps (config r))]).

(** The [while] loop of [run], by recursion on [budget], the number
    [max_steps - steps] of passes that the counter still allows: the test
    [steps >= max_steps] is [budget = 0], and [steps += 1] takes one off. *)
Fixpoint run_loop (budget : nat) (state : S) (context : C)
  : Res S * C * list Event :=
  if decide (state = terminal_state r) then (Ok state, context, [])
  else
    match budget with
    | O => (Raise max_steps_error, context, [])
    | Datatypes.S budget' =>
        match step state context with
        | (Raise e, context1, ev) => (Raise e, context1, ev)
        | (Ok next_state, context1, ev) =>
            match run_loop budget' next_state context1 with
            | (out, context2, tr) => (out, context2, ev ++ tr)
            end
        end
    end.

(** [FSMRunner.run]: [state = initial_state], [steps = 0], then the loop. *)
Definition run (context : C) : Res S * C * list Event :=
  run_loop (Z.to_nat (max_steps (config r))) (initial_state r) context.

(** The same loop written with the counter [steps] and the test of line 37,
    as the source has them.  [fuel] only bounds the recursion, [None] means
    that it ran out ([run_counting_is_run]: with more fuel than
    [max_steps] it does not, and the result is that of [run]). *)
Fixpoint run_loop_counting (fuel : nat) (state : S) (steps : Z) (context : C)
  : option (Res S * C * list Event) :=
  match fuel with
  | O => None
  | Datatypes.S fuel' =>
      if decide (state = terminal_state r) then Some (Ok state, context, [])
      else if steps >=? max_steps (config r)
      then Some (Raise max_steps_error, context, [])
      else
        match step state context with
        | (Raise e, context1, ev) => Some (Raise e, context1, ev)
        | (Ok next_state, context1, ev) =>
            match run_loop_counting fuel' next_state (steps + 1) context1 with
            | Some (out, context2, tr) => Some (out, context2, ev ++ tr)
            | None => None
            end
        end
  end.

Definition run_counting (fuel : nat) (context : C)
  : option (Res S * C * list Event) :=
  run_loop_counting fuel (initial_state r) 0 context.

(** [k] passes through the loop body without any budget: the states the
    run goes through when nothing stops it.  [None] when a pass starts in
    the terminal state or raises. *)
Fixpoint passes (k : nat) (state : S) (context : C)
  : option (S * C * list Event) :=
  match k with
  | O => Some (state, context, [])
  | Datatypes.S k' =>
      if decide (state = terminal_state r) then None
      else
        match step state context with
        | (Ok next_state, context1, ev) =>
            match passes k' next_state context1 with
            | Some (s, c, tr) => Some (s, c, ev ++ tr)
            | None => None
            end
        | (Raise _, _, _) => None
        end
  end.

End Runner.

Arguments FSMRunner S C : clear implicits.
Arguments Event S : clear implicits.

End Fsm.

(* ===================================================================== *)
(** * The PostgreSQL store and the statements the crawlers issue *)
(* ===================================================================== *)

Module Sql.

(** Modelled from the spec: the table [daily_journals], whose declaration
    is not among the Python sources (the Issue of the data model, natural key
    (sourceId, issueDate)).  The columns are those that the statements name:
    [id] is the primary key (the pending query groups by it and selects the
    other columns), (source_id, issue_date) carries the unique index that
    [ON CONFLICT] names, [url] and [description] may be [NULL] (the readers
    guard with [or ""]). *)
Record DailyJournal := mkDailyJournal {
  dj_id : Z;
  dj_source_id : Z;
  dj_issue_date : date;
  dj_url : option string;
  dj_description : option string;
  dj_created_at : Z;
  dj_updated_at : Z
}.

(** Modelled from the spec: the table [notices], whose declaration is not
    among the Python sources (the Notice of the data model); the columns are
    those that the statements name, [title] and [url] nullable. *)
Record Notice := mkNotice {
  n_id : Z;
  n_daily_journal_id : Z;
  n_title : option string;
  n_category : string;
  n_department : string;
  n_url : option string;
  n_content : string;
  n_extra_info : string;
  n_created_at : Z;
  n_updated_at : Z
}.

(** The database behind [db_conn]: both tables in storage order, the two id
    sequences (the next value each will hand out) and the clock that
    [NOW()] reads. *)
Record Db := mkDb {
  daily_journals : list DailyJournal;
  notices : list Notice;
  daily_journals_id_seq : Z;
  notices_id_seq : Z;
  now : Z
}.

Definition set_daily_journals (t : list DailyJournal) (db : Db) : Db :=
  mkDb t (notices db) (daily_journals_id_seq db) (notices_id_seq db) (now db).

Definition set_notices (t : list Notice) (db : Db) : Db :=
  mkDb (daily_journals db) t (daily_journals_id_seq db) (notices_id_seq db)
       (now db).

(** Time passes between two statements. *)
Definition set_now (t : Z) (db : Db) : Db :=
  mkDb (daily_journals db) (notices db) (daily_journals_id_seq db)
       (notices_id_seq db) t.

(** [MAX] over dates; [None] is SQL [NULL] (no row). *)
Fixpoint max_date (l : list date) : option date :=
  match l with
  | [] => None
  | d :: l' =>
      match max_date l' with
      | None => Some d
      | Some m => Some (if date_ltb d m then m else d)
      end
  end.

(** [SELECT MAX(issue_date) FROM daily_journals WHERE source_id = %s] *)
Definition select_max_issue_date (source_id : Z) (db : Db) : option date :=
  max_date (map dj_issue_date
              (filter (fun dj => dj_source_id dj = source_id)
                      (daily_journals db))).

Definition has_key (source_id : Z) (issue_date : date) (dj : DailyJournal)
  : bool :=
  (dj_source_id dj =? source_id) && bool_decide (dj_issue_date dj = issue_date).

(** [SELECT * FROM daily_journals WHERE source_id = %s AND issue_date = %s] *)
Definition rows_with_key (source_id : Z) (issue_date : date) (db : Db)
  : list DailyJournal :=
  filter (fun dj => has_key source_id issue_date dj = true) (daily_journals db).

(** [DO UPDATE SET url = EXCLUDED.url, description = EXCLUDED.description,
    updated_at = NOW()] on the conflicting row. *)
Definition do_update (url description : string) (t : Z) (dj : DailyJournal)
  : DailyJournal :=
  mkDailyJournal (dj_id dj) (dj_source_id dj) (dj_issue_date dj)
                 (Some url) (Some description) (dj_created_at dj) t.

(** [INSERT INTO daily_journals (source_id, issue_date, url, description,
    created_at, updated_at) VALUES (%s, %s, %s, %s, NOW(), NOW())
    ON CONFLICT (source_id, issue_date) DO UPDATE SET ... RETURNING id].
    The proposed row takes its id from the sequence before the conflict is
    looked for, so the sequence moves in both cases.  Returns the ids that
    [RETURNING id] yields. *)
Definition insert_daily_journal_on_conflict_update
  (source_id : Z) (issue_date : date) (url description : string) (db : Db)
  : list Z * Db :=
  let t := daily_journals db in
  let new_id := daily_journals_id_seq db in
  let t' :=
    if existsb (has_key source_id issue_date) t
    then map (fun dj => if has_key source_id issue_date dj
                        then do_update url description (now db) dj else dj) t
    else t ++ [mkDailyJournal new_id source_id issue_date (Some url)
                              (Some description) (now db) (now db)] in
  (map dj_id (filter (fun dj => has_key source_id issue_date dj = true) t'),
   mkDb t' (notices db) (new_id + 1) (notices_id_seq db) (now db)).

(** [COUNT(n.id)] of the group of [dj] in
    [daily_journals dj LEFT JOIN notices n ON n.daily_journal_id = dj.id]. *)
Definition count_notices (db : Db) (dj : DailyJournal) : nat :=
  length (filter (fun n => n_daily_journal_id n = dj_id dj) (notices db)).

(** [ORDER BY dj.issue_date ASC, dj.id ASC] *)
Definition pending_leb (a b : DailyJournal) : bool :=
  match date_cmp (dj_issue_date a) (dj_issue_date b) with
  | Lt => true
  | Eq => dj_id a <=? dj_id b
  | Gt => false
  end.

Fixpoint insert_sorted (a : DailyJournal) (l : list DailyJournal)
  : list DailyJournal :=
  match l with
  | [] => [a]
  | b :: l' => if pending_leb a b then a :: l else b :: insert_sorted a l'
  end.

Fixpoint order_by_issue_date_id (l : list DailyJournal) : list DailyJournal :=
  match l with
  | [] => []
  | a :: l' => insert_sorted a (order_by_issue_date_id l')
  end.

(** [SELECT dj.id, dj.issue_date, dj.url, dj.description
     FROM daily_journals dj LEFT JOIN notices n ON n.daily_journal_id = dj.id
     WHERE dj.source_id = %s GROUP BY dj.id HAVING COUNT(n.id) = 0
     ORDER BY dj.issue_date ASC, dj.id ASC] *)
Definition select_pending_daily_journals (source_id : Z) (db : Db)
  : list DailyJournal :=
  order_by_issue_date_id
    (filter (fun dj => dj_source_id dj = source_id /\ count_notices db dj = 0%nat)
            (daily_journals db)).

(** The least of a list of ids: [ORDER BY id ASC LIMIT 1]. *)
Fixpoint min_id (l : list Z) : option Z :=
  match l with
  | [] => None
  | i :: l' =>
      match min_id l' with
      | None => Some i
      | Some m => Some (Z.min i m)
      end
  end.

(** [SELECT id FROM notices WHERE daily_journal_id = %s AND url = %s
     ORDER BY id ASC LIMIT 1] *)
Definition select_notice_id_by_url (daily_journal_id : Z) (url : string)
  (db : Db) : option Z :=
  min_id (map n_id
            (filter (fun n => n_daily_journal_id n = daily_journal_id
                              /\ n_url n = Some url) (notices db))).

(** [SELECT id FROM notices WHERE daily_journal_id = %s AND title = %s
     ORDER BY id ASC LIMIT 1] *)
Definition select_notice_id_by_title (daily_journal_id : Z) (title : string)
  (db : Db) : option Z :=
  min_id (map n_id
            (filter (fun n => n_daily_journal_id n = daily_journal_id
                              /\ n_title n = Some title) (notices db))).

(** [INSERT INTO notices (daily_journal_id, title, category, department, url,
     content, extra_info, created_at, updated_at)
     VALUES (%s, %s, %s, %s, %s, %s, %s, NOW(), NOW())] *)
Definition insert_notice
  (daily_journal_id : Z) (title category department url content extra_info : string)
  (db : Db) : Db :=
  mkDb (daily_journals db)
       (notices db ++ [mkNotice (notices_id_seq db) daily_journal_id (Some title)
                                category department (Some url) content
                                extra_info (now db) (now db)])
       (daily_journals_id_seq db) (notices_id_seq db + 1) (now db).

(** [UPDATE notices SET title = %s, category = %s, department = %s, url = %s,
     content = %s, extra_info = %s, updated_at = NOW() WHERE id = %s] *)
Definition update_notice
  (title category department url content extra_info : string) (id : Z)
  (db : Db) : Db :=
  set_notices
    (map (fun n => if n_id n =? id
                   then mkNotice (n_id n) (n_daily_journal_id n) (Some title)
                                 category department (Some url) content
                                 extra_info (n_created_at n) (now db)
                   else n) (notices db))
    db.

End Sql.

(* ===================================================================== *)
(** * The outside world: browser session, file system, clock, random source *)
(* ===================================================================== *)

Module Outside.

(** [selenium.webdriver.common.by.By] *)
Inductive By := CSS_SELECTOR | XPATH | ID.

(** What [execute_script] returns to Python. *)
Inductive JsValue := JsNull | JsNum (z : Z) | JsOther.

(** The conditions the crawlers hand to [WebDriverWait(...).until]:
    [document.readyState == "complete"], or every selector of a list finds
    at least one element. *)
Inductive Condition :=
| ReadyStateComplete
| Present (selectors : list (By * string)).

(** What is written to a file: a text, or the dictionary that [json.dumps]
    renders. *)
Inductive FileContent :=
| Text (s : string)
| Json (kv : list (string * string)).

(** The operations of the libraries that act on the world [W] (Selenium's
    [WebDriver] and [WebElement], [pathlib], [time], [random],
    [datetime.utcnow]).  Each one may change the world and may raise.
    [Float] stands for Python's [float]; [int_of_scaled h x] is
    [int(h * x)] for an integer [h] and the literal [x]. *)
Class World (W : Type) := {
  Element : Type;
  Float : Type;
  build_driver : bool -> M W unit;
  driver_get : string -> M W unit;
  driver_find_elements : By -> string -> M W (list Element);
  element_is_displayed : Element -> M W bool;
  element_click : Element -> M W unit;
  driver_execute_script : string -> list (Element + Z) -> M W JsValue;
  webdriver_wait_until : Z -> Condition -> M W unit;
  driver_save_screenshot : string -> M W bool;
  driver_page_source : M W string;
  driver_current_url : M W string;
  driver_title : M W string;
  driver_quit : M W unit;
  path_mkdir : string -> M W unit;
  path_write_text : string -> FileContent -> M W unit;
  utcnow_isoformat : M W string;
  time_sleep : Float -> M W unit;
  random_uniform : Q -> Q -> M W Float;
  random_randint : Z -> Z -> M W Z;
  int_of_scaled : Z -> Q -> Z
}.

End Outside.

Import Outside.

(* ===================================================================== *)
(** * String formatting used for file names and notes *)
(* ===================================================================== *)

Module Format.

Fixpoint zeros (n : nat) : string :=
  match n with
  | O => EmptyString
  | S n' => String "0" (zeros n')
  end.

(** [f"{z:0Wd}"]: decimal, padded with zeros on the left to width [W], the
    sign first. *)
Definition fmt_0d (width : nat) (z : Z) : string :=
  let digits := pretty (Z.abs z) in
  if z <? 0
  then String "-" (zeros (width - 1 - String.length digits) +:+ digits)
  else zeros (width - String.length digits) +:+ digits.

(** [str.lower] on one character, for code points below 256. *)
Definition lower_char (c : ascii) : ascii :=
  let n := nat_of_ascii c in
  if ((65 <=? n) && (n <=? 90))%nat
     || (((192 <=? n) && (n <=? 222))%nat && negb (n =? 215)%nat)
  then ascii_of_nat (n + 32)
  else c.

Fixpoint lower (s : string) : string :=
  match s with
  | String c s' => String (lower_char c) (lower s')
  | EmptyString => EmptyString
  end.

(** [s.split("/")] *)
Fixpoint split_slash (s : string) : list string :=
  match s with
  | EmptyString => [EmptyString]
  | String c s' =>
      if Ascii.eqb c "/" then EmptyString :: split_slash s'
      else match split_slash s' with
           | x :: xs => String c x :: xs
           | [] => [String c EmptyString]
           end
  end.

(** ["/".join(parts)] *)
Fixpoint join_slash (parts : list string) : string :=
  match parts with
  | [] => EmptyString
  | [x] => x
  | x :: rest => x +:+ "/" +:+ join_slash rest
  end.

Fixpoint ends_with_slash (s : string) : bool :=
  match s with
  | EmptyString => false
  | String c EmptyString => Ascii.eqb c "/"
  | String _ s' => ends_with_slash s'
  end.

(** [posixpath.join(a, b)] *)
Definition posixpath_join (a b : string) : string :=
  if String.prefix "/" b then b
  else if String.eqb a "" || ends_with_slash a then a +:+ b
  else a +:+ "/" +:+ b.

(** [posixpath.splitroot(p)] without the drive, which is empty: the root
    is ["//"] for exactly two leading slashes, ["/"] for one or for three
    and more, and empty otherwise. *)
Definition splitroot (p : string) : string * string :=
  match p with
  | String c1 rest1 =>
      if Ascii.eqb c1 "/" then
        match rest1 with
        | String c2 rest2 =>
            if Ascii.eqb c2 "/" then
              match rest2 with
              | String c3 _ =>
                  if Ascii.eqb c3 "/" then ("/", rest1) else ("//", rest2)
              | EmptyString => ("//", rest2)
              end
            else ("/", rest1)
        | EmptyString => ("/", rest1)
        end
      else ("", p)
  | EmptyString => ("", p)
  end.

(** The parts of a path: what stands between the slashes, without the
    empty strings and the dots. *)
Definition path_parts (rel : string) : list string :=
  filter (fun x => x <> "" /\ x <> ".") (split_slash rel).

(** [str(path / name)] for a [PurePosixPath] whose [str] is [path]: the
    two are joined as [posixpath.join] does, and the result is written
    with its root and its parts. *)
Definition joinpath (path name : string) : string :=
  let '(root, rel) := splitroot (posixpath_join path name) in
  let s := root +:+ join_slash (path_parts rel) in
  if String.eqb s "" then "." else s.

End Format.

Import Format.

(* ===================================================================== *)
(** * [artifacts.py] *)
(* ===================================================================== *)

Module Artifacts.

Record ArtifactWriter := mkWriter {
  run_dir : string;
  steps_dir : string;
  counter : Z
}.

(** The dictionary that [capture] returns. *)
Record Created := mkCreated { png : string; html : string; meta : string }.

Definition created_val (c : Created) : pyval :=
  VDict [("png", png c); ("html", html c); ("meta", meta c)].

Section Writer.
Context {W : Type} `{World W}.

(** [ArtifactWriter.__init__] *)
Definition new_writer (run_dir : string) : M W ArtifactWriter :=
  path_mkdir (joinpath run_dir "steps") >>
  ret (mkWriter run_dir (joinpath run_dir "steps") 0).

(** The writer object and the world it writes to. *)
Definition St : Type := ArtifactWriter * W.

Definition in_world {A} (m : M W A) : M St A :=
  fun s =>
    match m (snd s) with
    | (r, w') => (r, (fst s, w'))
    end.

(** [ArtifactWriter.capture(driver, state=..., note=...)] *)
Definition capture (state note : string) : M St Created :=
  modify (fun s : St =>
            (mkWriter (run_dir (fst s)) (steps_dir (fst s))
                      (counter (fst s) + 1), snd s)) >>
  let* self := gets fst in
  let step_prefix := fmt_0d 3 (counter self) +:+ "_" +:+ lower state in
  let step_prefix :=
    if negb (String.eqb note "") then step_prefix +:+ "_" +:+ note
    else step_prefix in
  let png_path := joinpath (steps_dir self) (step_prefix +:+ ".png") in
  let html_path := joinpath (steps_dir self) (step_prefix +:+ ".html") in
  let meta_path := joinpath (steps_dir self) (step_prefix +:+ ".json") in
  in_world (driver_save_screenshot png_path) >>
  let* source := in_world driver_page_source in
  in_world (path_write_text html_path (Text source)) >>
  let* captured_at := in_world utcnow_isoformat in
  let* url := in_world driver_current_url in
  let* ttl := in_world driver_title in
  let metadata :=
    [("state", state); ("note", note); ("captured_at", captured_at);
     ("url", url); ("title", ttl); ("png", png_path); ("html", html_path)] in
  in_world (path_write_text meta_path (Json metadata)) >>
  ret (mkCreated png_path html_path meta_path).

End Writer.

End Artifacts.

(* ===================================================================== *)
(** * Code that the two crawlers share word for word *)
(* ===================================================================== *)

Module Shared.

Import Sql.

(** [logger.info(fmt, *args)] and its siblings. *)
Definition log (l : level) (fmt : string) (args : list pyval) : M Logger unit :=
  modify (fun lg : Logger => lg ++ [mkLog l (Msg fmt args)]).

(** The body of [upsert_notice] ([crawler_boe.py] 374-435,
    [crawler_dogc.py] 663-724) on the database behind [context.db_conn]. *)
Definition upsert_notice
  (daily_journal_id : Z)
  (title category department url content extra_info : string) : M Db unit :=
  let* existing_id :=
    (if negb (String.eqb url "")
     then gets (select_notice_id_by_url daily_journal_id url)
     else ret None) in
  let* existing_id :=
    (match existing_id with
     | None => gets (select_notice_id_by_title daily_journal_id title)
     | Some _ => ret existing_id
     end) in
  match existing_id with
  | None =>
      modify (insert_notice daily_journal_id title category department url
                            content extra_info)
  | Some id =>
      modify (update_notice title category department url content extra_info id)
  end.

(** [cur.execute(INSERT ... ON CONFLICT ...)] of [upsert_daily_journal];
    the result is what [cur.fetchone()] gives where the statement ends in
    [RETURNING id]. *)
Definition execute_upsert_daily_journal
  (source_id : Z) (issue_date : date) (url description : string)
  : M Db (option Z) :=
  fun db =>
    match insert_daily_journal_on_conflict_update source_id issue_date url
                                                  description db with
    | (ids, db') => (Ok (head ids), db')
    end.

(** [int(v)] for what a script returned. *)
Definition py_int (v : JsValue) : Res Z :=
  match v with
  | JsNum z => Ok z
  | _ => Raise (TypeError (Msg "int() argument must be a string, a bytes-like object or a real number" []))
  end.

Section Pacing.
Context {W : Type} `{World W}.

Definition in_logger {A} (m : M Logger A) : M (Logger * W) A :=
  fun s => match m (fst s) with (x, lg) => (x, (lg, snd s)) end.

Definition in_driver {A} (m : M W A) : M (Logger * W) A :=
  fun s => match m (snd s) with (x, w) => (x, (fst s, w)) end.

(** The body of [simulate_human_transition] after its early return
    ([crawler_boe.py] 618-638, [crawler_dogc.py] 1099-1121), on
    [context.logger] and [context.driver]. *)
Definition human_pacing (from_state to_state : string) : M (Logger * W) unit :=
  in_logger (log INFO "Transition %s -> %s: applying human-like pacing."
                 [VStr from_state; VStr to_state]) >>
  let* first_pause := in_driver (random_uniform (4 # 10) (12 # 10)) in
  in_driver (time_sleep first_pause) >>
  in_logger (log INFO "Human pacing: pause %.2fs" [VOpaque "first_pause"]) >>
  let* viewport_height :=
    try_except
      (let* v := in_driver (driver_execute_script
                              "return window.innerHeight || 900;" []) in
       fun s => (py_int v, s))
      (fun _ => ret 900) in
  let* down_px :=
    in_driver (random_randint
                 (Z.max 80 (int_of_scaled viewport_height (10 # 100)))
                 (Z.max 180 (int_of_scaled viewport_height (28 # 100)))) in
  let* up_px :=
    in_driver (random_randint
                 (Z.max 30 (int_of_scaled viewport_height (5 # 100)))
                 (Z.max 120 (int_of_scaled viewport_height (16 # 100)))) in
  in_driver (driver_execute_script "window.scrollBy(0, arguments[0]);"
                                   [inr down_px]) >>
  in_logger (log INFO "Human pacing: scrolled down %dpx" [VInt down_px]) >>
  let* pause := in_driver (random_uniform (2 # 10) (7 # 10)) in
  in_driver (time_sleep pause) >>
  in_driver (driver_execute_script "window.scrollBy(0, arguments[0]);"
                                   [inr (- up_px)]) >>
  in_logger (log INFO "Human pacing: scrolled up %dpx" [VInt up_px]) >>
  let* second_pause := in_driver (random_uniform (3 # 10) (9 # 10)) in
  in_driver (time_sleep second_pause) >>
  in_logger (log INFO "Human pacing: pause %.2fs" [VOpaque "second_pause"]).

(** The [except Exception as exc] clause and what follows it in [main]
    ([crawler_boe.py] 719-726, [crawler_dogc.py] 1194-1205): log, one guarded
    attempt to capture the page when there is a driver, exit code 1. *)
Definition main_except (fmt : string) (args : list pyval)
  (driver_is_not_None : bool) (run_dir : string) : M (Logger * W) Z :=
  in_logger (log ERROR fmt args) >>
  (if driver_is_not_None then
     try_except
       (let* writer := in_driver (Artifacts.new_writer run_dir) in
        fun s =>
          match Artifacts.capture "ERROR" "unhandled_exception"
                                  (writer, snd s) with
          | (Ok _, (_, w)) => (Ok tt, (fst s, w))
          | (Raise e, (_, w)) => (Raise e, (fst s, w))
          end)
       (fun _ => in_logger (log ERROR "Failed to write error artifacts" []))
   else ret tt) >>
  ret 1.

End Pacing.

End Shared.

(* ===================================================================== *)
(** * [crawler_boe.py] *)
(* ===================================================================== *)

Module Boe.

Import Sql Artifacts.

Inductive BoeState :=
| HOME | PREPARE_SEARCH | PARSE_RESULTS_PAGE | PROCESS_RESULT_ITEM
| OPEN_NOTICE | OPEN_NEXT_PAGE | DONE.

#[global] Instance BoeState_eq_dec : EqDecision BoeState.
Proof. solve_decision. Defined.

(** [state.value] *)
Definition value (s : BoeState) : string :=
  match s with
  | HOME => "HOME"
  | PREPARE_SEARCH => "PREPARE_SEARCH"
  | PARSE_RESULTS_PAGE => "PARSE_RESULTS_PAGE"
  | PROCESS_RESULT_ITEM => "PROCESS_RESULT_ITEM"
  | OPEN_NOTICE => "OPEN_NOTICE"
  | OPEN_NEXT_PAGE => "OPEN_NEXT_PAGE"
  | DONE => "DONE"
  end.

Definition str_of_state (s : BoeState) : string := "BoeState." +:+ value s.

(** [parse_iso_date(value, flag=...)] *)
Definition parse_iso_date (value flag : string) : Res date :=
  match strptime_ymd (strip value) with
  | Some d => Ok d
  | None =>
      Raise (RuntimeError (Msg "Invalid {flag} value {value!r}. Expected YYYY-MM-DD."
                               [VStr flag; VRepr value]))
  end.

Definition lift_res {St A} (x : Res A) : M St A := fun s => (x, s).

Definition either_day_or_range_error : exn :=
  RuntimeError (Msg "Use either --day or --from-date/--to-date, not both." []).

Definition both_bounds_required_error : exn :=
  RuntimeError
    (Msg "Both --from-date and --to-date are required when using a date range override." []).

Definition invalid_range_error (from_date to_date : date) : exn :=
  RuntimeError
    (Msg "Invalid date range: --from-date ({from_date.isoformat()}) is after --to-date ({to_date.isoformat()})."
         [VDate from_date; VDate to_date]).

(** [resolve_crawl_range(logger, db_conn, source_id, source_start_at, day=...,
    from_date_raw=..., to_date_raw=...)].  The state is the logger;
    [db_conn] is only read; [today] is what [date.today()] returns. *)
Definition resolve_crawl_range
  (today : date) (db_conn : Db) (source_id : Z) (source_start_at : date)
  (day from_date_raw to_date_raw : option string) : M Logger (date * date) :=
  if truthy day then
    if truthy from_date_raw || truthy to_date_raw
    then raise either_day_or_range_error
    else
      let* single_day := lift_res (parse_iso_date (or_empty day) "--day") in
      Shared.log INFO "Using explicit single-day crawl window from --day: [%s -> %s]"
                [VDate single_day; VDate single_day] >>
      ret (single_day, single_day)
  else if truthy from_date_raw || truthy to_date_raw then
    if negb (truthy from_date_raw) || negb (truthy to_date_raw)
    then raise both_bounds_required_error
    else
      let* from_date :=
        lift_res (parse_iso_date (or_empty from_date_raw) "--from-date") in
      let* to_date :=
        lift_res (parse_iso_date (or_empty to_date_raw) "--to-date") in
      if date_gtb from_date to_date
      then raise (invalid_range_error from_date to_date)
      else
        Shared.log INFO "Using explicit crawl window from CLI: [%s -> %s]"
                  [VDate from_date; VDate to_date] >>
        ret (from_date, to_date)
  else
    (* [row[0] if row and row[0] else None]: the row of an aggregate is
       always there, and a date is always truthy *)
    let latest_issue_date := select_max_issue_date source_id db_conn in
    let* from_date :=
      (match latest_issue_date with
       | None =>
           Shared.log INFO "No previous BOE daily journals found. Starting from source.start_at=%s"
                     [VDate source_start_at] >>
           ret source_start_at
       | Some latest =>
           let* from_date := lift_res (add_one_day latest) in
           Shared.log INFO "Latest BOE daily journal=%s. Starting next day=%s"
                     [VDate latest; VDate from_date] >>
           ret from_date
       end) in
    let to_date := today in
    Shared.log INFO "Crawl date window resolved to [%s -> %s]"
              [VDate from_date; VDate to_date] >>
    ret (from_date, to_date).

(** One parsed search result ([extract_results_from_page]). *)
Record ResultRow := mkResultRow {
  department : string;
  daily_journal_description : string;
  issue_date : date;
  category : string;
  title : string;
  detail_url : string
}.

(** [f"https://www.boe.es/boe/dias/{issue_date:%Y/%m/%d}/"], the year on four
    digits. *)
Definition daily_journal_url (issue_date : date) : string :=
  "https://www.boe.es/boe/dias/" +:+ fmt_0d 4 (year issue_date) +:+ "/"
  +:+ fmt_0d 2 (month issue_date) +:+ "/" +:+ fmt_0d 2 (day issue_date) +:+ "/".

Section Crawler.
Context {W : Type} `{World W}.

Record CrawlerContext := mkContext {
  logger : Logger;
  driver : W;
  artifacts : ArtifactWriter;
  slug : string;
  source_id : Z;
  base_url : string;
  timeout_seconds : Z;
  from_date : date;
  to_date : date;
  db_conn : Db;
  pending_results : list ResultRow;
  current_result : option ResultRow;
  next_page_url : option string
}.

Definition set_logger (x : Logger) (c : CrawlerContext) : CrawlerContext :=
  mkContext x (driver c) (artifacts c) (slug c) (source_id c) (base_url c)
            (timeout_seconds c) (from_date c) (to_date c) (db_conn c)
            (pending_results c) (current_result c) (next_page_url c).

Definition set_driver (x : W) (c : CrawlerContext) : CrawlerContext :=
  mkContext (logger c) x (artifacts c) (slug c) (source_id c) (base_url c)
            (timeout_seconds c) (from_date c) (to_date c) (db_conn c)
            (pending_results c) (current_result c) (next_page_url c).

Definition set_artifacts (x : ArtifactWriter) (c : CrawlerContext)
  : CrawlerContext :=
  mkContext (logger c) (driver c) x (slug c) (source_id c) (base_url c)
            (timeout_seconds c) (from_date c) (to_date c) (db_conn c)
            (pending_results c) (current_result c) (next_page_url c).

Definition set_db_conn (x : Db) (c : CrawlerContext) : CrawlerContext :=
  mkContext (logger c) (driver c) (artifacts c) (slug c) (source_id c)
            (base_url c) (timeout_seconds c) (from_date c) (to_date c) x
            (pending_results c) (current_result c) (next_page_url c).

(** Run on [context.logger], [context.driver], [context.db_conn], or on
    [context.artifacts] together with [context.driver]. *)
Definition on_logger {A} (m : M Logger A) : M CrawlerContext A :=
  fun c => match m (logger c) with (x, lg) => (x, set_logger lg c) end.

Definition on_driver {A} (m : M W A) : M CrawlerContext A :=
  fun c => match m (driver c) with (x, w) => (x, set_driver w c) end.

Definition on_db_conn {A} (m : M Db A) : M CrawlerContext A :=
  fun c => match m (db_conn c) with (x, db) => (x, set_db_conn db c) end.

Definition on_artifacts {A} (m : M Artifacts.St A) : M CrawlerContext A :=
  fun c =>
    match m (artifacts c, driver c) with
    | (x, (a, w)) => (x, set_driver w (set_artifacts a c))
    end.

Definition log (l : level) (fmt : string) (args : list pyval)
  : M CrawlerContext unit :=
  on_logger (Shared.log l fmt args).

(** [wait_dom_ready(driver, timeout_seconds)] *)
Definition wait_dom_ready (timeout_seconds : Z) : M W unit :=
  webdriver_wait_until timeout_seconds ReadyStateComplete.

(** [upsert_daily_journal(context, issue_date=..., description=...)] *)
Definition upsert_daily_journal (issue_date : date) (description : string)
  : M CrawlerContext Z :=
  let* source_id := gets source_id in
  let* row :=
    on_db_conn (Shared.execute_upsert_daily_journal
                  source_id issue_date (daily_journal_url issue_date)
                  description) in
  match row with
  | None =>
      raise (RuntimeError (Msg "Failed to upsert daily_journal and return id" []))
  | Some id => ret id
  end.

(** [upsert_notice(context, daily_journal_id=..., ...)] *)
Definition upsert_notice
  (daily_journal_id : Z)
  (title category department url content extra_info : string)
  : M CrawlerContext unit :=
  on_db_conn (Shared.upsert_notice daily_journal_id title category department
                                  url content extra_info).

(** [state_home] *)
Definition state_home : M CrawlerContext BoeState :=
  let* base_url := gets base_url in
  let* timeout_seconds := gets timeout_seconds in
  log INFO "FSM state=%s opening BOE search page: %s"
      [VStr (value HOME); VStr base_url] >>
  on_driver (driver_get base_url) >>
  on_driver (wait_dom_ready timeout_seconds) >>
  on_driver (webdriver_wait_until timeout_seconds
               (Present [(ID, "desdeFP"); (ID, "hastaFP")])) >>
  let* created := on_artifacts (capture (value HOME) "search_page_opened") in
  log INFO "Artifacts saved: %s" [created_val created] >>
  ret PREPARE_SEARCH.

Definition set_pending_results (x : list ResultRow) (c : CrawlerContext)
  : CrawlerContext :=
  mkContext (logger c) (driver c) (artifacts c) (slug c) (source_id c)
            (base_url c) (timeout_seconds c) (from_date c) (to_date c)
            (db_conn c) x (current_result c) (next_page_url c).

Definition set_current_result (x : option ResultRow) (c : CrawlerContext)
  : CrawlerContext :=
  mkContext (logger c) (driver c) (artifacts c) (slug c) (source_id c)
            (base_url c) (timeout_seconds c) (from_date c) (to_date c)
            (db_conn c) (pending_results c) x (next_page_url c).

(** [state_process_result_item] *)
Definition state_process_result_item : M CrawlerContext BoeState :=
  let* pending := gets pending_results in
  match pending with
  | first :: rest =>
      modify (set_pending_results rest) >>
      modify (set_current_result (Some first)) >>
      log INFO "FSM state=%s picked result: issue_date=%s category=%s department=%s title=%s"
          [VStr (value PROCESS_RESULT_ITEM); VDate (issue_date first);
           VStr (category first); VStr (department first); VStr (title first)] >>
      ret OPEN_NOTICE
  | [] =>
      let* next_page := gets next_page_url in
      if truthy next_page then
        log INFO "No more results on current page. Moving to next page." [] >>
        ret OPEN_NEXT_PAGE
      else
        log INFO "No pending results and no next page. FSM done." [] >>
        ret DONE
  end.

Definition on_logger_driver {A} (m : M (Logger * W) A) : M CrawlerContext A :=
  fun c =>
    match m (logger c, driver c) with
    | (x, (lg, w)) => (x, set_driver w (set_logger lg c))
    end.

(** [simulate_human_transition(context, from_state, to_state)] *)
Definition simulate_human_transition (from_state to_state : BoeState)
  : M CrawlerContext unit :=
  if decide (to_state = DONE) then
    log INFO "Transition %s -> %s (final), skipping human pacing."
        [VStr (value from_state); VStr (value to_state)]
  else
    on_logger_driver (Shared.human_pacing (value from_state) (value to_state)).

(** The handlers whose bodies are Selenium code for the pages of the site;
    [main] only puts them in the table. *)
Variable state_prepare_search : M CrawlerContext BoeState.
Variable state_parse_results_page : M CrawlerContext BoeState.
Variable state_open_notice : M CrawlerContext BoeState.
Variable state_open_next_page : M CrawlerContext BoeState.

(** The [FSMRunner] that [main] builds. *)
Definition fsm : Fsm.FSMRunner BoeState CrawlerContext :=
  Fsm.init
    HOME DONE
    (fun s =>
       match s with
       | HOME => Some state_home
       | PREPARE_SEARCH => Some state_prepare_search
       | PARSE_RESULTS_PAGE => Some state_parse_results_page
       | PROCESS_RESULT_ITEM => Some state_process_result_item
       | OPEN_NOTICE => Some state_open_notice
       | OPEN_NEXT_PAGE => Some state_open_next_page
       | DONE => None
       end)
    (Some (fun c from_state to_state =>
             simulate_human_transition from_state to_state c))
    (Some (Fsm.mkConfig 20000)).

(** What [main] holds before and after the context object exists. *)
Record Process := mkProcess {
  p_logger : Logger;
  p_world : W;
  p_db : Db
}.

Definition p_log (l : level) (fmt : string) (args : list pyval)
  : M Process unit :=
  fun p =>
    match Shared.log l fmt args (p_logger p) with
    | (x, lg) => (x, mkProcess lg (p_world p) (p_db p))
    end.

Definition p_on_world {A} (m : M W A) : M Process A :=
  fun p =>
    match m (p_world p) with
    | (x, w) => (x, mkProcess (p_logger p) w (p_db p))
    end.

Definition p_on_logger_world {A} (m : M (Logger * W) A) : M Process A :=
  fun p =>
    match m (p_logger p, p_world p) with
    | (x, (lg, w)) => (x, mkProcess lg w (p_db p))
    end.

(** The command line ([parse_args]) and the row of [sources]
    ([read_source_data_from_db]). *)
Record Args := mkArgs {
  arg_slug : string;
  arg_run_id : string;
  arg_base_url : option string;
  arg_timeout : Z;
  arg_day : option string;
  arg_from_date : option string;
  arg_to_date : option string
}.

(** Lines 670-718 of [main], from the call of [resolve_crawl_range] on.
    The result is the exit code and whether [driver] is bound. *)
Definition main_try (args : Args) (headless : bool) (run_dir : string)
  (today : date) (source_id : Z) (source_start_at : date) (source_base_url : string)
  : M Process (Z * bool) :=
  let base_url :=
    if truthy (arg_base_url args) then or_empty (arg_base_url args)
    else if negb (String.eqb source_base_url "") then source_base_url
    else "https://www.boe.es/buscar/boe.php" in
  let* db := gets p_db in
  let* range :=
    p_on_logger_world
      (Shared.in_logger
         (resolve_crawl_range today db source_id source_start_at
                              (arg_day args) (arg_from_date args)
                              (arg_to_date args))) in
  if date_gtb (fst range) (snd range) then
    p_log INFO "Nothing to crawl for BOE: from_date=%s is after today=%s"
          [VDate (fst range); VDate (snd range)] >>
    ret (0, false)
  else
    p_on_world (build_driver headless) >>
    (* from here on [driver] is bound: a failure reaches the except clause
       with a driver *)
    try_except
      (let* writer := p_on_world (new_writer run_dir) in
       let* final_state :=
         (fun p =>
            match Fsm.run str_of_state fsm
                    (mkContext (p_logger p) (p_world p) writer (arg_slug args)
                               source_id base_url (arg_timeout args)
                               (fst range) (snd range) (p_db p) [] None None)
            with
            | (x, c, _) => (x, mkProcess (logger c) (driver c) (db_conn c))
            end) in
       p_log INFO "Crawler finished with final state=%s"
             [VStr (value final_state)] >>
       ret (0, true))
      (fun exc =>
         let* code :=
           p_on_logger_world
             (Shared.main_except "Crawler failed: %s: %r"
                [VStr (exn_name exc); VOpaque "exc"] true run_dir) in
         ret (code, true)).

(** [main], once the logger exists, the database connection is open and the
    row of [sources] is read (lines 650-731); [run_dir] is the directory of
    line 646.  Returns the exit code.  What comes before the first log line
    (lines 642-649) is left out, and so is [db_conn.close()] in the
    [finally] clause: the store is a value, and closing the connection is
    taken not to raise. *)
Definition main (args : Args) (headless : bool) (run_dir : string)
  (today : date) (source_id : Z) (source_start_at : date) (source_base_url : string)
  : M Process Z :=
  p_log INFO "Starting crawler for slug=%s" [VStr (arg_slug args)] >>
  p_log INFO "Mode: %s" [VStr (if headless then "headless" else "headed")] >>
  p_log INFO "Run directory: %s" [VStr run_dir] >>
  let* result :=
    try_except
      (main_try args headless run_dir today source_id source_start_at
                source_base_url)
      (fun exc =>
         let* code :=
           p_on_logger_world
             (Shared.main_except "Crawler failed: %s: %r"
                [VStr (exn_name exc); VOpaque "exc"] false run_dir) in
         ret (code, false)) in
  (* finally *)
  (if snd result then p_on_world driver_quit else ret tt) >>
  ret (fst result).

End Crawler.

Arguments CrawlerContext W : clear implicits.
Arguments Process W : clear implicits.

End Boe.

(* ===================================================================== *)
(** * [crawler_dogc.py] *)
(* ===================================================================== *)

Module Dogc.

Import Sql Artifacts.

Inductive DogcState :=
| HOME | COOKIE_CONSENT | NAVIGATE_TO_START_MONTH | PROCESS_MONTH
| PICK_PENDING_DAILY_JOURNAL | OPEN_DAILY_JOURNAL | PICK_NOTICE_LINK
| OPEN_NOTICE | DONE.

#[global] Instance DogcState_eq_dec : EqDecision DogcState.
Proof. solve_decision. Defined.

(** [state.value] *)
Definition value (s : DogcState) : string :=
  match s with
  | HOME => "HOME"
  | COOKIE_CONSENT => "COOKIE_CONSENT"
  | NAVIGATE_TO_START_MONTH => "NAVIGATE_TO_START_MONTH"
  | PROCESS_MONTH => "PROCESS_MONTH"
  | PICK_PENDING_DAILY_JOURNAL => "PICK_PENDING_DAILY_JOURNAL"
  | OPEN_DAILY_JOURNAL => "OPEN_DAILY_JOURNAL"
  | PICK_NOTICE_LINK => "PICK_NOTICE_LINK"
  | OPEN_NOTICE => "OPEN_NOTICE"
  | DONE => "DONE"
  end.

Definition str_of_state (s : DogcState) : string := "DogcState." +:+ value s.

(** [month_index] *)
Definition month_index (year month : Z) : Z := year * 12 + month.

(** [date.isoformat()] *)
Definition isoformat (d : date) : string :=
  fmt_0d 4 (year d) +:+ "-" +:+ fmt_0d 2 (month d) +:+ "-" +:+ fmt_0d 2 (day d).

(** The dictionary that [fetch_pending_daily_journal] returns. *)
Record PendingJournal := mkPending {
  pj_id : Z;
  pj_issue_date : string;
  pj_url : string;
  pj_description : string
}.

(** An element of [extract_notice_candidates_from_daily_journal]'s list. *)
Record NoticeCandidate := mkCandidate {
  c_title : string;
  c_url : string;
  c_category : string;
  c_department : string
}.

(** The dictionary that [extract_notice_detail] returns. *)
Record NoticeDetail := mkDetail {
  d_title : string;
  d_category : string;
  d_department : string;
  d_content : string;
  d_extra_info : string;
  d_url : string
}.

(** [a or b] on strings. *)
Definition str_or (a b : string) : string :=
  if String.eqb a "" then b else a.

Section Crawler.
Context {W : Type} `{World W}.

Record CrawlerContext := mkContext {
  logger : Logger;
  driver : W;
  artifacts : ArtifactWriter;
  slug : string;
  source_id : Z;
  base_url : string;
  daily_base_url : string;
  timeout_seconds : Z;
  start_issue_date : date;
  end_issue_date : date;
  db_conn : Db;
  resume_state : option DogcState;
  attempted_daily_journal_ids : option (gset Z);
  current_daily_journal : option PendingJournal;
  pending_notice_candidates : option (list NoticeCandidate);
  current_notice_candidate : option NoticeCandidate
}.

Definition set_logger (x : Logger) (c : CrawlerContext) : CrawlerContext :=
  mkContext x (driver c) (artifacts c) (slug c) (source_id c) (base_url c)
    (daily_base_url c) (timeout_seconds c) (start_issue_date c)
    (end_issue_date c) (db_conn c) (resume_state c)
    (attempted_daily_journal_ids c) (current_daily_journal c)
    (pending_notice_candidates c) (current_notice_candidate c).

Definition set_driver (x : W) (c : CrawlerContext) : CrawlerContext :=
  mkContext (logger c) x (artifacts c) (slug c) (source_id c) (base_url c)
    (daily_base_url c) (timeout_seconds c) (start_issue_date c)
    (end_issue_date c) (db_conn c) (resume_state c)
    (attempted_daily_journal_ids c) (current_daily_journal c)
    (pending_notice_candidates c) (current_notice_candidate c).

Definition set_artifacts (x : ArtifactWriter) (c : CrawlerContext)
  : CrawlerContext :=
  mkContext (logger c) (driver c) x (slug c) (source_id c) (base_url c)
    (daily_base_url c) (timeout_seconds c) (start_issue_date c)
    (end_issue_date c) (db_conn c) (resume_state c)
    (attempted_daily_journal_ids c) (current_daily_journal c)
    (pending_notice_candidates c) (current_notice_candidate c).

Definition set_db_conn (x : Db) (c : CrawlerContext) : CrawlerContext :=
  mkContext (logger c) (driver c) (artifacts c) (slug c) (source_id c)
    (base_url c) (daily_base_url c) (timeout_seconds c) (start_issue_date c)
    (end_issue_date c) x (resume_state c)
    (attempted_daily_journal_ids c) (current_daily_journal c)
    (pending_notice_candidates c) (current_notice_candidate c).

Definition set_resume_state (x : option DogcState) (c : CrawlerContext)
  : CrawlerContext :=
  mkContext (logger c) (driver c) (artifacts c) (slug c) (source_id c)
    (base_url c) (daily_base_url c) (timeout_seconds c) (start_issue_date c)
    (end_issue_date c) (db_conn c) x
    (attempted_daily_journal_ids c) (current_daily_journal c)
    (pending_notice_candidates c) (current_notice_candidate c).

Definition set_attempted_daily_journal_ids (x : option (gset Z))
  (c : CrawlerContext) : CrawlerContext :=
  mkContext (logger c) (driver c) (artifacts c) (slug c) (source_id c)
    (base_url c) (daily_base_url c) (timeout_seconds c) (start_issue_date c)
    (end_issue_date c) (db_conn c) (resume_state c)
    x (current_daily_journal c)
    (pending_notice_candidates c) (current_notice_candidate c).

Definition set_current_daily_journal (x : option PendingJournal)
  (c : CrawlerContext) : CrawlerContext :=
  mkContext (logger c) (driver c) (artifacts c) (slug c) (source_id c)
    (base_url c) (daily_base_url c) (timeout_seconds c) (start_issue_date c)
    (end_issue_date c) (db_conn c) (resume_state c)
    (attempted_daily_journal_ids c) x
    (pending_notice_candidates c) (current_notice_candidate c).

Definition set_pending_notice_candidates (x : option (list NoticeCandidate))
  (c : CrawlerContext) : CrawlerContext :=
  mkContext (logger c) (driver c) (artifacts c) (slug c) (source_id c)
    (base_url c) (daily_base_url c) (timeout_seconds c) (start_issue_date c)
    (end_issue_date c) (db_conn c) (resume_state c)
    (attempted_daily_journal_ids c) (current_daily_journal c)
    x (current_notice_candidate c).

Definition set_current_notice_candidate (x : option NoticeCandidate)
  (c : CrawlerContext) : CrawlerContext :=
  mkContext (logger c) (driver c) (artifacts c) (slug c) (source_id c)
    (base_url c) (daily_base_url c) (timeout_seconds c) (start_issue_date c)
    (end_issue_date c) (db_conn c) (resume_state c)
    (attempted_daily_journal_ids c) (current_daily_journal c)
    (pending_notice_candidates c) x.

Definition on_logger {A} (m : M Logger A) : M CrawlerContext A :=
  fun c => match m (logger c) with (x, lg) => (x, set_logger lg c) end.

Definition on_driver {A} (m : M W A) : M CrawlerContext A :=
  fun c => match m (driver c) with (x, w) => (x, set_driver w c) end.

Definition on_db_conn {A} (m : M Db A) : M CrawlerContext A :=
  fun c => match m (db_conn c) with (x, db) => (x, set_db_conn db c) end.

Definition on_artifacts {A} (m : M Artifacts.St A) : M CrawlerContext A :=
  fun c =>
    match m (artifacts c, driver c) with
    | (x, (a, w)) => (x, set_driver w (set_artifacts a c))
    end.

Definition on_logger_driver {A} (m : M (Logger * W) A) : M CrawlerContext A :=
  fun c =>
    match m (logger c, driver c) with
    | (x, (lg, w)) => (x, set_driver w (set_logger lg c))
    end.

Definition log (l : level) (fmt : string) (args : list pyval)
  : M CrawlerContext unit :=
  on_logger (Shared.log l fmt args).

(** [wait_dom_ready(driver, timeout_seconds)] *)
Definition wait_dom_ready (timeout_seconds : Z) : M W unit :=
  webdriver_wait_until timeout_seconds ReadyStateComplete.

(** [WebDriverWait(driver, t).until(lambda _d: True)]: [until] returns at
    its first poll, without a call to the driver. *)
Definition wait_until_true : M CrawlerContext unit := ret tt.

(** [context.artifacts.capture(context.driver, state=..., note=...)] *)
Definition capture (state : DogcState) (note : string)
  : M CrawlerContext Created :=
  on_artifacts (Artifacts.capture (value state) note).

(** [upsert_daily_journal(context, issue_date, issue_url, description)] *)
Definition upsert_daily_journal (issue_date : date)
  (issue_url description : string) : M CrawlerContext unit :=
  let* source_id := gets source_id in
  on_db_conn (Shared.execute_upsert_daily_journal source_id issue_date
                                                  issue_url description) >>
  ret tt.

(** The [for row in rows] loop of [fetch_pending_daily_journal]. *)
Fixpoint first_usable (attempted : gset Z) (rows : list DailyJournal)
  : M CrawlerContext (option PendingJournal) :=
  match rows with
  | [] => ret None
  | row :: rows' =>
      let daily_journal_id := dj_id row in
      if decide (daily_journal_id ∈ attempted) then first_usable attempted rows'
      else
        let url := strip (or_empty (dj_url row)) in
        if String.eqb url "" then
          log WARNING "Skipping daily_journal id=%s because URL is empty."
              [VInt daily_journal_id] >>
          first_usable attempted rows'
        else
          ret (Some (mkPending daily_journal_id
                               (isoformat (dj_issue_date row)) url
                               (strip (or_empty (dj_description row)))))
  end.

(** [fetch_pending_daily_journal(context)] *)
Definition fetch_pending_daily_journal
  : M CrawlerContext (option PendingJournal) :=
  let* ids := gets attempted_daily_journal_ids in
  let attempted : gset Z := default ∅ ids in
  let* source_id := gets source_id in
  let* rows := on_db_conn (gets (select_pending_daily_journals source_id)) in
  log INFO "Pending daily journals with 0 notices in DB: %d"
      [VInt (Z.of_nat (length rows))] >>
  first_usable attempted rows.

(** [upsert_notice(context, daily_journal_id=..., ...)] *)
Definition upsert_notice
  (daily_journal_id : Z)
  (title category department url content extra_info : string)
  : M CrawlerContext unit :=
  on_db_conn (Shared.upsert_notice daily_journal_id title category department
                                   url content extra_info).

Definition translate_upper : string :=
  "ABCDEFGHIJKLMNOPQRSTUVWXYZÀÁÂÃÄÅÆÇÈÉÊËÌÍÎÏÑÒÓÔÕÖÙÚÛÜ".

Definition translate_lower : string :=
  "abcdefghijklmnopqrstuvwxyzàáâãäåæçèéêëìíîïñòóôõöùúûü".

Definition button_containing (word : string) : By * string :=
  (XPATH,
   "//button[contains(translate(normalize-space(.), '" +:+ translate_upper
   +:+ "', '" +:+ translate_lower +:+ "'), '" +:+ word +:+ "')]").

(** [selectors] of [find_cookie_accept_button] *)
Definition cookie_selectors : list (By * string) :=
  [(CSS_SELECTOR, "button#ppms_cm_agree-to-all");
   (CSS_SELECTOR, "#ppms_cm_agree-to-all");
   button_containing "accept";
   button_containing "acceptar";
   button_containing "aceptar";
   button_containing "totes";
   button_containing "todo"].

(** [for element in elements: if element.is_displayed(): return element] *)
Fixpoint first_displayed (elements : list Element) : M W (option Element) :=
  match elements with
  | [] => ret None
  | element :: rest =>
      let* displayed := element_is_displayed element in
      if displayed then ret (Some element) else first_displayed rest
  end.

(** The loop over [selectors]: an exception inside the [try] goes on to the
    next selector. *)
Fixpoint find_displayed (selectors : list (By * string))
  : M W (option Element) :=
  match selectors with
  | [] => ret None
  | (by_, selector) :: rest =>
      let* found :=
        try_except
          (let* elements := driver_find_elements by_ selector in
           first_displayed elements)
          (fun _ => ret None) in
      match found with
      | Some element => ret (Some element)
      | None => find_displayed rest
      end
  end.

(** [find_cookie_accept_button(context)] *)
Definition find_cookie_accept_button : M CrawlerContext (option Element) :=
  on_driver (find_displayed cookie_selectors).

(** [maybe_route_to_cookie_state(context, current_state=...)] *)
Definition maybe_route_to_cookie_state (current_state : DogcState)
  : M CrawlerContext (option DogcState) :=
  let* button := find_cookie_accept_button in
  match button with
  | None => ret None
  | Some _ =>
      log INFO "Cookie consent detected while in %s. Redirecting FSM to %s."
          [VStr (value current_state); VStr (value COOKIE_CONSENT)] >>
      modify (set_resume_state (Some current_state)) >>
      ret (Some COOKIE_CONSENT)
  end.

Definition no_accept_button_error : exn :=
  RuntimeError
    (Msg "Entered COOKIE_CONSENT state but no visible accept button was found." []).

(** [state_cookie_consent] *)
Definition state_cookie_consent : M CrawlerContext DogcState :=
  log INFO "FSM state=%s processing cookie modal." [VStr (value COOKIE_CONSENT)] >>
  let* button := find_cookie_accept_button in
  match button with
  | None => raise no_accept_button_error
  | Some button =>
      try_except
        (on_driver (driver_execute_script
                      "arguments[0].scrollIntoView({block: 'center'});"
                      [inl button]) >> ret tt)
        (fun _ => ret tt) >>
      try_except
        (on_driver (element_click button))
        (fun _ =>
           on_driver (driver_execute_script "arguments[0].click();"
                                            [inl button]) >> ret tt) >>
      wait_until_true >>
      let* created := capture COOKIE_CONSENT "accepted_all" in
      log INFO "Cookie accepted. Artifacts saved: %s" [created_val created] >>
      let* resume := gets resume_state in
      match resume with
      | None =>
          log WARNING "No resume state set after COOKIE_CONSENT; defaulting to NAVIGATE_TO_START_MONTH." [] >>
          ret NAVIGATE_TO_START_MONTH
      | Some next_state =>
          modify (set_resume_state None) >>
          log INFO "Resuming FSM at state=%s after cookie consent."
              [VStr (value next_state)] >>
          ret next_state
      end
  end.

(** [state_home] *)
Definition state_home : M CrawlerContext DogcState :=
  let* base_url := gets base_url in
  let* timeout_seconds := gets timeout_seconds in
  log INFO "FSM state=%s opening URL=%s" [VStr (value HOME); VStr base_url] >>
  on_driver (driver_get base_url) >>
  on_driver (wait_dom_ready timeout_seconds) >>
  let* created := capture HOME "homepage_opened" in
  log INFO "Artifacts saved: %s" [created_val created] >>
  let* cookie_interrupt := maybe_route_to_cookie_state NAVIGATE_TO_START_MONTH in
  match cookie_interrupt with
  | Some s => ret s
  | None => ret NAVIGATE_TO_START_MONTH
  end.

(** The functions that read or drive the pages of the site (calendar widget,
    summary page, notice page). *)
Variable get_calendar_year_month : Z -> M W (Z * Z * string).
Variable click_previous_month : Z -> M W unit.
Variable click_next_month : Z -> M W unit.
Variable extract_clickable_issues_for_visible_month :
  Z -> Z -> M CrawlerContext (list (date * string * string)).
Variable extract_notice_candidates_from_daily_journal :
  M CrawlerContext (list NoticeCandidate).
Variable extract_notice_detail : M CrawlerContext NoticeDetail.

Definition year_month_note (prefix : string) (y m : Z) : string :=
  prefix +:+ fmt_0d 4 y +:+ "_" +:+ fmt_0d 2 m.

(** [state_navigate_to_start_month] *)
Definition state_navigate_to_start_month : M CrawlerContext DogcState :=
  let* cookie_interrupt := maybe_route_to_cookie_state NAVIGATE_TO_START_MONTH in
  match cookie_interrupt with
  | Some s => ret s
  | None =>
      let* start := gets start_issue_date in
      let* timeout_seconds := gets timeout_seconds in
      let target_year := year start in
      let target_month := month start in
      let target_idx := month_index target_year target_month in
      let* cal := on_driver (get_calendar_year_month timeout_seconds) in
      let '(current_year, current_month, month_text) := cal in
      let current_idx := month_index current_year current_month in
      log INFO "FSM state=%s calendar visible month=%s parsed=(%04d-%02d) target=(%04d-%02d)"
          [VStr (value NAVIGATE_TO_START_MONTH); VStr month_text;
           VInt current_year; VInt current_month;
           VInt target_year; VInt target_month] >>
      if current_idx =? target_idx then
        let* created :=
          capture NAVIGATE_TO_START_MONTH
                  (year_month_note "start_month_reached_" target_year
                                   target_month) in
        log INFO "Start month reached. Artifacts saved: %s"
            [created_val created] >>
        ret PROCESS_MONTH
      else if current_idx <? target_idx then
        raise (RuntimeError
                 (Msg "Current calendar month is older than target start_at. current={current_year:04d}-{current_month:02d}, target={target_year:04d}-{target_month:02d}. Cannot reach target by clicking previous month."
                      [VInt current_year; VInt current_month;
                       VInt target_year; VInt target_month]))
      else
        log INFO "Clicking calendar previous month control ('<') once." [] >>
        on_driver (click_previous_month timeout_seconds) >>
        wait_until_true >>
        let* created :=
          capture NAVIGATE_TO_START_MONTH
                  (year_month_note "step_after_prev_click_target_" target_year
                                   target_month) in
        log INFO "Artifacts saved after previous-month click: %s"
            [created_val created] >>
        ret NAVIGATE_TO_START_MONTH
  end.

(** [for issue_date, issue_url, description in issues: ...] of
    [state_process_month] *)
Fixpoint upsert_issues (issues : list (date * string * string))
  : M CrawlerContext unit :=
  match issues with
  | [] => ret tt
  | (issue_date, issue_url, description) :: rest =>
      upsert_daily_journal issue_date issue_url description >>
      let* source_id := gets source_id in
      log INFO "Upserted daily_journal source_id=%s issue_date=%s url=%s description=%s"
          [VInt source_id; VDate issue_date; VStr issue_url; VStr description] >>
      upsert_issues rest
  end.

(** [state_process_month] *)
Definition state_process_month : M CrawlerContext DogcState :=
  let* cookie_interrupt := maybe_route_to_cookie_state PROCESS_MONTH in
  match cookie_interrupt with
  | Some s => ret s
  | None =>
      let* timeout_seconds := gets timeout_seconds in
      let* cal := on_driver (get_calendar_year_month timeout_seconds) in
      let '(current_year, current_month, month_text) := cal in
      let current_idx := month_index current_year current_month in
      let* start := gets start_issue_date in
      let* end_ := gets end_issue_date in
      let end_idx := month_index (year end_) (month end_) in
      log INFO "FSM state=%s processing month=%s (%04d-%02d) range=[%s -> %s]"
          [VStr (value PROCESS_MONTH); VStr month_text; VInt current_year;
           VInt current_month; VDate start; VDate end_] >>
      let* issues :=
        extract_clickable_issues_for_visible_month current_year current_month in
      log INFO "Month %04d-%02d: %d clickable issues in target range."
          [VInt current_year; VInt current_month;
           VInt (Z.of_nat (length issues))] >>
      upsert_issues issues >>
      let* created :=
        capture PROCESS_MONTH
                (year_month_note "month_processed_" current_year current_month) in
      log INFO "Month processed artifacts saved: %s" [created_val created] >>
      if current_idx =? end_idx then
        log INFO "Reached end month (%04d-%02d). Switching to notice extraction flow."
            [VInt (year end_); VInt (month end_)] >>
        ret PICK_PENDING_DAILY_JOURNAL
      else if current_idx >? end_idx then
        raise (RuntimeError
                 (Msg "Visible calendar month {current_year:04d}-{current_month:02d} is after end month {context.end_issue_date.year:04d}-{context.end_issue_date.month:02d}."
                      [VInt current_year; VInt current_month;
                       VInt (year end_); VInt (month end_)]))
      else
        log INFO "Clicking calendar next month control ('>') once." [] >>
        on_driver (click_next_month timeout_seconds) >>
        wait_until_true >>
        let* created :=
          capture PROCESS_MONTH
                  (year_month_note "step_after_next_click_" current_year
                                   current_month) in
        log INFO "Artifacts saved after next-month click: %s"
            [created_val created] >>
        ret PROCESS_MONTH
  end.

(** [state_pick_pending_daily_journal] *)
Definition state_pick_pending_daily_journal : M CrawlerContext DogcState :=
  let* cookie_interrupt :=
    maybe_route_to_cookie_state PICK_PENDING_DAILY_JOURNAL in
  match cookie_interrupt with
  | Some s => ret s
  | None =>
      let* ids := gets attempted_daily_journal_ids in
      (match ids with
       | None => modify (set_attempted_daily_journal_ids (Some ∅))
       | Some _ => ret tt
       end) >>
      let* next_daily_journal := fetch_pending_daily_journal in
      match next_daily_journal with
      | None =>
          log INFO "No more pending daily journals (0 notices) for this run. FSM done." [] >>
          ret DONE
      | Some next =>
          let daily_journal_id := pj_id next in
          modify (fun c =>
                    set_attempted_daily_journal_ids
                      (Some (default ∅ (attempted_daily_journal_ids c)
                             ∪ {[daily_journal_id]})) c) >>
          modify (set_current_daily_journal (Some next)) >>
          modify (set_pending_notice_candidates (Some [])) >>
          modify (set_current_notice_candidate None) >>
          log INFO "Selected pending daily_journal id=%s issue_date=%s url=%s"
              [VInt daily_journal_id; VStr (pj_issue_date next);
               VStr (pj_url next)] >>
          ret OPEN_DAILY_JOURNAL
      end
  end.

(** [state_open_daily_journal] *)
Definition state_open_daily_journal : M CrawlerContext DogcState :=
  let* current := gets current_daily_journal in
  match current with
  | None =>
      log WARNING "No current daily journal set. Returning to picker state." [] >>
      ret PICK_PENDING_DAILY_JOURNAL
  | Some journal =>
      let daily_journal_id := pj_id journal in
      let daily_journal_url := pj_url journal in
      let* timeout_seconds := gets timeout_seconds in
      log INFO "FSM state=%s opening daily_journal id=%s url=%s"
          [VStr (value OPEN_DAILY_JOURNAL); VInt daily_journal_id;
           VStr daily_journal_url] >>
      on_driver (driver_get daily_journal_url) >>
      on_driver (wait_dom_ready timeout_seconds) >>
      let* cookie_interrupt := maybe_route_to_cookie_state OPEN_DAILY_JOURNAL in
      match cookie_interrupt with
      | Some s => ret s
      | None =>
          let* candidates := extract_notice_candidates_from_daily_journal in
          modify (set_pending_notice_candidates (Some candidates)) >>
          let* created :=
            capture OPEN_DAILY_JOURNAL
                    ("daily_journal_loaded_" +:+ pretty daily_journal_id) in
          log INFO "Daily journal artifacts saved: %s" [created_val created] >>
          match candidates with
          | [] =>
              log WARNING "No notice candidates extracted from daily_journal id=%s (%s). Moving on."
                  [VInt daily_journal_id; VStr daily_journal_url] >>
              modify (set_current_daily_journal None) >>
              ret PICK_PENDING_DAILY_JOURNAL
          | _ :: _ => ret PICK_NOTICE_LINK
          end
      end
  end.

(** [state_pick_notice_link] *)
Definition state_pick_notice_link : M CrawlerContext DogcState :=
  let* cookie_interrupt := maybe_route_to_cookie_state PICK_NOTICE_LINK in
  match cookie_interrupt with
  | Some s => ret s
  | None =>
      let* current := gets current_daily_journal in
      match current with
      | None => ret PICK_PENDING_DAILY_JOURNAL
      | Some journal =>
          let* pending := gets pending_notice_candidates in
          match pending with
          | None | Some [] =>
              log INFO "Finished all notice links for daily_journal id=%s"
                  [VInt (pj_id journal)] >>
              modify (set_current_daily_journal None) >>
              modify (set_current_notice_candidate None) >>
              ret PICK_PENDING_DAILY_JOURNAL
          | Some (first :: rest) =>
              modify (set_pending_notice_candidates (Some rest)) >>
              modify (set_current_notice_candidate (Some first)) >>
              log INFO "Selected notice candidate title=%s url=%s"
                  [VStr (c_title first); VStr (c_url first)] >>
              ret OPEN_NOTICE
          end
      end
  end.

(** [state_open_notice] *)
Definition state_open_notice : M CrawlerContext DogcState :=
  let* current := gets current_daily_journal in
  let* candidate := gets current_notice_candidate in
  match current, candidate with
  | Some journal, Some candidate =>
      let daily_journal_id := pj_id journal in
      let notice_url := c_url candidate in
      let* timeout_seconds := gets timeout_seconds in
      log INFO "FSM state=%s opening notice URL=%s for daily_journal id=%s"
          [VStr (value OPEN_NOTICE); VStr notice_url; VInt daily_journal_id] >>
      on_driver (driver_get notice_url) >>
      on_driver (wait_dom_ready timeout_seconds) >>
      on_driver (webdriver_wait_until timeout_seconds
                   (Present [(CSS_SELECTOR, "#fullText h1")])) >>
      let* cookie_interrupt := maybe_route_to_cookie_state OPEN_NOTICE in
      match cookie_interrupt with
      | Some s => ret s
      | None =>
          let* detail := extract_notice_detail in
          let title := str_or (d_title detail) (strip (c_title candidate)) in
          let category :=
            strip (str_or (d_category detail) (c_category candidate)) in
          let department :=
            strip (str_or (d_department detail) (c_department candidate)) in
          let final_url := str_or (d_url detail) notice_url in
          let content := d_content detail in
          let extra_info := d_extra_info detail in
          (if String.eqb title "" then
             log WARNING "Skipping notice without title for URL=%s"
                 [VStr final_url]
           else
             upsert_notice daily_journal_id title category department
                           final_url content extra_info >>
             log INFO "Upserted notice daily_journal_id=%s title=%s category=%s department=%s url=%s content_len=%s"
                 [VInt daily_journal_id; VStr title; VStr category;
                  VStr department; VStr final_url;
                  VInt (Z.of_nat (String.length content))]) >>
          let* created :=
            capture OPEN_NOTICE
                    ("notice_processed_" +:+ pretty daily_journal_id) in
          log INFO "Notice page artifacts saved: %s" [created_val created] >>
          modify (set_current_notice_candidate None) >>
          ret PICK_NOTICE_LINK
      end
  | _, _ =>
      log WARNING "Missing notice context. Returning to notice picker." [] >>
      ret PICK_NOTICE_LINK
  end.

(** [simulate_human_transition(context, from_state, to_state)] *)
Definition simulate_human_transition (from_state to_state : DogcState)
  : M CrawlerContext unit :=
  if decide (to_state = DONE) then
    log INFO "Transition %s -> %s (final), skipping human pacing."
        [VStr (value from_state); VStr (value to_state)]
  else
    on_logger_driver (Shared.human_pacing (value from_state) (value to_state)).

(** The handler table of [main]. *)
Definition handlers (s : DogcState) : option (M CrawlerContext DogcState) :=
  match s with
  | HOME => Some state_home
  | COOKIE_CONSENT => Some state_cookie_consent
  | NAVIGATE_TO_START_MONTH => Some state_navigate_to_start_month
  | PROCESS_MONTH => Some state_process_month
  | PICK_PENDING_DAILY_JOURNAL => Some state_pick_pending_daily_journal
  | OPEN_DAILY_JOURNAL => Some state_open_daily_journal
  | PICK_NOTICE_LINK => Some state_pick_notice_link
  | OPEN_NOTICE => Some state_open_notice
  | DONE => None
  end.

(** [on_transition=simulate_human_transition] *)
Definition hook : Fsm.Hook :=
  fun c from_state to_state => simulate_human_transition from_state to_state c.

(** The [FSMRunner] that [main] builds. *)
Definition fsm : Fsm.FSMRunner DogcState CrawlerContext :=
  Fsm.init HOME DONE handlers (Some hook) (Some (Fsm.mkConfig 10000)).

(** What [main] holds before and after the context object exists. *)
Record Process := mkProcess {
  p_logger : Logger;
  p_world : W;
  p_db : Db
}.

Definition p_log (l : level) (fmt : string) (args : list pyval)
  : M Process unit :=
  fun p =>
    match Shared.log l fmt args (p_logger p) with
    | (x, lg) => (x, mkProcess lg (p_world p) (p_db p))
    end.

Definition p_on_world {A} (m : M W A) : M Process A :=
  fun p =>
    match m (p_world p) with
    | (x, w) => (x, mkProcess (p_logger p) w (p_db p))
    end.

Definition p_on_logger_world {A} (m : M (Logger * W) A) : M Process A :=
  fun p =>
    match m (p_logger p, p_world p) with
    | (x, (lg, w)) => (x, mkProcess lg w (p_db p))
    end.

(** The command line ([parse_args]). *)
Record Args := mkArgs {
  arg_slug : string;
  arg_base_url : string;
  arg_daily_base_url : string;
  arg_timeout : Z;
  arg_start_at : option string
}.

(** [resolve_source_context(args, logger)]; [source_id] and [db_start_date]
    are what [read_source_data_from_db] returned. *)
Definition resolve_source_context (args : Args) (source_id : Z)
  (db_start_date : date) : M Process (Z * date) :=
  p_log INFO "Loaded source id=%s and start_at=%s from DB for slug=%s"
        [VInt source_id; VDate db_start_date; VStr (arg_slug args)] >>
  if truthy (arg_start_at args) then
    match strptime_ymd (or_empty (arg_start_at args)) with
    | None =>
        raise (ValueError (Msg "time data %r does not match format %r"
                               [VRepr (or_empty (arg_start_at args));
                                VRepr "%Y-%m-%d"]))
    | Some override_start =>
        p_log INFO "Using --start-at override: %s" [VDate override_start] >>
        ret (source_id, override_start)
    end
  else ret (source_id, db_start_date).

(** The [try] block of [main] (lines 1146-1193), the database connection
    open.  The result is the exit code and whether [driver] is bound. *)
Definition main_try (args : Args) (headless : bool) (run_dir : string)
  (source_id : Z) (start_issue_date end_issue_date : date)
  : M Process (Z * bool) :=
  p_on_world (build_driver headless) >>
  (* from here on [driver] is bound: a failure reaches the except clause
     with a driver *)
  try_except
    (let* writer := p_on_world (new_writer run_dir) in
     let* final_state :=
       (fun p =>
          match Fsm.run str_of_state fsm
                  (mkContext (p_logger p) (p_world p) writer (arg_slug args)
                             source_id (arg_base_url args)
                             (arg_daily_base_url args) (arg_timeout args)
                             start_issue_date end_issue_date (p_db p)
                             None None None None None)
          with
          | (x, c, _) => (x, mkProcess (logger c) (driver c) (db_conn c))
          end) in
     p_log INFO "Crawler finished with final state=%s"
           [VStr (value final_state)] >>
     ret (0, true))
    (fun exc =>
       let* code :=
         p_on_logger_world
           (Shared.main_except "Crawler failed: %s" [VOpaque "exc"] true
                               run_dir) in
       ret (code, true)).

(** [main], once the logger exists (lines 1133-1210); [run_dir] is the
    directory of line 1129, [today] what [date.today()] returns.  Returns
    the exit code; [Raise] is an exception that leaves [main]. *)
Definition main (args : Args) (headless : bool) (run_dir : string)
  (today : date) (source_id : Z) (db_start_date : date) : M Process Z :=
  p_log INFO "Starting crawler for slug=%s" [VStr (arg_slug args)] >>
  p_log INFO "Mode: %s" [VStr (if headless then "headless" else "headed")] >>
  p_log INFO "Run directory: %s" [VStr run_dir] >>
  let* source := resolve_source_context args source_id db_start_date in
  let start_issue_date := snd source in
  let end_issue_date := today in
  if date_gtb start_issue_date end_issue_date then
    raise (RuntimeError
             (Msg "start_at ({start_issue_date.isoformat()}) cannot be after today ({end_issue_date.isoformat()})."
                  [VDate start_issue_date; VDate end_issue_date]))
  else
    let* result :=
      try_except
        (main_try args headless run_dir (fst source) start_issue_date
                  end_issue_date)
        (fun exc =>
           let* code :=
             p_on_logger_world
               (Shared.main_except "Crawler failed: %s" [VOpaque "exc"] false
                                   run_dir) in
           ret (code, false)) in
    (* finally *)
    (if snd result then p_on_world driver_quit else ret tt) >>
    ret (fst result).

End Crawler.

Arguments CrawlerContext W : clear implicits.
Arguments Process W : clear implicits.

End Dogc.

(* ===================================================================== *)
(** * A scripted world and concrete inputs *)
(* ===================================================================== *)

Module Stub.

Import Sql Artifacts.

(** A browser session with one cookie overlay and a file system that
    records what is written.
    - [banner]: the overlay with its accept button is shown; a click on the
      button removes it.
    - [probe_script]: while it is not empty, a search for the accept button
      takes its answer from the head instead (a stubbed probe).
    - [screenshot_script]: for the successive calls of [save_screenshot],
      whether the call raises; an empty script lets every call through.
    - [written]: the paths written so far. *)
Record StubWorld := mkStub {
  banner : bool;
  probe_script : list bool;
  screenshot_script : list bool;
  written : list string
}.

Definition probe (w : StubWorld) : Res (list unit) * StubWorld :=
  match probe_script w with
  | answer :: rest =>
      (Ok (if answer then [tt] else []),
       mkStub (banner w) rest (screenshot_script w) (written w))
  | [] => (Ok (if banner w then [tt] else []), w)
  end.

Definition dismiss (w : StubWorld) : StubWorld :=
  mkStub false (probe_script w) (screenshot_script w) (written w).

Definition screenshot (w : StubWorld) : Res bool * StubWorld :=
  match screenshot_script w with
  | fails :: rest =>
      (if fails
       then Raise (WebDriverException (Msg "unable to capture screen" []))
       else Ok true,
       mkStub (banner w) (probe_script w) rest (written w))
  | [] => (Ok true, w)
  end.

#[global] Instance stub_world : World StubWorld := {|
  Element := unit;
  Float := Q;
  build_driver := fun _ => ret tt;
  driver_get := fun _ => ret tt;
  driver_find_elements := fun by_ selector =>
    if String.eqb selector "button#ppms_cm_agree-to-all" then probe
    else ret [];
  element_is_displayed := fun _ => ret true;
  element_click := fun _ => modify dismiss;
  driver_execute_script := fun _ _ => ret (JsNum 900);
  webdriver_wait_until := fun _ _ => ret tt;
  driver_save_screenshot := fun _ => screenshot;
  driver_page_source := ret "<html></html>";
  driver_current_url := ret "https://dogc.gencat.cat/ca";
  driver_title := ret "DOGC";
  driver_quit := ret tt;
  path_mkdir := fun _ => ret tt;
  path_write_text := fun path _ =>
    modify (fun w => mkStub (banner w) (probe_script w) (screenshot_script w)
                            (written w ++ [path]));
  utcnow_isoformat := ret "2024-01-03T00:00:00";
  time_sleep := fun _ => ret tt;
  random_uniform := fun lo _ => ret lo;
  random_randint := fun lo _ => ret lo;
  int_of_scaled := fun h x => Qfloor (inject_Z h * x)
|}.

(** A calendar that shows January 2024, with nothing to extract. *)
Definition calendar (timeout : Z) : M StubWorld (Z * Z * string) :=
  ret (2024, 1, "gener 2024").

Definition no_issues (y m : Z)
  : M (Dogc.CrawlerContext StubWorld) (list (date * string * string)) :=
  ret [].

Definition no_candidates
  : M (Dogc.CrawlerContext StubWorld) (list Dogc.NoticeCandidate) :=
  ret [].

Definition empty_detail : M (Dogc.CrawlerContext StubWorld) Dogc.NoticeDetail :=
  ret (Dogc.mkDetail "" "" "" "" "" "").

Definition click_month (timeout : Z) : M StubWorld unit := ret tt.

Definition empty_db : Db := mkDb [] [] 1 1 0.

Definition quiet : StubWorld := mkStub false [] [] [].

Definition d (y m dd : Z) : date := mkdate y m dd.

(** A DOGC context as [main] builds it. *)
Definition dogc_context (w : StubWorld) (db : Db)
  : Dogc.CrawlerContext StubWorld :=
  Dogc.mkContext [] w (mkWriter "run" "run/steps" 0) "dogc" 7
                 "https://dogc.gencat.cat/ca"
                 "https://dogc.gencat.cat/ca/sumari-del-dogc/" 20
                 (d 2024 1 1) (d 2024 1 3) db None None None None None.

Definition dogc_handlers :=
  Dogc.handlers calendar click_month click_month no_issues no_candidates
                empty_detail.

Definition dogc_fsm :=
  Dogc.fsm calendar click_month click_month no_issues no_candidates
           empty_detail.

Definition dogc_args : Dogc.Args :=
  Dogc.mkArgs "dogc" "https://dogc.gencat.cat/ca"
              "https://dogc.gencat.cat/ca/sumari-del-dogc/" 20 None.

Definition dogc_main (w : StubWorld) (db : Db) :=
  Dogc.main calendar click_month click_month no_issues no_candidates
            empty_detail dogc_args true "run" (d 2024 1 3) 7 (d 2024 1 1)
            (Dogc.mkProcess [] w db).

(** The store after a first BOE run that persisted the issue of
    2024-01-02 and nothing else (source 1). *)
Definition db_one_issue : Db :=
  mkDb [mkDailyJournal 1 1 (d 2024 1 2)
                       (Some "https://www.boe.es/boe/dias/2024/01/02/")
                       (Some "BOE 2 de 02/01/2024") 10 10]
       [] 2 1 20.

(** A store with one notice of issue 1, titled T, at http://a. *)
Definition db_one_notice : Db :=
  mkDb [mkDailyJournal 1 1 (d 2024 1 2) (Some "http://issue") (Some "issue")
                       10 10]
       [mkNotice 1 1 (Some "T") "c" "d" (Some "http://a") "old" "" 11 11]
       2 2 20.

(** Two small machines on a counter: [countdown] halts at its third
    handler invocation, [spinning] never halts; both have a budget of 3. *)
Inductive Toy := Spin | Halt.

#[global] Instance Toy_eq_dec : EqDecision Toy.
Proof. solve_decision. Defined.

Definition toy_str (s : Toy) : string :=
  match s with Spin => "Toy.Spin" | Halt => "Toy.Halt" end.

Definition countdown : Fsm.FSMRunner Toy Z :=
  Fsm.mkRunner Spin Halt
    (fun s => match s with
              | Spin => Some (fun n => (Ok (if n + 1 =? 3 then Halt else Spin),
                                        n + 1))
              | Halt => None
              end)
    None (Fsm.mkConfig 3).

Definition spinning : Fsm.FSMRunner Toy Z :=
  Fsm.mkRunner Spin Halt
    (fun s => match s with
              | Spin => Some (fun n => (Ok Spin, n + 1))
              | Halt => None
              end)
    None (Fsm.mkConfig 3).

(** A store of source 7 with two issues and no notice: the issue of
    2024-01-01 has no url, the issue of 2024-01-02 has one. *)
Definition db_two_pending : Db :=
  mkDb [mkDailyJournal 1 7 (d 2024 1 1) None (Some "DOGC 1") 10 10;
        mkDailyJournal 2 7 (d 2024 1 2) (Some "http://x") (Some "DOGC 2") 10 10]
       [] 3 1 20.

End Stub.

(* ===================================================================== *)
(** * Vocabulary of the statements *)
(* ===================================================================== *)

Module Describe.

Import Sql.

(** The dictionary that [fetch_pending_daily_journal] builds from a row. *)
Definition as_pending (row : DailyJournal) : Dogc.PendingJournal :=
  Dogc.mkPending (dj_id row) (Dogc.isoformat (dj_issue_date row))
                 (strip (or_empty (dj_url row)))
                 (strip (or_empty (dj_description row))).

(** A row that the fetch may return: not attempted in this run, and with a
    url that is something else than white space. *)
Definition usable (attempted : gset Z) (row : DailyJournal) : Prop :=
  (dj_id row ∉ attempted) /\ strip (or_empty (dj_url row)) <> "".

#[global] Instance usable_dec attempted row : Decision (usable attempted row).
Proof. unfold usable. apply _. Defined.

(** The rows that the loop of the fetch goes through before it returns: the
    rows before the first usable one, all of them when none is usable. *)
Definition passed_over (attempted : gset Z) (rows : list DailyJournal)
  : list DailyJournal :=
  match list_find (usable attempted) rows with
  | Some (i, _) => take i rows
  | None => rows
  end.

(** The warning of line 521. *)
Definition empty_url_warning (row : DailyJournal) : LogRecord :=
  mkLog WARNING (Msg "Skipping daily_journal id=%s because URL is empty."
                     [VInt (dj_id row)]).

(** The order of the pending query: issue date ascending, then id
    ascending. *)
Definition date_then_id (a b : DailyJournal) : Prop :=
  date_ltb (dj_issue_date a) (dj_issue_date b) = true
  \/ (dj_issue_date a = dj_issue_date b /\ dj_id a <= dj_id b).

(** The states whose handler runs the obstruction probe as its first
    action, with itself as the state to resume. *)
Definition probes_at_entry (X : Dogc.DogcState) : Prop :=
  X = Dogc.NAVIGATE_TO_START_MONTH \/ X = Dogc.PROCESS_MONTH
  \/ X = Dogc.PICK_PENDING_DAILY_JOURNAL \/ X = Dogc.PICK_NOTICE_LINK.

(** What [state_home] of [crawler_dogc.py] does before it captures the
    page (lines 728-730). *)
Definition dogc_home_opening {W : Type} `{World W}
  : M (Dogc.CrawlerContext W) unit :=
  fun c =>
    (Dogc.log INFO "FSM state=%s opening URL=%s"
              [VStr (Dogc.value Dogc.HOME); VStr (Dogc.base_url c)] >>
     Dogc.on_driver (driver_get (Dogc.base_url c)) >>
     Dogc.on_driver (Dogc.wait_dom_ready (Dogc.timeout_seconds c))) c.

(** What [state_home] of [crawler_boe.py] does before it captures the page
    (lines 439-444). *)
Definition boe_home_opening {W : Type} `{World W}
  : M (Boe.CrawlerContext W) unit :=
  fun c =>
    (Boe.log INFO "FSM state=%s opening BOE search page: %s"
             [VStr (Boe.value Boe.HOME); VStr (Boe.base_url c)] >>
     Boe.on_driver (driver_get (Boe.base_url c)) >>
     Boe.on_driver (Boe.wait_dom_ready (Boe.timeout_seconds c)) >>
     Boe.on_driver (webdriver_wait_until (Boe.timeout_seconds c)
                      (Present [(ID, "desdeFP"); (ID, "hastaFP")]))) c.

(** An action that leaves [context.resume_state] as it is. *)
Definition keeps_register {W : Type} `{World W} {A : Type}
  (m : M (Dogc.CrawlerContext W) A) : Prop :=
  forall c, Dogc.resume_state (snd (m c)) = Dogc.resume_state c.

End Describe.

(* ===================================================================== *)
(** * Sentences of the specification, written down as they read *)
(* ===================================================================== *)

Module Claimed.

Import Sql Fsm.

(** "Unless [nextState == terminal], invoke the transition hook": the engine
    never calls the hook with the terminal state as destination. *)
Definition hook_skipped_on_terminal {S C : Type} `{EqDecision S}
  (str_of_state : S -> string) (r : FSMRunner S C) : Prop :=
  forall c out c' tr from_state,
    run str_of_state r c = (out, c', tr) ->
    ~ In (HookCalled from_state (terminal_state r)) tr.

(** "Resolve existing row by (issueId, url) if url non-empty, else by
    (issueId, title)": the title is looked at only when the url is empty. *)
Definition resolve_existing (daily_journal_id : Z) (title url : string)
  (db : Db) : option Z :=
  if negb (String.eqb url "")
  then select_notice_id_by_url daily_journal_id url db
  else select_notice_id_by_title daily_journal_id title db.

(** "Update in place on match, else insert." *)
Definition upsert_notice (daily_journal_id : Z)
  (title category department url content extra_info : string) (db : Db) : Db :=
  match resolve_existing daily_journal_id title url db with
  | Some id =>
      update_notice title category department url content extra_info id db
  | None =>
      insert_notice daily_journal_id title category department url content
                    extra_info db
  end.

(** The code does what that sentence says, on every input. *)
Definition upsert_notice_as_claimed : Prop :=
  forall daily_journal_id title category department url content extra_info db,
    snd (Shared.upsert_notice daily_journal_id title category department url
                              content extra_info db)
    = upsert_notice daily_journal_id title category department url content
                    extra_info db.

(** "Filtered only by the ephemeral AttemptedSet": the item selected is the
    first returned issue whose id is not in the set. *)
Definition first_not_attempted (attempted : gset Z) (rows : list DailyJournal)
  : option DailyJournal :=
  head (filter (fun row => dj_id row ∉ attempted) rows).

Definition selection_as_claimed : Prop :=
  forall (W : Type) (HW : World W) (c : Dogc.CrawlerContext W) selected,
    fst (Dogc.fetch_pending_daily_journal c) = Ok selected ->
    (Dogc.pj_id <$> selected)
    = (dj_id <$> first_not_attempted
                   (default ∅ (Dogc.attempted_daily_journal_ids c))
                   (select_pending_daily_journals (Dogc.source_id c)
                                                  (Dogc.db_conn c))).

(** "Given a stub obstruction probe that reports present exactly once,
    InterruptRouter transitions X -> ObstructionHandler -> X, and
    ResumeRegister is empty again afterward": when the handler of a
    designated state X has met the obstruction and handed over to
    [COOKIE_CONSENT], and the probe reports nothing any more, the handler of
    [COOKIE_CONSENT] returns X and leaves the register empty. *)
Definition detour_and_back : Prop :=
  forall (W : Type) (HW : World W)
         (get_calendar_year_month : Z -> M W (Z * Z * string))
         (click_previous_month click_next_month : Z -> M W unit)
         (extract_issues :
            Z -> Z -> M (Dogc.CrawlerContext W) (list (date * string * string)))
         (extract_candidates :
            M (Dogc.CrawlerContext W) (list Dogc.NoticeCandidate))
         (extract_detail : M (Dogc.CrawlerContext W) Dogc.NoticeDetail)
         (X : Dogc.DogcState) handler (c c1 : Dogc.CrawlerContext W),
    Describe.probes_at_entry X ->
    Dogc.handlers get_calendar_year_month click_previous_month click_next_month
                  extract_issues extract_candidates extract_detail X
    = Some handler ->
    handler c = (Ok Dogc.COOKIE_CONSENT, c1) ->
    Dogc.find_displayed Dogc.cookie_selectors (Dogc.driver c1)
    = (Ok None, Dogc.driver c1) ->
    exists c2,
      Dogc.state_cookie_consent c1 = (Ok X, c2)
      /\ Dogc.resume_state c2 = None.

(** "Failures here must not abort the run": in the scripted world, whatever
    calls of [save_screenshot] fail, [main] ends as it does when none
    fails. *)
Definition capture_failure_harmless : Prop :=
  forall (screenshot_script : list bool) (db : Db),
    fst (Stub.dogc_main (Stub.mkStub false [] screenshot_script []) db)
    = fst (Stub.dogc_main (Stub.mkStub false [] [] []) db).

End Claimed.

(* ===================================================================== *)
(** * More of Python's [str] *)
(* ===================================================================== *)

Module PyStr.

(** [s.startswith(prefix)] *)
Definition startswith (s prefix : string) : bool := String.prefix prefix s.

(** [c in chars] for a character *)
Fixpoint in_chars (c : ascii) (chars : string) : bool :=
  match chars with
  | String d chars' => Ascii.eqb c d || in_chars c chars'
  | EmptyString => false
  end.

(** [s.lstrip(chars)] *)
Fixpoint lstrip_chars (chars s : string) : string :=
  match s with
  | String c s' => if in_chars c chars then lstrip_chars chars s' else s
  | EmptyString => EmptyString
  end.

(** [s.rstrip(chars)]: a character stays when it is not in [chars] or when
    something stays after it. *)
Fixpoint rstrip_chars (chars s : string) : string :=
  match s with
  | String c s' =>
      match rstrip_chars chars s' with
      | EmptyString => if in_chars c chars then EmptyString
                       else String c EmptyString
      | r => String c r
      end
  | EmptyString => EmptyString
  end.

(** [needle in hay] *)
Fixpoint contains (needle hay : string) : bool :=
  String.prefix needle hay
  || match hay with
     | String _ hay' => contains needle hay'
     | EmptyString => false
     end.

(** [c.isdigit()] for a code point below 256: the decimal digits and the
    superscripts one, two and three. *)
Definition isdigit_char (c : ascii) : bool :=
  let n := Z.of_nat (nat_of_ascii c) in
  ((48 <=? n) && (n <=? 57)) || (n =? 178) || (n =? 179) || (n =? 185).

Fixpoint all_isdigit (s : string) : bool :=
  match s with
  | String c s' => isdigit_char c && all_isdigit s'
  | EmptyString => true
  end.

(** [s.isdigit()]: at least one character, and digits only. *)
Definition isdigit (s : string) : bool :=
  negb (String.eqb s "") && all_isdigit s.

End PyStr.

(* ===================================================================== *)
(** * The page: Selenium's [WebElement] and what is parsed out of it *)
(* ===================================================================== *)

Module Pages.

(** The operations on a [WebElement] ([find_elements], [find_element],
    which raises when nothing is found, [text], [get_attribute]) and two
    computations of the standard library that the readers of the pages
    call: [int(s)], and
    [(parse_qs(urlparse(url).query).get(name) or [""])[0]]. *)
Class Page (W : Type) `{World W} := {
  element_find_elements : Element -> By -> string -> M W (list Element);
  element_find_element : Element -> By -> string -> M W Element;
  element_text : Element -> M W (option string);
  element_get_attribute : Element -> string -> M W (option string);
  int_of_str : string -> Res Z;
  first_query_value : string -> string -> Res string
}.

End Pages.

(* ===================================================================== *)
(** * [crawler_dogc.py]: the functions that read the pages *)
(* ===================================================================== *)

Module DogcPages.

Import PyStr.

(** [build_daily_issue_url(daily_base_url, title_query)] *)
Definition build_daily_issue_url (daily_base_url title_query : string)
  : string :=
  let query := strip title_query in
  if startswith query "?"
  then rstrip_chars "/" daily_base_url +:+ "/" +:+ query
  else if startswith query "http://" || startswith query "https://"
  then query
  else if negb (String.eqb query "")
  then rstrip_chars "/" daily_base_url +:+ "/?" +:+ lstrip_chars "?" query
  else daily_base_url.

(** What the conversion of an argument of [date(...)] to a C [int] raises
    when the number does not fit (CPython's C implementation of [date],
    with a [long] of 64 bits); the arguments are converted in their order,
    before the fields are checked. *)
Definition c_int_error (z : Z) : option exn :=
  if (z <? - 2 ^ 63) || (2 ^ 63 <=? z)
  then Some (OverflowError (Msg "Python int too large to convert to C long" []))
  else if 2 ^ 31 <=? z
  then Some (OverflowError (Msg "signed integer is greater than maximum" []))
  else if z <? - 2 ^ 31
  then Some (OverflowError (Msg "signed integer is less than minimum" []))
  else None.

Definition date_args_error (y m d : Z) : option exn :=
  match c_int_error y with
  | Some e => Some e
  | None =>
      match c_int_error m with
      | Some e => Some e
      | None => c_int_error d
      end
  end.

(** [rows.sort(key=lambda item: item[0])]: a stable sort on the date. *)
Fixpoint insert_by_date (x : date * string * string)
  (l : list (date * string * string)) : list (date * string * string) :=
  match l with
  | [] => [x]
  | y :: l' =>
      if date_leb (fst (fst x)) (fst (fst y)) then x :: l
      else y :: insert_by_date x l'
  end.

Definition sort_by_date (l : list (date * string * string))
  : list (date * string * string) :=
  foldr insert_by_date [] l.

Section Readers.
Context {W : Type} `{Pages.Page W}.

Import Pages.

#[local] Abbreviation Context_ := (Dogc.CrawlerContext W).

(** The [for cell in cells] loop of
    [extract_clickable_issues_for_visible_month]; [continue] goes on with
    the next cell and the rows collected so far. *)
Fixpoint clickable_issues_loop (current_year current_month : Z)
  (cells : list Element) (rows : list (date * string * string))
  : M Context_ (list (date * string * string)) :=
  match cells with
  | [] => ret rows
  | cell :: cells' =>
      let continue :=
        clickable_issues_loop current_year current_month cells' rows in
      let* day_el :=
        Dogc.on_driver
          (element_find_elements cell CSS_SELECTOR
             "a.ui-state-default, span.ui-state-default") in
      match day_el with
      | [] => continue
      | first :: _ =>
          let* text := Dogc.on_driver (element_text first) in
          let day_txt := strip (or_empty text) in
          if negb (isdigit day_txt) then continue
          else
            let* issue_day := Boe.lift_res (int_of_str day_txt) in
            let issue_date := mkdate current_year current_month issue_day in
            (* [date(...)]: an [OverflowError] goes through, the
               [ValueError] for a day that does not exist is caught *)
            match date_args_error current_year current_month issue_day with
            | Some e => raise e
            | None =>
                if negb (valid_date issue_date) then continue
                else
                  let* start_issue_date := gets Dogc.start_issue_date in
                  let* end_issue_date := gets Dogc.end_issue_date in
                  if date_ltb issue_date start_issue_date
                     || date_gtb issue_date end_issue_date
                  then continue
                  else
                    let* title :=
                      Dogc.on_driver (element_get_attribute cell "title") in
                    let title_query := strip (or_empty title) in
                    if String.eqb title_query "" then continue
                    else
                      let* daily_base_url := gets Dogc.daily_base_url in
                      let issue_url :=
                        build_daily_issue_url daily_base_url title_query in
                      let* num_dogc :=
                        Boe.lift_res
                          (first_query_value issue_url "numDOGC") in
                      let description :=
                        if negb (String.eqb num_dogc "")
                        then "DOGC n" +:+ String "250" ("m. " +:+ num_dogc)
                        else "DOGC " +:+ Dogc.isoformat issue_date in
                      clickable_issues_loop current_year current_month cells'
                        (rows ++ [(issue_date, issue_url, description)])
            end
      end
  end.

(** [extract_clickable_issues_for_visible_month(context=...,
    current_year=..., current_month=...)] *)
Definition extract_clickable_issues_for_visible_month
  (current_year current_month : Z)
  : M Context_ (list (date * string * string)) :=
  let* cells :=
    Dogc.on_driver
      (driver_find_elements CSS_SELECTOR
         "#calendari-dogc .ui-datepicker-calendar td.has-publicacio") in
  Dogc.log INFO "Found %d clickable cells in visible month %04d-%02d."
           [VInt (Z.of_nat (length cells)); VInt current_year;
            VInt current_month] >>
  let* rows := clickable_issues_loop current_year current_month cells [] in
  ret (sort_by_date rows).

(** The [for row_el in row_elements] loop of
    [extract_notice_candidates_from_daily_journal]. *)
Fixpoint notice_candidates_loop (row_elements : list Element)
  (rows : list Dogc.NoticeCandidate) (seen_urls : gset string)
  : M Context_ (list Dogc.NoticeCandidate) :=
  match row_elements with
  | [] => ret rows
  | row_el :: rest =>
      let continue := notice_candidates_loop rest rows seen_urls in
      let* anchors :=
        Dogc.on_driver
          (element_find_elements row_el XPATH
             ".//div[contains(@class,'destacat_text_cont')]//a[contains(@href, 'document-del-dogc') and not(ancestor::div[contains(@class,'download')])]") in
      match anchors with
      | [] => continue
      | link :: _ =>
          let* href_attr :=
            Dogc.on_driver (element_get_attribute link "href") in
          let href := strip (or_empty href_attr) in
          let* link_text := Dogc.on_driver (element_text link) in
          let title := strip (or_empty link_text) in
          if String.eqb href "" || String.eqb title "" then continue
          else if negb (contains "document-del-dogc" href) then continue
          else if decide (href ∈ seen_urls) then continue
          else
            let* category :=
              try_except
                (let* category_el :=
                   Dogc.on_driver
                     (element_find_element row_el XPATH "preceding::h2[1]") in
                 let* text := Dogc.on_driver (element_text category_el) in
                 ret (strip (or_empty text)))
                (fun _ => ret "") in
            let* department :=
              try_except
                (let* department_el :=
                   Dogc.on_driver
                     (element_find_element row_el XPATH "preceding::h3[1]") in
                 let* text := Dogc.on_driver (element_text department_el) in
                 ret (strip (or_empty text)))
                (fun _ => ret "") in
            notice_candidates_loop rest
              (rows ++ [Dogc.mkCandidate title href category department])
              (seen_urls ∪ {[href]})
      end
  end.

(** [extract_notice_candidates_from_daily_journal(context)] *)
Definition extract_notice_candidates_from_daily_journal
  : M Context_ (list Dogc.NoticeCandidate) :=
  let* row_elements :=
    Dogc.on_driver
      (driver_find_elements CSS_SELECTOR
         "div.wrapper-disposicions li.destacat_text") in
  Dogc.log INFO "Summary page notice rows detected: %d"
           [VInt (Z.of_nat (length row_elements))] >>
  let* rows := notice_candidates_loop row_elements [] ∅ in
  Dogc.log INFO "Extracted %d notice candidates from daily journal page."
           [VInt (Z.of_nat (length rows))] >>
  ret rows.

End Readers.

End DogcPages.

(* ===================================================================== *)
(** * [crawler_boe.py]: the handler of a notice *)
(* ===================================================================== *)

Module BoePages.

Import Sql Artifacts.

(** The dictionary that [extract_notice_detail_from_doc_page] returns. *)
Record NoticeDetail := mkDetail {
  d_title : string;
  d_category : string;
  d_department : string;
  d_url : string;
  d_content : string;
  d_extra_info : string
}.

Section Handler.
Context {W : Type} `{World W}.

#[local] Abbreviation Context_ := (Boe.CrawlerContext W).

(** The reader of the page of a notice is Selenium code for the pages of
    the site. *)
Variable extract_notice_detail_from_doc_page : M Context_ NoticeDetail.

(** [state_open_notice].  The field [issue_date] of a result is a [date],
    so that the [isinstance] test of line 541 never fails. *)
Definition state_open_notice : M Context_ Boe.BoeState :=
  let* current := gets Boe.current_result in
  match current with
  | None => ret Boe.PROCESS_RESULT_ITEM
  | Some current_result =>
      let issue_date := Boe.issue_date current_result in
      let* daily_journal_id :=
        Boe.upsert_daily_journal
          issue_date (Boe.daily_journal_description current_result) in
      Boe.log INFO "Upserted daily_journal id=%s issue_date=%s description=%s"
              [VInt daily_journal_id; VDate issue_date;
               VStr (Boe.daily_journal_description current_result)] >>
      let detail_url := Boe.detail_url current_result in
      Boe.log INFO "Opening BOE notice detail URL=%s" [VStr detail_url] >>
      let* timeout_seconds := gets Boe.timeout_seconds in
      Boe.on_driver (driver_get detail_url) >>
      Boe.on_driver (Boe.wait_dom_ready timeout_seconds) >>
      Boe.on_driver (webdriver_wait_until timeout_seconds
                       (Present [(CSS_SELECTOR, "h3.documento-tit")])) >>
      let* detail := extract_notice_detail_from_doc_page in
      let title := Dogc.str_or (d_title detail) (Boe.title current_result) in
      let category :=
        Dogc.str_or (d_category detail) (Boe.category current_result) in
      let department :=
        Dogc.str_or (d_department detail) (Boe.department current_result) in
      let url := Dogc.str_or (d_url detail) detail_url in
      let content := d_content detail in
      Boe.upsert_notice daily_journal_id title category department url content
                        "" >>
      Boe.log INFO "Upserted notice daily_journal_id=%s title=%s category=%s department=%s url=%s content_len=%d"
              [VInt daily_journal_id; VStr title; VStr category;
               VStr department; VStr url;
               VInt (Z.of_nat (String.length content))] >>
      let* created :=
        Boe.on_artifacts
          (capture (Boe.value Boe.OPEN_NOTICE)
                   ("notice_" +:+ pretty daily_journal_id)) in
      Boe.log INFO "Artifacts saved: %s" [created_val created] >>
      modify (Boe.set_current_result None) >>
      ret Boe.PROCESS_RESULT_ITEM
  end.

End Handler.

End BoePages.

(* ===================================================================== *)
(** * More vocabulary: traces, file names, stores *)
(* ===================================================================== *)

Module Notions.

Import Sql.

Section Traces.
Context {S : Type}.

(** The calls of a run that goes from [s] through the states [rest], one
    pass for each: the handler of the state, then the hook on the
    transition when there is a hook. *)
Fixpoint trace_along (hooked : bool) (s : S) (rest : list S)
  : list (Fsm.Event S) :=
  match rest with
  | [] => []
  | s' :: rest' =>
      Fsm.HandlerCalled s
      :: (if hooked then [Fsm.HookCalled s s'] else [])
      ++ trace_along hooked s' rest'
  end.

(** The states whose handler is invoked on the way from [s] through
    [rest]: all but the last. *)
Definition departures (s : S) (rest : list S) : list S :=
  removelast (s :: rest).

End Traces.

(** The number that a string starts with: the value of its longest prefix
    of decimal digits, read on from [acc]. *)
Fixpoint leading_number_from (acc : Z) (s : string) : Z :=
  match s with
  | String c s' =>
      if is_digit c then leading_number_from (acc * 10 + digit c) s' else acc
  | EmptyString => acc
  end.

Definition leading_number (s : string) : Z := leading_number_from 0 s.

(** The name, without its extension, of the three files of a capture
    ([artifacts.py], lines 19-21). *)
Definition step_prefix (counter : Z) (state note : string) : string :=
  let step_prefix := fmt_0d 3 counter +:+ "_" +:+ lower state in
  if negb (String.eqb note "") then step_prefix +:+ "_" +:+ note
  else step_prefix.

(** [f"{y:04d}"] gives four digits that spell [y]. *)
Definition four_digits (y : Z) : bool :=
  match fmt_0d 4 y with
  | String a (String b (String c (String e EmptyString))) =>
      is_digit a && is_digit b && is_digit c && is_digit e
      && (1000 * digit a + 100 * digit b + 10 * digit c + digit e =? y)
  | _ => false
  end.

(** The order of the issues of a month: by date. *)
Definition by_date (a b : date * string * string) : Prop :=
  date_leb (fst (fst a)) (fst (fst b)) = true.

(** [db'] has every issue of [db], under the same id, source, date and
    creation time, and the same notices. *)
Definition keeps_issues (db db' : Db) : Prop :=
  notices db' = notices db
  /\ forall row, row ∈ daily_journals db ->
       exists row', row' ∈ daily_journals db'
                    /\ dj_id row' = dj_id row
                    /\ dj_source_id row' = dj_source_id row
                    /\ dj_issue_date row' = dj_issue_date row
                    /\ dj_created_at row' = dj_created_at row.

(** Every issue of [db'] is an issue of [db], under the same id, source and
    date, or an issue of the source [source_id] whose date has [P]. *)
Definition only_adds (source_id : Z) (P : date -> Prop) (db db' : Db) : Prop :=
  forall row', row' ∈ daily_journals db' ->
    (exists row, row ∈ daily_journals db
                 /\ dj_id row = dj_id row'
                 /\ dj_source_id row = dj_source_id row'
                 /\ dj_issue_date row = dj_issue_date row')
    \/ (dj_source_id row' = source_id /\ P (dj_issue_date row')).

(** An action of the DOGC crawler after which the store stands in the
    relation [Q] to the store before it, whether the action returns or
    raises. *)
Definition store_after {W : Type} `{World W} {A : Type} (Q : Db -> Db -> Prop)
  (m : M (Dogc.CrawlerContext W) A) : Prop :=
  forall c, Q (Dogc.db_conn c) (Dogc.db_conn (snd (m c))).

(** An action that leaves the store as it is. *)
Definition keeps_store {W : Type} `{World W} {A : Type}
  (m : M (Dogc.CrawlerContext W) A) : Prop :=
  store_after eq m.

(** The row that the reader of the calendar makes of a marked cell: the
    date is the day that the label of the cell spells, in the year and
    month asked for; the url is built from the title of the cell, which is
    not blank; the description is the number of the issue when the url
    names one, and the date otherwise. *)
Definition issue_of_cell {W : Type} `{Pages.Page W}
  (current_year current_month : Z) (daily_base_url : string) (cell : Element)
  (row : date * string * string) : Prop :=
  exists (day_el : Element) (rest : list Element) (text title : option string)
         (num_dogc : string) (w1 w1' w2 w2' w3 w3' : W),
    Pages.element_find_elements cell CSS_SELECTOR
      "a.ui-state-default, span.ui-state-default" w1
    = (Ok (day_el :: rest), w1')
    /\ Pages.element_text day_el w2 = (Ok text, w2')
    /\ PyStr.isdigit (strip (or_empty text)) = true
    /\ Pages.int_of_str (strip (or_empty text)) = Ok (day (fst (fst row)))
    /\ year (fst (fst row)) = current_year
    /\ month (fst (fst row)) = current_month
    /\ Pages.element_get_attribute cell "title" w3 = (Ok title, w3')
    /\ all_space (or_empty title) = false
    /\ snd (fst row)
       = DogcPages.build_daily_issue_url daily_base_url
           (strip (or_empty title))
    /\ Pages.first_query_value (snd (fst row)) "numDOGC" = Ok num_dogc
    /\ snd row
       = (if negb (String.eqb num_dogc "")
          then "DOGC n" +:+ String "250" ("m. " +:+ num_dogc)
          else "DOGC " +:+ Dogc.isoformat (fst (fst row))).

(** What the handlers of the DOGC crawler store from: the store, the
    source and the issue at hand. *)
Definition store_side {W : Type} `{World W} (c : Dogc.CrawlerContext W)
  : Db * Z * option Dogc.PendingJournal :=
  (Dogc.db_conn c, Dogc.source_id c, Dogc.current_daily_journal c).

(** An action of the BOE crawler that leaves the store as it is. *)
Definition boe_keeps_store {W : Type} `{World W} {A : Type}
  (m : M (Boe.CrawlerContext W) A) : Prop :=
  forall c, Boe.db_conn (snd (m c)) = Boe.db_conn c.

(** The attempt to capture the page that finds the counter of the writer
    at [n], the attempt number [n + 1] of a run, fails with [e], whatever
    the world and the writer otherwise. *)
Definition capture_fails_at {W : Type} `{World W} (n : Z) (e : exn) : Prop :=
  forall (state note : string) (s : Artifacts.ArtifactWriter * W),
    Artifacts.counter (fst s) = n ->
    fst (Artifacts.capture state note s) = Raise e.

(** An action that leaves the artifact writer as it is, whether the action
    returns or raises; [writer] reads the writer in the state. *)
Definition keeps_writer {St A : Type} (writer : St -> Artifacts.ArtifactWriter)
  (m : M St A) : Prop :=
  forall s, writer (snd (m s)) = writer s.

(** An action that does not get past the attempt number [n + 1]: started
    with at most [n] attempts made, it ends with at most [n] attempts made,
    or it raises [e] with exactly [n + 1] attempts made. *)
Definition stops_at_capture {St A : Type}
  (writer : St -> Artifacts.ArtifactWriter) (n : Z) (e : exn) (m : M St A)
  : Prop :=
  forall s,
    Artifacts.counter (writer s) <= n ->
    Artifacts.counter (writer (snd (m s))) <= n
    \/ (fst (m s) = Raise e
        /\ Artifacts.counter (writer (snd (m s))) = n + 1).

(** The store after one [upsert_notice] for the issue [daily_journal_id],
    with a title that is not empty. *)
Definition one_titled_notice (daily_journal_id : Z) (db db' : Db) : Prop :=
  exists title category department url content extra_info,
    title <> ""
    /\ db' = snd (Shared.upsert_notice daily_journal_id title category
                    department url content extra_info db).

End Notions.

(* ===================================================================== *)
(** * More concrete inputs: machines, a scripted page, contexts *)
(* ===================================================================== *)

Module Cases.

Import Sql Artifacts PyStr.

(** Three more machines on a counter: [unwired] has no handler at all, the
    handler of [failing] raises, and the hook of [hook_failing] raises at
    the first transition. *)
Definition boom : exn := RuntimeError (Msg "boom" []).

Definition unwired : Fsm.FSMRunner Stub.Toy Z :=
  Fsm.mkRunner Stub.Spin Stub.Halt (fun _ => None) None (Fsm.mkConfig 3).

Definition failing : Fsm.FSMRunner Stub.Toy Z :=
  Fsm.mkRunner Stub.Spin Stub.Halt
    (fun s => match s with
              | Stub.Spin => Some (fun n => (Raise boom, n + 1))
              | Stub.Halt => None
              end)
    None (Fsm.mkConfig 3).

Definition hook_failing : Fsm.FSMRunner Stub.Toy Z :=
  Fsm.mkRunner Stub.Spin Stub.Halt
    (fun s => match s with
              | Stub.Spin => Some (fun n => (Ok Stub.Halt, n + 1))
              | Stub.Halt => None
              end)
    (Some (fun n _ _ => (Raise boom, n + 10))) (Fsm.mkConfig 3).

(** The nodes of a scripted page: the cells of the calendar with the label
    of their day, the rows of a summary with their link, and the headings
    above a row. *)
Inductive Node :=
| Cell (day_text : string) (title : option string)
| DayLabel (text : string)
| NoticeRow (text : string) (href : option string)
| NoticeLink (text : string) (href : option string)
| Heading (text : string).

(** A page: the cells of the visible month and the rows of the summary.
    Nothing on it ever changes. *)
Record Sheet := mkSheet {
  calendar_cells : list Node;
  summary_rows : list Node
}.

#[global] Instance sheet_world : World Sheet := {|
  Element := Node;
  Float := Q;
  build_driver := fun _ => ret tt;
  driver_get := fun _ => ret tt;
  driver_find_elements := fun by_ selector =>
    if String.eqb selector
         "#calendari-dogc .ui-datepicker-calendar td.has-publicacio"
    then gets calendar_cells
    else if String.eqb selector "div.wrapper-disposicions li.destacat_text"
    then gets summary_rows
    else ret [];
  element_is_displayed := fun _ => ret true;
  element_click := fun _ => ret tt;
  driver_execute_script := fun _ _ => ret (JsNum 900);
  webdriver_wait_until := fun _ _ => ret tt;
  driver_save_screenshot := fun _ => ret true;
  driver_page_source := ret "<html></html>";
  driver_current_url := ret "https://dogc.gencat.cat/ca";
  driver_title := ret "DOGC";
  driver_quit := ret tt;
  path_mkdir := fun _ => ret tt;
  path_write_text := fun _ _ => ret tt;
  utcnow_isoformat := ret "2024-01-03T00:00:00";
  time_sleep := fun _ => ret tt;
  random_uniform := fun lo _ => ret lo;
  random_randint := fun lo _ => ret lo;
  int_of_scaled := fun h x => Qfloor (inject_Z h * x)
|}.

(** What follows the first occurrence of [needle] in [hay]. *)
Fixpoint strip_prefix (p s : string) : option string :=
  match p, s with
  | EmptyString, _ => Some s
  | String a p', String b s' =>
      if Ascii.eqb a b then strip_prefix p' s' else None
  | String _ _, EmptyString => None
  end.

Fixpoint after (needle hay : string) : option string :=
  match strip_prefix needle hay with
  | Some rest => Some rest
  | None =>
      match hay with
      | String _ hay' => after needle hay'
      | EmptyString => None
      end
  end.

Fixpoint upto_ampersand (s : string) : string :=
  match s with
  | String c s' =>
      if Ascii.eqb c "&" then EmptyString else String c (upto_ampersand s')
  | EmptyString => EmptyString
  end.

(** The page answers as a browser would on such nodes; [int] reads decimal
    digits, and the value of a query parameter is what stands between its
    name with [=] and the next [&]. *)
#[global] Instance sheet_page : Pages.Page Sheet := {|
  Pages.element_find_elements := fun el _ _ =>
    match el with
    | Cell day_text _ => ret [DayLabel day_text]
    | NoticeRow text href => ret [NoticeLink text href]
    | _ => ret []
    end;
  Pages.element_find_element := fun el _ selector =>
    match el with
    | NoticeRow _ _ =>
        if String.eqb selector "preceding::h2[1]"
        then ret (Heading "Disposicions")
        else raise (WebDriverException (Msg "no such element" []))
    | _ => raise (WebDriverException (Msg "no such element" []))
    end;
  Pages.element_text := fun el =>
    match el with
    | DayLabel text | NoticeLink text _ | Heading text => ret (Some text)
    | _ => ret None
    end;
  Pages.element_get_attribute := fun el _ =>
    match el with
    | Cell _ title => ret title
    | NoticeLink _ href => ret href
    | _ => ret None
    end;
  Pages.int_of_str := fun s =>
    if all_isdigit s && negb (String.eqb s "")
    then Ok (Notions.leading_number s)
    else Raise (ValueError (Msg "invalid literal for int()" []));
  Pages.first_query_value := fun url name =>
    Ok (upto_ampersand (default "" (after (name +:+ "=") url)))
|}.

(** January 2024 with five marked cells: the 2nd, a cell without a number,
    the 31st (outside the window), the 1st, and the 3rd without a title.
    The summary has four rows: a notice, the same url again, a link without
    text, and a second notice. *)
Definition january : Sheet :=
  mkSheet
    [Cell "2" (Some "?anexos=1&numDOGC=9071");
     Cell "" (Some "?numDOGC=0");
     Cell "31" (Some "?numDOGC=9090");
     Cell " 1 " (Some " numDOGC=9070 ");
     Cell "3" None]
    [NoticeRow "DECRET 1/2024"
               (Some "https://dogc.gencat.cat/ca/document-del-dogc/?documentId=1");
     NoticeRow "DECRET 1/2024 (pdf)"
               (Some "https://dogc.gencat.cat/ca/document-del-dogc/?documentId=1");
     NoticeRow "" (Some "https://dogc.gencat.cat/ca/document-del-dogc/?documentId=2");
     NoticeRow "ORDRE 2/2024"
               (Some "https://dogc.gencat.cat/ca/document-del-dogc/?documentId=3")].

(** A DOGC context on that page, with the window 2024-01-01 to
    2024-01-03. *)
Definition sheet_context (db : Db) : Dogc.CrawlerContext Sheet :=
  Dogc.mkContext [] january (mkWriter "run" "run/steps" 0) "dogc" 7
                 "https://dogc.gencat.cat/ca"
                 "https://dogc.gencat.cat/ca/sumari-del-dogc/" 20
                 (Stub.d 2024 1 1) (Stub.d 2024 1 3) db None None None None
                 None.

(** What the readers make of that page. *)
Definition january_issues : list (date * string * string) :=
  [(Stub.d 2024 1 1,
    "https://dogc.gencat.cat/ca/sumari-del-dogc/?numDOGC=9070",
    "DOGC n" +:+ String "250" "m. 9070");
   (Stub.d 2024 1 2,
    "https://dogc.gencat.cat/ca/sumari-del-dogc/?anexos=1&numDOGC=9071",
    "DOGC n" +:+ String "250" "m. 9071")].

Definition january_notices : list Dogc.NoticeCandidate :=
  [Dogc.mkCandidate "DECRET 1/2024"
     "https://dogc.gencat.cat/ca/document-del-dogc/?documentId=1"
     "Disposicions" "";
   Dogc.mkCandidate "ORDRE 2/2024"
     "https://dogc.gencat.cat/ca/document-del-dogc/?documentId=3"
     "Disposicions" ""].

(** The same context when the picker has selected the issue 2 of
    [Stub.db_two_pending]. *)
Definition at_issue_two : Dogc.CrawlerContext Sheet :=
  Dogc.set_current_daily_journal
    (Some (Dogc.mkPending 2 "2024-01-02" "http://x" "DOGC 2"))
    (sheet_context Stub.db_two_pending).

(** A context of the scripted browser of [Stub] at the first notice of
    issue 2, and a reader of the notice page that finds a title. *)
Definition at_first_notice : Dogc.CrawlerContext Stub.StubWorld :=
  Dogc.set_current_notice_candidate
    (Some (Dogc.mkCandidate "DECRET 1/2024" "http://x/1" "Disposicions" ""))
    (Dogc.set_current_daily_journal
       (Some (Dogc.mkPending 2 "2024-01-02" "http://x" "DOGC 2"))
       (Stub.dogc_context Stub.quiet Stub.db_two_pending)).

Definition titled_detail
  : M (Dogc.CrawlerContext Stub.StubWorld) Dogc.NoticeDetail :=
  ret (Dogc.mkDetail "DECRET 1/2024" "Disposicions" "Departament" "text" "" "").

(** A BOE context and a BOE process as [main] builds them, and handlers
    that do nothing. *)
Definition boe_context (db : Db) : Boe.CrawlerContext Stub.StubWorld :=
  Boe.mkContext [] Stub.quiet (mkWriter "run" "run/steps" 0) "boe" 1
                "https://www.boe.es/buscar/boe.php" 20
                (Stub.d 2024 1 1) (Stub.d 2024 1 3) db [] None None.

Definition boe_args : Boe.Args :=
  Boe.mkArgs "boe" "run" None 20 None None None.

Definition boe_idle : M (Boe.CrawlerContext Stub.StubWorld) Boe.BoeState :=
  ret Boe.DONE.

Definition boe_main (today : date) (db : Db) :=
  Boe.main boe_idle boe_idle boe_idle boe_idle boe_args true "run" today 1
           (Stub.d 2024 1 1) "https://www.boe.es/buscar/boe.php"
           (Boe.mkProcess [] Stub.quiet db).

(** A result of the search, the context when the handler of a result has
    picked it, a reader of the page of the notice that finds the text only,
    and one that fails. *)
Definition boe_result : Boe.ResultRow :=
  Boe.mkResultRow "Ministerio de Hacienda" "BOE 2 de 02/01/2024"
                  (Stub.d 2024 1 2) "I. Disposiciones generales"
                  "Real Decreto 1/2024"
                  "https://www.boe.es/buscar/doc.php?id=BOE-A-2024-1".

Definition at_result : Boe.CrawlerContext Stub.StubWorld :=
  Boe.set_current_result (Some boe_result) (boe_context Stub.empty_db).

Definition text_only
  : M (Boe.CrawlerContext Stub.StubWorld) BoePages.NoticeDetail :=
  ret (BoePages.mkDetail "" "" "" "" "Texto" "").

Definition no_page
  : M (Boe.CrawlerContext Stub.StubWorld) BoePages.NoticeDetail :=
  raise (WebDriverException (Msg "no such window" [])).

(** A browser that cannot take a screenshot, in its only state; the
    readers of its pages find nothing. *)
Inductive Blind := blind.

Definition no_screenshot : exn :=
  WebDriverException (Msg "unable to capture screen" []).

#[global] Instance blind_world : World Blind := {|
  Element := unit;
  Float := Q;
  build_driver := fun _ => ret tt;
  driver_get := fun _ => ret tt;
  driver_find_elements := fun _ _ => ret [];
  element_is_displayed := fun _ => ret true;
  element_click := fun _ => ret tt;
  driver_execute_script := fun _ _ => ret (JsNum 900);
  webdriver_wait_until := fun _ _ => ret tt;
  driver_save_screenshot := fun _ => raise no_screenshot;
  driver_page_source := ret "<html></html>";
  driver_current_url := ret "https://dogc.gencat.cat/ca";
  driver_title := ret "DOGC";
  driver_quit := ret tt;
  path_mkdir := fun _ => ret tt;
  path_write_text := fun _ _ => ret tt;
  utcnow_isoformat := ret "2024-01-03T00:00:00";
  time_sleep := fun _ => ret tt;
  random_uniform := fun lo _ => ret lo;
  random_randint := fun lo _ => ret lo;
  int_of_scaled := fun h x => Qfloor (inject_Z h * x)
|}.

Definition blind_calendar (timeout : Z) : M Blind (Z * Z * string) :=
  ret (2024, 1, "gener 2024").

Definition blind_click (timeout : Z) : M Blind unit := ret tt.

Definition blind_issues (y m : Z)
  : M (Dogc.CrawlerContext Blind) (list (date * string * string)) :=
  ret [].

Definition blind_candidates
  : M (Dogc.CrawlerContext Blind) (list Dogc.NoticeCandidate) :=
  ret [].

Definition blind_detail : M (Dogc.CrawlerContext Blind) Dogc.NoticeDetail :=
  ret (Dogc.mkDetail "" "" "" "" "" "").

Definition blind_context : Dogc.CrawlerContext Blind :=
  Dogc.mkContext [] blind (mkWriter "run" "run/steps" 0) "dogc" 7
                 "https://dogc.gencat.cat/ca"
                 "https://dogc.gencat.cat/ca/sumari-del-dogc/" 20
                 (Stub.d 2024 1 1) (Stub.d 2024 1 3) Stub.empty_db
                 None None None None None.

Definition blind_boe_idle : M (Boe.CrawlerContext Blind) Boe.BoeState :=
  ret Boe.DONE.

Definition blind_boe_detail
  : M (Boe.CrawlerContext Blind) BoePages.NoticeDetail :=
  ret (BoePages.mkDetail "" "" "" "" "Texto" "").

(** A BOE context in that browser with the result [boe_result] picked. *)
Definition blind_at_result : Boe.CrawlerContext Blind :=
  Boe.mkContext [] blind (mkWriter "run" "run/steps" 0) "boe" 1
                "https://www.boe.es/buscar/boe.php" 20
                (Stub.d 2024 1 1) (Stub.d 2024 1 3) Stub.empty_db []
                (Some boe_result) None.

End Cases.

(* ===================================================================== *)
(** * The engine: transition hook and step budget *)
(* ===================================================================== *)

Module FsmFacts.

Import Fsm.

Section Engine.
Context {S C : Type} `{EqDecision S}.
Variable str_of_state : S -> string.
Variable r : FSMRunner S C.

#[local] Abbreviation step := (step str_of_state r).
#[local] Abbreviation run_loop := (run_loop str_of_state r).
#[local] Abbreviation run := (run str_of_state r).
#[local] Abbreviation passes := (passes str_of_state r).

Lemma handler_calls_app (tr1 tr2 : list (Event S)) :
  handler_calls (tr1 ++ tr2) = (handler_calls tr1 + handler_calls tr2)%nat.
Proof.
  unfold handler_calls. rewrite filter_app, length_app. reflexivity.
Qed.

(** A pass that returns has called exactly one handler. *)
Lemma step_ok_one_call state c next c' ev :
  step state c = (Ok next, c', ev) -> handler_calls ev = 1%nat.
Proof.
  unfold Fsm.step. intros Hs.
  destruct (handlers r state) as [h|]; [|discriminate].
  destruct (h c) as [[next0|e] c1]; [|discriminate].
  destruct (on_transition r) as [hook|].
  - destruct (hook c1 state next0) as [[u|e] c2]; inversion Hs; reflexivity.
  - inversion Hs; reflexivity.
Qed.

Lemma passes_handler_calls k : forall state c s' c' tr,
  passes k state c = Some (s', c', tr) -> handler_calls tr = k.
Proof.
  induction k as [|k IH]; intros state c s' c' tr Hp; simpl in Hp.
  - inversion Hp; reflexivity.
  - destruct (decide (state = terminal_state r)); [discriminate|].
    destruct (step state c) as [[[next|e] c1] ev] eqn:Hs; [|discriminate].
    destruct (passes k next c1) as [[[s2 c2] tr2]|] eqn:Hk; [|discriminate].
    inversion Hp; subst. rewrite handler_calls_app.
    rewrite (step_ok_one_call _ _ _ _ _ Hs), (IH _ _ _ _ _ Hk). reflexivity.
Qed.

(** A run that can make [k] passes within its budget goes on from where
    they end, with what is left of the budget. *)
Lemma run_loop_passes k : forall budget state c s' c' tr,
  passes k state c = Some (s', c', tr) ->
  (k <= budget)%nat ->
  run_loop budget state c =
  (let '(out, c2, tr2) := run_loop (budget - k) s' c' in (out, c2, tr ++ tr2)).
Proof.
  induction k as [|k IH]; intros budget state c s' c' tr Hp Hle; simpl in Hp.
  - inversion Hp; subst. rewrite Nat.sub_0_r.
    destruct (run_loop budget s' c') as [[out c2] tr2]. reflexivity.
  - destruct (decide (state = terminal_state r)) as [|Hne]; [discriminate|].
    destruct (step state c) as [[[next|e] c1] ev] eqn:Hs; [|discriminate].
    destruct (passes k next c1) as [[[s2 c2] tr2]|] eqn:Hk; [|discriminate].
    inversion Hp; subst.
    destruct budget as [|budget]; [lia|].
    simpl. destruct (decide (state = terminal_state r)); [contradiction|].
    rewrite Hs. rewrite (IH budget next c1 s' c' tr2 Hk) by lia.
    destruct (run_loop (budget - k) s' c') as [[out c3] tr3].
    rewrite app_assoc. reflexivity.
Qed.

Lemma run_loop_terminal budget c :
  run_loop budget (terminal_state r) c = (Ok (terminal_state r), c, []).
Proof.
  destruct budget; simpl;
    destruct (decide (terminal_state r = terminal_state r)); congruence.
Qed.

Lemma run_loop_exhausted state c :
  state <> terminal_state r ->
  run_loop 0 state c = (Raise (max_steps_error r), c, []).
Proof.
  intros Hne. simpl. destruct (decide (state = terminal_state r)); congruence.
Qed.

(** The loop with the counter of the source and the loop on the remaining
    budget are the same loop. *)
Lemma run_loop_counting_is_run_loop fuel : forall state steps c,
  (Z.to_nat (max_steps (config r) - steps) < fuel)%nat ->
  run_loop_counting str_of_state r fuel state steps c
  = Some (run_loop (Z.to_nat (max_steps (config r) - steps)) state c).
Proof.
  induction fuel as [|fuel IH]; intros state steps c Hfuel; [lia|].
  cbn [Fsm.run_loop_counting].
  destruct (decide (state = terminal_state r)) as [Heq|Hne].
  - subst state. rewrite run_loop_terminal. reflexivity.
  - destruct (steps >=? max_steps (config r)) eqn:Hge.
    + replace (Z.to_nat (max_steps (config r) - steps)) with 0%nat by lia.
      rewrite (run_loop_exhausted state c Hne). reflexivity.
    + replace (Z.to_nat (max_steps (config r) - steps))
        with (Datatypes.S (Z.to_nat (max_steps (config r) - (steps + 1))))
        by lia.
      cbn [Fsm.run_loop].
      destruct (decide (state = terminal_state r)); [contradiction|].
      destruct (step state c) as [[[next|e] c1] ev]; [|reflexivity].
      rewrite IH by lia.
      destruct (run_loop (Z.to_nat (max_steps (config r) - (steps + 1))) next c1)
        as [[out c2] tr].
      reflexivity.
Qed.

Lemma run_counting_is_run fuel c :
  (Z.to_nat (max_steps (config r)) < fuel)%nat ->
  run_counting str_of_state r fuel c = Some (run c).
Proof.
  intros Hfuel. unfold Fsm.run_counting, Fsm.run.
  rewrite run_loop_counting_is_run_loop by (rewrite Z.sub_0_r; exact Hfuel).
  rewrite Z.sub_0_r. reflexivity.
Qed.

(** C6.  With a step budget [max_steps = n]: a run that reaches the terminal
    state in [k <= n] handler invocations (in particular in exactly [n])
    returns the terminal state; a run that is still in a non-terminal state
    after [n] invocations raises the max-steps [RuntimeError], and has
    invoked [n] handlers, not [n + 1]. *)
Theorem C6_step_budget (n : nat) (c : C) :
  max_steps (config r) = Z.of_nat n ->
  (forall k c' tr,
     (k <= n)%nat ->
     passes k (initial_state r) c = Some (terminal_state r, c', tr) ->
     run c = (Ok (terminal_state r), c', tr) /\ handler_calls tr = k)
  /\
  (forall s c' tr,
     passes n (initial_state r) c = Some (s, c', tr) ->
     s <> terminal_state r ->
     run c = (Raise (max_steps_error r), c', tr) /\ handler_calls tr = n).
Proof.
  intros Hmax. unfold Fsm.run. rewrite Hmax, Nat2Z.id. split.
  - intros k c' tr Hle Hp.
    rewrite (run_loop_passes k n _ _ _ _ _ Hp Hle), run_loop_terminal.
    rewrite app_nil_r. split; [reflexivity|].
    exact (passes_handler_calls _ _ _ _ _ _ Hp).
  - intros s c' tr Hp Hne.
    rewrite (run_loop_passes n n _ _ _ _ _ Hp (Nat.le_refl n)).
    rewrite Nat.sub_diag, (run_loop_exhausted s c' Hne), app_nil_r.
    split; [reflexivity|]. exact (passes_handler_calls _ _ _ _ _ _ Hp).
Qed.

(** A budget of zero or less stops a run that does not start in the
    terminal state before any handler is invoked. *)
Lemma run_no_budget (c : C) :
  max_steps (config r) <= 0 ->
  initial_state r <> terminal_state r ->
  run c = (Raise (max_steps_error r), c, []).
Proof.
  intros Hmax Hne. unfold Fsm.run.
  replace (Z.to_nat (max_steps (config r))) with 0%nat by lia.
  apply run_loop_exhausted, Hne.
Qed.

(** An exception of the handler of the initial state leaves [run]. *)
Lemma run_first_handler_raises (c c' : C) handler e :
  0 < max_steps (config r) ->
  initial_state r <> terminal_state r ->
  handlers r (initial_state r) = Some handler ->
  handler c = (Raise e, c') ->
  run c = (Raise e, c', [HandlerCalled (initial_state r)]).
Proof.
  intros Hmax Hne Hh He. unfold Fsm.run.
  destruct (Z.to_nat (max_steps (config r))) as [|b] eqn:Hb; [lia|].
  simpl. destruct (decide (initial_state r = terminal_state r)); [contradiction|].
  unfold Fsm.step. rewrite Hh, He. reflexivity.
Qed.

(** A pass that returns has found the handler, which returned the next
    state, and then the hook, if there is one, which returned as well. *)
Lemma step_ok_inv state c next_state c' ev :
  step state c = (Ok next_state, c', ev) ->
  exists handler c1,
    handlers r state = Some handler
    /\ handler c = (Ok next_state, c1)
    /\ match on_transition r with
       | None => c' = c1
       | Some hook => hook c1 state next_state = (Ok tt, c')
       end.
Proof.
  unfold Fsm.step. intros Hs.
  destruct (handlers r state) as [h|]; [|discriminate].
  destruct (h c) as [[next0|e] c1] eqn:Hh; [|discriminate].
  exists h, c1. split; [reflexivity|].
  destruct (on_transition r) as [hook|].
  - destruct (hook c1 state next0) as [[[]|e] c2] eqn:Hhook; inversion Hs; subst.
    split; [exact Hh|exact Hhook].
  - inversion Hs; subst. split; [exact Hh|reflexivity].
Qed.

(** What the engine does: with a hook configured, a pass whose handler
    returns [next_state] calls the hook on (context, state, next_state),
    whatever [next_state] is. *)
Lemma step_calls_hook state c handler hook next_state c1 :
  on_transition r = Some hook ->
  handlers r state = Some handler ->
  handler c = (Ok next_state, c1) ->
  step state c =
  (match fst (hook c1 state next_state) with
   | Ok _ => Ok next_state
   | Raise e => Raise e
   end,
   snd (hook c1 state next_state),
   [HandlerCalled state; HookCalled state next_state]).
Proof.
  intros Hhook Hh Hc. unfold Fsm.step. rewrite Hh, Hc, Hhook.
  destruct (hook c1 state next_state) as [[u|e] c2]; reflexivity.
Qed.

End Engine.

(** C6 on [countdown], which halts at the third invocation, and on
    [spinning], which is stopped after the third. *)
Lemma C6_step_budget_witness :
  Fsm.run Stub.toy_str Stub.countdown 0
  = (Ok Stub.Halt, 3,
     [HandlerCalled Stub.Spin; HandlerCalled Stub.Spin; HandlerCalled Stub.Spin])
  /\ Fsm.run Stub.toy_str Stub.spinning 0
     = (Raise (max_steps_error Stub.spinning), 3,
        [HandlerCalled Stub.Spin; HandlerCalled Stub.Spin;
         HandlerCalled Stub.Spin]).
Proof.
  split.
  - exact (proj1 (proj1 (C6_step_budget Stub.toy_str Stub.countdown 3 0 eq_refl)
                        3%nat 3 _ (le_n 3) eq_refl)).
  - exact (proj1 (proj2 (C6_step_budget Stub.toy_str Stub.spinning 3 0 eq_refl)
                        Stub.Spin 3 _ eq_refl ltac:(discriminate))).
Defined.

End FsmFacts.

(* ===================================================================== *)
(** * Dates and strings *)
(* ===================================================================== *)

Module DateFacts.

Lemma date_ltb_spec (a b : date) :
  date_ltb a b = true <->
  year a < year b \/
  (year a = year b /\ (month a < month b \/ (month a = month b /\ day a < day b))).
Proof.
  unfold date_ltb, date_cmp.
  destruct (Z.compare_spec (year a) (year b));
    destruct (Z.compare_spec (month a) (month b));
    destruct (Z.compare_spec (day a) (day b)); split; intros; try lia;
    try discriminate; reflexivity.
Qed.

Lemma date_leb_spec (a b : date) :
  date_leb a b = true <->
  year a < year b \/
  (year a = year b /\ (month a < month b \/ (month a = month b /\ day a <= day b))).
Proof.
  unfold date_leb, date_cmp.
  destruct (Z.compare_spec (year a) (year b));
    destruct (Z.compare_spec (month a) (month b));
    destruct (Z.compare_spec (day a) (day b)); split; intros; try lia;
    try discriminate; reflexivity.
Qed.

Lemma date_cmp_eq (a b : date) : date_cmp a b = Eq <-> a = b.
Proof.
  unfold date_cmp. destruct a as [ya ma da], b as [yb mb db]. simpl.
  destruct (Z.compare_spec ya yb); destruct (Z.compare_spec ma mb);
    destruct (Z.compare_spec da db); split; intros Heq;
    try discriminate; try reflexivity; try (inversion Heq; lia);
    subst; reflexivity.
Qed.

Lemma date_leb_refl (a : date) : date_leb a a = true.
Proof. apply date_leb_spec. lia. Qed.

Lemma date_leb_trans (a b c : date) :
  date_leb a b = true -> date_leb b c = true -> date_leb a c = true.
Proof. rewrite !date_leb_spec. lia. Qed.

Lemma date_leb_ltb_trans (a b c : date) :
  date_leb a b = true -> date_ltb b c = true -> date_ltb a c = true.
Proof. rewrite !date_leb_spec, !date_ltb_spec. lia. Qed.

Lemma date_ltb_false_leb (a b : date) :
  date_ltb a b = false -> date_leb b a = true.
Proof.
  intros Hf. apply date_leb_spec.
  destruct (date_ltb a b) eqn:Hlt; [discriminate|].
  assert (Hn : ~ (year a < year b \/
                  (year a = year b /\
                   (month a < month b \/ (month a = month b /\ day a < day b))))).
  { intros Hx. apply date_ltb_spec in Hx. congruence. }
  lia.
Qed.

Lemma date_ltb_leb (a b : date) : date_ltb a b = true -> date_leb a b = true.
Proof. rewrite date_leb_spec, date_ltb_spec. lia. Qed.

(** [a > b] is the negation of [a <= b]. *)
Lemma date_gtb_leb (a b : date) : date_gtb a b = negb (date_leb a b).
Proof.
  unfold date_gtb. destruct (date_leb a b) eqn:Hle; simpl.
  - destruct (date_ltb b a) eqn:Hlt; [|reflexivity].
    apply date_leb_spec in Hle. apply date_ltb_spec in Hlt. lia.
  - destruct (date_ltb b a) eqn:Hlt; [reflexivity|].
    apply date_ltb_false_leb in Hlt. congruence.
Qed.

(** The day after is strictly later. *)
Lemma add_one_day_later (w nxt : date) :
  add_one_day w = Ok nxt -> date_ltb w nxt = true.
Proof.
  unfold add_one_day. intros Ha. apply date_ltb_spec.
  destruct (day w <? days_in_month (year w) (month w)).
  { inversion Ha; subst; simpl. lia. }
  destruct (month w <? 12).
  { inversion Ha; subst; simpl. lia. }
  destruct (year w <? MAXYEAR); [|discriminate].
  inversion Ha; subst; simpl. lia.
Qed.

(** Only 9999-12-31 has no day after. *)
Lemma add_one_day_valid (w : date) :
  valid_date w = true -> w <> mkdate 9999 12 31 ->
  exists nxt, add_one_day w = Ok nxt /\ valid_date nxt = true.
Proof.
  destruct w as [y m d]. unfold valid_date, add_one_day, MINYEAR, MAXYEAR.
  simpl. intros Hv Hne.
  repeat (apply andb_prop in Hv; destruct Hv as [Hv ?]).
  assert (Hm : m = 1 \/ m = 2 \/ m = 3 \/ m = 4 \/ m = 5 \/ m = 6 \/ m = 7
               \/ m = 8 \/ m = 9 \/ m = 10 \/ m = 11 \/ m = 12) by lia.
  destruct (d <? days_in_month y m) eqn:Hd.
  { eexists; split; [reflexivity|]. simpl.
    repeat (apply andb_true_intro; split); lia. }
  destruct (m <? 12) eqn:Hm12.
  { eexists; split; [reflexivity|]. simpl.
    assert (1 <= days_in_month y (m + 1)).
    { unfold days_in_month.
      destruct Hm as [->|[->|[->|[->|[->|[->|[->|[->|[->|[->|[->| ->]]]]]]]]]]];
        simpl; try lia; destruct (is_leap y); simpl; lia. }
    repeat (apply andb_true_intro; split); lia. }
  destruct (y <? 9999) eqn:Hy.
  { eexists; split; [reflexivity|]. simpl.
    unfold days_in_month. simpl.
    repeat (apply andb_true_intro; split); lia. }
  exfalso. apply Hne.
  assert (m = 12) by lia. assert (y = 9999) by lia. subst.
  unfold days_in_month in *. simpl in *. f_equal. lia.
Qed.

(** The model of [d + timedelta(days=1)] agrees with Python's computation on
    ordinals: the ordinal of the next day is one more. *)
Lemma toordinal_add_one_day (w nxt : date) :
  valid_date w = true -> add_one_day w = Ok nxt ->
  toordinal nxt = toordinal w + 1.
Proof.
  destruct w as [y m d]. unfold valid_date, add_one_day, MINYEAR, MAXYEAR.
  simpl. intros Hv Ha.
  repeat (apply andb_prop in Hv; destruct Hv as [Hv ?]).
  assert (Hm : m = 1 \/ m = 2 \/ m = 3 \/ m = 4 \/ m = 5 \/ m = 6 \/ m = 7
               \/ m = 8 \/ m = 9 \/ m = 10 \/ m = 11 \/ m = 12) by lia.
  destruct (d <? days_in_month y m) eqn:Hd.
  { inversion Ha; subst. unfold toordinal; simpl. lia. }
  assert (Hdm : d = days_in_month y m) by lia.
  destruct (m <? 12) eqn:Hm12.
  { inversion Ha; subst nxt. unfold toordinal; simpl.
    rewrite Hdm. unfold days_before_month, days_in_month.
    destruct Hm as [->|[->|[->|[->|[->|[->|[->|[->|[->|[->|[->| ->]]]]]]]]]]];
      simpl; try lia; destruct (is_leap y); simpl; lia. }
  destruct (y <? 9999) eqn:Hy; [|discriminate].
  inversion Ha; subst nxt. assert (m = 12) by lia. subst m.
  unfold toordinal; simpl. rewrite Hdm.
  unfold days_before_month, days_in_month, days_before_year. simpl.
  replace (y + 1 - 1) with y by lia.
  unfold is_leap.
  destruct (Z.eqb_spec (y mod 4) 0), (Z.eqb_spec (y mod 100) 0),
    (Z.eqb_spec (y mod 400) 0); simpl;
    Z.to_euclidean_division_equations; lia.
Qed.

End DateFacts.

(* ===================================================================== *)
(** * [crawler_boe.py]: the crawl window *)
(* ===================================================================== *)

Module BoeFacts.

Import Sql Boe DateFacts.

Lemma max_date_None (l : list date) : max_date l = None -> l = [].
Proof.
  destruct l as [|x l]; [reflexivity|]. simpl.
  destruct (max_date l); discriminate.
Qed.

Lemma max_date_Some (l : list date) (m : date) :
  max_date l = Some m ->
  m ∈ l /\ forall x, x ∈ l -> date_leb x m = true.
Proof.
  revert m. induction l as [|x l IH]; intros m Hm; simpl in Hm; [discriminate|].
  destruct (max_date l) as [m0|] eqn:Hl.
  - destruct (IH m0 eq_refl) as [Hin Hub]. inversion Hm; subst m; clear Hm.
    destruct (date_ltb x m0) eqn:Hlt.
    + split; [right; exact Hin|]. intros y Hy.
      apply elem_of_cons in Hy. destruct Hy as [->|Hy].
      * apply date_ltb_leb, Hlt.
      * apply Hub, Hy.
    + split; [left|]. intros y Hy.
      apply elem_of_cons in Hy. destruct Hy as [->|Hy].
      * apply date_leb_refl.
      * eapply date_leb_trans; [apply Hub, Hy|].
        apply date_ltb_false_leb, Hlt.
  - inversion Hm; subst m. apply max_date_None in Hl. subst l.
    split; [left|]. intros y Hy. apply elem_of_cons in Hy.
    destruct Hy as [->|Hy]; [apply date_leb_refl|inversion Hy].
Qed.

(** Without any row of the source, [MAX(issue_date)] is [NULL]. *)
Lemma select_max_issue_date_none (source_id : Z) (db : Db) :
  (forall dj, dj ∈ daily_journals db -> dj_source_id dj <> source_id) ->
  select_max_issue_date source_id db = None.
Proof.
  intros Hno. unfold select_max_issue_date.
  replace (filter (fun dj => dj_source_id dj = source_id) (daily_journals db))
    with (@nil DailyJournal); [reflexivity|].
  symmetry. induction (daily_journals db) as [|dj t IH]; [reflexivity|].
  rewrite filter_cons_False.
  - apply IH. intros dj' Hin. apply Hno. right. exact Hin.
  - apply Hno. left.
Qed.

(** With a row of the source, [MAX(issue_date)] is the greatest issue date
    of the source's rows. *)
Lemma select_max_issue_date_some (source_id : Z) (db : Db) (dj0 : DailyJournal) :
  dj0 ∈ daily_journals db -> dj_source_id dj0 = source_id ->
  exists w,
    select_max_issue_date source_id db = Some w
    /\ (exists dj, dj ∈ daily_journals db /\ dj_source_id dj = source_id
                   /\ dj_issue_date dj = w)
    /\ (forall dj, dj ∈ daily_journals db -> dj_source_id dj = source_id ->
                   date_leb (dj_issue_date dj) w = true).
Proof.
  intros Hin Hsrc. unfold select_max_issue_date.
  set (rows := filter (fun dj => dj_source_id dj = source_id) (daily_journals db)).
  assert (Hrow : dj0 ∈ rows) by (apply list_elem_of_filter; split; assumption).
  destruct (max_date (map dj_issue_date rows)) as [w|] eqn:Hmax.
  - exists w. split; [reflexivity|].
    destruct (max_date_Some _ _ Hmax) as [Hw Hub]. split.
    + apply list_elem_of_fmap in Hw. destruct Hw as (dj & -> & Hdj).
      apply list_elem_of_filter in Hdj. destruct Hdj as [Hs Hd].
      exists dj. repeat split; assumption.
    + intros dj Hd Hs. apply Hub. apply list_elem_of_fmap.
      exists dj. split; [reflexivity|].
      apply list_elem_of_filter. split; assumption.
  - apply max_date_None in Hmax.
    destruct rows; [inversion Hrow|discriminate].
Qed.

(** C1.  Without a single-day or a range override, [resolve_crawl_range]
    returns [source start date, today] when no issue of the source is
    persisted, and [w + 1 day, today] when [w] is the greatest persisted
    issue date of the source; that first day lies strictly after every
    persisted issue date of the source. *)
Theorem C1_watermark_window
  (today : date) (db : Db) (source_id : Z) (source_start_at : date)
  (day from_date_raw to_date_raw : option string) (lg : Logger) :
  truthy day = false ->
  truthy from_date_raw = false ->
  truthy to_date_raw = false ->
  ((forall dj, dj ∈ daily_journals db -> dj_source_id dj <> source_id) ->
   fst (resolve_crawl_range today db source_id source_start_at
                            day from_date_raw to_date_raw lg)
   = Ok (source_start_at, today))
  /\
  (forall dj0, dj0 ∈ daily_journals db -> dj_source_id dj0 = source_id ->
   exists w,
     select_max_issue_date source_id db = Some w
     /\ (exists dj, dj ∈ daily_journals db /\ dj_source_id dj = source_id
                    /\ dj_issue_date dj = w)
     /\ (forall dj, dj ∈ daily_journals db -> dj_source_id dj = source_id ->
                    date_leb (dj_issue_date dj) w = true)
     /\ forall nxt, add_one_day w = Ok nxt ->
          fst (resolve_crawl_range today db source_id source_start_at
                                   day from_date_raw to_date_raw lg)
          = Ok (nxt, today)
          /\ forall dj, dj ∈ daily_journals db -> dj_source_id dj = source_id ->
                        date_ltb (dj_issue_date dj) nxt = true).
Proof.
  intros Hday Hfrom Hto. unfold resolve_crawl_range.
  rewrite Hday, Hfrom, Hto. simpl. split.
  - intros Hno. rewrite (select_max_issue_date_none _ _ Hno). reflexivity.
  - intros dj0 Hin Hsrc.
    destruct (select_max_issue_date_some _ _ _ Hin Hsrc) as (w & Hsel & Hex & Hub).
    exists w. split; [exact Hsel|]. split; [exact Hex|]. split; [exact Hub|].
    intros nxt Hnxt. split.
    + rewrite Hsel. unfold bind, lift_res. rewrite Hnxt. reflexivity.
    + intros dj Hd Hs. eapply date_leb_ltb_trans; [apply Hub; assumption|].
      apply add_one_day_later. exact Hnxt.
Qed.

(** The scenario of the specification: nothing persisted, source start
    2024-01-01, today 2024-01-03 gives [2024-01-01, 2024-01-03]; once the
    issue of 2024-01-02 is persisted the window is [2024-01-03, 2024-01-03]. *)
Lemma C1_watermark_window_witness :
  fst (resolve_crawl_range (Stub.d 2024 1 3) Stub.empty_db 1 (Stub.d 2024 1 1)
                           None None None [])
  = Ok (Stub.d 2024 1 1, Stub.d 2024 1 3)
  /\ fst (resolve_crawl_range (Stub.d 2024 1 3) Stub.db_one_issue 1
                              (Stub.d 2024 1 1) None None None [])
     = Ok (Stub.d 2024 1 3, Stub.d 2024 1 3).
Proof.
  split.
  - apply (proj1 (C1_watermark_window (Stub.d 2024 1 3) Stub.empty_db 1
                    (Stub.d 2024 1 1) None None None [] eq_refl eq_refl eq_refl)).
    intros dj Hin. inversion Hin.
  - destruct (proj2 (C1_watermark_window (Stub.d 2024 1 3) Stub.db_one_issue 1
                       (Stub.d 2024 1 1) None None None []
                       eq_refl eq_refl eq_refl)
                    (mkDailyJournal 1 1 (Stub.d 2024 1 2)
                       (Some "https://www.boe.es/boe/dias/2024/01/02/")
                       (Some "BOE 2 de 02/01/2024") 10 10)
                    ltac:(left) eq_refl)
      as (w & Hsel & _ & _ & Hnext).
    vm_compute in Hsel. inversion Hsel; subst w.
    apply (Hnext (Stub.d 2024 1 3) eq_refl).
Defined.

(** The only watermark without a next day is 9999-12-31: there the
    resolver raises [OverflowError]. *)
Lemma resolve_crawl_range_overflow (today : date) (db : Db) (source_id : Z)
  (source_start_at : date) (lg : Logger) :
  select_max_issue_date source_id db = Some (mkdate 9999 12 31) ->
  fst (resolve_crawl_range today db source_id source_start_at
                           None None None lg)
  = Raise (OverflowError (Msg "date value out of range" [])).
Proof.
  intros Hsel. unfold resolve_crawl_range. simpl. rewrite Hsel. reflexivity.
Qed.

(** C8.  The overrides of [resolve_crawl_range]: a day together with a
    range bound raises; a single range bound raises; a range whose first
    day is after its last raises; a valid day [d] alone gives [d, d]; a
    valid range gives exactly that range. *)
Theorem C8_override_rules
  (today : date) (db : Db) (source_id : Z) (source_start_at : date)
  (day from_date_raw to_date_raw : option string) (lg : Logger) :
  let result :=
    fst (resolve_crawl_range today db source_id source_start_at
                             day from_date_raw to_date_raw lg) in
  (truthy day = true ->
   truthy from_date_raw = true \/ truthy to_date_raw = true ->
   result = Raise either_day_or_range_error)
  /\
  (truthy day = false ->
   truthy from_date_raw <> truthy to_date_raw ->
   result = Raise both_bounds_required_error)
  /\
  (forall a b,
     truthy day = false ->
     truthy from_date_raw = true -> truthy to_date_raw = true ->
     parse_iso_date (or_empty from_date_raw) "--from-date" = Ok a ->
     parse_iso_date (or_empty to_date_raw) "--to-date" = Ok b ->
     date_gtb a b = true ->
     result = Raise (invalid_range_error a b))
  /\
  (forall d,
     truthy day = true ->
     truthy from_date_raw = false -> truthy to_date_raw = false ->
     parse_iso_date (or_empty day) "--day" = Ok d ->
     result = Ok (d, d))
  /\
  (forall a b,
     truthy day = false ->
     truthy from_date_raw = true -> truthy to_date_raw = true ->
     parse_iso_date (or_empty from_date_raw) "--from-date" = Ok a ->
     parse_iso_date (or_empty to_date_raw) "--to-date" = Ok b ->
     date_leb a b = true ->
     result = Ok (a, b)).
Proof.
  intros result. subst result. unfold resolve_crawl_range.
  split; [|split; [|split; [|split]]].
  - intros Hday [Hr|Hr]; rewrite Hday, Hr; simpl;
      [|rewrite orb_true_r]; reflexivity.
  - intros Hday Hne. rewrite Hday.
    destruct (truthy from_date_raw), (truthy to_date_raw);
      try congruence; reflexivity.
  - intros a b Hday Hf Ht Ha Hb Hgt. rewrite Hday, Hf, Ht. simpl.
    unfold bind, lift_res. rewrite Ha, Hb, Hgt. reflexivity.
  - intros d Hday Hf Ht Hd. rewrite Hday, Hf, Ht. simpl.
    unfold bind, lift_res. rewrite Hd. reflexivity.
  - intros a b Hday Hf Ht Ha Hb Hle. rewrite Hday, Hf, Ht. simpl.
    unfold bind, lift_res. rewrite Ha, Hb, date_gtb_leb, Hle. reflexivity.
Qed.

(** C8 on the command lines [--day 2024-01-02 --from-date 2024-01-01],
    [--to-date 2024-01-05], [--from-date 2024-01-05 --to-date 2024-01-01],
    [--day 2024-01-02] and [--from-date 2024-01-01 --to-date 2024-01-05]. *)
Lemma C8_override_rules_witness :
  fst (resolve_crawl_range (Stub.d 2024 1 3) Stub.empty_db 1 (Stub.d 2024 1 1)
         (Some "2024-01-02") (Some "2024-01-01") None [])
  = Raise either_day_or_range_error
  /\ fst (resolve_crawl_range (Stub.d 2024 1 3) Stub.empty_db 1 (Stub.d 2024 1 1)
            None None (Some "2024-01-05") [])
     = Raise both_bounds_required_error
  /\ fst (resolve_crawl_range (Stub.d 2024 1 3) Stub.empty_db 1 (Stub.d 2024 1 1)
            None (Some "2024-01-05") (Some "2024-01-01") [])
     = Raise (invalid_range_error (Stub.d 2024 1 5) (Stub.d 2024 1 1))
  /\ fst (resolve_crawl_range (Stub.d 2024 1 3) Stub.empty_db 1 (Stub.d 2024 1 1)
            (Some "2024-01-02") None None [])
     = Ok (Stub.d 2024 1 2, Stub.d 2024 1 2)
  /\ fst (resolve_crawl_range (Stub.d 2024 1 3) Stub.empty_db 1 (Stub.d 2024 1 1)
            None (Some "2024-01-01") (Some "2024-01-05") [])
     = Ok (Stub.d 2024 1 1, Stub.d 2024 1 5).
Proof.
  split; [|split; [|split; [|split]]].
  - apply (proj1 (C8_override_rules (Stub.d 2024 1 3) Stub.empty_db 1
                    (Stub.d 2024 1 1) (Some "2024-01-02") (Some "2024-01-01")
                    None [])); [reflexivity|left; reflexivity].
  - apply (proj1 (proj2 (C8_override_rules (Stub.d 2024 1 3) Stub.empty_db 1
                    (Stub.d 2024 1 1) None None (Some "2024-01-05") [])));
      [reflexivity|discriminate].
  - apply (proj1 (proj2 (proj2 (C8_override_rules (Stub.d 2024 1 3)
                    Stub.empty_db 1 (Stub.d 2024 1 1) None (Some "2024-01-05")
                    (Some "2024-01-01") []))));
      reflexivity.
  - apply (proj1 (proj2 (proj2 (proj2 (C8_override_rules (Stub.d 2024 1 3)
                    Stub.empty_db 1 (Stub.d 2024 1 1) (Some "2024-01-02") None
                    None [])))));
      reflexivity.
  - apply (proj2 (proj2 (proj2 (proj2 (C8_override_rules (Stub.d 2024 1 3)
                    Stub.empty_db 1 (Stub.d 2024 1 1) None (Some "2024-01-01")
                    (Some "2024-01-05") [])))));
      reflexivity.
Defined.

End BoeFacts.

(* ===================================================================== *)
(** * The store: idempotent upserts *)
(* ===================================================================== *)

Module SqlFacts.

Import Sql.

Lemma has_key_new (source_id : Z) (issue_date : date) id url description t1 t2 :
  has_key source_id issue_date
          (mkDailyJournal id source_id issue_date url description t1 t2) = true.
Proof.
  unfold has_key. simpl. rewrite Z.eqb_refl, bool_decide_eq_true_2; reflexivity.
Qed.

Lemma has_key_do_update source_id issue_date url description t dj :
  has_key source_id issue_date (do_update url description t dj)
  = has_key source_id issue_date dj.
Proof. reflexivity. Qed.

(** A table without a row of the key: nothing conflicts, and the update of
    the conflicting rows changes nothing. *)
Lemma no_row_with_key source_id issue_date (f : DailyJournal -> DailyJournal)
  (t : list DailyJournal) :
  filter (fun dj => has_key source_id issue_date dj = true) t = [] ->
  existsb (has_key source_id issue_date) t = false
  /\ map (fun dj => if has_key source_id issue_date dj then f dj else dj) t = t.
Proof.
  induction t as [|dj t IH]; intros Hf; [split; reflexivity|].
  destruct (has_key source_id issue_date dj) eqn:Hk.
  - rewrite filter_cons_True in Hf by assumption. discriminate.
  - rewrite filter_cons_False in Hf by congruence.
    destruct (IH Hf) as [He Hm]. simpl. rewrite Hk, He, Hm. split; reflexivity.
Qed.

Lemma existsb_has_key_filter source_id issue_date (t : list DailyJournal) :
  existsb (has_key source_id issue_date) t = false ->
  filter (fun dj => has_key source_id issue_date dj = true) t = [].
Proof.
  induction t as [|dj t IH]; intros He; [reflexivity|].
  simpl in He. apply orb_false_iff in He. destruct He as [Hk He].
  rewrite filter_cons_False by congruence. apply IH, He.
Qed.

Lemma filter_has_key_update source_id issue_date url description now
  (t : list DailyJournal) :
  filter (fun dj => has_key source_id issue_date dj = true)
         (map (fun dj => if has_key source_id issue_date dj
                         then do_update url description now dj else dj) t)
  = map (do_update url description now)
        (filter (fun dj => has_key source_id issue_date dj = true) t).
Proof.
  induction t as [|dj t IH]; [reflexivity|]. simpl.
  destruct (has_key source_id issue_date dj) eqn:Hk.
  - rewrite !filter_cons_True by (rewrite ?has_key_do_update; assumption).
    simpl. rewrite IH. reflexivity.
  - rewrite !filter_cons_False by congruence. apply IH.
Qed.

(** The first upsert of a key appends one row. *)
Lemma upsert_fresh source_id issue_date url description db :
  rows_with_key source_id issue_date db = [] ->
  insert_daily_journal_on_conflict_update source_id issue_date url description db
  = ([daily_journals_id_seq db],
     mkDb (daily_journals db
           ++ [mkDailyJournal (daily_journals_id_seq db) source_id issue_date
                              (Some url) (Some description) (now db) (now db)])
          (notices db) (daily_journals_id_seq db + 1) (notices_id_seq db)
          (now db)).
Proof.
  unfold rows_with_key, insert_daily_journal_on_conflict_update. intros Hf.
  destruct (no_row_with_key _ _ id _ Hf) as [He _]. rewrite He.
  rewrite filter_app, Hf. simpl.
  rewrite filter_cons_True by apply has_key_new. reflexivity.
Qed.

(** An upsert of a key that the table has updates its rows in place. *)
Lemma upsert_conflict source_id issue_date url description db :
  rows_with_key source_id issue_date db <> [] ->
  insert_daily_journal_on_conflict_update source_id issue_date url description db
  = (map dj_id (rows_with_key source_id issue_date db),
     mkDb (map (fun dj => if has_key source_id issue_date dj
                          then do_update url description (now db) dj else dj)
               (daily_journals db))
          (notices db) (daily_journals_id_seq db + 1) (notices_id_seq db)
          (now db)).
Proof.
  unfold rows_with_key, insert_daily_journal_on_conflict_update. intros Hf.
  destruct (existsb (has_key source_id issue_date) (daily_journals db)) eqn:He.
  - rewrite filter_has_key_update, map_map. reflexivity.
  - apply existsb_has_key_filter in He. contradiction.
Qed.

(** Whatever the table holds, an upsert leaves as many rows of the key as
    there were, and one when there was none. *)
Lemma upsert_rows_with_key source_id issue_date url description db :
  length (rows_with_key source_id issue_date
            (snd (insert_daily_journal_on_conflict_update
                    source_id issue_date url description db)))
  = Nat.max 1 (length (rows_with_key source_id issue_date db)).
Proof.
  destruct (rows_with_key source_id issue_date db) as [|dj l] eqn:Hr.
  - rewrite upsert_fresh by assumption. unfold rows_with_key in *. simpl.
    rewrite filter_app, Hr. simpl.
    rewrite filter_cons_True by apply has_key_new. reflexivity.
  - rewrite upsert_conflict by (rewrite Hr; discriminate).
    unfold rows_with_key in *. simpl.
    rewrite filter_has_key_update, Hr, length_map. reflexivity.
Qed.

(** Two upserts of a key that the table did not have, time passing in
    between: one row is appended, and the second call rewrites its url, its
    description and its [updated_at], nothing else. *)
Lemma upsert_twice source_id issue_date url1 description1 url2 description2
  t2 db :
  rows_with_key source_id issue_date db = [] ->
  let db1 := snd (insert_daily_journal_on_conflict_update
                    source_id issue_date url1 description1 db) in
  let r2 := insert_daily_journal_on_conflict_update
              source_id issue_date url2 description2 (set_now t2 db1) in
  daily_journals db1
  = daily_journals db
    ++ [mkDailyJournal (daily_journals_id_seq db) source_id issue_date
                       (Some url1) (Some description1) (now db) (now db)]
  /\ daily_journals (snd r2)
     = daily_journals db
       ++ [mkDailyJournal (daily_journals_id_seq db) source_id issue_date
                          (Some url2) (Some description2) (now db) t2]
  /\ fst r2 = [daily_journals_id_seq db].
Proof.
  intros Hf db1 r2. subst r2 db1. rewrite upsert_fresh by assumption. simpl.
  split; [reflexivity|].
  unfold rows_with_key in Hf.
  destruct (no_row_with_key _ _ (do_update url2 description2 t2) _ Hf)
    as [He Hm].
  unfold insert_daily_journal_on_conflict_update, set_now. simpl.
  rewrite existsb_app, He. simpl. rewrite has_key_new. simpl.
  rewrite map_app, Hm. simpl. rewrite has_key_new.
  rewrite filter_app. simpl.
  rewrite filter_cons_True by apply has_key_new.
  split; [reflexivity|].
  replace (filter (fun dj => has_key source_id issue_date dj = true)
                  (daily_journals db)) with (@nil DailyJournal).
  reflexivity.
Qed.

End SqlFacts.

(* ===================================================================== *)
(** * [upsert_daily_journal] and [upsert_notice] *)
(* ===================================================================== *)

Module UpsertFacts.

Import Sql SqlFacts.

(** [upsert_daily_journal] of [crawler_dogc.py] is the statement on
    [context.db_conn]. *)
Lemma dogc_upsert_daily_journal_eq (W : Type) (HW : World W)
  (c : Dogc.CrawlerContext W) issue_date url description :
  Dogc.upsert_daily_journal issue_date url description c
  = (Ok tt,
     Dogc.set_db_conn
       (snd (insert_daily_journal_on_conflict_update
               (Dogc.source_id c) issue_date url description (Dogc.db_conn c)))
       c).
Proof.
  unfold Dogc.upsert_daily_journal, Dogc.on_db_conn,
    Shared.execute_upsert_daily_journal, bind, gets, ret.
  cbn [fst snd Dogc.db_conn Dogc.source_id].
  destruct (insert_daily_journal_on_conflict_update (Dogc.source_id c)
              issue_date url description (Dogc.db_conn c)).
  reflexivity.
Qed.

(** [upsert_daily_journal] of [crawler_boe.py] is the statement on
    [context.db_conn], with the url of the day; it returns the first id of
    [RETURNING id]. *)
Lemma boe_upsert_daily_journal_eq (W : Type) (HW : World W)
  (c : Boe.CrawlerContext W) issue_date description :
  Boe.upsert_daily_journal issue_date description c
  = (let r := insert_daily_journal_on_conflict_update
                (Boe.source_id c) issue_date
                (Boe.daily_journal_url issue_date) description
                (Boe.db_conn c) in
     (match head (fst r) with
      | Some id => Ok id
      | None =>
          Raise (RuntimeError
                   (Msg "Failed to upsert daily_journal and return id" []))
      end,
      Boe.set_db_conn (snd r) c)).
Proof.
  unfold Boe.upsert_daily_journal, Boe.on_db_conn,
    Shared.execute_upsert_daily_journal, bind, gets, ret, raise.
  cbn [fst snd Boe.db_conn Boe.source_id].
  destruct (insert_daily_journal_on_conflict_update (Boe.source_id c)
              issue_date (Boe.daily_journal_url issue_date) description
              (Boe.db_conn c)) as [ids db'].
  cbn [fst snd]. destruct (head ids); reflexivity.
Qed.

(** C3.  [upsert_daily_journal], in both crawlers, called for a
    (source_id, issue_date) that has no row, appends exactly one row; called
    again for the same key (time having passed) with another url and
    description, it rewrites that row's url, description and [updated_at] in
    place and the table has the same rows otherwise: one row of the key with
    the latest description, never a second one.  In [crawler_boe.py] the url
    is computed from the issue date, and both calls return the row's id. *)
Theorem C3_upsert_daily_journal_idempotent :
  (forall (W : Type) (HW : World W) (c : Dogc.CrawlerContext W)
          (issue_date : date) (url1 description1 url2 description2 : string)
          (t2 : Z),
     rows_with_key (Dogc.source_id c) issue_date (Dogc.db_conn c) = [] ->
     let r1 := Dogc.upsert_daily_journal issue_date url1 description1 c in
     let c1 := Dogc.set_db_conn (set_now t2 (Dogc.db_conn (snd r1))) (snd r1) in
     let r2 := Dogc.upsert_daily_journal issue_date url2 description2 c1 in
     let db := Dogc.db_conn c in
     fst r1 = Ok tt /\ fst r2 = Ok tt
     /\ daily_journals (Dogc.db_conn (snd r1))
        = daily_journals db
          ++ [mkDailyJournal (daily_journals_id_seq db) (Dogc.source_id c)
                             issue_date (Some url1) (Some description1)
                             (now db) (now db)]
     /\ daily_journals (Dogc.db_conn (snd r2))
        = daily_journals db
          ++ [mkDailyJournal (daily_journals_id_seq db) (Dogc.source_id c)
                             issue_date (Some url2) (Some description2)
                             (now db) t2])
  /\
  (forall (W : Type) (HW : World W) (c : Boe.CrawlerContext W)
          (issue_date : date) (description1 description2 : string) (t2 : Z),
     rows_with_key (Boe.source_id c) issue_date (Boe.db_conn c) = [] ->
     let r1 := Boe.upsert_daily_journal issue_date description1 c in
     let c1 := Boe.set_db_conn (set_now t2 (Boe.db_conn (snd r1))) (snd r1) in
     let r2 := Boe.upsert_daily_journal issue_date description2 c1 in
     let db := Boe.db_conn c in
     fst r1 = Ok (daily_journals_id_seq db)
     /\ fst r2 = Ok (daily_journals_id_seq db)
     /\ daily_journals (Boe.db_conn (snd r1))
        = daily_journals db
          ++ [mkDailyJournal (daily_journals_id_seq db) (Boe.source_id c)
                             issue_date (Some (Boe.daily_journal_url issue_date))
                             (Some description1) (now db) (now db)]
     /\ daily_journals (Boe.db_conn (snd r2))
        = daily_journals db
          ++ [mkDailyJournal (daily_journals_id_seq db) (Boe.source_id c)
                             issue_date (Some (Boe.daily_journal_url issue_date))
                             (Some description2) (now db) t2]).
Proof.
  split.
  - intros W HW c issue_date url1 description1 url2 description2 t2 Hfresh
           r1 c1 r2 db.
    destruct (upsert_twice (Dogc.source_id c) issue_date url1 description1
                           url2 description2 t2 (Dogc.db_conn c) Hfresh)
      as (H1 & H2 & _).
    subst r2 c1 r1 db. rewrite !(dogc_upsert_daily_journal_eq W HW).
    cbn [fst snd Dogc.db_conn Dogc.set_db_conn Dogc.source_id].
    repeat split; assumption.
  - intros W HW c issue_date description1 description2 t2 Hfresh r1 c1 r2 db.
    pose proof (upsert_fresh (Boe.source_id c) issue_date
                  (Boe.daily_journal_url issue_date) description1
                  (Boe.db_conn c) Hfresh) as Hf.
    destruct (upsert_twice (Boe.source_id c) issue_date
                           (Boe.daily_journal_url issue_date) description1
                           (Boe.daily_journal_url issue_date) description2
                           t2 (Boe.db_conn c) Hfresh)
      as (H1 & H2 & H3).
    subst r2 c1 r1 db. rewrite !(boe_upsert_daily_journal_eq W HW).
    cbn [fst snd Boe.db_conn Boe.set_db_conn Boe.source_id].
    rewrite H3. split; [rewrite Hf; reflexivity|].
    repeat split; assumption.
Qed.

(** C3 on an empty store: the issue of 2024-01-02 of source 7 is upserted
    twice by the DOGC crawler, the second time with another description. *)
Lemma C3_upsert_daily_journal_idempotent_witness :
  daily_journals
    (Dogc.db_conn
       (snd (Dogc.upsert_daily_journal (Stub.d 2024 1 2) "http://u2" "second"
               (Dogc.set_db_conn
                  (set_now 5
                     (Dogc.db_conn
                        (snd (Dogc.upsert_daily_journal (Stub.d 2024 1 2)
                                "http://u1" "first"
                                (Stub.dogc_context Stub.quiet Stub.empty_db)))))
                  (snd (Dogc.upsert_daily_journal (Stub.d 2024 1 2)
                          "http://u1" "first"
                          (Stub.dogc_context Stub.quiet Stub.empty_db)))))))
  = [mkDailyJournal 1 7 (Stub.d 2024 1 2) (Some "http://u2") (Some "second") 0 5].
Proof.
  exact (proj2 (proj2 (proj2
           (proj1 C3_upsert_daily_journal_idempotent
                  Stub.StubWorld Stub.stub_world
                  (Stub.dogc_context Stub.quiet Stub.empty_db)
                  (Stub.d 2024 1 2) "http://u1" "first" "http://u2" "second" 5
                  eq_refl)))).
Defined.

(** An upsert never leaves two rows of its key in a table that had at most
    one. *)
Lemma upsert_never_second_row source_id issue_date url description db :
  (length (rows_with_key source_id issue_date db) <= 1)%nat ->
  length (rows_with_key source_id issue_date
            (snd (insert_daily_journal_on_conflict_update
                    source_id issue_date url description db))) = 1%nat.
Proof. intros Hle. rewrite upsert_rows_with_key. lia. Qed.

End UpsertFacts.

Module NoticeFacts.

Import Sql.

Lemma min_id_None (l : list Z) : min_id l = None -> l = [].
Proof.
  destruct l as [|x l]; [reflexivity|]. simpl.
  destruct (min_id l); discriminate.
Qed.

Lemma min_id_Some (l : list Z) (m : Z) :
  min_id l = Some m -> m ∈ l /\ forall x, x ∈ l -> m <= x.
Proof.
  revert m. induction l as [|x l IH]; intros m Hm; simpl in Hm; [discriminate|].
  destruct (min_id l) as [m0|] eqn:Hl.
  - destruct (IH m0 eq_refl) as [Hin Hlb]. inversion Hm; subst m; clear Hm.
    split.
    + destruct (Z.min_spec x m0) as [[_ ->]|[_ ->]]; [left|right; exact Hin].
    + intros y Hy. apply elem_of_cons in Hy. destruct Hy as [->|Hy]; [lia|].
      specialize (Hlb y Hy). lia.
  - inversion Hm; subst m. apply min_id_None in Hl. subst l.
    split; [left|]. intros y Hy. apply elem_of_cons in Hy.
    destruct Hy as [->|Hy]; [lia|inversion Hy].
Qed.

(** What [ORDER BY id ASC LIMIT 1] returns is the id of a row that
    satisfies the [WHERE] clause, and the least such id. *)
Lemma select_least (P : Notice -> Prop) `{forall n, Decision (P n)}
  (t : list Notice) (id : Z) :
  min_id (map n_id (filter P t)) = Some id ->
  (exists n, n ∈ t /\ P n /\ n_id n = id)
  /\ forall n, n ∈ t -> P n -> id <= n_id n.
Proof.
  intros Hm. destruct (min_id_Some _ _ Hm) as [Hin Hlb]. split.
  - apply list_elem_of_fmap in Hin. destruct Hin as (n & -> & Hn).
    apply list_elem_of_filter in Hn. destruct Hn as [HP Hn].
    exists n. repeat split; assumption.
  - intros n Hn HP. apply Hlb. apply list_elem_of_fmap.
    exists n. split; [reflexivity|]. apply list_elem_of_filter. split; assumption.
Qed.

Lemma select_some (P : Notice -> Prop) `{forall n, Decision (P n)}
  (t : list Notice) (n : Notice) :
  n ∈ t -> P n -> exists id, min_id (map n_id (filter P t)) = Some id.
Proof.
  intros Hn HP.
  destruct (min_id (map n_id (filter P t))) as [id|] eqn:Hm; [eauto|].
  apply min_id_None in Hm.
  assert (Hin : n ∈ filter P t) by (apply list_elem_of_filter; split; assumption).
  destruct (filter P t); [inversion Hin|discriminate].
Qed.

(** [upsert_notice] never raises, and what it does to the store: it looks
    for a row by (daily_journal_id, url) when the url is not empty; when
    that gives nothing, because the url is empty or because no row has it,
    it looks by (daily_journal_id, title); it updates the row found, and
    inserts when none is. *)
Lemma upsert_notice_eq daily_journal_id title category department url content
  extra_info db :
  Shared.upsert_notice daily_journal_id title category department url content
                       extra_info db
  = (Ok tt,
     match (match (if negb (String.eqb url "")
                   then select_notice_id_by_url daily_journal_id url db
                   else None) with
            | Some id => Some id
            | None => select_notice_id_by_title daily_journal_id title db
            end) with
     | Some id =>
         update_notice title category department url content extra_info id db
     | None =>
         insert_notice daily_journal_id title category department url content
                       extra_info db
     end).
Proof.
  unfold Shared.upsert_notice, bind, gets, ret, modify.
  destruct (negb (String.eqb url "")).
  - destruct (select_notice_id_by_url daily_journal_id url db); [reflexivity|].
    destruct (select_notice_id_by_title daily_journal_id title db); reflexivity.
  - destruct (select_notice_id_by_title daily_journal_id title db); reflexivity.
Qed.

Lemma update_notice_ids title category department url content extra_info id db :
  map n_id (notices (update_notice title category department url content
                                   extra_info id db))
  = map n_id (notices db).
Proof.
  unfold update_notice, set_notices. simpl. rewrite map_map.
  apply map_ext. intros n. destruct (n_id n =? id); reflexivity.
Qed.

(** After an update by id, a row that had this id carries the new values. *)
Lemma update_notice_row title category department url content extra_info id db
  (n : Notice) :
  n ∈ notices db -> n_id n = id ->
  exists n', n' ∈ notices (update_notice title category department url content
                                         extra_info id db)
             /\ n_id n' = id
             /\ n_daily_journal_id n' = n_daily_journal_id n
             /\ n_url n' = Some url.
Proof.
  intros Hn Hid. unfold update_notice, set_notices. simpl.
  eexists. split.
  - apply list_elem_of_fmap. exists n. split; [reflexivity|exact Hn].
  - apply Z.eqb_eq in Hid. rewrite Hid. simpl.
    apply Z.eqb_eq in Hid. repeat split; assumption.
Qed.

Lemma update_notice_content title category department url content extra_info
  id db (n : Notice) :
  n ∈ notices (update_notice title category department url content
                             extra_info id db) ->
  n_id n = id ->
  n_content n = content /\ n_url n = Some url /\ n_title n = Some title.
Proof.
  unfold update_notice, set_notices. simpl. intros Hn Hid.
  apply list_elem_of_fmap in Hn. destruct Hn as (n0 & -> & Hn0).
  destruct (n_id n0 =? id) eqn:He.
  - simpl. repeat split; reflexivity.
  - apply Z.eqb_neq in He. contradiction.
Qed.

(** After [upsert_notice] with a url that is not empty, some row of the
    issue has that url. *)
Lemma upsert_notice_leaves_url_row daily_journal_id title category department
  url content extra_info db :
  exists n,
    n ∈ notices (snd (Shared.upsert_notice daily_journal_id title category
                        department url content extra_info db))
    /\ n_daily_journal_id n = daily_journal_id /\ n_url n = Some url.
Proof.
  rewrite upsert_notice_eq. cbn [snd].
  assert (Hupd : forall id n0,
            n0 ∈ notices db -> n_id n0 = id ->
            n_daily_journal_id n0 = daily_journal_id ->
            exists n,
              n ∈ notices (update_notice title category department url content
                                         extra_info id db)
              /\ n_daily_journal_id n = daily_journal_id
              /\ n_url n = Some url).
  { intros id n0 Hn0 Hid Hdj.
    destruct (update_notice_row title category department url content
                extra_info id db n0 Hn0 Hid) as (n' & Hin & _ & Hd & Hu).
    exists n'. repeat split; congruence. }
  destruct (match (if negb (String.eqb url "")
                   then select_notice_id_by_url daily_journal_id url db
                   else None) with
            | Some id => Some id
            | None => select_notice_id_by_title daily_journal_id title db
            end) as [id|] eqn:Hres.
  - destruct (if negb (String.eqb url "")
              then select_notice_id_by_url daily_journal_id url db
              else None) as [id'|] eqn:Hurl.
    + inversion Hres; subst id'.
      destruct (negb (String.eqb url "")); [|discriminate].
      destruct (select_least _ _ _ Hurl) as [(n0 & Hn0 & [Hdj _] & Hid) _].
      eapply Hupd; eassumption.
    + destruct (select_least _ _ _ Hres) as [(n0 & Hn0 & [Hdj _] & Hid) _].
      eapply Hupd; eassumption.
  - eexists. split.
    + unfold insert_notice. simpl. apply elem_of_app. right. left.
    + split; reflexivity.
Qed.

(** C4, as the code has it.  [upsert_notice] resolves the existing row by
    (issueId, url) when the url is not empty and some row has it; otherwise
    (the url is empty, or no row of the issue has that url) by
    (issueId, title); it updates the resolved row in place, the ids of the
    table unchanged, and inserts one row when nothing is resolved.  Called
    a second time with the same issue and the same non-empty url, it
    resolves by the url and updates in place: no row is added, and the
    resolved row holds the content of the second call. *)
Theorem C4_upsert_notice_resolution
  (daily_journal_id : Z)
  (title category department url content extra_info : string) (db : Db) :
  let db' := snd (Shared.upsert_notice daily_journal_id title category
                    department url content extra_info db) in
  (forall id,
     url <> "" -> select_notice_id_by_url daily_journal_id url db = Some id ->
     db' = update_notice title category department url content extra_info id db)
  /\
  (forall id,
     url = "" \/ select_notice_id_by_url daily_journal_id url db = None ->
     select_notice_id_by_title daily_journal_id title db = Some id ->
     db' = update_notice title category department url content extra_info id db)
  /\
  (url = "" \/ select_notice_id_by_url daily_journal_id url db = None ->
   select_notice_id_by_title daily_journal_id title db = None ->
   db' = insert_notice daily_journal_id title category department url content
                       extra_info db)
  /\
  (forall id,
     map n_id (notices (update_notice title category department url content
                                      extra_info id db))
     = map n_id (notices db))
  /\
  length (notices (insert_notice daily_journal_id title category department
                                 url content extra_info db))
  = S (length (notices db))
  /\
  (url <> "" ->
   forall title2 category2 department2 content2 extra_info2,
     let db2 := snd (Shared.upsert_notice daily_journal_id title2 category2
                       department2 url content2 extra_info2 db') in
     exists id,
       select_notice_id_by_url daily_journal_id url db' = Some id
       /\ db2 = update_notice title2 category2 department2 url content2
                              extra_info2 id db'
       /\ map n_id (notices db2) = map n_id (notices db')
       /\ (exists n, n ∈ notices db2 /\ n_id n = id)
       /\ forall n, n ∈ notices db2 -> n_id n = id ->
                    n_content n = content2 /\ n_url n = Some url).
Proof.
  intros db'.
  assert (Hne : forall u : string, u <> "" -> negb (String.eqb u "") = true).
  { intros u Hu. apply negb_true_iff, String.eqb_neq, Hu. }
  split; [|split; [|split; [|split; [|split]]]].
  - intros id Hurl Hsel. subst db'. rewrite upsert_notice_eq. cbn [snd].
    rewrite (Hne _ Hurl), Hsel. reflexivity.
  - intros id Hno Hsel. subst db'. rewrite upsert_notice_eq. cbn [snd].
    destruct Hno as [->|Hno].
    + simpl. rewrite Hsel. reflexivity.
    + rewrite Hno. destruct (negb (String.eqb url "")); rewrite Hsel; reflexivity.
  - intros Hno Hsel. subst db'. rewrite upsert_notice_eq. cbn [snd].
    destruct Hno as [->|Hno].
    + simpl. rewrite Hsel. reflexivity.
    + rewrite Hno. destruct (negb (String.eqb url "")); rewrite Hsel; reflexivity.
  - intros id. apply update_notice_ids.
  - unfold insert_notice. simpl. rewrite length_app. simpl. lia.
  - intros Hurl title2 category2 department2 content2 extra_info2 db2.
    destruct (upsert_notice_leaves_url_row daily_journal_id title category
                department url content extra_info db) as (n & Hn & Hdj & Hu).
    fold db' in Hn.
    destruct (select_some (fun n => n_daily_journal_id n = daily_journal_id
                                    /\ n_url n = Some url)
                          (notices db') n Hn (conj Hdj Hu)) as [id Hid].
    exists id. split; [exact Hid|].
    assert (Hdb2 : db2 = update_notice title2 category2 department2 url
                                       content2 extra_info2 id db').
    { subst db2. rewrite upsert_notice_eq. cbn [snd].
      rewrite (Hne _ Hurl). unfold select_notice_id_by_url. rewrite Hid.
      reflexivity. }
    split; [exact Hdb2|]. rewrite Hdb2.
    split; [apply update_notice_ids|]. split.
    + destruct (select_least _ _ _ Hid) as [(n0 & Hn0 & _ & Hid0) _].
      destruct (update_notice_row title2 category2 department2 url content2
                  extra_info2 id db' n0 Hn0 Hid0) as (n' & Hin & Hid' & _).
      exists n'. split; assumption.
    + intros m Hm Hmid.
      destruct (update_notice_content _ _ _ _ _ _ _ _ _ Hm Hmid) as (Hc & Hu' & _).
      split; assumption.
Qed.

(** C4 on a store whose only notice is (issue 1, title T, url http://a):
    an upsert for http://a finds the row by its url and rewrites it, and a
    second one for the same url rewrites it again. *)
Lemma C4_upsert_notice_resolution_witness :
  snd (Shared.upsert_notice 1 "T2" "c" "d" "http://a" "new" "" Stub.db_one_notice)
  = update_notice "T2" "c" "d" "http://a" "new" "" 1 Stub.db_one_notice
  /\ length (notices
               (snd (Shared.upsert_notice 1 "T3" "c" "d" "http://a" "newer" ""
                       (snd (Shared.upsert_notice 1 "T2" "c" "d" "http://a"
                               "new" "" Stub.db_one_notice)))))
     = 1%nat.
Proof.
  pose proof (C4_upsert_notice_resolution 1 "T2" "c" "d" "http://a" "new" ""
                Stub.db_one_notice) as (Hurl & _ & _ & _ & _ & Htwice).
  split.
  - apply (Hurl 1); [discriminate|reflexivity].
  - destruct (Htwice ltac:(discriminate) "T3" "c" "d" "newer" "")
      as (id & _ & _ & Hids & _).
    rewrite <- (length_map n_id), Hids, length_map. reflexivity.
Defined.

(** The sentence of the specification does not hold: on the store whose
    only notice is (issue 1, title T, url http://a), an upsert for the same
    issue and title with the url http://b finds no row by the url, and the
    code falls back on the title and rewrites the row, where the sentence
    has it insert a second row. *)
Lemma C4_title_fallback_counterexample : ~ Claimed.upsert_notice_as_claimed.
Proof.
  intros Hclaim.
  specialize (Hclaim 1 "T" "c" "d" "http://b" "new" "" Stub.db_one_notice).
  apply (f_equal (fun db => length (notices db))) in Hclaim.
  vm_compute in Hclaim. discriminate.
Qed.

End NoticeFacts.

(* ===================================================================== *)
(** * The pending-work query and the choice of the next issue *)
(* ===================================================================== *)

Module PendingFacts.

Import Sql Describe DateFacts.

Lemma rstrip_empty (s : string) : rstrip s = "" <-> all_space s = true.
Proof.
  induction s as [|c s IH]; simpl; [tauto|].
  destruct (rstrip s) as [|c' r] eqn:Hr.
  - destruct (isspace c); simpl.
    + rewrite <- IH. tauto.
    + split; discriminate.
  - split; [discriminate|]. intros Ha. apply andb_prop in Ha.
    destruct Ha as [_ Ha]. apply IH in Ha. discriminate.
Qed.

Lemma all_space_lstrip (s : string) : all_space (lstrip s) = all_space s.
Proof.
  induction s as [|c s IH]; simpl; [reflexivity|].
  destruct (isspace c) eqn:Hc; simpl; [exact IH|].
  rewrite Hc. reflexivity.
Qed.

(** [s.strip()] is empty exactly when [s] is empty or white space only. *)
Lemma strip_empty (s : string) : strip s = "" <-> all_space s = true.
Proof. unfold strip. rewrite rstrip_empty, all_space_lstrip. tauto. Qed.

Lemma pending_leb_spec (a b : DailyJournal) :
  pending_leb a b = true <-> date_then_id a b.
Proof.
  unfold pending_leb, date_then_id, date_ltb.
  destruct (date_cmp (dj_issue_date a) (dj_issue_date b)) eqn:Hc.
  - apply date_cmp_eq in Hc. rewrite Z.leb_le. split.
    + intros Hle. right. split; assumption.
    + intros [Hlt|[_ Hle]]; [discriminate|assumption].
  - split; [intros _; left; reflexivity|reflexivity].
  - split; [discriminate|]. intros [Hlt|[Heq _]]; [discriminate|].
    apply date_cmp_eq in Heq. congruence.
Qed.

Lemma pending_leb_total (a b : DailyJournal) :
  pending_leb a b = false -> pending_leb b a = true.
Proof.
  unfold pending_leb. intros Hf.
  destruct (date_cmp (dj_issue_date a) (dj_issue_date b)) eqn:Hc;
    try discriminate.
  - apply date_cmp_eq in Hc. rewrite <- Hc.
    replace (date_cmp (dj_issue_date a) (dj_issue_date a)) with Eq
      by (symmetry; apply date_cmp_eq; reflexivity).
    apply Z.leb_gt in Hf. apply Z.leb_le. lia.
  - assert (Hlt : date_ltb (dj_issue_date b) (dj_issue_date a) = true).
    { apply date_ltb_spec. unfold date_cmp in Hc.
      destruct (Z.compare_spec (year (dj_issue_date a)) (year (dj_issue_date b)));
        destruct (Z.compare_spec (month (dj_issue_date a))
                                 (month (dj_issue_date b)));
        destruct (Z.compare_spec (day (dj_issue_date a)) (day (dj_issue_date b)));
        try discriminate; lia. }
    unfold date_ltb in Hlt.
    destruct (date_cmp (dj_issue_date b) (dj_issue_date a)); try discriminate.
    reflexivity.
Qed.

Lemma date_then_id_trans (a b c : DailyJournal) :
  date_then_id a b -> date_then_id b c -> date_then_id a c.
Proof.
  unfold date_then_id. rewrite !date_ltb_spec.
  intros [H1|[E1 L1]] [H2|[E2 L2]].
  - left. lia.
  - left. rewrite <- E2. exact H1.
  - left. rewrite E1. exact H2.
  - right. split; [congruence|lia].
Qed.

Lemma insert_sorted_perm (a : DailyJournal) (l : list DailyJournal) :
  Permutation (insert_sorted a l) (a :: l).
Proof.
  induction l as [|b l IH]; simpl; [reflexivity|].
  destruct (pending_leb a b); [reflexivity|].
  rewrite IH. apply perm_swap.
Qed.

Lemma order_by_perm (l : list DailyJournal) :
  Permutation (order_by_issue_date_id l) l.
Proof.
  induction l as [|a l IH]; simpl; [reflexivity|].
  rewrite insert_sorted_perm, IH. reflexivity.
Qed.

Lemma insert_sorted_sorted (a : DailyJournal) (l : list DailyJournal) :
  Sorted date_then_id l -> Sorted date_then_id (insert_sorted a l).
Proof.
  induction l as [|b l IH]; intros Hs; simpl.
  - repeat constructor.
  - destruct (pending_leb a b) eqn:Hab.
    + constructor; [exact Hs|]. constructor. apply pending_leb_spec, Hab.
    + inversion Hs as [|? ? Hs' Hhd]; subst.
      constructor; [apply IH, Hs'|].
      destruct l as [|c l]; simpl.
      * constructor. apply pending_leb_spec, pending_leb_total, Hab.
      * destruct (pending_leb a c).
        -- constructor. apply pending_leb_spec, pending_leb_total, Hab.
        -- inversion Hhd; subst. constructor. assumption.
Qed.

Lemma order_by_sorted (l : list DailyJournal) :
  StronglySorted date_then_id (order_by_issue_date_id l).
Proof.
  apply Sorted_StronglySorted.
  - intros a b c. apply date_then_id_trans.
  - induction l as [|a l IH]; simpl; [constructor|].
    apply insert_sorted_sorted, IH.
Qed.

Section Fetch.
Context {W : Type} `{World W}.

Lemma set_logger_same (c : Dogc.CrawlerContext W) :
  Dogc.set_logger (Dogc.logger c ++ []) c = c.
Proof. destruct c. unfold Dogc.set_logger. simpl. rewrite app_nil_r. reflexivity. Qed.

(** The loop of the fetch: it returns the first usable row, and logs one
    warning for each row that it passes over without the row being
    attempted (its url is then empty or white space). *)
Lemma first_usable_spec (attempted : gset Z) (rows : list DailyJournal) :
  forall c : Dogc.CrawlerContext W,
    Dogc.first_usable attempted rows c
    = (Ok (as_pending <$> (snd <$> list_find (usable attempted) rows)),
       Dogc.set_logger
         (Dogc.logger c
          ++ map empty_url_warning
               (filter (fun row => dj_id row ∉ attempted)
                       (passed_over attempted rows)))
         c).
Proof.
  unfold passed_over.
  induction rows as [|row rows IH]; intros c.
  - simpl. rewrite set_logger_same. reflexivity.
  - cbn [Dogc.first_usable list_find].
    destruct (decide (dj_id row ∈ attempted)) as [Hin|Hnin].
    + rewrite IH.
      destruct (decide (usable attempted row)) as [[Hu _]|_]; [contradiction|].
      destruct (list_find (usable attempted) rows) as [[i r]|]; simpl;
        rewrite filter_cons_False by (intros Hx; contradiction); reflexivity.
    + destruct (String.eqb (strip (or_empty (dj_url row))) "") eqn:Hurl.
      * apply String.eqb_eq in Hurl.
        destruct (decide (usable attempted row)) as [[_ Hu]|_]; [contradiction|].
        unfold bind, Dogc.log, Dogc.on_logger, Shared.log, modify.
        cbn [fst snd]. rewrite IH.
        destruct (list_find (usable attempted) rows) as [[i r]|]; simpl;
          rewrite filter_cons_True by assumption; simpl;
          rewrite <- app_assoc; reflexivity.
      * apply String.eqb_neq in Hurl.
        destruct (decide (usable attempted row)) as [_|Hn].
        -- simpl. rewrite set_logger_same. reflexivity.
        -- exfalso. apply Hn. split; assumption.
Qed.

(** [fetch_pending_daily_journal] never raises; it returns the first usable
    row of the pending query, and only writes to the log. *)
Lemma fetch_pending_spec (c : Dogc.CrawlerContext W) :
  let attempted := default ∅ (Dogc.attempted_daily_journal_ids c) in
  let rows := select_pending_daily_journals (Dogc.source_id c) (Dogc.db_conn c) in
  Dogc.fetch_pending_daily_journal c
  = (Ok (as_pending <$> (snd <$> list_find (usable attempted) rows)),
     Dogc.set_logger
       (Dogc.logger c
        ++ mkLog INFO (Msg "Pending daily journals with 0 notices in DB: %d"
                           [VInt (Z.of_nat (length rows))])
           :: map empty_url_warning
                (filter (fun row => dj_id row ∉ attempted)
                        (passed_over attempted rows)))
       c).
Proof.
  intros attempted rows. unfold Dogc.fetch_pending_daily_journal.
  unfold bind, gets, Dogc.on_db_conn, Dogc.log, Dogc.on_logger, Shared.log,
    modify.
  cbn [fst snd]. rewrite first_usable_spec.
  destruct c. unfold Dogc.set_logger, Dogc.set_db_conn. simpl.
  rewrite <- app_assoc. reflexivity.
Qed.

Lemma list_find_head_filter {A} (P : A -> Prop) `{forall x, Decision (P x)}
  (l : list A) :
  snd <$> list_find P l = head (filter P l).
Proof.
  induction l as [|x l IH]; [reflexivity|]. cbn [list_find].
  destruct (decide (P x)) as [HP|HP].
  - rewrite filter_cons_True by assumption. reflexivity.
  - rewrite filter_cons_False by assumption. rewrite <- IH.
    destruct (list_find P l) as [[i y]|]; reflexivity.
Qed.

Lemma passed_over_not_usable (attempted : gset Z) (rows : list DailyJournal)
  (row : DailyJournal) :
  row ∈ passed_over attempted rows -> ~ usable attempted row.
Proof.
  unfold passed_over.
  destruct (list_find (usable attempted) rows) as [[i r]|] eqn:Hf.
  - apply list_find_Some in Hf. destruct Hf as (_ & _ & Hbefore).
    intros Hin. apply list_elem_of_lookup in Hin. destruct Hin as [j Hj].
    apply lookup_take_Some in Hj. destruct Hj as [Hj Hlt].
    exact (Hbefore j row Hj Hlt).
  - intros Hin. apply list_find_None in Hf.
    rewrite Forall_forall in Hf. apply Hf. exact Hin.
Qed.

(** [maybe_route_to_cookie_state] looks for the accept button; when one is
    displayed it logs, stores [current_state] in [context.resume_state] and
    returns [COOKIE_CONSENT]; otherwise it returns [None]. *)
Lemma maybe_route_eq (current_state : Dogc.DogcState)
  (c : Dogc.CrawlerContext W) :
  Dogc.maybe_route_to_cookie_state current_state c
  = match Dogc.find_displayed Dogc.cookie_selectors (Dogc.driver c) with
    | (Ok (Some _), w) =>
        (Ok (Some Dogc.COOKIE_CONSENT),
         Dogc.set_resume_state (Some current_state)
           (Dogc.set_logger
              (Dogc.logger c
               ++ [mkLog INFO
                     (Msg "Cookie consent detected while in %s. Redirecting FSM to %s."
                          [VStr (Dogc.value current_state);
                           VStr (Dogc.value Dogc.COOKIE_CONSENT)])])
              (Dogc.set_driver w c)))
    | (Ok None, w) => (Ok None, Dogc.set_driver w c)
    | (Raise e, w) => (Raise e, Dogc.set_driver w c)
    end.
Proof.
  unfold Dogc.maybe_route_to_cookie_state, Dogc.find_cookie_accept_button,
    Dogc.on_driver, bind.
  destruct (Dogc.find_displayed Dogc.cookie_selectors (Dogc.driver c))
    as [[[b|]|e] w]; reflexivity.
Qed.

(** The picker sets the current issue only to what the fetch returns. *)
Lemma pick_pending_current (c : Dogc.CrawlerContext W) s c' :
  Dogc.state_pick_pending_daily_journal c = (Ok s, c') ->
  Dogc.current_daily_journal c' = Dogc.current_daily_journal c
  \/ (s = Dogc.OPEN_DAILY_JOURNAL
      /\ exists row,
           head (filter (usable (default ∅ (Dogc.attempted_daily_journal_ids c)))
                        (select_pending_daily_journals (Dogc.source_id c)
                                                       (Dogc.db_conn c)))
           = Some row
           /\ Dogc.current_daily_journal c' = Some (as_pending row)).
Proof.
  unfold Dogc.state_pick_pending_daily_journal, bind.
  rewrite maybe_route_eq.
  destruct (Dogc.find_displayed Dogc.cookie_selectors (Dogc.driver c))
    as [[[b|]|e] w]; [| |discriminate].
  { intros Hr. inversion Hr; subst. left. reflexivity. }
  destruct c as [lg drv art sl sid bu dbu tmo sd ed db rs att cur pend cand].
  cbn [Dogc.attempted_daily_journal_ids Dogc.source_id Dogc.db_conn
       Dogc.current_daily_journal].
  set (rows := select_pending_daily_journals sid db).
  assert (Hfetch : forall att',
            default ∅ att' = default ∅ att ->
            Dogc.fetch_pending_daily_journal
              (Dogc.mkContext lg w art sl sid bu dbu tmo sd ed db rs att' cur
                              pend cand)
            = (Ok (as_pending <$> head (filter (usable (default ∅ att)) rows)),
               Dogc.mkContext
                 (lg ++ mkLog INFO
                          (Msg "Pending daily journals with 0 notices in DB: %d"
                               [VInt (Z.of_nat (length rows))])
                     :: map empty_url_warning
                          (filter (fun row => dj_id row ∉ default ∅ att)
                                  (passed_over (default ∅ att) rows)))
                 w art sl sid bu dbu tmo sd ed db rs att' cur pend cand)).
  { intros att' Hatt. rewrite fetch_pending_spec.
    cbn [Dogc.attempted_daily_journal_ids Dogc.source_id Dogc.db_conn
         Dogc.logger Dogc.set_logger Dogc.driver Dogc.artifacts Dogc.slug
         Dogc.base_url Dogc.daily_base_url Dogc.timeout_seconds
         Dogc.start_issue_date Dogc.end_issue_date Dogc.resume_state
         Dogc.current_daily_journal Dogc.pending_notice_candidates
         Dogc.current_notice_candidate].
    fold rows. rewrite Hatt, list_find_head_filter. reflexivity. }
  unfold gets, Dogc.set_driver.
  cbn [fst snd Dogc.attempted_daily_journal_ids Dogc.logger Dogc.driver
       Dogc.artifacts Dogc.slug Dogc.source_id Dogc.base_url
       Dogc.daily_base_url Dogc.timeout_seconds Dogc.start_issue_date
       Dogc.end_issue_date Dogc.db_conn Dogc.resume_state
       Dogc.current_daily_journal Dogc.pending_notice_candidates
       Dogc.current_notice_candidate].
  destruct att as [ids|].
  - unfold ret at 1. rewrite (Hfetch (Some ids) eq_refl).
    destruct (head (filter (usable (default ∅ (Some ids))) rows))
      as [row|] eqn:Hhead.
    + intros Hr. cbn in Hr. inversion Hr; subst. right.
      split; [reflexivity|]. exists row. split; reflexivity.
    + intros Hr. cbn in Hr. inversion Hr; subst. left. reflexivity.
  - unfold modify at 1, Dogc.set_attempted_daily_journal_ids.
    cbn [fst snd Dogc.attempted_daily_journal_ids Dogc.logger Dogc.driver
         Dogc.artifacts Dogc.slug Dogc.source_id Dogc.base_url
         Dogc.daily_base_url Dogc.timeout_seconds Dogc.start_issue_date
         Dogc.end_issue_date Dogc.db_conn Dogc.resume_state
         Dogc.current_daily_journal Dogc.pending_notice_candidates
         Dogc.current_notice_candidate].
    rewrite Hfetch by reflexivity.
    destruct (head (filter (usable (default ∅ None)) rows))
      as [row|] eqn:Hhead.
    + intros Hr. cbn in Hr. inversion Hr; subst. right.
      split; [reflexivity|]. exists row. split; reflexivity.
    + intros Hr. cbn in Hr. inversion Hr; subst. left. reflexivity.
Qed.

End Fetch.

(** C2, as the code has it.  The pending query returns exactly the issues
    of the source that have no notice, by issue date ascending and then id
    ascending, and never an issue with a notice; the item selected is the
    first returned issue whose id is not in the attempted set and whose url
    is not empty once stripped of white space. *)
Theorem C2_pending_query_and_selection
  (W : Type) (HW : World W) (c : Dogc.CrawlerContext W) :
  let db := Dogc.db_conn c in
  let rows := select_pending_daily_journals (Dogc.source_id c) db in
  let attempted := default ∅ (Dogc.attempted_daily_journal_ids c) in
  Permutation rows
    (filter (fun dj => dj_source_id dj = Dogc.source_id c
                       /\ count_notices db dj = 0%nat)
            (daily_journals db))
  /\ StronglySorted date_then_id rows
  /\ (forall dj, dj ∈ rows ->
                 dj ∈ daily_journals db /\ dj_source_id dj = Dogc.source_id c
                 /\ count_notices db dj = 0%nat)
  /\ fst (Dogc.fetch_pending_daily_journal c)
     = Ok (as_pending <$> head (filter (usable attempted) rows)).
Proof.
  intros db rows attempted. split; [|split; [|split]].
  - apply order_by_perm.
  - apply order_by_sorted.
  - intros dj Hin. unfold rows, select_pending_daily_journals in Hin.
    rewrite order_by_perm in Hin. apply list_elem_of_filter in Hin.
    tauto.
  - rewrite fetch_pending_spec. cbn [fst].
    rewrite list_find_head_filter. reflexivity.
Qed.

(** The sentence of the specification about the selected item does not
    hold: with the pending issues 1 (no url) and 2 (a url) and nothing
    attempted, the first returned issue that is not attempted is issue 1,
    and the code selects issue 2. *)
Lemma C2_selection_counterexample : ~ Claimed.selection_as_claimed.
Proof.
  intros Hclaim.
  specialize (Hclaim Stub.StubWorld Stub.stub_world
                (Stub.dogc_context Stub.quiet Stub.db_two_pending)
                (Some (as_pending
                         (mkDailyJournal 2 7 (Stub.d 2024 1 2) (Some "http://x")
                                         (Some "DOGC 2") 10 10)))
                eq_refl).
  vm_compute in Hclaim. discriminate.
Qed.

(** C10.  [fetch_pending_daily_journal] returns the first row of the
    pending query that is not attempted and whose url is something else than
    white space; what it returns never has an empty url; it returns nothing
    exactly when every pending row is attempted or has an empty or
    white-space url; it logs one warning for each row that it skips for its
    url; and the picker state sets the current issue to nothing else than
    what the fetch returns. *)
Theorem C10_empty_url_never_selected
  (W : Type) (HW : World W) (c : Dogc.CrawlerContext W) :
  let rows := select_pending_daily_journals (Dogc.source_id c) (Dogc.db_conn c) in
  let attempted := default ∅ (Dogc.attempted_daily_journal_ids c) in
  let r := Dogc.fetch_pending_daily_journal c in
  fst r = Ok (as_pending <$> head (filter (usable attempted) rows))
  /\ (forall j, fst r = Ok (Some j) ->
        Dogc.pj_url j <> ""
        /\ exists row, row ∈ rows /\ j = as_pending row
                       /\ (dj_id row ∉ attempted)
                       /\ all_space (or_empty (dj_url row)) = false)
  /\ (fst r = Ok None <->
      forall row, row ∈ rows ->
                  dj_id row ∈ attempted
                  \/ all_space (or_empty (dj_url row)) = true)
  /\ Dogc.logger (snd r)
     = Dogc.logger c
       ++ mkLog INFO (Msg "Pending daily journals with 0 notices in DB: %d"
                          [VInt (Z.of_nat (length rows))])
          :: map empty_url_warning
               (filter (fun row => dj_id row ∉ attempted)
                       (passed_over attempted rows))
  /\ (forall row, row ∈ filter (fun row => dj_id row ∉ attempted)
                                (passed_over attempted rows) ->
                  all_space (or_empty (dj_url row)) = true)
  /\ (forall s c',
        Dogc.state_pick_pending_daily_journal c = (Ok s, c') ->
        Dogc.current_daily_journal c' = Dogc.current_daily_journal c
        \/ exists row, row ∈ rows
                       /\ Dogc.current_daily_journal c' = Some (as_pending row)
                       /\ all_space (or_empty (dj_url row)) = false).
Proof.
  intros rows attempted r.
  assert (Hr : fst r = Ok (as_pending <$> head (filter (usable attempted) rows))).
  { unfold r. rewrite fetch_pending_spec. cbn [fst].
    rewrite list_find_head_filter. reflexivity. }
  assert (Hspace : forall row, strip (or_empty (dj_url row)) <> "" ->
                               all_space (or_empty (dj_url row)) = false).
  { intros row Hne. destruct (all_space (or_empty (dj_url row))) eqn:Ha;
      [|reflexivity]. apply strip_empty in Ha. contradiction. }
  assert (Hhead : forall row, head (filter (usable attempted) rows) = Some row ->
                              row ∈ rows /\ usable attempted row).
  { intros row Hh. apply head_Some_elem_of in Hh.
    apply list_elem_of_filter in Hh. tauto. }
  split; [exact Hr|]. split; [|split; [|split; [|split]]].
  - intros j Hj. rewrite Hr in Hj. inversion Hj as [Hj'].
    destruct (head (filter (usable attempted) rows)) as [row|] eqn:Hh;
      [|discriminate].
    inversion Hj'; subst j. destruct (Hhead row eq_refl) as [Hin [Hna Hurl]].
    split; [exact Hurl|]. exists row. repeat split; auto.
  - rewrite Hr. split.
    + intros Hnone. inversion Hnone as [Hn].
      destruct (head (filter (usable attempted) rows)) as [row|] eqn:Hh;
        [discriminate|].
      apply head_None in Hh. intros row Hin.
      destruct (decide (dj_id row ∈ attempted)) as [|Hna]; [left; assumption|].
      right. destruct (all_space (or_empty (dj_url row))) eqn:Ha; [reflexivity|].
      exfalso. apply (filter_nil_not_elem_of _ _ row Hh); [|exact Hin].
      split; [exact Hna|]. intros Hs. apply strip_empty in Hs. congruence.
    + intros Hall.
      destruct (head (filter (usable attempted) rows)) as [row|] eqn:Hh;
        [|reflexivity].
      destruct (Hhead row eq_refl) as [Hin [Hna Hurl]].
      destruct (Hall row Hin) as [Ha|Ha]; [contradiction|].
      apply strip_empty in Ha. contradiction.
  - unfold r. rewrite fetch_pending_spec. destruct c; reflexivity.
  - intros row Hin. apply list_elem_of_filter in Hin. destruct Hin as [Hna Hin].
    apply passed_over_not_usable in Hin.
    destruct (decide (strip (or_empty (dj_url row)) = "")) as [He|Hne].
    + apply strip_empty, He.
    + exfalso. apply Hin. split; assumption.
  - intros s c' Hpick. destruct (pick_pending_current c s c' Hpick)
      as [Hsame|[_ (row & Hh & Hcur)]]; [left; exact Hsame|].
    right. destruct (Hhead row Hh) as [Hin [_ Hurl]].
    exists row. repeat split; auto.
Qed.

(** C10 on the store with the pending issues 1 (no url) and 2 (a url):
    issue 2 is returned, and the log gets the count and one warning, for
    issue 1. *)
Lemma C10_empty_url_never_selected_witness :
  fst (Dogc.fetch_pending_daily_journal
         (Stub.dogc_context Stub.quiet Stub.db_two_pending))
  = Ok (Some (Dogc.mkPending 2 "2024-01-02" "http://x" "DOGC 2"))
  /\ Dogc.logger
       (snd (Dogc.fetch_pending_daily_journal
               (Stub.dogc_context Stub.quiet Stub.db_two_pending)))
     = [mkLog INFO (Msg "Pending daily journals with 0 notices in DB: %d"
                        [VInt 2]);
        mkLog WARNING (Msg "Skipping daily_journal id=%s because URL is empty."
                           [VInt 1])].
Proof.
  destruct (C10_empty_url_never_selected Stub.StubWorld Stub.stub_world
              (Stub.dogc_context Stub.quiet Stub.db_two_pending))
    as (Hfetch & _ & _ & Hlog & _).
  split.
  - rewrite Hfetch. vm_compute. reflexivity.
  - rewrite Hlog. vm_compute. reflexivity.
Defined.

End PendingFacts.

(* ===================================================================== *)
(** * The transition hook *)
(* ===================================================================== *)

Module HookFacts.

Import Fsm.

(** The sentence of the specification does not hold: in the run of the DOGC
    crawler on an empty store the picker returns [DONE], and the engine
    calls the hook on (PICK_PENDING_DAILY_JOURNAL, DONE). *)
Lemma C5_hook_called_on_terminal_counterexample :
  ~ Claimed.hook_skipped_on_terminal Dogc.str_of_state Stub.dogc_fsm.
Proof.
  intros Hclaim.
  remember (run Dogc.str_of_state Stub.dogc_fsm
                (Stub.dogc_context Stub.quiet Stub.empty_db)) as R eqn:HR.
  assert (Htr : snd R
                = [HandlerCalled Dogc.HOME;
                   HookCalled Dogc.HOME Dogc.NAVIGATE_TO_START_MONTH;
                   HandlerCalled Dogc.NAVIGATE_TO_START_MONTH;
                   HookCalled Dogc.NAVIGATE_TO_START_MONTH Dogc.PROCESS_MONTH;
                   HandlerCalled Dogc.PROCESS_MONTH;
                   HookCalled Dogc.PROCESS_MONTH Dogc.PICK_PENDING_DAILY_JOURNAL;
                   HandlerCalled Dogc.PICK_PENDING_DAILY_JOURNAL;
                   HookCalled Dogc.PICK_PENDING_DAILY_JOURNAL Dogc.DONE])
    by (rewrite HR; vm_compute; reflexivity).
  destruct R as [[out c'] tr]. simpl in Htr.
  apply (Hclaim _ out c' tr Dogc.PICK_PENDING_DAILY_JOURNAL (eq_sym HR)).
  rewrite Htr. simpl. tauto.
Qed.

(** C5, as the code has it.  In an engine step with a hook configured, the
    engine calls the hook on (context, current, nextState) after every
    handler return, whether or not nextState is the terminal state; it is
    the hook of the crawlers, [simulate_human_transition] of
    [crawler_dogc.py] and [simulate_human_transition] of [crawler_boe.py],
    that does nothing but write one log line when the destination is the
    terminal state, and runs the pacing otherwise. *)
Theorem C5_hook_on_every_transition :
  (forall (S C : Type) (HS : EqDecision S) (str_of_state : S -> string)
          (r : FSMRunner S C) state c handler hook next_state c1,
     on_transition r = Some hook ->
     handlers r state = Some handler ->
     handler c = (Ok next_state, c1) ->
     step str_of_state r state c
     = (match fst (hook c1 state next_state) with
        | Ok _ => Ok next_state
        | Raise e => Raise e
        end,
        snd (hook c1 state next_state),
        [HandlerCalled state; HookCalled state next_state]))
  /\
  (forall (W : Type) (HW : World W) (c : Dogc.CrawlerContext W) from_state,
     Dogc.simulate_human_transition from_state Dogc.DONE c
     = (Ok tt,
        Dogc.set_logger
          (Dogc.logger c
           ++ [mkLog INFO
                 (Msg "Transition %s -> %s (final), skipping human pacing."
                      [VStr (Dogc.value from_state);
                       VStr (Dogc.value Dogc.DONE)])])
          c))
  /\
  (forall (W : Type) (HW : World W) (c : Dogc.CrawlerContext W)
          from_state to_state,
     to_state <> Dogc.DONE ->
     Dogc.simulate_human_transition from_state to_state c
     = Dogc.on_logger_driver
         (Shared.human_pacing (Dogc.value from_state) (Dogc.value to_state)) c)
  /\
  (forall (W : Type) (HW : World W) (c : Boe.CrawlerContext W) from_state,
     Boe.simulate_human_transition from_state Boe.DONE c
     = (Ok tt,
        Boe.set_logger
          (Boe.logger c
           ++ [mkLog INFO
                 (Msg "Transition %s -> %s (final), skipping human pacing."
                      [VStr (Boe.value from_state);
                       VStr (Boe.value Boe.DONE)])])
          c))
  /\
  (forall (W : Type) (HW : World W) (c : Boe.CrawlerContext W)
          from_state to_state,
     to_state <> Boe.DONE ->
     Boe.simulate_human_transition from_state to_state c
     = Boe.on_logger_driver
         (Shared.human_pacing (Boe.value from_state) (Boe.value to_state)) c).
Proof.
  split; [|split; [|split; [|split]]].
  - intros S C HS str_of_state r state c handler hook next_state c1.
    apply FsmFacts.step_calls_hook.
  - intros W HW c from_state. reflexivity.
  - intros W HW c from_state to_state Hne.
    unfold Dogc.simulate_human_transition.
    destruct (decide (to_state = Dogc.DONE)); [contradiction|reflexivity].
  - intros W HW c from_state. reflexivity.
  - intros W HW c from_state to_state Hne.
    unfold Boe.simulate_human_transition.
    destruct (decide (to_state = Boe.DONE)); [contradiction|reflexivity].
Qed.

(** C5 on the last step of the DOGC crawler on an empty store: the picker
    returns [DONE] and the step calls the hook on it. *)
Lemma C5_hook_on_every_transition_witness :
  snd (step Dogc.str_of_state Stub.dogc_fsm Dogc.PICK_PENDING_DAILY_JOURNAL
            (Stub.dogc_context Stub.quiet Stub.empty_db))
  = [HandlerCalled Dogc.PICK_PENDING_DAILY_JOURNAL;
     HookCalled Dogc.PICK_PENDING_DAILY_JOURNAL Dogc.DONE].
Proof.
  rewrite (proj1 C5_hook_on_every_transition Dogc.DogcState
             (Dogc.CrawlerContext Stub.StubWorld) _ Dogc.str_of_state
             Stub.dogc_fsm Dogc.PICK_PENDING_DAILY_JOURNAL
             (Stub.dogc_context Stub.quiet Stub.empty_db)
             Dogc.state_pick_pending_daily_journal Dogc.hook Dogc.DONE
             (snd (Dogc.state_pick_pending_daily_journal
                     (Stub.dogc_context Stub.quiet Stub.empty_db)))).
  - reflexivity.
  - reflexivity.
  - reflexivity.
  - vm_compute. reflexivity.
Defined.

End HookFacts.

(* ===================================================================== *)
(** * The detour through [COOKIE_CONSENT] *)
(* ===================================================================== *)

Module DetourFacts.

Import Describe.

Lemma bind_ok_inv {St A B} (m : M St A) (k : A -> M St B) s b s' :
  bind m k s = (Ok b, s') ->
  exists a s1, m s = (Ok a, s1) /\ k a s1 = (Ok b, s').
Proof.
  unfold bind. destruct (m s) as [[a|e] s1]; [|discriminate].
  intros Hk. exists a, s1. split; [reflexivity|exact Hk].
Qed.

Section Register.
Context {W : Type} `{World W}.

Lemma keeps_on_driver {A} (m : M W A) : keeps_register (Dogc.on_driver m).
Proof.
  intros c. unfold Dogc.on_driver. destruct (m (Dogc.driver c)). reflexivity.
Qed.

Lemma keeps_log l fmt args : keeps_register (Dogc.log l fmt args).
Proof. intros c. reflexivity. Qed.

Lemma keeps_capture state note : keeps_register (Dogc.capture state note).
Proof.
  intros c. unfold Dogc.capture, Dogc.on_artifacts.
  destruct (Artifacts.capture (Dogc.value state) note
              (Dogc.artifacts c, Dogc.driver c)) as [x [a w]].
  reflexivity.
Qed.

Lemma keeps_hook from_state to_state :
  keeps_register (Dogc.simulate_human_transition from_state to_state).
Proof.
  intros c. unfold Dogc.simulate_human_transition.
  destruct (decide (to_state = Dogc.DONE)); [reflexivity|].
  unfold Dogc.on_logger_driver.
  destruct (Shared.human_pacing (Dogc.value from_state) (Dogc.value to_state)
              (Dogc.logger c, Dogc.driver c)) as [x [lg w]].
  reflexivity.
Qed.

Lemma keeps_ret {A} (a : A) : keeps_register (ret a).
Proof. intros c. reflexivity. Qed.

Lemma keeps_bind {A B} (m : M (Dogc.CrawlerContext W) A)
  (k : A -> M (Dogc.CrawlerContext W) B) :
  keeps_register m -> (forall a, keeps_register (k a)) ->
  keeps_register (bind m k).
Proof.
  intros Hm Hk c. unfold bind. specialize (Hm c).
  destruct (m c) as [[a|e] c1]; simpl in *; [|exact Hm].
  rewrite (Hk a c1). exact Hm.
Qed.

Lemma keeps_try_except {A} (m : M (Dogc.CrawlerContext W) A)
  (h : exn -> M (Dogc.CrawlerContext W) A) :
  keeps_register m -> (forall e, keeps_register (h e)) ->
  keeps_register (try_except m h).
Proof.
  intros Hm Hh c. unfold try_except. specialize (Hm c).
  destruct (m c) as [[a|e] c1]; simpl in *; [exact Hm|].
  rewrite (Hh e c1). exact Hm.
Qed.

Lemma keeps_step {A} (m : M (Dogc.CrawlerContext W) A) c a c1 :
  keeps_register m -> m c = (Ok a, c1) ->
  Dogc.resume_state c1 = Dogc.resume_state c.
Proof. intros Hm Hc. specialize (Hm c). rewrite Hc in Hm. exact Hm. Qed.

(** When [state_cookie_consent] returns, it has found the accept button
    itself, it returns the state that [context.resume_state] held, or
    [NAVIGATE_TO_START_MONTH] when it held none, and it leaves
    [context.resume_state] empty. *)
Lemma cookie_consent_returns (c c' : Dogc.CrawlerContext W) s :
  Dogc.state_cookie_consent c = (Ok s, c') ->
  Dogc.resume_state c' = None
  /\ s = default Dogc.NAVIGATE_TO_START_MONTH (Dogc.resume_state c)
  /\ exists button w,
       Dogc.find_displayed Dogc.cookie_selectors (Dogc.driver c)
       = (Ok (Some button), w).
Proof.
  unfold Dogc.state_cookie_consent. intros Hs.
  apply bind_ok_inv in Hs. destruct Hs as (u0 & c0 & Hlog & Hs).
  inversion Hlog; subst u0 c0; clear Hlog.
  apply bind_ok_inv in Hs. destruct Hs as (button & c1 & Hfind & Hs).
  destruct button as [button|]; [|discriminate].
  assert (Hprobe : exists b w,
            Dogc.find_displayed Dogc.cookie_selectors (Dogc.driver c)
            = (Ok (Some b), w)).
  { unfold Dogc.find_cookie_accept_button, Dogc.on_driver in Hfind.
    cbn [Dogc.driver Dogc.set_logger] in Hfind.
    destruct (Dogc.find_displayed Dogc.cookie_selectors (Dogc.driver c))
      as [x w]. inversion Hfind; subst. exists button, w. reflexivity. }
  assert (H1 : Dogc.resume_state c1 = Dogc.resume_state c).
  { apply (keeps_step _ _ _ _ (keeps_on_driver _)) in Hfind. exact Hfind. }
  apply bind_ok_inv in Hs. destruct Hs as (u2 & c2 & Hscroll & Hs).
  assert (H2 : Dogc.resume_state c2 = Dogc.resume_state c1).
  { eapply keeps_step; [|exact Hscroll].
    apply keeps_try_except; [|intros; apply keeps_ret].
    apply keeps_bind; [apply keeps_on_driver|intros; apply keeps_ret]. }
  apply bind_ok_inv in Hs. destruct Hs as (u3 & c3 & Hclick & Hs).
  assert (H3 : Dogc.resume_state c3 = Dogc.resume_state c2).
  { eapply keeps_step; [|exact Hclick].
    apply keeps_try_except; [apply keeps_on_driver|].
    intros e. apply keeps_bind; [apply keeps_on_driver|intros; apply keeps_ret]. }
  apply bind_ok_inv in Hs. destruct Hs as (u4 & c4 & Hwait & Hs).
  inversion Hwait; subst u4 c4; clear Hwait.
  apply bind_ok_inv in Hs. destruct Hs as (created & c5 & Hcap & Hs).
  assert (H5 : Dogc.resume_state c5 = Dogc.resume_state c3).
  { eapply keeps_step; [apply keeps_capture|exact Hcap]. }
  apply bind_ok_inv in Hs. destruct Hs as (u6 & c6 & Hlog & Hs).
  inversion Hlog; subst u6 c6; clear Hlog.
  apply bind_ok_inv in Hs. destruct Hs as (resume & c7 & Hget & Hs).
  inversion Hget; subst resume c7; clear Hget.
  cbn [Dogc.resume_state Dogc.set_logger] in Hs.
  assert (Hreg : Dogc.resume_state c5 = Dogc.resume_state c) by congruence.
  rewrite Hreg in Hs.
  destruct (Dogc.resume_state c) as [next_state|].
  - inversion Hs; subst.
    split; [reflexivity|split; [reflexivity|exact Hprobe]].
  - inversion Hs; subst. cbn [Dogc.resume_state Dogc.set_logger].
    split; [exact Hreg|split; [reflexivity|exact Hprobe]].
Qed.

(** Without a displayed accept button, [state_cookie_consent] raises. *)
Lemma cookie_consent_without_button (c : Dogc.CrawlerContext W) w :
  Dogc.find_displayed Dogc.cookie_selectors (Dogc.driver c) = (Ok None, w) ->
  fst (Dogc.state_cookie_consent c) = Raise Dogc.no_accept_button_error.
Proof.
  intros Hp. unfold Dogc.state_cookie_consent, bind, Dogc.log, Dogc.on_logger,
    Shared.log, modify, Dogc.find_cookie_accept_button, Dogc.on_driver.
  cbn [fst snd Dogc.driver Dogc.set_logger]. rewrite Hp. reflexivity.
Qed.

End Register.

(** C7, as the code has it.  When the probe finds the accept button, the
    router stores the state it was called for in [context.resume_state] and
    returns [COOKIE_CONSENT]: the handler of a state X that probes at its
    entry returns [COOKIE_CONSENT] with X in the register.  The handler of
    [COOKIE_CONSENT] looks for the button again: without one it raises; when
    it returns, it returns the state the register held, the register is
    empty afterwards, and when the register already was empty it returns
    [NAVIGATE_TO_START_MONTH].  In the engine: when the probe finds the
    button at the entry of X, two steps that return go X -> COOKIE_CONSENT
    -> X, the register holding X in between and nothing at the end. *)
Theorem C7_detour_through_cookie_consent
  (W : Type) (HW : World W)
  (get_calendar_year_month : Z -> M W (Z * Z * string))
  (click_previous_month click_next_month : Z -> M W unit)
  (extract_issues :
     Z -> Z -> M (Dogc.CrawlerContext W) (list (date * string * string)))
  (extract_candidates : M (Dogc.CrawlerContext W) (list Dogc.NoticeCandidate))
  (extract_detail : M (Dogc.CrawlerContext W) Dogc.NoticeDetail) :
  (forall X (c : Dogc.CrawlerContext W) button w,
     Dogc.find_displayed Dogc.cookie_selectors (Dogc.driver c)
     = (Ok (Some button), w) ->
     exists c1,
       Dogc.maybe_route_to_cookie_state X c = (Ok (Some Dogc.COOKIE_CONSENT), c1)
       /\ Dogc.resume_state c1 = Some X)
  /\
  (forall X (c : Dogc.CrawlerContext W) button w,
     probes_at_entry X ->
     Dogc.find_displayed Dogc.cookie_selectors (Dogc.driver c)
     = (Ok (Some button), w) ->
     exists handler c1,
       Dogc.handlers get_calendar_year_month click_previous_month
                     click_next_month extract_issues extract_candidates
                     extract_detail X = Some handler
       /\ handler c = (Ok Dogc.COOKIE_CONSENT, c1)
       /\ Dogc.resume_state c1 = Some X)
  /\
  (forall (c c' : Dogc.CrawlerContext W) s,
     Dogc.state_cookie_consent c = (Ok s, c') ->
     Dogc.resume_state c' = None
     /\ s = default Dogc.NAVIGATE_TO_START_MONTH (Dogc.resume_state c)
     /\ exists button w,
          Dogc.find_displayed Dogc.cookie_selectors (Dogc.driver c)
          = (Ok (Some button), w))
  /\
  (forall (c : Dogc.CrawlerContext W) w,
     Dogc.find_displayed Dogc.cookie_selectors (Dogc.driver c) = (Ok None, w) ->
     fst (Dogc.state_cookie_consent c) = Raise Dogc.no_accept_button_error)
  /\
  (let step :=
     Fsm.step Dogc.str_of_state
       (Dogc.fsm get_calendar_year_month click_previous_month click_next_month
                 extract_issues extract_candidates extract_detail) in
   forall X (c c1 c2 : Dogc.CrawlerContext W) button w s1 s2 ev1 ev2,
     probes_at_entry X ->
     Dogc.find_displayed Dogc.cookie_selectors (Dogc.driver c)
     = (Ok (Some button), w) ->
     step X c = (Ok s1, c1, ev1) ->
     step s1 c1 = (Ok s2, c2, ev2) ->
     s1 = Dogc.COOKIE_CONSENT /\ Dogc.resume_state c1 = Some X
     /\ s2 = X /\ Dogc.resume_state c2 = None).
Proof.
  assert (Hentry :
    forall X (c : Dogc.CrawlerContext W) button w,
      probes_at_entry X ->
      Dogc.find_displayed Dogc.cookie_selectors (Dogc.driver c)
      = (Ok (Some button), w) ->
      exists handler c1,
        Dogc.handlers get_calendar_year_month click_previous_month
                      click_next_month extract_issues extract_candidates
                      extract_detail X = Some handler
        /\ handler c = (Ok Dogc.COOKIE_CONSENT, c1)
        /\ Dogc.resume_state c1 = Some X).
  { intros X c button w HX Hp.
    destruct HX as [->|[->|[->| ->]]]; eexists; eexists;
      (split; [reflexivity|]);
      [unfold Dogc.state_navigate_to_start_month
      |unfold Dogc.state_process_month
      |unfold Dogc.state_pick_pending_daily_journal
      |unfold Dogc.state_pick_notice_link];
      unfold bind; rewrite PendingFacts.maybe_route_eq, Hp;
      (split; reflexivity). }
  split; [|split; [|split; [|split]]]; [| exact Hentry | | |].
  - intros X c button w Hp. rewrite PendingFacts.maybe_route_eq, Hp.
    eexists. split; reflexivity.
  - intros c c' s. apply cookie_consent_returns.
  - intros c w. apply cookie_consent_without_button.
  - intros step X c c1 c2 button w s1 s2 ev1 ev2 HX Hp Hstep1 Hstep2.
    destruct (Hentry X c button w HX Hp) as (handler & c0 & Hh & Hrun & Hreg).
    apply FsmFacts.step_ok_inv in Hstep1.
    destruct Hstep1 as (handler' & c0' & Hh' & Hrun' & Hhook1).
    cbn [Fsm.handlers Fsm.on_transition Dogc.fsm Fsm.init] in Hh', Hhook1.
    rewrite Hh in Hh'. inversion Hh'; subst handler'.
    rewrite Hrun in Hrun'. inversion Hrun'; subst s1 c0'.
    assert (Hreg1 : Dogc.resume_state c1 = Some X).
    { rewrite <- Hreg. unfold Dogc.hook in Hhook1.
      exact (keeps_step _ _ _ _ (keeps_hook _ _) Hhook1). }
    apply FsmFacts.step_ok_inv in Hstep2.
    destruct Hstep2 as (handler2 & c3 & Hh2 & Hrun2 & Hhook2).
    cbn [Fsm.handlers Fsm.on_transition Dogc.fsm Fsm.init Dogc.handlers]
      in Hh2, Hhook2.
    inversion Hh2; subst handler2.
    destruct (cookie_consent_returns _ _ _ Hrun2) as (Hempty & Hs2 & _).
    rewrite Hreg1 in Hs2. simpl in Hs2. subst s2.
    split; [reflexivity|]. split; [exact Hreg1|]. split; [reflexivity|].
    rewrite <- Hempty. unfold Dogc.hook in Hhook2.
    exact (keeps_step _ _ _ _ (keeps_hook _ _) Hhook2).
Qed.

(** C7 in the scripted world with the overlay shown: the handler of
    [NAVIGATE_TO_START_MONTH] hands over to [COOKIE_CONSENT] with itself in
    the register, and the handler of [COOKIE_CONSENT] returns to
    [NAVIGATE_TO_START_MONTH] with the register empty. *)
Lemma C7_detour_through_cookie_consent_witness :
  exists c1 c2,
    Stub.dogc_handlers Dogc.NAVIGATE_TO_START_MONTH
    = Some (Dogc.state_navigate_to_start_month Stub.calendar Stub.click_month)
    /\ Dogc.state_navigate_to_start_month Stub.calendar Stub.click_month
         (Stub.dogc_context (Stub.mkStub true [] [] []) Stub.empty_db)
       = (Ok Dogc.COOKIE_CONSENT, c1)
    /\ Dogc.resume_state c1 = Some Dogc.NAVIGATE_TO_START_MONTH
    /\ Dogc.state_cookie_consent c1 = (Ok Dogc.NAVIGATE_TO_START_MONTH, c2)
    /\ Dogc.resume_state c2 = None.
Proof.
  pose proof (C7_detour_through_cookie_consent Stub.StubWorld Stub.stub_world
                Stub.calendar Stub.click_month Stub.click_month Stub.no_issues
                Stub.no_candidates Stub.empty_detail)
    as (_ & Hentry & Hback & _ & _).
  destruct (Hentry Dogc.NAVIGATE_TO_START_MONTH
              (Stub.dogc_context (Stub.mkStub true [] [] []) Stub.empty_db)
              tt (Stub.mkStub true [] [] [])
              ltac:(left; reflexivity) eq_refl)
    as (handler & c1 & Hh & Hrun & Hreg).
  inversion Hh; subst handler.
  destruct (Dogc.state_cookie_consent c1) as [[s|e] c2] eqn:Hcookie.
  - destruct (Hback c1 c2 s Hcookie) as (Hempty & Hs & _).
    rewrite Hreg in Hs. simpl in Hs. subst s.
    exists c1, c2. repeat split; assumption.
  - exfalso. inversion Hrun; subst c1. vm_compute in Hcookie. discriminate.
Defined.

(** The sentence of the specification does not hold: with a probe that
    reports the overlay once, to the handler of [NAVIGATE_TO_START_MONTH],
    and nothing afterwards, the handler of [COOKIE_CONSENT] finds no button
    and raises; the run does not return to [NAVIGATE_TO_START_MONTH]. *)
Lemma C7_probe_once_counterexample : ~ Claimed.detour_and_back.
Proof.
  intros Hclaim.
  destruct (Hclaim Stub.StubWorld Stub.stub_world
              Stub.calendar Stub.click_month Stub.click_month Stub.no_issues
              Stub.no_candidates Stub.empty_detail
              Dogc.NAVIGATE_TO_START_MONTH
              (Dogc.state_navigate_to_start_month Stub.calendar Stub.click_month)
              (Stub.dogc_context (Stub.mkStub false [true] [] []) Stub.empty_db)
              (snd (Dogc.state_navigate_to_start_month Stub.calendar
                      Stub.click_month
                      (Stub.dogc_context (Stub.mkStub false [true] [] [])
                                         Stub.empty_db)))
              ltac:(left; reflexivity) eq_refl
              ltac:(vm_compute; reflexivity) ltac:(vm_compute; reflexivity))
    as (c2 & Hcookie & _).
  vm_compute in Hcookie. discriminate.
Qed.

End DetourFacts.

(* ===================================================================== *)
(** * Lemmas on the monad and on strings *)
(* ===================================================================== *)

Module Basics.

Lemma bind_gets {St A B} (f : St -> A) (k : A -> M St B) (s : St) :
  bind (gets f) k s = k (f s) s.
Proof. reflexivity. Qed.

Lemma append_assoc (a b c : string) : (a +:+ b) +:+ c = a +:+ (b +:+ c).
Proof.
  induction a as [|x a IH]; [reflexivity|].
  change (String x ((a +:+ b) +:+ c) = String x (a +:+ (b +:+ c))).
  f_equal. exact IH.
Qed.

Lemma append_nil_r (a : string) : a +:+ "" = a.
Proof.
  induction a as [|x a IH]; [reflexivity|].
  change (String x (a +:+ "") = String x a). f_equal. exact IH.
Qed.

End Basics.

Module EngineFacts.
Import Fsm Notions.
Section Engine.
Context {S C : Type} `{EqDecision S}.
Variable str_of_state : S -> string.
Variable r : FSMRunner S C.

#[local] Abbreviation step := (step str_of_state r).
#[local] Abbreviation run_loop := (run_loop str_of_state r).
#[local] Abbreviation run := (run str_of_state r).
#[local] Abbreviation passes := (passes str_of_state r).

Lemma step_ok_trace state c next c' ev :
  step state c = (Ok next, c', ev) ->
  ev = HandlerCalled state
       :: (if bool_decide (is_Some (on_transition r)) then [HookCalled state next] else []).
Proof.
  unfold Fsm.step. destruct (handlers r state) as [h|]; [|discriminate].
  destruct (h c) as [[nx|e] c1]; [|discriminate].
  destruct (on_transition r) as [hook|].
  - destruct (hook c1 state nx) as [[u|e] c2]; [|discriminate].
    intros [= <- <- <-]. rewrite bool_decide_eq_true_2 by eauto. reflexivity.
  - intros [= <- <- <-]. rewrite bool_decide_eq_false_2; [reflexivity|].
    intros [x Hx]. discriminate.
Qed.

Lemma run_loop_ok_shape budget : forall state c out c' tr,
  run_loop budget state c = (Ok out, c', tr) ->
  out = terminal_state r
  /\ exists path,
       tr = trace_along (bool_decide (is_Some (on_transition r))) state path
       /\ last (state :: path) = Some (terminal_state r)
       /\ Forall (fun s => s <> terminal_state r) (departures state path)
       /\ (length path <= budget)%nat.
Proof.
  induction budget as [|b IH]; intros state c out c' tr; simpl;
    destruct (decide (state = terminal_state r)) as [->|Hne].
  - intros [= <- <- <-]. split; [reflexivity|]. exists []. simpl.
    repeat split; auto. 
  - discriminate.
  - intros [= <- <- <-]. split; [reflexivity|]. exists []. simpl.
    repeat split; auto; lia.
  - destruct (Fsm.step str_of_state r state c) as [[[nx|e] c1] ev] eqn:Hs; [|discriminate].
    destruct (Fsm.run_loop str_of_state r b nx c1) as [[o c2] tr2] eqn:Hl.
    intros [= -> <- <-].
    destruct (IH _ _ _ _ _ Hl) as (-> & path & -> & Hlast & Hall & Hlen).
    split; [reflexivity|]. exists (nx :: path).
    rewrite (step_ok_trace _ _ _ _ _ Hs). simpl.
    split; [reflexivity|]. split; [exact Hlast|]. split; [|lia].
    unfold departures in *. simpl. constructor; [exact Hne|]. exact Hall.
Qed.


(** What a pass leaves in the trace, whatever its outcome: nothing when the
    handler is missing, the handler call, and the hook call when the
    handler returned and there is a hook. *)
Lemma step_trace state c out c' ev :
  step state c = (out, c', ev) ->
  ev = [] \/ ev = [HandlerCalled state]
  \/ exists next, ev = [HandlerCalled state; HookCalled state next].
Proof.
  unfold Fsm.step. destruct (handlers r state) as [h|].
  2:{ intros [= <- <- <-]. auto. }
  destruct (h c) as [[nx|e] c1].
  2:{ intros [= <- <- <-]. auto. }
  destruct (on_transition r) as [hook|].
  - destruct (hook c1 state nx) as [[u|e] c2]; intros [= <- <- <-]; eauto.
  - intros [= <- <- <-]. auto.
Qed.

Lemma step_handler_calls state c out c' ev :
  step state c = (out, c', ev) -> (handler_calls ev <= 1)%nat.
Proof.
  intros Hs. destruct (step_trace _ _ _ _ _ Hs) as [->|[->|[nx ->]]];
    vm_compute; lia.
Qed.

Lemma step_trace_from state c out c' ev e :
  step state c = (out, c', ev) -> e ∈ ev ->
  e = HandlerCalled state \/ exists next, e = HookCalled state next.
Proof.
  intros Hs Hin.
  destruct (step_trace _ _ _ _ _ Hs) as [->|[->|[nx ->]]].
  - apply elem_of_nil in Hin. contradiction.
  - apply list_elem_of_singleton in Hin. auto.
  - apply elem_of_cons in Hin as [->|Hin]; [auto|].
    apply list_elem_of_singleton in Hin. eauto.
Qed.

Lemma run_loop_departures budget : forall state c out c' tr,
  run_loop budget state c = (out, c', tr) ->
  (forall s, HandlerCalled s ∈ tr -> s <> terminal_state r)
  /\ (forall s s', HookCalled s s' ∈ tr -> s <> terminal_state r)
  /\ (handler_calls tr <= budget)%nat.
Proof.
  assert (Hnil : forall b : nat,
            (forall s, HandlerCalled s ∈ @nil (Event S) -> s <> terminal_state r)
            /\ (forall s s', HookCalled s s' ∈ @nil (Event S) -> s <> terminal_state r)
            /\ (handler_calls (@nil (Event S)) <= b)%nat).
  { intros b. split; [|split].
    - intros s Hs. apply elem_of_nil in Hs. contradiction.
    - intros s s' Hs. apply elem_of_nil in Hs. contradiction.
    - unfold handler_calls. simpl. lia. }
  induction budget as [|b IH]; intros state c out c' tr; simpl;
    destruct (decide (state = terminal_state r)) as [->|Hne];
    try (intros [= <- <- <-]; apply Hnil).
  destruct (Fsm.step str_of_state r state c) as [[o1 c1] ev] eqn:Hs.
  pose proof (fun e => step_trace_from _ _ _ _ _ e Hs) as Hev.
  pose proof (step_handler_calls _ _ _ _ _ Hs) as Hcalls.
  assert (Hev1 : forall s, HandlerCalled s ∈ ev -> s <> terminal_state r).
  { intros s Hin. destruct (Hev _ Hin) as [[= ->]|[n [=]]]. exact Hne. }
  assert (Hev2 : forall s s', HookCalled s s' ∈ ev -> s <> terminal_state r).
  { intros s s' Hin. destruct (Hev _ Hin) as [[=]|[n [= -> _]]]. exact Hne. }
  destruct o1 as [nx|e].
  - destruct (Fsm.run_loop str_of_state r b nx c1) as [[o c2] tr2] eqn:Hl.
    intros [= <- <- <-].
    destruct (IH _ _ _ _ _ Hl) as (Hh & Hk & Hn).
    split; [|split].
    + intros s Hin. apply elem_of_app in Hin as [Hin|Hin]; eauto.
    + intros s s' Hin. apply elem_of_app in Hin as [Hin|Hin]; eauto.
    + rewrite FsmFacts.handler_calls_app. lia.
  - intros [= <- <- <-]. split; [|split]; [exact Hev1|exact Hev2|lia].
Qed.

(** X1.  When FSMRunner.run returns, it returns the terminal state, and the
    calls it made follow one path of states from the initial state to the
    terminal state: for each state of the path but the last, the handler of
    that state and then, when a hook is set, the hook on the transition to
    the next state of the path. No state of the path but the last is the
    terminal state, and the path has at most max_steps transitions. *)
Theorem run_returns_along_a_path (c c' : C) out tr :
  run c = (Ok out, c', tr) ->
  out = terminal_state r
  /\ exists path,
       tr = trace_along (bool_decide (is_Some (on_transition r)))
                        (initial_state r) path
       /\ last (initial_state r :: path) = Some (terminal_state r)
       /\ Forall (fun s => s <> terminal_state r)
                 (departures (initial_state r) path)
       /\ (length path <= Z.to_nat (max_steps (config r)))%nat.
Proof. apply run_loop_ok_shape. Qed.

(** X2.  Whether FSMRunner.run returns or raises, it never invokes the
    handler of the terminal state and never invokes the hook on a transition
    out of the terminal state, and it invokes handlers at most max_steps
    times. *)
Theorem run_never_invokes_the_terminal_handler (c : C) :
  let tr := snd (run c) in
  (forall s, HandlerCalled s ∈ tr -> s <> terminal_state r)
  /\ (forall s s', HookCalled s s' ∈ tr -> s <> terminal_state r)
  /\ (handler_calls tr <= Z.to_nat (max_steps (config r)))%nat.
Proof.
  intros tr. subst tr. unfold Fsm.run.
  destruct (Fsm.run_loop str_of_state r (Z.to_nat (max_steps (config r)))
              (initial_state r) c) as [[o c2] tr] eqn:Hl.
  exact (run_loop_departures _ _ _ _ _ _ Hl).
Qed.

Lemma run_after_passes k state c c1 tr :
  passes k (initial_state r) c = Some (state, c1, tr) ->
  (k < Z.to_nat (max_steps (config r)))%nat ->
  state <> terminal_state r ->
  run c = (let '(out, c2, ev) := step state c1 in
           match out with
           | Raise e => (Raise e, c2, tr ++ ev)
           | Ok next =>
               let '(out', c3, tr') :=
                 run_loop (Z.to_nat (max_steps (config r)) - k - 1) next c2 in
               (out', c3, tr ++ ev ++ tr')
           end).
Proof.
  intros Hp Hk Hne. unfold Fsm.run.
  rewrite (FsmFacts.run_loop_passes str_of_state r k _ _ _ _ _ _ Hp) by lia.
  destruct (Z.to_nat (max_steps (config r)) - k)%nat as [|b] eqn:Hb; [lia|].
  replace (Datatypes.S b - 1)%nat with b by lia.
  simpl. destruct (decide (state = terminal_state r)); [contradiction|].
  destruct (Fsm.step str_of_state r state c1) as [[[nx|e] c2] ev]; [|reflexivity].
  destruct (Fsm.run_loop str_of_state r b nx c2) as [[o c3] tr'].
  reflexivity.
Qed.

(** X3.  When run arrives, after fewer than max_steps transitions, at a
    state that is not the terminal state and has no handler in the table, it
    raises KeyError('Missing FSM handler for state: <state>'); the context
    is as the transitions so far left it, and nothing more is called. *)
Theorem run_missing_handler k state c c1 tr :
  passes k (initial_state r) c = Some (state, c1, tr) ->
  (k < Z.to_nat (max_steps (config r)))%nat ->
  state <> terminal_state r ->
  handlers r state = None ->
  run c = (Raise (KeyError (Msg "Missing FSM handler for state: {state}"
                                [VStr (str_of_state state)])),
           c1, tr).
Proof.
  intros Hp Hk Hne Hnone. rewrite (run_after_passes _ _ _ _ _ Hp Hk Hne).
  unfold Fsm.step. rewrite Hnone. rewrite app_nil_r. reflexivity.
Qed.

(** X4.  run catches nothing: an exception raised by a handler, or by the
    hook after a handler returned, leaves run as it was raised, with the
    context as the raising call left it; no later handler or hook is called,
    and when the handler raises the hook is not called for that step. *)
Theorem run_lets_exceptions_through k state c c1 tr handler :
  passes k (initial_state r) c = Some (state, c1, tr) ->
  (k < Z.to_nat (max_steps (config r)))%nat ->
  state <> terminal_state r ->
  handlers r state = Some handler ->
  (forall e c2,
     handler c1 = (Raise e, c2) ->
     run c = (Raise e, c2, tr ++ [HandlerCalled state]))
  /\
  (forall next c2 hook e c3,
     handler c1 = (Ok next, c2) ->
     on_transition r = Some hook ->
     hook c2 state next = (Raise e, c3) ->
     run c = (Raise e, c3, tr ++ [HandlerCalled state; HookCalled state next])).
Proof.
  intros Hp Hk Hne Hh. split.
  - intros e c2 He. rewrite (run_after_passes _ _ _ _ _ Hp Hk Hne).
    unfold Fsm.step. rewrite Hh, He. reflexivity.
  - intros next c2 hook e c3 Hn Hhook He.
    rewrite (run_after_passes _ _ _ _ _ Hp Hk Hne).
    unfold Fsm.step. rewrite Hh, Hn, Hhook, He. reflexivity.
Qed.

End Engine.

Lemma run_returns_along_a_path_witness :
  Fsm.run Stub.toy_str Stub.countdown 0
  = (Ok Stub.Halt, 3,
     [HandlerCalled Stub.Spin; HandlerCalled Stub.Spin; HandlerCalled Stub.Spin])
  /\ exists path,
       [HandlerCalled Stub.Spin; HandlerCalled Stub.Spin;
        HandlerCalled Stub.Spin]
       = trace_along false Stub.Spin path
       /\ last (Stub.Spin :: path) = Some Stub.Halt
       /\ Forall (fun s => s <> Stub.Halt) (departures Stub.Spin path)
       /\ (length path <= 3)%nat.
Proof.
  assert (Hrun : Fsm.run Stub.toy_str Stub.countdown 0
                 = (Ok Stub.Halt, 3,
                    [HandlerCalled Stub.Spin; HandlerCalled Stub.Spin;
                     HandlerCalled Stub.Spin])) by (vm_compute; reflexivity).
  split; [exact Hrun|].
  exact (proj2 (run_returns_along_a_path Stub.toy_str Stub.countdown 0 3
                  Stub.Halt _ Hrun)).
Defined.

Lemma run_missing_handler_witness :
  Fsm.run Stub.toy_str Cases.unwired 0
  = (Raise (KeyError (Msg "Missing FSM handler for state: {state}"
                          [VStr "Toy.Spin"])), 0, []).
Proof.
  assert (Hk : (0 < Z.to_nat (max_steps (config Cases.unwired)))%nat)
    by (vm_compute; lia).
  assert (Hne : Stub.Spin <> terminal_state Cases.unwired) by discriminate.
  exact (run_missing_handler Stub.toy_str Cases.unwired 0 Stub.Spin 0 0 []
           eq_refl Hk Hne eq_refl).
Defined.

Lemma run_lets_exceptions_through_witness :
  Fsm.run Stub.toy_str Cases.failing 0
  = (Raise Cases.boom, 1, [HandlerCalled Stub.Spin])
  /\ Fsm.run Stub.toy_str Cases.hook_failing 0
     = (Raise Cases.boom, 11,
        [HandlerCalled Stub.Spin; HookCalled Stub.Spin Stub.Halt]).
Proof.
  split.
  - assert (Hk : (0 < Z.to_nat (max_steps (config Cases.failing)))%nat)
      by (vm_compute; lia).
    assert (Hne : Stub.Spin <> terminal_state Cases.failing) by discriminate.
    exact (proj1 (run_lets_exceptions_through Stub.toy_str Cases.failing 0
                    Stub.Spin 0 0 [] _ eq_refl Hk Hne eq_refl)
                 Cases.boom 1 eq_refl).
  - assert (Hk : (0 < Z.to_nat (max_steps (config Cases.hook_failing)))%nat)
      by (vm_compute; lia).
    assert (Hne : Stub.Spin <> terminal_state Cases.hook_failing)
      by discriminate.
    exact (proj2 (run_lets_exceptions_through Stub.toy_str Cases.hook_failing 0
                    Stub.Spin 0 0 [] _ eq_refl Hk Hne eq_refl)
                 Stub.Halt 1 _ Cases.boom 11 eq_refl eq_refl eq_refl).
Defined.

End EngineFacts.

Module ArtifactFacts.
Import Artifacts Notions Basics.

Lemma pretty_N_char_digit (x : N) :
  (x < 10)%N ->
  is_digit (pretty_N_char x) = true /\ digit (pretty_N_char x) = Z.of_N x.
Proof.
  intros Hx.
  assert (x = 0 \/ x = 1 \/ x = 2 \/ x = 3 \/ x = 4 \/ x = 5 \/ x = 6
          \/ x = 7 \/ x = 8 \/ x = 9)%N as Hc by lia.
  repeat (destruct Hc as [->|Hc]; [split; reflexivity|]). subst x.
  split; reflexivity.
Qed.

Lemma leading_number_pretty_N_go (x : N) : forall acc s,
  exists k : nat,
    leading_number_from acc (pretty_N_go x s)
    = leading_number_from (acc * 10 ^ Z.of_nat k + Z.of_N x) s.
Proof.
  induction (N.lt_wf_0 x) as [x _ IH]; intros acc s.
  destruct (decide (x = 0)%N) as [->|Hx].
  - exists 0%nat. rewrite pretty_N_go_0. f_equal. simpl. lia.
  - rewrite pretty_N_go_step by lia.
    destruct (IH (x `div` 10)%N) with (acc := acc)
      (s := String (pretty_N_char (x `mod` 10)) s) as [k Hk].
    { apply N.div_lt; lia. }
    exists (S k). rewrite Hk. simpl.
    destruct (pretty_N_char_digit (x `mod` 10)%N) as [Hd Hv].
    { apply N.mod_lt. lia. }
    rewrite Hd, Hv. f_equal.
    rewrite Nat2Z.inj_succ, Z.pow_succ_r by lia.
    rewrite (N.div_mod x 10) at 3 by lia.
    rewrite N2Z.inj_add, N2Z.inj_mul. simpl Z.of_N. lia.
Qed.

Lemma pretty_N_go_app (x : N) : forall s t,
  pretty_N_go x s +:+ t = pretty_N_go x (s +:+ t).
Proof.
  induction (N.lt_wf_0 x) as [x _ IH]; intros s t.
  destruct (decide (x = 0)%N) as [->|Hx].
  - rewrite !pretty_N_go_0. reflexivity.
  - rewrite !(pretty_N_go_step x) by lia. rewrite IH by (apply N.div_lt; lia).
    reflexivity.
Qed.

Lemma leading_number_zeros (k : nat) (s : string) :
  leading_number_from 0 (zeros k +:+ s) = leading_number_from 0 s.
Proof. induction k as [|k IH]; [reflexivity|]. simpl. exact IH. Qed.

(** The number in front of a file name is the counter. *)
Lemma leading_number_fmt_0d (width : nat) (z : Z) (rest : string) :
  0 <= z ->
  leading_number (fmt_0d width z +:+ String "_" rest) = z.
Proof.
  intros Hz. unfold leading_number, fmt_0d.
  destruct (Z.ltb_spec z 0) as [?|_]; [lia|].
  rewrite append_assoc, leading_number_zeros.
  rewrite Z.abs_eq by lia.
  destruct z as [|p|p]; [reflexivity| |lia].
  change (pretty (Z.pos p)) with (pretty_N_go (N.pos p) "").
  rewrite pretty_N_go_app.
  destruct (leading_number_pretty_N_go (N.pos p) 0 ("" +:+ String "_" rest))
    as [k ->].
  simpl. lia.
Qed.

Lemma step_prefix_number (counter : Z) (state note ext : string) :
  0 <= counter ->
  leading_number (step_prefix counter state note +:+ ext) = counter.
Proof.
  intros Hc. unfold step_prefix.
  destruct (negb (String.eqb note "")); rewrite !append_assoc;
    change ("_" +:+ ?x) with (String "_" x);
    apply leading_number_fmt_0d; exact Hc.
Qed.

(** ** Paths: [joinpath] keeps the file name at the end *)

Lemma append_cons (c : ascii) (s t : string) :
  String c s +:+ t = String c (s +:+ t).
Proof. reflexivity. Qed.

Lemma append_nil_l (t : string) : "" +:+ t = t.
Proof. reflexivity. Qed.

Lemma is_digit_not_slash (a : ascii) :
  is_digit a = true -> Ascii.eqb a "/" = false /\ a <> "."%char.
Proof.
  intros Hd. split.
  - destruct (Ascii.eqb_spec a "/") as [->|]; [discriminate|reflexivity].
  - intros ->. discriminate.
Qed.

(** The digits that a string starts with are those of what stands before
    its first slash. *)
Lemma lead_first_part (s : string) : forall acc,
  exists x xs,
    split_slash s = x :: xs
    /\ forall t, (t = "" \/ exists t', t = String "/" t') ->
         leading_number_from acc (x +:+ t) = leading_number_from acc s.
Proof.
  induction s as [|c s IH]; intros acc.
  - exists "", []. split; [reflexivity|].
    intros t [->|[t' ->]]; reflexivity.
  - cbn [split_slash]. destruct (Ascii.eqb_spec c "/") as [->|Hc].
    + exists "", (split_slash s). split; [reflexivity|].
      intros t [->|[t' ->]]; reflexivity.
    + destruct (IH (acc * 10 + digit c)) as (x & xs & Hsplit & Hlead).
      rewrite Hsplit. exists (String c x), xs. split; [reflexivity|].
      intros t Ht. rewrite append_cons. cbn [leading_number_from].
      destruct (is_digit c); [apply Hlead; exact Ht|reflexivity].
Qed.

Lemma join_slash_cons (x : string) (rest : list string) :
  exists t, join_slash (x :: rest) = x +:+ t
            /\ (t = "" \/ exists t', t = String "/" t').
Proof.
  destruct rest as [|y rest].
  - exists "". split; [symmetry; apply append_nil_r|auto].
  - exists ("/" +:+ join_slash (y :: rest)). split; [reflexivity|].
    right. eexists. reflexivity.
Qed.

(** The number in front of a path that starts with a digit is the number
    in front of its first part. *)
Lemma normal_lead (a : ascii) (s : string) :
  is_digit a = true ->
  leading_number (join_slash (path_parts (String a s)))
  = leading_number (String a s)
  /\ path_parts (String a s) <> [].
Proof.
  intros Hd. destruct (is_digit_not_slash a Hd) as [Hslash Hdot].
  unfold leading_number, path_parts.
  destruct (lead_first_part (String a s) 0) as (x & xs & Hsplit & Hlead).
  assert (Hx : exists x', x = String a x').
  { revert Hsplit. cbn [split_slash]. rewrite Hslash.
    destruct (split_slash s) as [|y ys]; intros [= <- _]; eauto. }
  destruct Hx as [x' ->]. rewrite Hsplit.
  rewrite filter_cons_True.
  2:{ split; [discriminate|]. intros [= -> _]. apply Hdot. reflexivity. }
  split; [|discriminate].
  destruct (join_slash_cons (String a x')
              (filter (fun x => x <> "" /\ x <> ".") xs)) as (t & -> & Ht).
  apply Hlead. exact Ht.
Qed.

Lemma ends_with_slash_app (dir : string) :
  ends_with_slash (dir +:+ "/") = true.
Proof.
  induction dir as [|c dir IH]; [reflexivity|].
  rewrite append_cons. cbn [ends_with_slash].
  destruct (dir +:+ "/") eqn:E; [|exact IH].
  destruct dir; discriminate.
Qed.

(** What stands after a string that ends with a slash starts a part of its
    own. *)
Lemma split_slash_after (r : string) :
  ends_with_slash r = true ->
  exists a A0,
    forall seg, split_slash (r +:+ seg) = a :: A0 ++ split_slash seg.
Proof.
  induction r as [|c r IH]; [discriminate|].
  intros Hr. destruct r as [|c' r'].
  - cbn [ends_with_slash] in Hr. apply Ascii.eqb_eq in Hr. subst c.
    exists "", []. intros seg. reflexivity.
  - destruct (IH Hr) as (a & A0 & Happ).
    destruct (Ascii.eqb c "/") eqn:Hc.
    + exists "", (a :: A0). intros seg.
      rewrite append_cons. cbn [split_slash]. rewrite Hc, Happ. reflexivity.
    + exists (String c a), A0. intros seg.
      rewrite append_cons. cbn [split_slash]. rewrite Hc, Happ. reflexivity.
Qed.

Lemma join_slash_app (F : list string) :
  exists K, forall Q, Q <> [] -> join_slash (F ++ Q) = K +:+ join_slash Q.
Proof.
  induction F as [|x F [K IH]].
  - exists "". intros Q _. reflexivity.
  - exists (x +:+ "/" +:+ K). intros Q HQ.
    rewrite <- app_comm_cons. cbn [join_slash].
    destruct (F ++ Q) as [|y rest] eqn:E.
    { destruct F; [simpl in E; contradiction|discriminate]. }
    rewrite <- E, IH by exact HQ. rewrite !append_assoc. reflexivity.
Qed.

(** The root and what follows it, for a path that goes on after a
    slash. *)
Lemma splitroot_app (d : string) :
  d = "" \/ ends_with_slash d = true ->
  exists root rel,
    (rel = "" \/ ends_with_slash rel = true)
    /\ forall a s, Ascii.eqb a "/" = false ->
         splitroot (d +:+ String a s) = (root, rel +:+ String a s).
Proof.
  intros Hd. destruct d as [|c1 d1].
  { exists "", "". split; [auto|]. intros a s Ha.
    rewrite append_nil_l. cbn [splitroot]. rewrite Ha. reflexivity. }
  destruct Hd as [Hd|Hd]; [discriminate|].
  destruct (Ascii.eqb c1 "/") eqn:H1.
  2:{ exists "", (String c1 d1). split; [auto|]. intros a s Ha.
      rewrite append_cons. cbn [splitroot]. rewrite H1. reflexivity. }
  destruct d1 as [|c2 d2].
  { exists "/", "". split; [auto|]. intros a s Ha.
    rewrite append_cons, append_nil_l. cbn [splitroot]. rewrite H1, Ha.
    reflexivity. }
  destruct (Ascii.eqb c2 "/") eqn:H2.
  2:{ exists "/", (String c2 d2). split; [right; exact Hd|]. intros a s Ha.
      rewrite !append_cons. cbn [splitroot]. rewrite H1, H2. reflexivity. }
  destruct d2 as [|c3 d3].
  { exists "//", "". split; [auto|]. intros a s Ha.
    rewrite !append_cons, append_nil_l. cbn [splitroot]. rewrite H1, H2, Ha.
    reflexivity. }
  destruct (Ascii.eqb c3 "/") eqn:H3.
  - exists "/", (String c2 (String c3 d3)). split; [right; exact Hd|].
    intros a s Ha. rewrite !append_cons. cbn [splitroot].
    rewrite H1, H2, H3. reflexivity.
  - exists "//", (String c3 d3). split; [right; exact Hd|].
    intros a s Ha. rewrite !append_cons. cbn [splitroot].
    rewrite H1, H2, H3. reflexivity.
Qed.

(** A file name that starts with a digit is put, with its slashes
    normalised, after a prefix that the directory alone decides. *)
Lemma joinpath_frame (dir : string) :
  exists K, forall a s,
    is_digit a = true ->
    joinpath dir (String a s) = K +:+ join_slash (path_parts (String a s)).
Proof.
  set (d := if String.eqb dir "" || ends_with_slash dir then dir
            else dir +:+ "/").
  assert (Hd : d = "" \/ ends_with_slash d = true).
  { subst d. destruct (String.eqb_spec dir "") as [->|_]; [left; reflexivity|].
    cbn [orb]. destruct (ends_with_slash dir) eqn:E; [right; exact E|].
    right. apply ends_with_slash_app. }
  destruct (splitroot_app d Hd) as (root & rel & Hrel & Hroot).
  assert (Hparts : exists F, forall seg,
             path_parts (rel +:+ seg) = F ++ path_parts seg).
  { destruct Hrel as [->|Hrel].
    - exists []. intros seg. reflexivity.
    - destruct (split_slash_after rel Hrel) as (a & A0 & Happ).
      exists (filter (fun x => x <> "" /\ x <> ".") (a :: A0)). intros seg.
      unfold path_parts. rewrite Happ, app_comm_cons, filter_app.
      reflexivity. }
  destruct Hparts as [F HF]. destruct (join_slash_app F) as [K HK].
  exists (root +:+ K). intros a s Ha.
  destruct (is_digit_not_slash a Ha) as [Hslash _].
  destruct (normal_lead a s Ha) as [_ Hne].
  assert (Hjoin : posixpath_join dir (String a s) = d +:+ String a s).
  { unfold posixpath_join. cbn [String.prefix].
    destruct (ascii_dec "/" a) as [<-|_]; [discriminate|].
    subst d. destruct (String.eqb dir "" || ends_with_slash dir);
      [reflexivity|]. rewrite append_assoc. reflexivity. }
  unfold joinpath. rewrite Hjoin, Hroot by exact Hslash.
  rewrite HF, HK by exact Hne. rewrite <- append_assoc.
  destruct (String.eqb_spec ((root +:+ K)
                             +:+ join_slash (path_parts (String a s))) "")
    as [E|_]; [|reflexivity].
  exfalso. destruct (path_parts (String a s)) as [|x xs] eqn:Ex;
    [contradiction|].
  assert (Hx : x <> "").
  { assert (Hin : x ∈ path_parts (String a s))
      by (rewrite Ex; apply list_elem_of_here).
    unfold path_parts in Hin. apply list_elem_of_filter in Hin as [[Hx _] _].
    exact Hx. }
  destruct (join_slash_cons x xs) as (t & Ht & _). rewrite Ht in E.
  destruct (root +:+ K); [|discriminate]. rewrite append_nil_l in E.
  destruct x; [contradiction|discriminate].
Qed.

(** A file name of [capture] starts with a digit. *)
Lemma pretty_N_go_head (x : N) : forall s,
  (0 < x)%N ->
  exists a s', pretty_N_go x s = String a s' /\ is_digit a = true.
Proof.
  induction (N.lt_wf_0 x) as [x _ IH]; intros s Hx.
  rewrite pretty_N_go_step by lia.
  destruct (decide (x `div` 10 = 0)%N) as [E|E].
  - rewrite E, pretty_N_go_0. eexists _, _. split; [reflexivity|].
    apply pretty_N_char_digit. apply N.mod_lt. lia.
  - apply IH; [apply N.div_lt; lia|]. apply N.neq_0_lt_0. exact E.
Qed.

Lemma step_prefix_head (counter : Z) (state note ext : string) :
  0 <= counter ->
  exists a s, step_prefix counter state note +:+ ext = String a s
              /\ is_digit a = true.
Proof.
  intros Hc.
  assert (Hfmt : forall rest, exists a s,
             fmt_0d 3 counter +:+ rest = String a s /\ is_digit a = true).
  { intros rest. unfold fmt_0d.
    destruct (Z.ltb_spec counter 0) as [?|_]; [lia|].
    destruct (3 - String.length (pretty (Z.abs counter)))%nat as [|k].
    - cbn [zeros]. rewrite append_nil_l, Z.abs_eq by lia.
      destruct counter as [|p|p]; [eexists _, _; split; reflexivity| |lia].
      change (pretty (Z.pos p)) with (pretty_N_go (N.pos p) "").
      rewrite pretty_N_go_app.
      apply pretty_N_go_head. lia.
    - cbn [zeros]. rewrite !append_cons. eexists _, _. split; reflexivity. }
  unfold step_prefix.
  destruct (negb (String.eqb note "")); rewrite !append_assoc; apply Hfmt.
Qed.

Section Writer.
Context {W : Type} `{World W}.

(** What [capture] returns when it returns, and the writer after it. *)
Lemma capture_ok_inv (state note : string) (a : ArtifactWriter) (w : W)
  (created : Created) (st : St) :
  capture state note (a, w) = (Ok created, st) ->
  let name := step_prefix (counter a + 1) state note in
  created = mkCreated (joinpath (steps_dir a) (name +:+ ".png"))
                      (joinpath (steps_dir a) (name +:+ ".html"))
                      (joinpath (steps_dir a) (name +:+ ".json"))
  /\ fst st = mkWriter (run_dir a) (steps_dir a) (counter a + 1).
Proof.
  unfold capture, bind, modify, gets, in_world, ret, step_prefix. simpl.
  destruct (driver_save_screenshot _ w) as [[b|e] w1]; [|discriminate]. simpl.
  destruct (driver_page_source w1) as [[src|e] w2]; [|discriminate]. simpl.
  destruct (path_write_text _ _ w2) as [[u|e] w3]; [|discriminate]. simpl.
  destruct (utcnow_isoformat w3) as [[t|e] w4]; [|discriminate]. simpl.
  destruct (driver_current_url w4) as [[url|e] w5]; [|discriminate]. simpl.
  destruct (driver_title w5) as [[ttl|e] w6]; [|discriminate]. simpl.
  destruct (path_write_text _ _ w6) as [[u'|e] w7]; [|discriminate]. simpl.
  intros [= <- <-]. split; reflexivity.
Qed.

(** X5.  ArtifactWriter.capture advances the step counter by exactly one at
    every call, also at a call that raises while it takes the screenshot or
    writes a file; run_dir and steps_dir stay as they are. *)
Theorem capture_counts_every_call (state note : string) (a : ArtifactWriter)
  (w : W) :
  fst (snd (capture state note (a, w)))
  = mkWriter (run_dir a) (steps_dir a) (counter a + 1).
Proof.
  unfold capture, bind, modify, gets, in_world, ret. simpl.
  destruct (driver_save_screenshot _ w) as [[b|e] w1]; [|reflexivity]. simpl.
  destruct (driver_page_source w1) as [[src|e] w2]; [|reflexivity]. simpl.
  destruct (path_write_text _ _ w2) as [[u|e] w3]; [|reflexivity]. simpl.
  destruct (utcnow_isoformat w3) as [[t|e] w4]; [|reflexivity]. simpl.
  destruct (driver_current_url w4) as [[url|e] w5]; [|reflexivity]. simpl.
  destruct (driver_title w5) as [[ttl|e] w6]; [|reflexivity]. simpl.
  destruct (path_write_text _ _ w6) as [[u'|e] w7]; reflexivity.
Qed.

(** X6.  Two captures that succeed, from writers with the same steps
    directory and different counters (not negative), never give the same
    path to any two of their files, whatever the states and notes: a file
    name starts with the counter in decimal. The paths are joined as pathlib
    joins POSIX paths (steps_dir / name): an absolute name replaces the
    directory, repeated slashes and '.' parts are dropped. *)
Theorem capture_never_reuses_a_name (a b : ArtifactWriter) (w w' : W)
  (state1 note1 state2 note2 : string) (r1 r2 : Created) (st1 st2 : St) :
  steps_dir a = steps_dir b ->
  0 <= counter a < counter b ->
  capture state1 note1 (a, w) = (Ok r1, st1) ->
  capture state2 note2 (b, w') = (Ok r2, st2) ->
  forall p q, p ∈ [png r1; html r1; meta r1] -> q ∈ [png r2; html r2; meta r2] ->
              p <> q.
Proof.
  intros Hdir Hc H1 H2 p q Hp Hq Heq.
  apply capture_ok_inv in H1 as [-> _]. apply capture_ok_inv in H2 as [-> _].
  simpl in Hp, Hq. rewrite <- Hdir in Hq.
  assert (Hnum : forall dir s1 n1 s2 n2 e1 e2 c1 c2,
             0 <= c1 -> 0 <= c2 ->
             joinpath dir (step_prefix c1 s1 n1 +:+ e1)
             = joinpath dir (step_prefix c2 s2 n2 +:+ e2) -> c1 = c2).
  { intros dir s1 n1 s2 n2 e1 e2 c1 c2 Hc1 Hc2 Hj.
    destruct (joinpath_frame dir) as [K HK].
    destruct (step_prefix_head c1 s1 n1 e1 Hc1) as (a1 & t1 & E1 & Hd1).
    destruct (step_prefix_head c2 s2 n2 e2 Hc2) as (a2 & t2 & E2 & Hd2).
    rewrite <- (step_prefix_number c1 s1 n1 e1 Hc1).
    rewrite <- (step_prefix_number c2 s2 n2 e2 Hc2).
    rewrite E1, E2 in Hj |- *. rewrite !HK in Hj by assumption.
    apply String.app_inj in Hj.
    rewrite <- (proj1 (normal_lead a1 t1 Hd1)).
    rewrite <- (proj1 (normal_lead a2 t2 Hd2)). rewrite Hj. reflexivity. }
  repeat (apply elem_of_cons in Hp as [->|Hp]);
    try (apply elem_of_nil in Hp; contradiction);
    repeat (apply elem_of_cons in Hq as [->|Hq]);
    try (apply elem_of_nil in Hq; contradiction);
    apply Hnum in Heq; lia.
Qed.

End Writer.

Lemma capture_never_reuses_a_name_witness :
  fst (capture "HOME" "" (mkWriter "run" "run/steps" 0, Stub.quiet))
  = Ok (mkCreated "run/steps/001_home.png" "run/steps/001_home.html"
                  "run/steps/001_home.json")
  /\ forall p q,
       p ∈ ["run/steps/001_home.png"; "run/steps/001_home.html";
            "run/steps/001_home.json"] ->
       q ∈ ["run/steps/002_home.png"; "run/steps/002_home.html";
            "run/steps/002_home.json"] ->
       p <> q.
Proof.
  assert (Hdir : steps_dir (mkWriter "run" "run/steps" 0)
                 = steps_dir (mkWriter "run" "run/steps" 1)) by reflexivity.
  assert (Hc : 0 <= counter (mkWriter "run" "run/steps" 0)
               < counter (mkWriter "run" "run/steps" 1)) by (simpl; lia).
  split; [vm_compute; reflexivity|].
  exact (capture_never_reuses_a_name
           (mkWriter "run" "run/steps" 0) (mkWriter "run" "run/steps" 1)
           Stub.quiet Stub.quiet "HOME" "" "HOME" ""
           (mkCreated "run/steps/001_home.png" "run/steps/001_home.html"
                      "run/steps/001_home.json")
           (mkCreated "run/steps/002_home.png" "run/steps/002_home.html"
                      "run/steps/002_home.json")
           (mkWriter "run" "run/steps" 1,
            Stub.mkStub false [] []
              ["run/steps/001_home.html"; "run/steps/001_home.json"])
           (mkWriter "run" "run/steps" 2,
            Stub.mkStub false [] []
              ["run/steps/002_home.html"; "run/steps/002_home.json"])
           Hdir Hc eq_refl eq_refl).
Defined.

End ArtifactFacts.

Module RoundTrip.
Import Notions.

Lemma four_digits_all : forallb four_digits (map Z.of_nat (seq 1 (Z.to_nat 9999))) = true.
Proof. vm_compute. reflexivity. Qed.

Lemma fmt_year (y : Z) :
  1 <= y <= 9999 ->
  exists a b c e,
    fmt_0d 4 y = String a (String b (String c (String e EmptyString)))
    /\ is_digit a = true /\ is_digit b = true /\ is_digit c = true
    /\ is_digit e = true
    /\ 1000 * digit a + 100 * digit b + 10 * digit c + digit e = y.
Proof.
  intros Hy.
  assert (Hin : In y (map Z.of_nat (seq 1 (Z.to_nat 9999)))).
  { apply in_map_iff. exists (Z.to_nat y). split; [lia|]. apply in_seq. lia. }
  pose proof (proj1 (forallb_forall _ _) four_digits_all y Hin) as Hc.
  unfold four_digits in Hc.
  destruct (fmt_0d 4 y) as [|a [|b [|c [|e [|x s]]]]]; try discriminate.
  apply andb_prop in Hc as [Hc He]. apply andb_prop in Hc as [Hc Hd4].
  apply andb_prop in Hc as [Hc Hd3]. apply andb_prop in Hc as [Hd1 Hd2].
  exists a, b, c, e. repeat split; auto. apply Z.eqb_eq. exact He.
Qed.

Lemma small_cases (n hi : Z) (P : Z -> Prop) :
  1 <= n <= hi -> Forall P (map Z.of_nat (seq 1 (Z.to_nat hi))) -> P n.
Proof.
  intros Hn Hall. rewrite Forall_forall in Hall. apply Hall.
  apply list_elem_of_In, in_map_iff. exists (Z.to_nat n). split; [lia|].
  apply in_seq. lia.
Qed.

Lemma fmt_month (m : Z) (rest : string) :
  1 <= m <= 12 ->
  match_m (fmt_0d 2 m +:+ String "-" rest) = Some (m, String "-" rest).
Proof.
  intros Hm. revert rest. pattern m. apply (small_cases m 12); [exact Hm|].
  repeat constructor.
Qed.

Lemma fmt_day (d : Z) :
  1 <= d <= 31 ->
  match_d (fmt_0d 2 d) = Some (d, EmptyString)
  /\ rstrip (fmt_0d 2 d) = fmt_0d 2 d /\ fmt_0d 2 d <> "".
Proof.
  intros Hd. pattern d. apply (small_cases d 31); [exact Hd|].
  repeat constructor; discriminate.
Qed.

Lemma digit_not_space (c : ascii) : is_digit c = true -> isspace c = false.
Proof.
  destruct c as [[] [] [] [] [] [] [] []]; vm_compute; congruence.
Qed.

Lemma rstrip_app (s t : string) :
  rstrip t = t -> t <> "" -> rstrip (s +:+ t) = s +:+ t.
Proof.
  intros Ht Hne. induction s as [|c s IH]; [exact Ht|].
  change (String c s +:+ t) with (String c (s +:+ t)).
  cbn [rstrip]. rewrite IH.
  destruct (s +:+ t) eqn:E; [|reflexivity].
  destruct s; [simpl in E; contradiction|discriminate].
Qed.

Lemma days_in_month_le (y m : Z) : days_in_month y m <= 31.
Proof.
  unfold days_in_month. destruct ((m =? 2) && is_leap y); [lia|].
  destruct (Z.to_nat m) as [|[|[|[|[|[|[|[|[|[|[|[|[|n]]]]]]]]]]]]]; simpl; try lia.
  destruct n; simpl; lia.
Qed.

Lemma valid_date_ranges (d : date) :
  valid_date d = true ->
  1 <= year d <= 9999 /\ 1 <= month d <= 12 /\ 1 <= day d <= 31.
Proof.
  unfold valid_date, MINYEAR, MAXYEAR. intros Hv.
  repeat (apply andb_prop in Hv as [Hv ?]).
  pose proof (days_in_month_le (year d) (month d)). lia.
Qed.

(** X7.  For every date d that the date constructor accepts (year 1 to
    9999), parsing d.isoformat() with the format %Y-%m-%d gives d back;
    parse_iso_date(d.isoformat(), flag=...) therefore returns d for every
    flag. *)
Theorem parse_iso_date_reads_isoformat (d : date) :
  valid_date d = true ->
  strptime_ymd (Dogc.isoformat d) = Some d
  /\ forall flag, Boe.parse_iso_date (Dogc.isoformat d) flag = Ok d.
Proof.
  intros Hv. destruct (valid_date_ranges d Hv) as (Hy & Hm & Hd).
  destruct (fmt_year (year d) Hy) as (a & b & c & e & Hfmt & Ha & Hb & Hc & He & Hval).
  destruct (fmt_day (day d) Hd) as (Hday & Hrs & Hne).
  assert (Hiso : Dogc.isoformat d
                 = String a (String b (String c (String e
                     (String "-" (fmt_0d 2 (month d)
                                  +:+ String "-" (fmt_0d 2 (day d)))))))).
  { unfold Dogc.isoformat. rewrite Hfmt. reflexivity. }
  assert (Hparse : strptime_ymd (Dogc.isoformat d) = Some d).
  { rewrite Hiso. cbn [strptime_ymd]. rewrite Ha, Hb, Hc, He.
    cbn [andb Ascii.eqb Bool.eqb]. rewrite fmt_month by exact Hm.
    cbn [Ascii.eqb Bool.eqb andb]. rewrite Hday, Hval.
    destruct d as [y m dd]. simpl in *. rewrite Hv. reflexivity. }
  split; [exact Hparse|]. intros flag. unfold Boe.parse_iso_date.
  assert (Hstrip : strip (Dogc.isoformat d) = Dogc.isoformat d).
  { unfold strip. rewrite Hiso. cbn [lstrip]. rewrite (digit_not_space a Ha).
    change (String a (String b (String c (String e
              (String "-" (fmt_0d 2 (month d) +:+ String "-" (fmt_0d 2 (day d))))))))
      with ((String a (String b (String c (String e
              (String "-" (fmt_0d 2 (month d))))))) +:+ String "-" (fmt_0d 2 (day d))).
    apply rstrip_app; [|discriminate].
    apply (rstrip_app "-" (fmt_0d 2 (day d))); assumption. }
  rewrite Hstrip, Hparse. reflexivity.
Qed.


Lemma parse_iso_date_reads_isoformat_witness :
  Dogc.isoformat (Stub.d 2024 2 29) = "2024-02-29"
  /\ strptime_ymd "2024-02-29" = Some (Stub.d 2024 2 29)
  /\ forall flag, Boe.parse_iso_date "2024-02-29" flag = Ok (Stub.d 2024 2 29).
Proof.
  split; [reflexivity|].
  exact (parse_iso_date_reads_isoformat (Stub.d 2024 2 29) eq_refl).
Defined.

End RoundTrip.

Module StoreFacts.
Import Sql SqlFacts NoticeFacts PendingFacts DateFacts.

Lemma pending_elem (source_id : Z) (db : Db) (row : DailyJournal) :
  row ∈ select_pending_daily_journals source_id db
  <-> row ∈ daily_journals db /\ dj_source_id row = source_id
      /\ count_notices db row = 0%nat.
Proof.
  unfold select_pending_daily_journals.
  rewrite (order_by_perm _), list_elem_of_filter. tauto.
Qed.

Lemma count_notices_insert daily_journal_id title category department url
  content extra_info db row :
  count_notices (insert_notice daily_journal_id title category department url
                               content extra_info db) row
  = (count_notices db row
     + if decide (daily_journal_id = dj_id row) then 1 else 0)%nat.
Proof.
  unfold count_notices, insert_notice. simpl.
  rewrite filter_app, length_app. f_equal.
  rewrite filter_cons, filter_nil. simpl.
  destruct (decide (daily_journal_id = dj_id row)); reflexivity.
Qed.

Lemma count_notices_update title category department url content extra_info id
  db row :
  count_notices (update_notice title category department url content
                               extra_info id db) row
  = count_notices db row.
Proof.
  unfold count_notices, update_notice, set_notices. simpl.
  induction (notices db) as [|n t IH]; [reflexivity|].
  cbn [map]. rewrite !filter_cons.
  destruct (n_id n =? id); simpl;
    destruct (decide (n_daily_journal_id n = dj_id row)); simpl; rewrite IH;
    reflexivity.
Qed.

Lemma count_notices_pos db row n :
  n ∈ notices db -> n_daily_journal_id n = dj_id row ->
  count_notices db row <> 0%nat.
Proof.
  intros Hin Hn Hz. unfold count_notices in Hz.
  apply length_zero_iff_nil in Hz.
  assert (n ∈ filter (fun n => n_daily_journal_id n = dj_id row) (notices db))
    as Hf by (apply list_elem_of_filter; auto).
  rewrite Hz in Hf. apply elem_of_nil in Hf. exact Hf.
Qed.

(** X8.  After upsert_notice for an issue, an issue is returned by the
    pending query (the issues of a source that have no notice) exactly when
    it was returned before and is not the issue that the notice was written
    for: one upsert takes that issue, and no other, out of the pending
    issues. *)
Theorem upsert_notice_settles_the_issue (daily_journal_id : Z)
  (title category department url content extra_info : string) (db : Db)
  (source_id : Z) (row : DailyJournal) :
  let db' := snd (Shared.upsert_notice daily_journal_id title category
                    department url content extra_info db) in
  row ∈ select_pending_daily_journals source_id db'
  <-> row ∈ select_pending_daily_journals source_id db
      /\ dj_id row <> daily_journal_id.
Proof.
  intros db'. subst db'. rewrite upsert_notice_eq. cbn [snd].
  rewrite !pending_elem.
  destruct (match (if negb (String.eqb url "")
                   then select_notice_id_by_url daily_journal_id url db
                   else None) with
            | Some id => Some id
            | None => select_notice_id_by_title daily_journal_id title db
            end) as [id|] eqn:Hres.
  - (* a row of the issue is rewritten *)
    assert (Hex : exists n, n ∈ notices db /\ n_daily_journal_id n = daily_journal_id).
    { destruct (negb (String.eqb url "")).
      - destruct (select_notice_id_by_url daily_journal_id url db) as [i|] eqn:Hu.
        + apply select_least in Hu as [(n & Hn & [Hj _] & _) _]. eauto.
        + apply select_least in Hres as [(n & Hn & [Hj _] & _) _]. eauto.
      - apply select_least in Hres as [(n & Hn & [Hj _] & _) _]. eauto. }
    destruct Hex as (n & Hn & Hj).
    rewrite count_notices_update.
    change (daily_journals (update_notice title category department url content
                                          extra_info id db))
      with (daily_journals db).
    split; [|tauto]. intros (H1 & H2 & H3). repeat split; auto.
    intros Heq. apply (count_notices_pos db row n Hn); congruence.
  - rewrite count_notices_insert.
    change (daily_journals (insert_notice daily_journal_id title category
                                          department url content extra_info db))
      with (daily_journals db).
    destruct (decide (daily_journal_id = dj_id row)) as [Heq|Hne].
    + split; [intros (_ & _ & H3); lia|]. intros [_ Hne]. congruence.
    + rewrite Nat.add_0_r. split; [|tauto]. intros (H1 & H2 & H3).
      repeat split; auto.
Qed.


Ltac date_order :=
  repeat match goal with
         | H : date_ltb _ _ = true |- _ => apply date_ltb_spec in H
         | H : date_ltb _ _ = false |- _ =>
             apply date_ltb_false_leb, date_leb_spec in H
         end;
  repeat match goal with
         | x : date |- _ => destruct x
         end;
  cbn [year month day] in *;
  try reflexivity; try (exfalso; lia); try (f_equal; lia).

(** [MAX] with one more date. *)
Lemma max_date_app (l : list date) (d : date) :
  max_date (l ++ [d])
  = Some (match max_date l with
          | None => d
          | Some w => if date_ltb w d then d else w
          end).
Proof.
  induction l as [|x l IH]; [reflexivity|].
  cbn [app max_date]. rewrite IH.
  destruct (max_date l) as [w|]; [|reflexivity].
  f_equal.
  destruct (date_ltb w d) eqn:Hwd, (date_ltb x w) eqn:Hxw;
    try rewrite Hwd; try reflexivity;
    destruct (date_ltb x d) eqn:Hxd; date_order.
Qed.

Lemma max_date_map_ext {A} (f g : A -> date) (l : list A) :
  (forall a, f a = g a) -> max_date (map f l) = max_date (map g l).
Proof. intros Hfg. f_equal. apply map_ext. exact Hfg. Qed.

(** After the upsert of an issue, [MAX(issue_date)] of its source is the
    later of the issue's date and the former maximum; the other sources keep
    theirs. *)
Lemma select_max_after_upsert source_id issue_date url description db :
  let db' := snd (insert_daily_journal_on_conflict_update
                    source_id issue_date url description db) in
  select_max_issue_date source_id db'
  = Some (match select_max_issue_date source_id db with
          | None => issue_date
          | Some w => if date_ltb w issue_date then issue_date else w
          end)
  /\ forall other, other <> source_id ->
       select_max_issue_date other db' = select_max_issue_date other db.
Proof.
  intros db'. subst db'.
  destruct (rows_with_key source_id issue_date db) as [|r0 rs] eqn:Hrows.
  - rewrite upsert_fresh by exact Hrows. cbn [snd].
    unfold select_max_issue_date. cbn [daily_journals].
    split.
    + rewrite filter_app, filter_cons, filter_nil. cbn [dj_source_id].
      rewrite decide_True by reflexivity.
      rewrite map_app. cbn [map dj_issue_date]. apply max_date_app.
    + intros other Hne. rewrite filter_app, filter_cons, filter_nil.
      cbn [dj_source_id]. rewrite decide_False by congruence.
      rewrite app_nil_r. reflexivity.
  - rewrite upsert_conflict by (rewrite Hrows; discriminate). cbn [snd].
    unfold select_max_issue_date. cbn [daily_journals].
    assert (Hsame : forall s,
              map dj_issue_date
                (filter (fun dj => dj_source_id dj = s)
                   (map (fun dj => if has_key source_id issue_date dj
                                   then do_update url description (now db) dj
                                   else dj) (daily_journals db)))
              = map dj_issue_date
                  (filter (fun dj => dj_source_id dj = s) (daily_journals db))).
    { intros s. induction (daily_journals db) as [|dj t IH]; [reflexivity|].
      cbn [map]. rewrite !filter_cons.
      assert (Hs : dj_source_id (if has_key source_id issue_date dj
                                 then do_update url description (now db) dj
                                 else dj) = dj_source_id dj)
        by (destruct (has_key source_id issue_date dj); reflexivity).
      assert (Hd : dj_issue_date (if has_key source_id issue_date dj
                                  then do_update url description (now db) dj
                                  else dj) = dj_issue_date dj)
        by (destruct (has_key source_id issue_date dj); reflexivity).
      rewrite Hs. destruct (decide (dj_source_id dj = s)); [|exact IH].
      cbn [map]. rewrite Hd, IH. reflexivity. }
    split; [|intros other _; rewrite Hsame; reflexivity]. rewrite Hsame.
    (* the issue's date is among the rows of the source *)
    assert (Hin : r0 ∈ rows_with_key source_id issue_date db)
      by (rewrite Hrows; apply list_elem_of_here).
    unfold rows_with_key in Hin. apply list_elem_of_filter in Hin as [Hkey Hin].
    unfold has_key in Hkey. apply andb_prop in Hkey as [Hsrc Hdate].
    apply Z.eqb_eq in Hsrc. apply bool_decide_eq_true in Hdate.
    destruct (BoeFacts.select_max_issue_date_some source_id db r0 Hin Hsrc)
      as (w & Hw & _ & Hle).
    unfold select_max_issue_date in Hw. rewrite Hw. f_equal.
    specialize (Hle r0 Hin Hsrc). rewrite Hdate in Hle.
    destruct (date_ltb w issue_date) eqn:Hlt; [|reflexivity].
    apply date_ltb_spec in Hlt. apply date_leb_spec in Hle.
    destruct w, issue_date; cbn [year month day] in *. exfalso. lia.
Qed.

(** X9.  Once BOE's upsert_daily_journal has run for an issue date, a later
    resolve_crawl_range without overrides for the same source, when it
    returns a window, returns one that starts strictly after that issue date
    and ends today. *)
Theorem boe_persisted_issue_is_behind_the_window (W : Type) (HW : World W)
  (c : Boe.CrawlerContext W) (issue_date : date) (description : string)
  (today source_start_at : date) (lg : Logger) (window : date * date) :
  let c' := snd (Boe.upsert_daily_journal issue_date description c) in
  fst (Boe.resolve_crawl_range today (Boe.db_conn c') (Boe.source_id c)
                               source_start_at None None None lg)
  = Ok window ->
  date_ltb issue_date (fst window) = true /\ snd window = today.
Proof.
  intros c'. subst c'. rewrite (UpsertFacts.boe_upsert_daily_journal_eq W HW).
  cbn [snd]. 
  destruct (select_max_after_upsert (Boe.source_id c) issue_date
              (Boe.daily_journal_url issue_date) description (Boe.db_conn c))
    as [Hmax _].
  set (db' := snd (insert_daily_journal_on_conflict_update (Boe.source_id c)
                     issue_date (Boe.daily_journal_url issue_date) description
                     (Boe.db_conn c))) in *.
  assert (Hdb : Boe.db_conn (Boe.set_db_conn db' c) = db') by reflexivity.
  rewrite Hdb.
  unfold Boe.resolve_crawl_range. cbn [truthy orb]. rewrite Hmax.
  set (w := match select_max_issue_date (Boe.source_id c) (Boe.db_conn c) with
            | Some w => if date_ltb w issue_date then issue_date else w
            | None => issue_date
            end).
  assert (Hw : date_leb issue_date w = true).
  { subst w.
    destruct (select_max_issue_date (Boe.source_id c) (Boe.db_conn c)) as [w0|];
      [|apply date_leb_refl].
    destruct (date_ltb w0 issue_date) eqn:E; [apply date_leb_refl|].
    apply date_ltb_false_leb. exact E. }
  unfold bind, Boe.lift_res, Shared.log, modify, ret.
  destruct (add_one_day w) as [nxt|e] eqn:Hnext; [|discriminate].
  cbn [fst]. intros [= <-]. cbn [fst snd]. split; [|reflexivity].
  apply (date_leb_ltb_trans _ w _ Hw). apply add_one_day_later. exact Hnext.
Qed.

Lemma boe_persisted_issue_is_behind_the_window_witness :
  fst (Boe.resolve_crawl_range (Stub.d 2024 1 3)
         (Boe.db_conn
            (snd (Boe.upsert_daily_journal (Stub.d 2024 1 2) "BOE 2"
                    (Cases.boe_context Stub.empty_db))))
         1 (Stub.d 2024 1 1) None None None [])
  = Ok (Stub.d 2024 1 3, Stub.d 2024 1 3)
  /\ date_ltb (Stub.d 2024 1 2) (Stub.d 2024 1 3) = true
  /\ Stub.d 2024 1 3 = Stub.d 2024 1 3.
Proof.
  assert (Hwin : fst (Boe.resolve_crawl_range (Stub.d 2024 1 3)
                   (Boe.db_conn
                      (snd (Boe.upsert_daily_journal (Stub.d 2024 1 2) "BOE 2"
                              (Cases.boe_context Stub.empty_db))))
                   1 (Stub.d 2024 1 1) None None None [])
                 = Ok (Stub.d 2024 1 3, Stub.d 2024 1 3))
    by (vm_compute; reflexivity).
  split; [exact Hwin|].
  exact (boe_persisted_issue_is_behind_the_window Stub.StubWorld
           Stub.stub_world (Cases.boe_context Stub.empty_db) (Stub.d 2024 1 2)
           "BOE 2" (Stub.d 2024 1 3) (Stub.d 2024 1 1) []
           (Stub.d 2024 1 3, Stub.d 2024 1 3) Hwin).
Defined.

End StoreFacts.

Module StoreFrame.
Import Sql Notions Basics.
Section Frame.
Context {W : Type} `{World W}.

Lemma keeps_store_ret {A} (a : A) : keeps_store (ret a).
Proof. intros c. reflexivity. Qed.

Lemma keeps_store_raise {A} (e : exn) :
  keeps_store (raise e : M (Dogc.CrawlerContext W) A).
Proof. intros c. reflexivity. Qed.

Lemma keeps_store_gets {A} (f : Dogc.CrawlerContext W -> A) : keeps_store (gets f).
Proof. intros c. reflexivity. Qed.

Lemma keeps_store_log l fmt args : keeps_store (Dogc.log l fmt args).
Proof. intros c. reflexivity. Qed.

Lemma keeps_store_on_driver {A} (m : M W A) : keeps_store (Dogc.on_driver m).
Proof.
  intros c. unfold Dogc.on_driver. destruct (m (Dogc.driver c)). reflexivity.
Qed.

Lemma keeps_store_capture state note : keeps_store (Dogc.capture state note).
Proof.
  intros c. unfold Dogc.capture, Dogc.on_artifacts.
  destruct (Artifacts.capture _ _ _) as [r [a w]]. reflexivity.
Qed.

Lemma store_after_bind {A B} (Q : Db -> Db -> Prop)
  (m : M (Dogc.CrawlerContext W) A) (k : A -> M (Dogc.CrawlerContext W) B) :
  (forall db, Q db db) ->
  keeps_store m -> (forall a, store_after Q (k a)) -> store_after Q (bind m k).
Proof.
  intros Hrefl Hm Hk c. unfold bind. specialize (Hm c).
  destruct (m c) as [[a|e] c1]; cbn [snd] in *.
  - rewrite Hm. apply Hk.
  - rewrite <- Hm. apply Hrefl.
Qed.

Lemma keeps_store_bind {A B}
  (m : M (Dogc.CrawlerContext W) A) (k : A -> M (Dogc.CrawlerContext W) B) :
  keeps_store m -> (forall a, keeps_store (k a)) -> keeps_store (bind m k).
Proof. intros Hm Hk. apply store_after_bind; auto. Qed.

Lemma store_after_keeps {A} (Q : Db -> Db -> Prop)
  (m : M (Dogc.CrawlerContext W) A) :
  (forall db, Q db db) -> keeps_store m -> store_after Q m.
Proof. intros Hrefl Hm c. rewrite <- (Hm c). apply Hrefl. Qed.

Lemma keeps_store_route current_state :
  keeps_store (Dogc.maybe_route_to_cookie_state current_state).
Proof.
  intros c. rewrite PendingFacts.maybe_route_eq.
  destruct (Dogc.find_displayed _ _) as [[[b|]|e] w]; reflexivity.
Qed.

Lemma store_after_then {A B} (Q : Db -> Db -> Prop)
  (m : M (Dogc.CrawlerContext W) A) (k : A -> M (Dogc.CrawlerContext W) B) :
  store_after Q m -> (forall a, keeps_store (k a)) -> store_after Q (bind m k).
Proof.
  intros Hm Hk c. unfold bind. specialize (Hm c).
  destruct (m c) as [[a|e] c1]; cbn [snd] in *; [|exact Hm].
  rewrite <- (Hk a c1). exact Hm.
Qed.

Lemma keeps_store_modify (f : Dogc.CrawlerContext W -> Dogc.CrawlerContext W) :
  (forall c, Dogc.db_conn (f c) = Dogc.db_conn c) -> keeps_store (modify f).
Proof. intros Hf c. symmetry. apply Hf. Qed.

Lemma store_after_on_db_conn {A} (m : M Db A) (c : Dogc.CrawlerContext W) :
  Dogc.db_conn (snd (Dogc.on_db_conn m c)) = snd (m (Dogc.db_conn c)).
Proof. unfold Dogc.on_db_conn. destruct (m (Dogc.db_conn c)). reflexivity. Qed.

End Frame.

Create HintDb store.
#[export] Hint Resolve keeps_store_ret keeps_store_raise keeps_store_gets
  keeps_store_log keeps_store_on_driver keeps_store_capture keeps_store_route
  : store.

End StoreFrame.

Module ProbeFacts.
Section Probe.
Context {W : Type} `{World W}.

(** The loop over the selectors never raises: what the driver raises inside
    the [try] sends the loop on to the next selector. *)
Lemma find_displayed_returns (selectors : list (By * string)) (w : W) :
  exists found w', Dogc.find_displayed selectors w = (Ok found, w').
Proof.
  revert w. induction selectors as [|[by_ selector] rest IH]; intros w.
  - exists None, w. reflexivity.
  - cbn [Dogc.find_displayed]. unfold bind at 1. unfold try_except.
    destruct ((let* elements := driver_find_elements by_ selector in
               Dogc.first_displayed elements) w) as [[[element|]|e] w1].
    + exists (Some element), w1. reflexivity.
    + apply IH.
    + unfold ret. apply IH.
Qed.

(** X10.  find_cookie_accept_button never raises, whatever the browser
    raises while it is probed: it returns a button or None.
    maybe_route_to_cookie_state therefore always returns, either None with
    resume_state as it was, or COOKIE_CONSENT with resume_state set to the
    current state. *)
Theorem cookie_probe_never_raises (current_state : Dogc.DogcState)
  (c : Dogc.CrawlerContext W) :
  (exists found c', Dogc.find_cookie_accept_button c = (Ok found, c'))
  /\ let r := Dogc.maybe_route_to_cookie_state current_state c in
     (fst r = Ok None /\ Dogc.resume_state (snd r) = Dogc.resume_state c)
     \/ (fst r = Ok (Some Dogc.COOKIE_CONSENT)
         /\ Dogc.resume_state (snd r) = Some current_state).
Proof.
  destruct (find_displayed_returns Dogc.cookie_selectors (Dogc.driver c))
    as (found & w' & Hfind).
  split.
  - unfold Dogc.find_cookie_accept_button, Dogc.on_driver. rewrite Hfind.
    eauto.
  - intros r. subst r. rewrite PendingFacts.maybe_route_eq, Hfind.
    destruct found as [button|]; [right|left]; split; reflexivity.
Qed.

End Probe.
End ProbeFacts.

Module PickerFacts.
Import Sql Describe PendingFacts.
Section Picker.
Context {W : Type} `{World W}.

Ltac fields :=
  cbn [fst snd Dogc.attempted_daily_journal_ids Dogc.logger Dogc.driver
       Dogc.artifacts Dogc.slug Dogc.source_id Dogc.base_url
       Dogc.daily_base_url Dogc.timeout_seconds Dogc.start_issue_date
       Dogc.end_issue_date Dogc.db_conn Dogc.resume_state
       Dogc.current_daily_journal Dogc.pending_notice_candidates
       Dogc.current_notice_candidate] in *.

(** X11.  When state_pick_pending_daily_journal returns, one of three holds:
    it returned COOKIE_CONSENT and the attempted set is untouched; it
    returned DONE and the set has the ids it had (empty when it was unset);
    or it returned OPEN_DAILY_JOURNAL with a current issue whose id was not
    in the attempted set and has been added to it, an empty list of pending
    candidates and no current candidate. *)
Theorem picker_marks_the_issue_attempted (c c' : Dogc.CrawlerContext W)
  (s : Dogc.DogcState) :
  Dogc.state_pick_pending_daily_journal c = (Ok s, c') ->
  let before := default ∅ (Dogc.attempted_daily_journal_ids c) in
  (s = Dogc.COOKIE_CONSENT
   /\ Dogc.attempted_daily_journal_ids c' = Dogc.attempted_daily_journal_ids c)
  \/ (s = Dogc.DONE /\ Dogc.attempted_daily_journal_ids c' = Some before)
  \/ (s = Dogc.OPEN_DAILY_JOURNAL
      /\ exists journal,
           Dogc.current_daily_journal c' = Some journal
           /\ (Dogc.pj_id journal ∉ before)
           /\ Dogc.attempted_daily_journal_ids c'
              = Some (before ∪ {[Dogc.pj_id journal]})
           /\ Dogc.pending_notice_candidates c' = Some []
           /\ Dogc.current_notice_candidate c' = None).
Proof.
  cbv zeta. unfold Dogc.state_pick_pending_daily_journal, bind.
  rewrite maybe_route_eq.
  destruct (Dogc.find_displayed Dogc.cookie_selectors (Dogc.driver c))
    as [[[b|]|e] w]; [| |discriminate].
  { intros Hr. inversion Hr; subst. left. split; reflexivity. }
  destruct c as [lg drv art sl sid bu dbu tmo sd ed db rs att cur pend cand].
  fields.
  set (rows := select_pending_daily_journals sid db).
  assert (Hfetch : forall att',
            default ∅ att' = default ∅ att ->
            Dogc.fetch_pending_daily_journal
              (Dogc.mkContext lg w art sl sid bu dbu tmo sd ed db rs att' cur
                              pend cand)
            = (Ok (as_pending <$> head (filter (usable (default ∅ att)) rows)),
               Dogc.mkContext
                 (lg ++ mkLog INFO
                          (Msg "Pending daily journals with 0 notices in DB: %d"
                               [VInt (Z.of_nat (length rows))])
                     :: map empty_url_warning
                          (filter (fun row => dj_id row ∉ default ∅ att)
                                  (passed_over (default ∅ att) rows)))
                 w art sl sid bu dbu tmo sd ed db rs att' cur pend cand)).
  { intros att' Hatt. rewrite fetch_pending_spec. fields.
    cbn [Dogc.set_logger]. fields.
    fold rows. rewrite Hatt, list_find_head_filter. reflexivity. }
  assert (Hfresh : forall row,
            head (filter (usable (default ∅ att)) rows) = Some row ->
            Dogc.pj_id (as_pending row) ∉ default ∅ att).
  { intros row Hhead. apply head_Some_elem_of in Hhead.
    apply list_elem_of_filter in Hhead as [[Hna _] _]. exact Hna. }
  unfold gets, Dogc.set_driver. fields.
  destruct att as [ids|].
  - unfold ret at 1. rewrite (Hfetch (Some ids) eq_refl).
    destruct (head (filter (usable (default ∅ (Some ids))) rows))
      as [row|] eqn:Hhead.
    + intros Hr. cbn in Hr. inversion Hr; subst. right. right.
      split; [reflexivity|]. exists (as_pending row).
      split; [reflexivity|]. split; [apply Hfresh; reflexivity|].
      repeat split; reflexivity.
    + intros Hr. cbn in Hr. inversion Hr; subst. right. left.
      split; reflexivity.
  - unfold modify at 1, Dogc.set_attempted_daily_journal_ids. fields.
    rewrite Hfetch by reflexivity.
    destruct (head (filter (usable (default ∅ None)) rows))
      as [row|] eqn:Hhead.
    + intros Hr. cbn in Hr. inversion Hr; subst. right. right.
      split; [reflexivity|]. exists (as_pending row).
      split; [reflexivity|]. split; [apply Hfresh; reflexivity|].
      repeat split; reflexivity.
    + intros Hr. cbn in Hr. inversion Hr; subst. right. left.
      split; reflexivity.
Qed.

End Picker.

Lemma picker_marks_the_issue_attempted_witness :
  fst (Dogc.state_pick_pending_daily_journal
         (Stub.dogc_context Stub.quiet Stub.db_two_pending))
  = Ok Dogc.OPEN_DAILY_JOURNAL
  /\ Dogc.attempted_daily_journal_ids
       (snd (Dogc.state_pick_pending_daily_journal
               (Stub.dogc_context Stub.quiet Stub.db_two_pending)))
     = Some (∅ ∪ {[2]}).
Proof.
  set (c := Stub.dogc_context Stub.quiet Stub.db_two_pending).
  assert (Hrun : Dogc.state_pick_pending_daily_journal c
                 = (Ok Dogc.OPEN_DAILY_JOURNAL,
                    snd (Dogc.state_pick_pending_daily_journal c)))
    by (vm_compute; reflexivity).
  split; [vm_compute; reflexivity|].
  destruct (picker_marks_the_issue_attempted c _ _ Hrun)
    as [[Hs _]|[[Hs _]|(_ & journal & Hcur & _ & Hatt & _)]];
    [discriminate|discriminate|].
  vm_compute in Hcur. injection Hcur as <-. exact Hatt.
Defined.

End PickerFacts.

(* ===================================================================== *)
(** * [build_daily_issue_url] *)
(* ===================================================================== *)

Module UrlFacts.

Import PyStr DogcPages Basics.

Lemma rstrip_chars_app_char (ch : ascii) (s : string) :
  rstrip_chars (String ch "") (s +:+ String ch "")
  = rstrip_chars (String ch "") s.
Proof.
  induction s as [|c s IH].
  - change ("" +:+ String ch "") with (String ch "").
    cbn [rstrip_chars in_chars]. rewrite Ascii.eqb_refl. reflexivity.
  - change (String c s +:+ String ch "") with (String c (s +:+ String ch "")).
    cbn [rstrip_chars]. rewrite IH. reflexivity.
Qed.

Lemma startswith_cons (c : ascii) (s : string) (d : ascii) :
  startswith (String c s) (String d "") = Ascii.eqb d c.
Proof.
  unfold startswith. cbn [String.prefix].
  destruct (ascii_dec d c) as [->|Hne].
  - rewrite Ascii.eqb_refl. destruct s; reflexivity.
  - apply Ascii.eqb_neq in Hne. rewrite Hne. reflexivity.
Qed.

(** X12.  build_daily_issue_url returns the base url unchanged when the
    title is blank (white space only), and returns the stripped title itself
    when that starts with http:// or https://. *)
Theorem build_daily_issue_url_edges (daily_base_url title_query : string) :
  (all_space title_query = true ->
   build_daily_issue_url daily_base_url title_query = daily_base_url)
  /\
  (startswith (strip title_query) "http://" = true
   \/ startswith (strip title_query) "https://" = true ->
   build_daily_issue_url daily_base_url title_query = strip title_query).
Proof.
  unfold build_daily_issue_url. split.
  - intros Hsp. apply PendingFacts.strip_empty in Hsp. rewrite Hsp.
    reflexivity.
  - intros Habs.
    destruct (strip title_query) as [|c q] eqn:Hq.
    { destruct Habs as [Habs|Habs]; discriminate. }
    rewrite startswith_cons.
    assert (Hc : c = "h"%char).
    { destruct Habs as [Habs|Habs]; unfold startswith in Habs;
        cbn [String.prefix] in Habs;
        destruct (ascii_dec "h" c) as [Heq|Hne]; auto; discriminate. }
    subst c. cbn [Ascii.eqb Bool.eqb].
    destruct Habs as [-> | ->]; [reflexivity|]. rewrite orb_true_r.
    reflexivity.
Qed.

(** X13.  For a title that is not blank and is not an absolute http(s) url,
    build_daily_issue_url returns the base url without its trailing slashes,
    then '/', then the stripped title with a '?' put before it when it does
    not start with one; a base url with one more trailing slash gives the
    same result. *)
Theorem build_daily_issue_url_relative (daily_base_url title_query : string) :
  let query := strip title_query in
  query <> "" ->
  startswith query "http://" = false ->
  startswith query "https://" = false ->
  build_daily_issue_url daily_base_url title_query
  = rstrip_chars "/" daily_base_url +:+ "/"
    +:+ (if startswith query "?" then query else "?" +:+ query)
  /\ build_daily_issue_url (daily_base_url +:+ "/") title_query
     = build_daily_issue_url daily_base_url title_query.
Proof.
  intros query Hne Hhttp Hhttps. subst query.
  unfold build_daily_issue_url. rewrite rstrip_chars_app_char.
  rewrite Hhttp, Hhttps. cbn [orb].
  destruct (strip title_query) as [|c q] eqn:Hq; [contradiction|].
  rewrite startswith_cons.
  destruct (Ascii.eqb "?" c) eqn:Hc; [split; reflexivity|].
  cbn [String.eqb negb lstrip_chars in_chars].
  rewrite Ascii.eqb_sym, Hc. cbn [orb].
  split; reflexivity.
Qed.


Lemma build_daily_issue_url_relative_witness :
  build_daily_issue_url "https://dogc.gencat.cat/ca/sumari-del-dogc/"
                        " numDOGC=9070 "
  = "https://dogc.gencat.cat/ca/sumari-del-dogc/?numDOGC=9070"
  /\ build_daily_issue_url "https://dogc.gencat.cat/ca/sumari-del-dogc//"
                           " numDOGC=9070 "
     = build_daily_issue_url "https://dogc.gencat.cat/ca/sumari-del-dogc/"
                             " numDOGC=9070 ".
Proof.
  assert (Hne : strip " numDOGC=9070 " <> "") by (vm_compute; discriminate).
  destruct (build_daily_issue_url_relative
              "https://dogc.gencat.cat/ca/sumari-del-dogc/" " numDOGC=9070 "
              Hne eq_refl eq_refl) as [Hurl Hslash].
  split; [rewrite Hurl; vm_compute; reflexivity|exact Hslash].
Defined.

End UrlFacts.

(* ===================================================================== *)
(** * [crawler_dogc.py]: what the readers of the pages return *)
(* ===================================================================== *)

Module ReaderFacts.

Import Sql PyStr Pages DogcPages DateFacts Basics Notions.

Lemma insert_by_date_perm x l : Permutation (insert_by_date x l) (x :: l).
Proof.
  induction l as [|y l IH]; [reflexivity|]. cbn [insert_by_date].
  destruct (date_leb (fst (fst x)) (fst (fst y))); [reflexivity|].
  rewrite IH. apply perm_swap.
Qed.

Lemma sort_by_date_perm l : Permutation (sort_by_date l) l.
Proof.
  induction l as [|x l IH]; [reflexivity|].
  unfold sort_by_date in *. cbn [foldr]. rewrite insert_by_date_perm, IH.
  reflexivity.
Qed.

Lemma insert_by_date_sorted x l :
  Sorted by_date l -> Sorted by_date (insert_by_date x l).
Proof.
  induction l as [|y l IH]; intros Hs.
  - repeat constructor.
  - cbn [insert_by_date].
    destruct (date_leb (fst (fst x)) (fst (fst y))) eqn:Hxy.
    + constructor; [exact Hs|]. constructor. exact Hxy.
    + inversion Hs as [|? ? Hs' Hhd]; subst.
      constructor; [apply IH; exact Hs'|].
      assert (Hyx : by_date y x).
      { unfold by_date. apply date_ltb_leb.
        change (date_gtb (fst (fst x)) (fst (fst y)) = true).
        rewrite date_gtb_leb, Hxy. reflexivity. }
      destruct l as [|z l'].
      * constructor. exact Hyx.
      * cbn [insert_by_date].
        destruct (date_leb (fst (fst x)) (fst (fst z))); constructor; auto.
        inversion Hhd; subst. assumption.
Qed.

Lemma sort_by_date_sorted l : Sorted by_date (sort_by_date l).
Proof.
  induction l as [|x l IH]; [constructor|].
  unfold sort_by_date in *. cbn [foldr]. apply insert_by_date_sorted, IH.
Qed.

Section Readers.
Context {W : Type} `{Page W}.

(** A title that [strip] does not empty is not blank. *)
Lemma strip_not_blank (s : string) : strip s <> "" -> all_space s = false.
Proof.
  intros Hs. destruct (all_space s) eqn:E; [|reflexivity].
  exfalso. apply Hs. apply PendingFacts.strip_empty. exact E.
Qed.

(** What an issue of the list is: the row of one of the cells, a day that
    exists, inside the window. *)
Lemma clickable_issues_loop_spec current_year current_month
  (cells : list Element) :
  forall rows (c c' : Dogc.CrawlerContext W) out,
    clickable_issues_loop current_year current_month cells rows c
    = (Ok out, c') ->
    (Dogc.db_conn c' = Dogc.db_conn c
     /\ Dogc.source_id c' = Dogc.source_id c)
    /\ exists new,
         out = rows ++ new
         /\ forall row, row ∈ new ->
              valid_date (fst (fst row)) = true
              /\ date_leb (Dogc.start_issue_date c) (fst (fst row)) = true
              /\ date_leb (fst (fst row)) (Dogc.end_issue_date c) = true
              /\ exists cell, cell ∈ cells
                   /\ issue_of_cell current_year current_month
                        (Dogc.daily_base_url c) cell row.
Proof.
  induction cells as [|cell cells IH]; intros rows c c' out.
  - intros [= <- <-]. split; [split; reflexivity|]. exists [].
    rewrite app_nil_r. split; [reflexivity|].
    intros ? Hin. apply elem_of_nil in Hin. contradiction.
  - cbn [clickable_issues_loop]. unfold bind at 1.
    unfold Dogc.on_driver at 1.
    destruct (element_find_elements cell CSS_SELECTOR _ (Dogc.driver c))
      as [[day_el|e] w1] eqn:Hfind; [|discriminate].
    assert (Hcont : forall w (c0 := Dogc.set_driver w c),
              clickable_issues_loop current_year current_month cells rows c0
              = (Ok out, c') ->
              (Dogc.db_conn c' = Dogc.db_conn c
               /\ Dogc.source_id c' = Dogc.source_id c)
              /\ exists new,
                   out = rows ++ new
                   /\ forall row, row ∈ new ->
                        valid_date (fst (fst row)) = true
                        /\ date_leb (Dogc.start_issue_date c) (fst (fst row))
                           = true
                        /\ date_leb (fst (fst row)) (Dogc.end_issue_date c)
                           = true
                        /\ exists cell0, cell0 ∈ cell :: cells
                             /\ issue_of_cell current_year current_month
                                  (Dogc.daily_base_url c) cell0 row).
    { intros w c0 Hloop.
      destruct (IH _ _ _ _ Hloop) as (Hdb & new & -> & Hnew).
      split; [exact Hdb|]. exists new. split; [reflexivity|].
      intros row Hrow.
      destruct (Hnew row Hrow) as (H1 & H2 & H3 & cell0 & Hin & Hcell).
      split; [exact H1|]. split; [exact H2|]. split; [exact H3|].
      exists cell0. split; [apply list_elem_of_further; exact Hin|].
      exact Hcell. }
    destruct day_el as [|first rest]; [apply Hcont|].
    unfold bind at 1. unfold Dogc.on_driver at 1.
    cbn [Dogc.driver Dogc.set_driver].
    destruct (element_text first w1) as [[text|e] w2] eqn:Htext;
      [|discriminate].
    destruct (isdigit (strip (or_empty text))) eqn:Hdigit; cbn [negb].
    2:{ change (Dogc.set_driver w2 (Dogc.set_driver w1 c))
          with (Dogc.set_driver w2 c). apply Hcont. }
    unfold bind at 1, Boe.lift_res at 1.
    destruct (int_of_str (strip (or_empty text))) as [issue_day|e] eqn:Hint;
      [|discriminate].
    destruct (date_args_error current_year current_month issue_day);
      [discriminate|].
    destruct (valid_date (mkdate current_year current_month issue_day))
      eqn:Hvalid; cbn [negb].
    2:{ change (Dogc.set_driver w2 (Dogc.set_driver w1 c))
          with (Dogc.set_driver w2 c). apply Hcont. }
    rewrite !bind_gets. cbv beta.
    cbn [Dogc.start_issue_date Dogc.end_issue_date Dogc.set_driver].
    destruct (date_ltb (mkdate current_year current_month issue_day)
                       (Dogc.start_issue_date c)) eqn:Hstart; cbn [orb].
    { change (Dogc.set_driver w2 (Dogc.set_driver w1 c))
        with (Dogc.set_driver w2 c). apply Hcont. }
    destruct (date_gtb (mkdate current_year current_month issue_day)
                       (Dogc.end_issue_date c)) eqn:Hend.
    { change (Dogc.set_driver w2 (Dogc.set_driver w1 c))
        with (Dogc.set_driver w2 c). apply Hcont. }
    unfold bind at 1. unfold Dogc.on_driver at 1.
    cbn [Dogc.driver Dogc.set_driver].
    destruct (element_get_attribute cell "title" w2) as [[title|e] w3]
      eqn:Htitle_attr; [|discriminate].
    destruct (String.eqb (strip (or_empty title)) "") eqn:Htitle.
    { apply (Hcont w3). }
    rewrite bind_gets. cbv beta. cbn [Dogc.daily_base_url Dogc.set_driver].
    unfold bind at 1, Boe.lift_res at 1.
    destruct (first_query_value _ "numDOGC") as [num_dogc|e] eqn:Hnum;
      [|discriminate].
    intros Hloop. apply IH in Hloop as (Hdb & new & -> & Hnew).
    split; [exact Hdb|].
    eexists (_ :: new). rewrite <- app_assoc. split; [reflexivity|].
    intros row Hin. apply elem_of_cons in Hin as [->|Hin].
    + cbn [fst snd]. split; [exact Hvalid|].
      split; [apply date_ltb_false_leb; exact Hstart|].
      split.
      { rewrite date_gtb_leb in Hend. apply negb_false_iff in Hend.
        exact Hend. }
      exists cell. split; [apply list_elem_of_here|].
      exists first, rest, text, title, num_dogc,
        (Dogc.driver c), w1, w1, w2, w2, w3.
      cbn [fst snd year month day].
      split; [exact Hfind|]. split; [exact Htext|]. split; [exact Hdigit|].
      split; [exact Hint|]. split; [reflexivity|]. split; [reflexivity|].
      split; [exact Htitle_attr|].
      split.
      { apply strip_not_blank. intros E. rewrite E in Htitle. discriminate. }
      split; [reflexivity|]. split; [exact Hnum|]. reflexivity.
    + destruct (Hnew row Hin) as (H1 & H2 & H3 & cell0 & Hin0 & Hcell).
      cbn [Dogc.start_issue_date Dogc.end_issue_date Dogc.daily_base_url
           Dogc.set_driver] in H2, H3, Hcell.
      split; [exact H1|]. split; [exact H2|]. split; [exact H3|].
      exists cell0. split; [apply list_elem_of_further; exact Hin0|].
      exact Hcell.
Qed.

(** What the reader returns is what its loop collected from the cells that
    the page marks, sorted. *)
Lemma extract_clickable_issues_ok (current_year current_month : Z)
  (c c' : Dogc.CrawlerContext W) (rows : list (date * string * string)) :
  extract_clickable_issues_for_visible_month current_year current_month c
  = (Ok rows, c') ->
  exists cells w1 c1 out,
    driver_find_elements CSS_SELECTOR
      "#calendari-dogc .ui-datepicker-calendar td.has-publicacio"
      (Dogc.driver c) = (Ok cells, w1)
    /\ Dogc.start_issue_date c1 = Dogc.start_issue_date c
    /\ Dogc.end_issue_date c1 = Dogc.end_issue_date c
    /\ Dogc.daily_base_url c1 = Dogc.daily_base_url c
    /\ Dogc.db_conn c1 = Dogc.db_conn c
    /\ Dogc.source_id c1 = Dogc.source_id c
    /\ clickable_issues_loop current_year current_month cells [] c1
       = (Ok out, c')
    /\ rows = sort_by_date out.
Proof.
  unfold extract_clickable_issues_for_visible_month.
  unfold bind at 1. unfold Dogc.on_driver at 1.
  destruct (driver_find_elements CSS_SELECTOR _ (Dogc.driver c))
    as [[cells|e] w1]; [|discriminate].
  unfold bind at 1. unfold Dogc.log at 1, Dogc.on_logger, Shared.log, modify.
  cbn [fst snd]. unfold bind at 1.
  match goal with
  | |- context [clickable_issues_loop ?y ?m ?cs ?rs ?c0] =>
      set (c1 := c0);
      destruct (clickable_issues_loop y m cs rs c1) as [[out|e] c2] eqn:Hloop;
      [|discriminate]
  end.
  intros [= <- <-]. exists cells, w1, c1, out.
  repeat split; try reflexivity. exact Hloop.
Qed.

(** The issues that the reader returns lie in the window. *)
Lemma clickable_issues_window (current_year current_month : Z)
  (c c' : Dogc.CrawlerContext W) (rows : list (date * string * string)) :
  extract_clickable_issues_for_visible_month current_year current_month c
  = (Ok rows, c') ->
  Dogc.source_id c' = Dogc.source_id c
  /\ forall issue_date issue_url description,
       (issue_date, issue_url, description) ∈ rows ->
       date_leb (Dogc.start_issue_date c) issue_date = true
       /\ date_leb issue_date (Dogc.end_issue_date c) = true.
Proof.
  intros Hex.
  apply extract_clickable_issues_ok in Hex
    as (cells & w1 & c1 & out & _ & Hs & He & _ & _ & Hsrc & Hloop & ->).
  apply clickable_issues_loop_spec in Hloop as ([_ Hsrc'] & new & -> & Hnew).
  split; [congruence|].
  intros d u desc Hin. rewrite sort_by_date_perm in Hin. cbn [app] in Hin.
  destruct (Hnew _ Hin) as (_ & H1 & H2 & _). cbn [fst] in H1, H2.
  rewrite <- Hs, <- He. auto.
Qed.

(** X14.  When extract_clickable_issues_for_visible_month returns, its rows
    are in ascending order of date and the store is untouched; every row has
    a date that exists, not before start_issue_date and not after
    end_issue_date, and is made from one of the marked cells of the calendar
    (td.has-publicacio): the day is the number that the label of the cell
    spells (digits only), in the year and month asked for; the url is what
    build_daily_issue_url makes from the title of that cell, which is not
    blank; the description is 'DOGC núm. N' when the url has a numDOGC value
    N that is not empty, and 'DOGC ' followed by the ISO date otherwise. *)
Theorem clickable_issues_lie_in_the_window (current_year current_month : Z)
  (c c' : Dogc.CrawlerContext W) (rows : list (date * string * string)) :
  extract_clickable_issues_for_visible_month current_year current_month c
  = (Ok rows, c') ->
  Sorted by_date rows
  /\ Dogc.db_conn c' = Dogc.db_conn c
  /\ exists cells w1,
       driver_find_elements CSS_SELECTOR
         "#calendari-dogc .ui-datepicker-calendar td.has-publicacio"
         (Dogc.driver c) = (Ok cells, w1)
       /\ forall row,
            row ∈ rows ->
            valid_date (fst (fst row)) = true
            /\ date_leb (Dogc.start_issue_date c) (fst (fst row)) = true
            /\ date_leb (fst (fst row)) (Dogc.end_issue_date c) = true
            /\ exists cell, cell ∈ cells
                 /\ issue_of_cell current_year current_month
                      (Dogc.daily_base_url c) cell row.
Proof.
  intros Hex.
  apply extract_clickable_issues_ok in Hex
    as (cells & w1 & c1 & out & Hcells & Hs & He & Hb & Hd & _ & Hloop & ->).
  apply clickable_issues_loop_spec in Hloop as ([Hdb _] & new & -> & Hnew).
  split; [apply sort_by_date_sorted|]. split; [congruence|].
  exists cells, w1. split; [exact Hcells|].
  intros row Hin. rewrite sort_by_date_perm in Hin. cbn [app] in Hin.
  rewrite <- Hs, <- He, <- Hb. apply (Hnew row Hin).
Qed.

Lemma notice_candidates_loop_spec (row_elements : list Element) :
  forall rows seen_urls (c c' : Dogc.CrawlerContext W) out,
    notice_candidates_loop row_elements rows seen_urls c = (Ok out, c') ->
    (forall r, r ∈ rows -> Dogc.c_url r ∈ seen_urls) ->
    NoDup (map Dogc.c_url rows) ->
    NoDup (map Dogc.c_url out)
    /\ store_side c' = store_side c
    /\ exists new,
         out = rows ++ new
         /\ forall r, r ∈ new ->
              Dogc.c_title r <> "" /\ Dogc.c_url r <> ""
              /\ contains "document-del-dogc" (Dogc.c_url r) = true.
Proof.
  induction row_elements as [|row_el rest IH]; intros rows seen c c' out.
  - intros [= <- <-] _ Hnd. split; [exact Hnd|]. split; [reflexivity|].
    exists []. rewrite app_nil_r. split; [reflexivity|].
    intros r Hin. apply elem_of_nil in Hin. contradiction.
  - cbn [notice_candidates_loop]. unfold bind at 1.
    unfold Dogc.on_driver at 1.
    destruct (element_find_elements row_el XPATH _ (Dogc.driver c))
      as [[anchors|e] w1]; [|discriminate].
    assert (Hcont : forall c0,
              store_side c0 = store_side c ->
              notice_candidates_loop rest rows seen c0 = (Ok out, c') ->
              (forall r, r ∈ rows -> Dogc.c_url r ∈ seen) ->
              NoDup (map Dogc.c_url rows) ->
              NoDup (map Dogc.c_url out)
              /\ store_side c' = store_side c
              /\ exists new,
                   out = rows ++ new
                   /\ forall r, r ∈ new ->
                        Dogc.c_title r <> "" /\ Dogc.c_url r <> ""
                        /\ contains "document-del-dogc" (Dogc.c_url r) = true).
    { intros c0 Hdb0 Hloop Hseen Hnd.
      destruct (IH _ _ _ _ _ Hloop Hseen Hnd) as (H1 & H2 & H3).
      split; [exact H1|]. split; [congruence|exact H3]. }
    destruct anchors as [|link anchors]; [apply Hcont; reflexivity|].
    unfold bind at 1. unfold Dogc.on_driver at 1.
    cbn [Dogc.driver Dogc.set_driver].
    destruct (element_get_attribute link "href" w1) as [[href|e] w2];
      [|discriminate].
    unfold bind at 1. unfold Dogc.on_driver at 1.
    cbn [Dogc.driver Dogc.set_driver].
    destruct (element_text link w2) as [[text|e] w3]; [|discriminate].
    destruct (String.eqb (strip (or_empty href)) "") eqn:Hhref; cbn [orb].
    { apply Hcont. reflexivity. }
    destruct (String.eqb (strip (or_empty text)) "") eqn:Htitle.
    { apply Hcont. reflexivity. }
    destruct (contains "document-del-dogc" (strip (or_empty href)))
      eqn:Hdoc; cbn [negb].
    2:{ apply Hcont. reflexivity. }
    destruct (decide (strip (or_empty href) ∈ seen)) as [Hseen|Hfresh].
    { apply Hcont. reflexivity. }
    unfold bind at 1.
    match goal with
    | |- context [try_except ?m ?h ?c0] =>
        assert (Hcat : exists category c1,
                   try_except m h c0 = (Ok category, c1)
                   /\ store_side c1 = store_side c)
    end.
    { unfold try_except, bind, Dogc.on_driver, ret.
      cbn [Dogc.driver Dogc.set_driver].
      destruct (element_find_element row_el XPATH "preceding::h2[1]" w3)
        as [[el|e] w4]; [|eauto].
      cbn [Dogc.driver Dogc.set_driver].
      destruct (element_text el w4) as [[t|e] w5]; eauto. }
    destruct Hcat as (category & c1 & -> & Hdb1).
    unfold bind at 1.
    match goal with
    | |- context [try_except ?m ?h c1] =>
        assert (Hdep : exists department c2,
                   try_except m h c1 = (Ok department, c2)
                   /\ store_side c2 = store_side c)
    end.
    { unfold try_except, bind, Dogc.on_driver, ret.
      destruct (element_find_element row_el XPATH "preceding::h3[1]"
                  (Dogc.driver c1)) as [[el|e] w4]; [|eauto].
      cbn [Dogc.driver Dogc.set_driver].
      destruct (element_text el w4) as [[t|e] w5]; eauto. }
    destruct Hdep as (department & c2 & -> & Hdb2).
    intros Hloop Hin Hnd.
    apply IH in Hloop as (H1 & H2 & new & -> & Hnew).
    + split; [exact H1|]. split; [congruence|].
      eexists (_ :: new). rewrite <- app_assoc. split; [reflexivity|].
      intros r Hr. apply elem_of_cons in Hr as [->|Hr]; [|auto].
      cbn [Dogc.c_title Dogc.c_url]. repeat split.
      * intros E. rewrite E in Htitle. discriminate.
      * intros E. rewrite E in Hhref. discriminate.
      * exact Hdoc.
    + intros r Hr. apply elem_of_app in Hr as [Hr|Hr].
      * apply elem_of_union. left. auto.
      * apply list_elem_of_singleton in Hr. subst r. cbn [Dogc.c_url].
        apply elem_of_union. right. apply elem_of_singleton. reflexivity.
    + rewrite map_app. cbn [map Dogc.c_url]. apply NoDup_app.
      split; [exact Hnd|]. split; [|apply NoDup_singleton].
      intros u Hu Hu'. apply list_elem_of_singleton in Hu'. subst u.
      apply list_elem_of_fmap in Hu as (r & Hr & Hin'). apply Hfresh.
      rewrite Hr. auto.
Qed.

(** What the reader of the summary returns, and what it leaves as it was. *)
Lemma notice_candidates_spec (c c' : Dogc.CrawlerContext W)
  (rows : list Dogc.NoticeCandidate) :
  extract_notice_candidates_from_daily_journal c = (Ok rows, c') ->
  NoDup (map Dogc.c_url rows)
  /\ store_side c' = store_side c
  /\ forall r, r ∈ rows ->
       Dogc.c_title r <> "" /\ Dogc.c_url r <> ""
       /\ contains "document-del-dogc" (Dogc.c_url r) = true.
Proof.
  unfold extract_notice_candidates_from_daily_journal.
  unfold bind at 1. unfold Dogc.on_driver at 1.
  destruct (driver_find_elements CSS_SELECTOR _ (Dogc.driver c))
    as [[row_elements|e] w1]; [|discriminate].
  unfold bind at 1. unfold Dogc.log at 1, Dogc.on_logger, Shared.log, modify.
  cbn [fst snd]. unfold bind at 1.
  match goal with
  | |- context [notice_candidates_loop ?els ?rs ?seen ?c0] =>
      destruct (notice_candidates_loop els rs seen c0) as [[out|e] c2]
        eqn:Hloop; [|discriminate]
  end.
  unfold bind at 1. unfold Dogc.log at 1, Dogc.on_logger, Shared.log, modify.
  cbn [fst snd]. intros [= <- <-].
  apply notice_candidates_loop_spec in Hloop as (Hnd & Hdb & new & -> & Hnew).
  - split; [exact Hnd|]. split; [exact Hdb|]. exact Hnew.
  - intros r Hr. apply elem_of_nil in Hr. contradiction.
  - constructor.
Qed.

(** X15.  When extract_notice_candidates_from_daily_journal returns, no two
    candidates have the same url, and every candidate has a title that is
    not empty and a url that is not empty and contains 'document-del-dogc'. *)
Theorem notice_candidates_are_distinct (c c' : Dogc.CrawlerContext W)
  (rows : list Dogc.NoticeCandidate) :
  extract_notice_candidates_from_daily_journal c = (Ok rows, c') ->
  NoDup (map Dogc.c_url rows)
  /\ forall r, r ∈ rows ->
       Dogc.c_title r <> "" /\ Dogc.c_url r <> ""
       /\ contains "document-del-dogc" (Dogc.c_url r) = true.
Proof.
  intros Hex. apply notice_candidates_spec in Hex as (H1 & _ & H2). auto.
Qed.


(** X16.  When state_open_daily_journal returns, the store is untouched;
    when it returns PICK_NOTICE_LINK, the current issue is still the one it
    opened and the pending candidates are a list that is not empty, with
    urls that are pairwise distinct and titles and urls that are not empty. *)
Theorem open_daily_journal_queues_distinct_notices
  (c c' : Dogc.CrawlerContext W) (s : Dogc.DogcState) :
  Dogc.state_open_daily_journal extract_notice_candidates_from_daily_journal c
  = (Ok s, c') ->
  Dogc.db_conn c' = Dogc.db_conn c
  /\ (s = Dogc.PICK_NOTICE_LINK ->
      exists journal rows,
        Dogc.current_daily_journal c = Some journal
        /\ Dogc.current_daily_journal c' = Some journal
        /\ Dogc.pending_notice_candidates c' = Some rows
        /\ rows <> []
        /\ NoDup (map Dogc.c_url rows)
        /\ forall r, r ∈ rows -> Dogc.c_title r <> "" /\ Dogc.c_url r <> "").
Proof.
  unfold Dogc.state_open_daily_journal. rewrite bind_gets. cbv beta.
  destruct (Dogc.current_daily_journal c) as [journal|] eqn:Hcur.
  2:{ unfold bind, Dogc.log, Dogc.on_logger, Shared.log, modify, ret.
      cbn [fst snd]. intros [= <- <-]. split; [reflexivity|discriminate]. }
  rewrite bind_gets. cbv beta.
  unfold bind at 1. unfold Dogc.log at 1, Dogc.on_logger, Shared.log, modify.
  cbn [fst snd]. unfold bind at 1. unfold Dogc.on_driver at 1.
  cbn [Dogc.driver Dogc.set_logger].
  destruct (driver_get (Dogc.pj_url journal) (Dogc.driver c)) as [[u|e] w1];
    [|discriminate].
  unfold bind at 1. unfold Dogc.on_driver at 1.
  cbn [Dogc.driver Dogc.set_driver].
  destruct (Dogc.wait_dom_ready (Dogc.timeout_seconds c) w1) as [[u'|e] w2];
    [|discriminate].
  unfold bind at 1. rewrite PendingFacts.maybe_route_eq.
  cbn [Dogc.driver Dogc.set_driver].
  destruct (Dogc.find_displayed Dogc.cookie_selectors w2)
    as [[[b|]|e] w3]; [| |discriminate].
  { intros [= <- <-]. split; [reflexivity|discriminate]. }
  unfold bind at 1.
  match goal with
  | |- context [extract_notice_candidates_from_daily_journal ?c0] =>
      set (c1 := c0);
      destruct (extract_notice_candidates_from_daily_journal c1)
        as [[rows|e] c2] eqn:Hex; [|discriminate]
  end.
  apply notice_candidates_spec in Hex as (Hnd & Hside & Hrows).
  injection Hside as Hdb _ Hcur2. subst c1.
  cbn [Dogc.db_conn Dogc.current_daily_journal Dogc.set_driver
       Dogc.set_logger] in Hdb, Hcur2. rewrite Hcur in Hcur2.
  unfold bind at 1. cbn [fst snd].
  unfold bind at 1. unfold Dogc.capture at 1, Dogc.on_artifacts.
  match goal with
  | |- context [Artifacts.capture ?st ?note ?s0] =>
      destruct (Artifacts.capture st note s0) as [[created|e] [a w4]];
      [|discriminate]
  end.
  unfold bind at 1. unfold Dogc.log at 1, Dogc.on_logger, Shared.log, modify.
  cbn [fst snd].
  destruct rows as [|r0 rows].
  - unfold bind, Dogc.log, Dogc.on_logger, Shared.log, modify, ret.
    cbn [fst snd]. intros [= <- <-]. split; [exact Hdb|discriminate].
  - intros [= <- <-]. split; [exact Hdb|]. intros _.
    exists journal, (r0 :: rows).
    split; [reflexivity|]. split; [exact Hcur2|]. split; [reflexivity|].
    split; [discriminate|]. split; [exact Hnd|].
    intros r Hr. destruct (Hrows r Hr) as (Ht & Hu & _). auto.
Qed.

End Readers.


Lemma clickable_issues_lie_in_the_window_witness :
  fst (extract_clickable_issues_for_visible_month 2024 1
         (Cases.sheet_context Stub.empty_db))
  = Ok Cases.january_issues
  /\ Sorted by_date Cases.january_issues.
Proof.
  set (c := Cases.sheet_context Stub.empty_db).
  assert (Hrun : extract_clickable_issues_for_visible_month 2024 1 c
                 = (Ok Cases.january_issues,
                    snd (extract_clickable_issues_for_visible_month 2024 1 c)))
    by (vm_compute; reflexivity).
  split; [vm_compute; reflexivity|].
  exact (proj1 (clickable_issues_lie_in_the_window 2024 1 c _ _ Hrun)).
Defined.

Lemma notice_candidates_are_distinct_witness :
  fst (extract_notice_candidates_from_daily_journal
         (Cases.sheet_context Stub.empty_db))
  = Ok Cases.january_notices
  /\ NoDup (map Dogc.c_url Cases.january_notices).
Proof.
  set (c := Cases.sheet_context Stub.empty_db).
  assert (Hrun : extract_notice_candidates_from_daily_journal c
                 = (Ok Cases.january_notices,
                    snd (extract_notice_candidates_from_daily_journal c)))
    by (vm_compute; reflexivity).
  split; [vm_compute; reflexivity|].
  exact (proj1 (notice_candidates_are_distinct c _ _ Hrun)).
Defined.

Lemma open_daily_journal_queues_distinct_notices_witness :
  fst (Dogc.state_open_daily_journal
         extract_notice_candidates_from_daily_journal Cases.at_issue_two)
  = Ok Dogc.PICK_NOTICE_LINK
  /\ exists rows,
       Dogc.pending_notice_candidates
         (snd (Dogc.state_open_daily_journal
                 extract_notice_candidates_from_daily_journal
                 Cases.at_issue_two))
       = Some rows
       /\ rows <> [] /\ NoDup (map Dogc.c_url rows).
Proof.
  assert (Hrun : Dogc.state_open_daily_journal
                   extract_notice_candidates_from_daily_journal
                   Cases.at_issue_two
                 = (Ok Dogc.PICK_NOTICE_LINK,
                    snd (Dogc.state_open_daily_journal
                           extract_notice_candidates_from_daily_journal
                           Cases.at_issue_two)))
    by (vm_compute; reflexivity).
  split; [vm_compute; reflexivity|].
  destruct (proj2 (open_daily_journal_queues_distinct_notices _ _ _ Hrun)
                  eq_refl)
    as (journal & rows & _ & _ & Hrows & Hne & Hnd & _).
  exists rows. auto.
Defined.

End ReaderFacts.

Module ProcessMonthFacts.
Import Sql SqlFacts Notions Basics StoreFrame Pages DogcPages DateFacts.

Lemma keeps_issues_refl db : keeps_issues db db.
Proof. split; [reflexivity|]. intros row Hin. exists row. auto. Qed.

Lemma keeps_issues_trans db1 db2 db3 :
  keeps_issues db1 db2 -> keeps_issues db2 db3 -> keeps_issues db1 db3.
Proof.
  intros [Hn1 H1] [Hn2 H2]. split; [congruence|].
  intros row Hin. destruct (H1 row Hin) as (r2 & Hin2 & ? & ? & ? & ?).
  destruct (H2 r2 Hin2) as (r3 & Hin3 & ? & ? & ? & ?).
  exists r3. repeat split; congruence.
Qed.

Lemma upsert_keeps_issues source_id issue_date url description db :
  let db' := snd (insert_daily_journal_on_conflict_update
                    source_id issue_date url description db) in
  keeps_issues db db'
  /\ exists row, row ∈ daily_journals db'
                 /\ dj_source_id row = source_id
                 /\ dj_issue_date row = issue_date
                 /\ dj_url row = Some url
                 /\ dj_description row = Some description.
Proof.
  intros db'. subst db'.
  destruct (rows_with_key source_id issue_date db) as [|r0 rs] eqn:Hrows.
  - rewrite upsert_fresh by exact Hrows. cbn [snd]. split.
    + split; [reflexivity|]. intros row Hin. exists row. cbn [daily_journals].
      rewrite elem_of_app. auto.
    + eexists. cbn [daily_journals]. rewrite elem_of_app. split.
      * right. apply list_elem_of_here.
      * auto.
  - rewrite upsert_conflict by (rewrite Hrows; discriminate). cbn [snd]. split.
    + split; [reflexivity|]. intros row Hin. cbn [daily_journals].
      eexists. split.
      * apply list_elem_of_fmap. exists row. split; [reflexivity|exact Hin].
      * destruct (has_key source_id issue_date row); auto.
    + assert (Hin : r0 ∈ rows_with_key source_id issue_date db)
        by (rewrite Hrows; apply list_elem_of_here).
      unfold rows_with_key in Hin.
      apply list_elem_of_filter in Hin as [Hkey Hin].
      exists (do_update url description (now db) r0). cbn [daily_journals].
      split.
      * apply list_elem_of_fmap. exists r0. rewrite Hkey. auto.
      * unfold has_key in Hkey. apply andb_prop in Hkey as [Hsrc Hdate].
        apply Z.eqb_eq in Hsrc. apply bool_decide_eq_true in Hdate. auto.
Qed.

Lemma only_adds_refl source_id P db : only_adds source_id P db db.
Proof. intros row Hin. left. exists row. auto. Qed.

Lemma only_adds_trans source_id (P : date -> Prop) db1 db2 db3 :
  only_adds source_id P db1 db2 -> only_adds source_id P db2 db3 ->
  only_adds source_id P db1 db3.
Proof.
  intros H12 H23 row3 Hin3.
  destruct (H23 row3 Hin3) as [(row2 & Hin2 & Hid & Hsrc & Hdate)|Hnew];
    [|right; exact Hnew].
  destruct (H12 row2 Hin2) as [(row1 & Hin1 & Hid1 & Hsrc1 & Hdate1)|[Hs Hp]].
  - left. exists row1. repeat split; congruence.
  - right. split; [congruence|]. rewrite <- Hdate. exact Hp.
Qed.

Lemma only_adds_weaken source_id (P P' : date -> Prop) db db' :
  (forall d, P d -> P' d) -> only_adds source_id P db db' ->
  only_adds source_id P' db db'.
Proof.
  intros HP H row' Hin. destruct (H row' Hin) as [Hold|[Hs Hp]]; auto.
Qed.

Lemma upsert_only_adds source_id issue_date url description db :
  only_adds source_id (fun d => d = issue_date) db
    (snd (insert_daily_journal_on_conflict_update
            source_id issue_date url description db)).
Proof.
  destruct (rows_with_key source_id issue_date db) as [|r0 rs] eqn:Hrows.
  - rewrite upsert_fresh by exact Hrows. cbn [snd]. intros row' Hin.
    cbn [daily_journals] in Hin. apply elem_of_app in Hin as [Hin|Hin].
    + left. exists row'. auto.
    + apply list_elem_of_singleton in Hin. subst row'. right. auto.
  - rewrite upsert_conflict by (rewrite Hrows; discriminate). cbn [snd].
    intros row' Hin. cbn [daily_journals] in Hin.
    apply list_elem_of_fmap in Hin as (row & -> & Hin).
    left. exists row. destruct (has_key source_id issue_date row); auto.
Qed.

Section Loop.
Context {W : Type} `{World W}.

(** The loop of [state_process_month] over the issues: it never raises; it
    keeps the issues and the notices that the store had; what it adds are
    issues of the source with a date of the list; and every date of the
    list has a row afterwards. *)
Lemma upsert_issues_spec
  (issues : list (date * string * string)) (c : Dogc.CrawlerContext W) :
  let r := Dogc.upsert_issues issues c in
  fst r = Ok tt
  /\ keeps_issues (Dogc.db_conn c) (Dogc.db_conn (snd r))
  /\ only_adds (Dogc.source_id c)
               (fun d => exists issue_url description,
                           (d, issue_url, description) ∈ issues)
               (Dogc.db_conn c) (Dogc.db_conn (snd r))
  /\ forall issue_date issue_url description,
       (issue_date, issue_url, description) ∈ issues ->
       exists row, row ∈ daily_journals (Dogc.db_conn (snd r))
                   /\ dj_source_id row = Dogc.source_id c
                   /\ dj_issue_date row = issue_date.
Proof.
  revert c. induction issues as [|[[d u] desc] rest IH]; intros c r; subst r.
  - split; [reflexivity|]. split; [apply keeps_issues_refl|].
    split; [apply only_adds_refl|].
    intros ? ? ? Hin. apply elem_of_nil in Hin. contradiction.
  - cbn [Dogc.upsert_issues]. unfold bind at 1.
    rewrite (UpsertFacts.dogc_upsert_daily_journal_eq W _).
    destruct (upsert_keeps_issues (Dogc.source_id c) d u desc (Dogc.db_conn c))
      as [Hkeep (row & Hrow & Hsrc & Hdate & _)].
    pose proof (upsert_only_adds (Dogc.source_id c) d u desc (Dogc.db_conn c))
      as Hadds.
    set (db1 := snd (insert_daily_journal_on_conflict_update
                       (Dogc.source_id c) d u desc (Dogc.db_conn c))) in *.
    unfold bind at 1, gets. unfold bind at 1. unfold Dogc.log, Dogc.on_logger, Shared.log, modify.
    cbn [fst snd].
    match goal with
    | |- context [Dogc.upsert_issues rest ?c1] =>
        set (c1' := c1);
        destruct (IH c1') as (Hok & Hkeep' & Hadds' & Hall)
    end.
    assert (Hdb1 : Dogc.db_conn c1' = db1) by reflexivity.
    assert (Hsrc1 : Dogc.source_id c1' = Dogc.source_id c) by reflexivity.
    rewrite Hdb1 in Hkeep', Hadds'. rewrite Hsrc1 in Hall, Hadds'.
    split; [exact Hok|]. split; [eapply keeps_issues_trans; eassumption|].
    split.
    { eapply only_adds_trans.
      - eapply only_adds_weaken; [|exact Hadds].
        intros d0 ->. exists u, desc. apply list_elem_of_here.
      - eapply only_adds_weaken; [|exact Hadds'].
        intros d0 (u0 & desc0 & Hin0). exists u0, desc0.
        apply list_elem_of_further. exact Hin0. }
    intros d' u' desc' Hin. apply elem_of_cons in Hin as [[= -> -> ->]|Hin].
    + destruct Hkeep' as [_ Hrows]. destruct (Hrows row Hrow) as (row' & Hin' & _ & Hs & Hd & _).
      exists row'. split; [exact Hin'|]. split; congruence.
    + eauto.
Qed.


End Loop.

Section Month.
Context {W : Type} `{Page W}.
Variable get_calendar_year_month : Z -> M W (Z * Z * string).
Variable click_next_month : Z -> M W unit.

Lemma keeps_store_lift_res {A} (x : Res A) :
  keeps_store (Boe.lift_res x : M (Dogc.CrawlerContext W) A).
Proof. intros c. reflexivity. Qed.

Ltac keeps :=
  repeat first
    [ apply keeps_store_bind; [|intros ?]
    | apply keeps_store_lift_res
    | solve [auto with store]
    | match goal with
      | |- keeps_store (match ?x with _ => _ end) => destruct x
      | |- keeps_store (if ?x then _ else _) => destruct x
      end ].

(** The reader of the calendar leaves the store alone, whether it returns
    or raises. *)
Lemma keeps_store_clickable_issues_loop current_year current_month
  (cells : list Element) :
  forall rows,
    keeps_store (clickable_issues_loop current_year current_month cells rows).
Proof.
  induction cells as [|cell cells IH]; intros rows;
    cbn [clickable_issues_loop]; cbv zeta; keeps.
Qed.

Lemma keeps_store_clickable_issues current_year current_month :
  keeps_store (extract_clickable_issues_for_visible_month current_year
                                                          current_month).
Proof.
  unfold extract_clickable_issues_for_visible_month. keeps.
  apply keeps_store_clickable_issues_loop.
Qed.

(** X18.  Whatever state_process_month does on a page (return or raise), the
    store afterwards still has every issue it had, the notices are
    untouched, and every issue row that is new belongs to the context's
    source and has a date between start_issue_date and end_issue_date. *)
Theorem process_month_stays_in_the_window (c : Dogc.CrawlerContext W) :
  let c' := snd (Dogc.state_process_month
                   get_calendar_year_month click_next_month
                   extract_clickable_issues_for_visible_month c) in
  keeps_issues (Dogc.db_conn c) (Dogc.db_conn c')
  /\ only_adds (Dogc.source_id c)
               (fun d => date_leb (Dogc.start_issue_date c) d = true
                         /\ date_leb d (Dogc.end_issue_date c) = true)
               (Dogc.db_conn c) (Dogc.db_conn c').
Proof.
  intros c'. subst c'.
  set (Q := fun db db' : Db =>
              keeps_issues db db'
              /\ only_adds (Dogc.source_id c)
                   (fun d => date_leb (Dogc.start_issue_date c) d = true
                             /\ date_leb d (Dogc.end_issue_date c) = true)
                   db db').
  assert (Hrefl : forall db, Q db db).
  { intros db. split; [apply keeps_issues_refl|apply only_adds_refl]. }
  change (Q (Dogc.db_conn c)
            (Dogc.db_conn
               (snd (Dogc.state_process_month
                       get_calendar_year_month click_next_month
                       extract_clickable_issues_for_visible_month c)))).
  unfold Dogc.state_process_month. unfold bind at 1.
  rewrite PendingFacts.maybe_route_eq.
  destruct (Dogc.find_displayed Dogc.cookie_selectors (Dogc.driver c))
    as [[[b|]|e] w]; try apply Hrefl.
  rewrite bind_gets. cbv beta. unfold bind at 1. unfold Dogc.on_driver at 1.
  cbn [Dogc.driver Dogc.set_driver Dogc.timeout_seconds].
  destruct (get_calendar_year_month (Dogc.timeout_seconds c) w)
    as [[[[current_year current_month] month_text]|e] w1]; [|apply Hrefl].
  rewrite !bind_gets. cbv beta.
  unfold bind at 1. unfold Dogc.log at 1, Dogc.on_logger, Shared.log, modify.
  cbn [fst snd]. unfold bind at 1.
  match goal with
  | |- context [extract_clickable_issues_for_visible_month ?y ?m ?c0] =>
      pose proof (keeps_store_clickable_issues y m c0) as Hkeep;
      pose proof (ReaderFacts.clickable_issues_window y m c0) as Hwin;
      destruct (extract_clickable_issues_for_visible_month y m c0)
        as [[issues|e] c2]
  end; cbn [snd] in Hkeep; cbn [Dogc.db_conn Dogc.set_logger Dogc.set_driver] in Hkeep.
  2:{ cbn [snd]. rewrite <- Hkeep. apply Hrefl. }
  specialize (Hwin _ _ eq_refl) as [Hsrc Hwin].
  cbn [Dogc.source_id Dogc.set_logger Dogc.set_driver] in Hsrc.
  cbn [Dogc.start_issue_date Dogc.end_issue_date Dogc.set_logger
       Dogc.set_driver] in Hwin.
  unfold bind at 1. unfold Dogc.log at 1, Dogc.on_logger, Shared.log, modify.
  cbn [fst snd]. unfold bind at 1.
  match goal with
  | |- context [Dogc.upsert_issues issues ?c0] =>
      destruct (upsert_issues_spec issues c0)
        as (Hok & Hki & Hoa & _);
      destruct (Dogc.upsert_issues issues c0) as [[u|e] c3]
  end; cbn [fst snd] in *; [|discriminate].
  cbn [Dogc.db_conn Dogc.source_id Dogc.set_logger] in Hki, Hoa.
  match goal with
  | |- context [snd (?tail c3)] =>
      assert (Htail : keeps_store tail) by keeps
  end.
  rewrite <- (Htail c3). rewrite Hkeep. rewrite Hsrc in Hoa.
  split; [exact Hki|].
  eapply only_adds_weaken; [|exact Hoa].
  intros d (u0 & desc0 & Hin). exact (Hwin d u0 desc0 Hin).
Qed.

End Month.
End ProcessMonthFacts.

Module OpenNoticeFacts.

Import Sql Notions Basics StoreFrame.

Section OpenNotice.
Context {W : Type} `{World W}.
Variable extract_notice_detail : M (Dogc.CrawlerContext W) Dogc.NoticeDetail.

(** X19.  Provided the reader of the notice page does not write to the
    store, state_open_notice (return or raise) leaves the store either
    exactly as it was, or as one upsert_notice for the current issue leaves
    it, with a title that is not empty: it never writes a notice without a
    title, and never more than one. *)
Theorem open_notice_writes_one_titled_notice (c : Dogc.CrawlerContext W) :
  keeps_store extract_notice_detail ->
  let db := Dogc.db_conn c in
  let db' := Dogc.db_conn (snd (Dogc.state_open_notice extract_notice_detail c)) in
  db' = db
  \/ exists journal,
       Dogc.current_daily_journal c = Some journal
       /\ one_titled_notice (Dogc.pj_id journal) db db'.
Proof.
  intros Hdetail db db'. subst db db'.
  unfold Dogc.state_open_notice.
  rewrite bind_gets. cbv beta. rewrite bind_gets. cbv beta.
  destruct (Dogc.current_daily_journal c) as [journal|] eqn:Hcur;
    [|left; reflexivity].
  destruct (Dogc.current_notice_candidate c) as [candidate|] eqn:Hcand;
    [|left; reflexivity].
  set (Q := fun db db' : Db =>
              db' = db
              \/ exists j, Some journal = Some j
                           /\ one_titled_notice (Dogc.pj_id j) db db').
  assert (Hrefl : forall db, Q db db) by (intros; left; reflexivity).
  match goal with
  | |- context [snd (?m c)] => enough (Hm : store_after Q m) by exact (Hm c)
  end.
  repeat (apply store_after_bind;
          [exact Hrefl|solve [auto with store]|intros ?]).
  match goal with
  | |- store_after _ (match ?x with _ => _ end) => destruct x
  end.
  { apply store_after_keeps; auto with store. }
  apply store_after_bind; [exact Hrefl|exact Hdetail|intros detail].
  apply store_after_then.
  2:{ intros _. repeat (apply keeps_store_bind; [|intros ?]);
        auto with store. apply keeps_store_modify. reflexivity. }
  destruct (String.eqb _ "") eqn:Htitle.
  { apply store_after_keeps; auto with store. }
  apply store_after_then; [|intros _; auto with store].
  intros c0. right. exists journal. split; [reflexivity|].
  unfold Dogc.upsert_notice. rewrite store_after_on_db_conn.
  eexists _, _, _, _, _, _. split; [|reflexivity].
  intros Hempty. rewrite Hempty in Htitle. discriminate.
Qed.

End OpenNotice.

Lemma open_notice_writes_one_titled_notice_witness :
  fst (Dogc.state_open_notice Cases.titled_detail Cases.at_first_notice)
  = Ok Dogc.PICK_NOTICE_LINK
  /\ exists journal,
       Dogc.current_daily_journal Cases.at_first_notice = Some journal
       /\ one_titled_notice (Dogc.pj_id journal)
            (Dogc.db_conn Cases.at_first_notice)
            (Dogc.db_conn
               (snd (Dogc.state_open_notice Cases.titled_detail
                       Cases.at_first_notice))).
Proof.
  assert (Hdetail : keeps_store Cases.titled_detail)
    by (intros c; reflexivity).
  split; [vm_compute; reflexivity|].
  destruct (open_notice_writes_one_titled_notice Cases.titled_detail
              Cases.at_first_notice Hdetail) as [Hsame|Hone];
    [vm_compute in Hsame; discriminate|exact Hone].
Defined.

End OpenNoticeFacts.

(* ===================================================================== *)
(** * [crawler_boe.py]: what the handler of a notice leaves in the store *)
(* ===================================================================== *)

Module BoeNoticeFacts.

Import Sql SqlFacts NoticeFacts DateFacts Notions Basics StoreFacts BoePages.

(** The id that an upsert of an issue returns is the id of a row of the
    issue. *)
Lemma upsert_returns_a_row source_id issue_date url description db id :
  head (fst (insert_daily_journal_on_conflict_update source_id issue_date url
               description db)) = Some id ->
  exists row,
    row ∈ daily_journals (snd (insert_daily_journal_on_conflict_update
                                 source_id issue_date url description db))
    /\ dj_id row = id /\ dj_source_id row = source_id
    /\ dj_issue_date row = issue_date.
Proof.
  unfold insert_daily_journal_on_conflict_update. cbn [fst snd daily_journals].
  intros Hhead. apply head_Some_elem_of in Hhead.
  apply list_elem_of_fmap in Hhead as (row & -> & Hrow).
  apply list_elem_of_filter in Hrow as [Hkey Hrow].
  exists row. split; [exact Hrow|]. split; [reflexivity|].
  unfold has_key in Hkey. apply andb_prop in Hkey as [Hsrc Hdate].
  apply Z.eqb_eq in Hsrc. apply bool_decide_eq_true in Hdate. auto.
Qed.

(** [upsert_notice] writes to the notices only, and leaves the issue with a
    notice. *)
Lemma upsert_notice_journals daily_journal_id title category department url
  content extra_info db :
  daily_journals (snd (Shared.upsert_notice daily_journal_id title category
                         department url content extra_info db))
  = daily_journals db.
Proof.
  rewrite upsert_notice_eq. cbn [snd].
  match goal with
  | |- context [match ?x with Some _ => _ | None => _ end] => destruct x
  end; reflexivity.
Qed.

Lemma upsert_notice_counts daily_journal_id title category department url
  content extra_info db row :
  dj_id row = daily_journal_id ->
  count_notices (snd (Shared.upsert_notice daily_journal_id title category
                        department url content extra_info db)) row
  <> 0%nat.
Proof.
  intros Hid. rewrite upsert_notice_eq. cbn [snd].
  destruct (match (if negb (String.eqb url "")
                   then select_notice_id_by_url daily_journal_id url db
                   else None) with
            | Some id => Some id
            | None => select_notice_id_by_title daily_journal_id title db
            end) as [id|] eqn:Hres.
  - assert (Hex : exists n, n ∈ notices db
                            /\ n_daily_journal_id n = daily_journal_id).
    { destruct (negb (String.eqb url "")).
      - destruct (select_notice_id_by_url daily_journal_id url db) as [i|] eqn:Hu.
        + apply select_least in Hu as [(n & Hn & [Hj _] & _) _]. eauto.
        + apply select_least in Hres as [(n & Hn & [Hj _] & _) _]. eauto.
      - apply select_least in Hres as [(n & Hn & [Hj _] & _) _]. eauto. }
    destruct Hex as (n & Hn & Hj). rewrite count_notices_update.
    apply (count_notices_pos db row n Hn). congruence.
  - rewrite count_notices_insert.
    destruct (decide (daily_journal_id = dj_id row)); [lia|congruence].
Qed.

(** The window of a run without overrides starts after every issue that is
    not later than the latest issue of the source. *)
Lemma window_after_watermark today db source_id source_start_at lg window
  (w issue_date : date) :
  select_max_issue_date source_id db = Some w ->
  date_leb issue_date w = true ->
  fst (Boe.resolve_crawl_range today db source_id source_start_at
                               None None None lg) = Ok window ->
  date_ltb issue_date (fst window) = true /\ snd window = today.
Proof.
  intros Hmax Hw. unfold Boe.resolve_crawl_range. cbn [truthy orb].
  rewrite Hmax. unfold bind, Boe.lift_res, Shared.log, modify, ret.
  destruct (add_one_day w) as [nxt|e] eqn:Hnext; [|discriminate].
  cbn [fst]. intros [= <-]. cbn [fst snd]. split; [|reflexivity].
  apply (date_leb_ltb_trans _ w _ Hw). apply add_one_day_later. exact Hnext.
Qed.

Section Handler.
Context {W : Type} `{World W}.
Variable extract_notice_detail_from_doc_page
  : M (Boe.CrawlerContext W) NoticeDetail.

#[local] Abbreviation state_open_notice :=
  (state_open_notice extract_notice_detail_from_doc_page).

(** Where the handler can stop: before the notice is written, with the
    issue in the store, or after. *)
Lemma open_notice_outcome (c c' : Boe.CrawlerContext W) (result : Boe.ResultRow)
  (out : Res Boe.BoeState) :
  boe_keeps_store extract_notice_detail_from_doc_page ->
  Boe.current_result c = Some result ->
  state_open_notice c = (out, c') ->
  let r := insert_daily_journal_on_conflict_update
             (Boe.source_id c) (Boe.issue_date result)
             (Boe.daily_journal_url (Boe.issue_date result))
             (Boe.daily_journal_description result) (Boe.db_conn c) in
  (Boe.db_conn c' = snd r /\ exists e, out = Raise e)
  \/ exists id title category department url content,
       head (fst r) = Some id
       /\ Boe.db_conn c'
          = snd (Shared.upsert_notice id title category department url content
                                      "" (snd r))
       /\ (title = Boe.title result \/ title <> "")
       /\ forall s, out = Ok s ->
            s = Boe.PROCESS_RESULT_ITEM /\ Boe.current_result c' = None.
Proof.
  intros Hkeep Hcur. unfold BoePages.state_open_notice.
  rewrite bind_gets. cbv beta. rewrite Hcur.
  unfold bind at 1. rewrite (UpsertFacts.boe_upsert_daily_journal_eq W _).
  cbv zeta.
  set (r := insert_daily_journal_on_conflict_update
              (Boe.source_id c) (Boe.issue_date result)
              (Boe.daily_journal_url (Boe.issue_date result))
              (Boe.daily_journal_description result) (Boe.db_conn c)).
  cbn [fst snd].
  destruct (head (fst r)) as [id|] eqn:Hhead.
  2:{ intros [= <- <-]. left. split; [reflexivity|eauto]. }
  unfold bind at 1. unfold Boe.log at 1, Boe.on_logger, Shared.log, modify.
  cbn [fst snd].
  unfold bind at 1. unfold Boe.log at 1, Boe.on_logger, Shared.log, modify.
  cbn [fst snd]. rewrite bind_gets. cbv beta.
  unfold bind at 1. unfold Boe.on_driver at 1.
  match goal with
  | |- context [driver_get ?u ?w0] =>
      destruct (driver_get u w0) as [[u1|e] w1]
  end.
  2:{ intros [= <- <-]. left. split; [reflexivity|eauto]. }
  unfold bind at 1. unfold Boe.on_driver at 1.
  match goal with
  | |- context [Boe.wait_dom_ready ?t ?w0] =>
      destruct (Boe.wait_dom_ready t w0) as [[u2|e] w2]
  end.
  2:{ intros [= <- <-]. left. split; [reflexivity|eauto]. }
  unfold bind at 1. unfold Boe.on_driver at 1.
  match goal with
  | |- context [webdriver_wait_until ?t ?cond ?w0] =>
      destruct (webdriver_wait_until t cond w0) as [[u3|e] w3]
  end.
  2:{ intros [= <- <-]. left. split; [reflexivity|eauto]. }
  unfold bind at 1.
  match goal with
  | |- context [extract_notice_detail_from_doc_page ?c0] =>
      pose proof (Hkeep c0) as Hdb;
      destruct (extract_notice_detail_from_doc_page c0) as [[detail|e] c1]
  end; cbn [snd] in Hdb.
  2:{ intros [= <- <-]. left. split; [exact Hdb|eauto]. }
  assert (Hdb1 : Boe.db_conn c1 = snd r) by exact Hdb.
  assert (Htitle : Dogc.str_or (d_title detail) (Boe.title result)
                   = Boe.title result
                   \/ Dogc.str_or (d_title detail) (Boe.title result) <> "").
  { unfold Dogc.str_or. destruct (String.eqb (d_title detail) "") eqn:E; auto.
    right. intros E'. rewrite E' in E. discriminate. }
  intros Hrun. right.
  exists id, (Dogc.str_or (d_title detail) (Boe.title result)),
    (Dogc.str_or (d_category detail) (Boe.category result)),
    (Dogc.str_or (d_department detail) (Boe.department result)),
    (Dogc.str_or (d_url detail) (Boe.detail_url result)), (d_content detail).
  split; [reflexivity|]. revert Hrun.
  unfold bind at 1. unfold Boe.upsert_notice at 1, Boe.on_db_conn.
  rewrite Hdb1.
  match goal with
  | |- context [Shared.upsert_notice ?a ?b ?c0 ?d ?e ?f ?g ?db] =>
      generalize (upsert_notice_eq a b c0 d e f g db);
      destruct (Shared.upsert_notice a b c0 d e f g db) as [[u4|e4] db2]
  end; [intros _|discriminate].
  cbn [snd]. unfold bind at 1.
  unfold Boe.log at 1, Boe.on_logger, Shared.log, modify. cbn [fst snd].
  unfold bind at 1. unfold Boe.on_artifacts at 1.
  match goal with
  | |- context [Artifacts.capture ?st ?note ?s0] =>
      destruct (Artifacts.capture st note s0) as [[created|e] [a w4]]
  end.
  2:{ intros [= <- <-]. split; [reflexivity|]. split; [exact Htitle|].
      intros s Hs. discriminate. }
  unfold bind, Boe.log, Boe.on_logger, Shared.log, modify, ret.
  cbn [fst snd]. intros [= <- <-]. split; [reflexivity|].
  split; [exact Htitle|]. intros s [= <-]. split; reflexivity.
Qed.

(** X24.  Provided the reader of the notice page does not write to the
    store: when BOE's state_open_notice returns, it returns
    PROCESS_RESULT_ITEM; without a current result the store is untouched;
    with one, current_result is cleared and the store has a row of the
    context's source with the issue date of the result, and that row has at
    least one notice. *)
Theorem open_notice_files_the_notice_under_its_issue
  (c c' : Boe.CrawlerContext W) (s : Boe.BoeState) :
  boe_keeps_store extract_notice_detail_from_doc_page ->
  state_open_notice c = (Ok s, c') ->
  s = Boe.PROCESS_RESULT_ITEM
  /\ (Boe.current_result c = None -> Boe.db_conn c' = Boe.db_conn c)
  /\ forall result,
       Boe.current_result c = Some result ->
       Boe.current_result c' = None
       /\ exists row,
            row ∈ daily_journals (Boe.db_conn c')
            /\ dj_source_id row = Boe.source_id c
            /\ dj_issue_date row = Boe.issue_date result
            /\ count_notices (Boe.db_conn c') row <> 0%nat.
Proof.
  intros Hkeep Hrun.
  destruct (Boe.current_result c) as [result|] eqn:Hcur.
  - destruct (open_notice_outcome c c' result (Ok s) Hkeep Hcur Hrun)
      as [[_ [e He]]|(id & t & ca & de & u & co & Hhead & Hdb & _ & Hok)];
      [discriminate|].
    destruct (Hok s eq_refl) as [-> Hnone].
    split; [reflexivity|]. split; [discriminate|].
    intros result' [= <-]. split; [exact Hnone|].
    apply upsert_returns_a_row in Hhead as (row & Hrow & Hid & Hsrc & Hdate).
    exists row. rewrite Hdb, upsert_notice_journals.
    split; [exact Hrow|]. split; [exact Hsrc|]. split; [exact Hdate|].
    apply upsert_notice_counts. exact Hid.
  - revert Hrun. unfold BoePages.state_open_notice.
    rewrite bind_gets. cbv beta. rewrite Hcur. intros [= <- <-].
    split; [reflexivity|]. split; [reflexivity|]. discriminate.
Qed.

(** X25.  Provided the reader of the notice page does not write to the
    store: once upsert_daily_journal has returned for the current result,
    whatever BOE's state_open_notice does after that, also when it raises
    because the page did not load, the reader failed or the capture failed,
    a later resolve_crawl_range without overrides for the source returns,
    when it returns, a window that starts strictly after the issue date of
    that result and ends today. The issue is persisted before its notice is
    fetched. Nothing is stated for a run in which the upsert of the issue
    itself raised. *)
Theorem open_notice_moves_the_watermark (c c1 : Boe.CrawlerContext W)
  (result : Boe.ResultRow) (id : Z) (today source_start_at : date)
  (lg : Logger) (window : date * date) :
  boe_keeps_store extract_notice_detail_from_doc_page ->
  Boe.current_result c = Some result ->
  Boe.upsert_daily_journal (Boe.issue_date result)
                           (Boe.daily_journal_description result) c
  = (Ok id, c1) ->
  let c' := snd (state_open_notice c) in
  fst (Boe.resolve_crawl_range today (Boe.db_conn c') (Boe.source_id c)
                               source_start_at None None None lg)
  = Ok window ->
  date_ltb (Boe.issue_date result) (fst window) = true /\ snd window = today.
Proof.
  intros Hkeep Hcur _ c'. subst c'.
  destruct (state_open_notice c) as [out c'] eqn:Hrun. cbn [snd].
  pose proof (open_notice_outcome c c' result out Hkeep Hcur Hrun) as Hout.
  cbv zeta in Hout.
  destruct (select_max_after_upsert (Boe.source_id c) (Boe.issue_date result)
              (Boe.daily_journal_url (Boe.issue_date result))
              (Boe.daily_journal_description result) (Boe.db_conn c))
    as [Hmax _].
  cbv zeta in Hmax.
  set (db1 := snd (insert_daily_journal_on_conflict_update (Boe.source_id c)
                     (Boe.issue_date result)
                     (Boe.daily_journal_url (Boe.issue_date result))
                     (Boe.daily_journal_description result) (Boe.db_conn c)))
    in *.
  assert (Hjournals : daily_journals (Boe.db_conn c') = daily_journals db1).
  { destruct Hout as [[-> _]|(id0 & t & ca & de & u & co & _ & -> & _)];
      [reflexivity|apply upsert_notice_journals]. }
  assert (Hsame : select_max_issue_date (Boe.source_id c) (Boe.db_conn c')
                  = select_max_issue_date (Boe.source_id c) db1).
  { unfold select_max_issue_date. rewrite Hjournals. reflexivity. }
  rewrite <- Hsame in Hmax.
  apply (window_after_watermark _ _ _ _ _ _ _ _ Hmax).
  destruct (select_max_issue_date (Boe.source_id c) (Boe.db_conn c)) as [w0|];
    [|apply date_leb_refl].
  destruct (date_ltb w0 (Boe.issue_date result)) eqn:E; [apply date_leb_refl|].
  apply date_ltb_false_leb. exact E.
Qed.

End Handler.

Lemma open_notice_files_the_notice_under_its_issue_witness :
  fst (BoePages.state_open_notice Cases.text_only Cases.at_result)
  = Ok Boe.PROCESS_RESULT_ITEM
  /\ Boe.current_result
       (snd (BoePages.state_open_notice Cases.text_only Cases.at_result))
     = None
  /\ exists row,
       row ∈ daily_journals
               (Boe.db_conn
                  (snd (BoePages.state_open_notice Cases.text_only
                          Cases.at_result)))
       /\ dj_source_id row = 1
       /\ dj_issue_date row = Stub.d 2024 1 2
       /\ count_notices
            (Boe.db_conn
               (snd (BoePages.state_open_notice Cases.text_only
                       Cases.at_result))) row
          <> 0%nat.
Proof.
  assert (Hkeep : boe_keeps_store Cases.text_only) by (intros c; reflexivity).
  assert (Hrun : BoePages.state_open_notice Cases.text_only Cases.at_result
                 = (Ok Boe.PROCESS_RESULT_ITEM,
                    snd (BoePages.state_open_notice Cases.text_only
                           Cases.at_result)))
    by (vm_compute; reflexivity).
  split; [vm_compute; reflexivity|].
  exact (proj2 (proj2 (open_notice_files_the_notice_under_its_issue
                         Cases.text_only Cases.at_result _ _ Hkeep Hrun))
               Cases.boe_result eq_refl).
Defined.

Lemma open_notice_moves_the_watermark_witness :
  fst (BoePages.state_open_notice Cases.no_page Cases.at_result)
  = Raise (WebDriverException (Msg "no such window" []))
  /\ fst (Boe.resolve_crawl_range (Stub.d 2024 1 3)
            (Boe.db_conn
               (snd (BoePages.state_open_notice Cases.no_page
                       Cases.at_result)))
            1 (Stub.d 2024 1 1) None None None [])
     = Ok (Stub.d 2024 1 3, Stub.d 2024 1 3)
  /\ date_ltb (Stub.d 2024 1 2) (Stub.d 2024 1 3) = true
  /\ Stub.d 2024 1 3 = Stub.d 2024 1 3.
Proof.
  assert (Hkeep : boe_keeps_store Cases.no_page) by (intros c; reflexivity).
  assert (Hwin : fst (Boe.resolve_crawl_range (Stub.d 2024 1 3)
                   (Boe.db_conn
                      (snd (BoePages.state_open_notice Cases.no_page
                              Cases.at_result)))
                   1 (Stub.d 2024 1 1) None None None [])
                 = Ok (Stub.d 2024 1 3, Stub.d 2024 1 3))
    by (vm_compute; reflexivity).
  split; [vm_compute; reflexivity|]. split; [exact Hwin|].
  assert (Hupsert : Boe.upsert_daily_journal (Boe.issue_date Cases.boe_result)
                      (Boe.daily_journal_description Cases.boe_result)
                      Cases.at_result
                    = (Ok 1,
                       snd (Boe.upsert_daily_journal
                              (Boe.issue_date Cases.boe_result)
                              (Boe.daily_journal_description Cases.boe_result)
                              Cases.at_result)))
    by (vm_compute; reflexivity).
  exact (open_notice_moves_the_watermark Cases.no_page Cases.at_result _
           Cases.boe_result 1 (Stub.d 2024 1 3) (Stub.d 2024 1 1) []
           (Stub.d 2024 1 3, Stub.d 2024 1 3) Hkeep eq_refl Hupsert Hwin).
Defined.

End BoeNoticeFacts.

(* ===================================================================== *)
(** * Who touches the artifact writer *)
(* ===================================================================== *)

Module WriterFrame.

Import Sql Artifacts Notions Basics.

Section Generic.
Context {St : Type} (writer : St -> ArtifactWriter).

Lemma keeps_writer_ret {A} (a : A) : keeps_writer writer (ret a : M St A).
Proof. intros s. reflexivity. Qed.

Lemma keeps_writer_raise {A} (e : exn) : keeps_writer writer (raise e : M St A).
Proof. intros s. reflexivity. Qed.

Lemma keeps_writer_gets {A} (f : St -> A) : keeps_writer writer (gets f).
Proof. intros s. reflexivity. Qed.

Lemma keeps_writer_modify (f : St -> St) :
  (forall s, writer (f s) = writer s) -> keeps_writer writer (modify f).
Proof. intros Hf s. apply Hf. Qed.

Lemma keeps_writer_bind {A B} (m : M St A) (k : A -> M St B) :
  keeps_writer writer m -> (forall a, keeps_writer writer (k a)) ->
  keeps_writer writer (bind m k).
Proof.
  intros Hm Hk s. unfold bind. specialize (Hm s).
  destruct (m s) as [[a|e] s1]; cbn [snd] in *; [|exact Hm].
  rewrite (Hk a s1). exact Hm.
Qed.

Lemma keeps_writer_try {A} (m : M St A) (h : exn -> M St A) :
  keeps_writer writer m -> (forall e, keeps_writer writer (h e)) ->
  keeps_writer writer (try_except m h).
Proof.
  intros Hm Hh s. unfold try_except. specialize (Hm s).
  destruct (m s) as [[a|e] s1]; cbn [snd] in *; [exact Hm|].
  rewrite (Hh e s1). exact Hm.
Qed.

Lemma stops_of_keeps {A} (n : Z) (e : exn) (m : M St A) :
  keeps_writer writer m -> stops_at_capture writer n e m.
Proof. intros Hm s Hn. left. rewrite (Hm s). exact Hn. Qed.

(** An action that does not get past the attempt, followed by one that
    does not, does not get past it: when the first one has raised, the
    second one is not run. *)
Lemma stops_bind {A B} (n : Z) (e : exn) (m : M St A) (k : A -> M St B) :
  stops_at_capture writer n e m ->
  (forall a, stops_at_capture writer n e (k a)) ->
  stops_at_capture writer n e (bind m k).
Proof.
  intros Hm Hk s Hn. unfold bind. specialize (Hm s Hn).
  destruct (m s) as [[a|e1] s1]; cbn [fst snd] in *.
  - destruct Hm as [Hm|[Hm _]]; [|discriminate]. exact (Hk a s1 Hm).
  - destruct Hm as [Hm|[Hm1 Hm2]]; [left; exact Hm|].
    right. split; [congruence|exact Hm2].
Qed.

End Generic.

Section Capture.
Context {W : Type} `{World W}.

(** The writer after [capture], whether it returns or raises. *)
Lemma capture_writer (state note : string) (s : ArtifactWriter * W) :
  fst (snd (capture state note s))
  = mkWriter (run_dir (fst s)) (steps_dir (fst s)) (counter (fst s) + 1).
Proof.
  destruct s as [a w]. unfold capture, bind, modify, gets, in_world, ret. simpl.
  destruct (driver_save_screenshot _ w) as [[b|e] w1]; [|reflexivity]. simpl.
  destruct (driver_page_source w1) as [[src|e] w2]; [|reflexivity]. simpl.
  destruct (path_write_text _ _ w2) as [[u|e] w3]; [|reflexivity]. simpl.
  destruct (utcnow_isoformat w3) as [[t|e] w4]; [|reflexivity]. simpl.
  destruct (driver_current_url w4) as [[url|e] w5]; [|reflexivity]. simpl.
  destruct (driver_title w5) as [[ttl|e] w6]; [|reflexivity]. simpl.
  destruct (path_write_text _ _ w6) as [[u'|e] w7]; reflexivity.
Qed.

(** ** [crawler_dogc.py] *)

Lemma dogc_keeps_on_logger {A} (m : M Logger A) :
  keeps_writer Dogc.artifacts (Dogc.on_logger (W := W) m).
Proof.
  intros c. unfold Dogc.on_logger. destruct (m (Dogc.logger c)). reflexivity.
Qed.

Lemma dogc_keeps_log l fmt args :
  keeps_writer Dogc.artifacts (Dogc.log (W := W) l fmt args).
Proof. apply dogc_keeps_on_logger. Qed.

Lemma dogc_keeps_on_driver {A} (m : M W A) :
  keeps_writer Dogc.artifacts (Dogc.on_driver m).
Proof.
  intros c. unfold Dogc.on_driver. destruct (m (Dogc.driver c)). reflexivity.
Qed.

Lemma dogc_keeps_on_db_conn {A} (m : M Db A) :
  keeps_writer Dogc.artifacts (Dogc.on_db_conn (W := W) m).
Proof.
  intros c. unfold Dogc.on_db_conn. destruct (m (Dogc.db_conn c)). reflexivity.
Qed.

Lemma dogc_keeps_on_logger_driver {A} (m : M (Logger * W) A) :
  keeps_writer Dogc.artifacts (Dogc.on_logger_driver m).
Proof.
  intros c. unfold Dogc.on_logger_driver.
  destruct (m (Dogc.logger c, Dogc.driver c)) as [x [lg w]]. reflexivity.
Qed.

Lemma dogc_keeps_wait_until_true :
  keeps_writer Dogc.artifacts (Dogc.wait_until_true (W := W)).
Proof. intros c. reflexivity. Qed.

(** A capture moves the counter by one; the one that finds the counter at
    [n] fails. *)
Lemma dogc_stops_capture (n : Z) (e : exn) state note :
  capture_fails_at n e ->
  stops_at_capture Dogc.artifacts n e (Dogc.capture (W := W) state note).
Proof.
  intros Hfail c Hn. unfold Dogc.capture, Dogc.on_artifacts.
  pose proof (Hfail (Dogc.value state) note (Dogc.artifacts c, Dogc.driver c))
    as Hraise.
  pose proof (capture_writer (Dogc.value state) note
                (Dogc.artifacts c, Dogc.driver c)) as Hwriter.
  destruct (capture (Dogc.value state) note (Dogc.artifacts c, Dogc.driver c))
    as [x [a w]].
  cbn [fst snd Dogc.artifacts Dogc.set_driver Dogc.set_artifacts] in *.
  subst a. cbn [counter].
  destruct (decide (counter (Dogc.artifacts c) = n)) as [Heq|Hne].
  - right. split; [exact (Hraise Heq)|]. rewrite Heq. reflexivity.
  - left. lia.
Qed.

(** ** [crawler_boe.py] *)

Lemma boe_keeps_on_logger {A} (m : M Logger A) :
  keeps_writer Boe.artifacts (Boe.on_logger (W := W) m).
Proof.
  intros c. unfold Boe.on_logger. destruct (m (Boe.logger c)). reflexivity.
Qed.

Lemma boe_keeps_log l fmt args :
  keeps_writer Boe.artifacts (Boe.log (W := W) l fmt args).
Proof. apply boe_keeps_on_logger. Qed.

Lemma boe_keeps_on_driver {A} (m : M W A) :
  keeps_writer Boe.artifacts (Boe.on_driver m).
Proof.
  intros c. unfold Boe.on_driver. destruct (m (Boe.driver c)). reflexivity.
Qed.

Lemma boe_keeps_on_db_conn {A} (m : M Db A) :
  keeps_writer Boe.artifacts (Boe.on_db_conn (W := W) m).
Proof.
  intros c. unfold Boe.on_db_conn. destruct (m (Boe.db_conn c)). reflexivity.
Qed.

Lemma boe_keeps_on_logger_driver {A} (m : M (Logger * W) A) :
  keeps_writer Boe.artifacts (Boe.on_logger_driver m).
Proof.
  intros c. unfold Boe.on_logger_driver.
  destruct (m (Boe.logger c, Boe.driver c)) as [x [lg w]]. reflexivity.
Qed.

Lemma boe_stops_capture (n : Z) (e : exn) state note :
  capture_fails_at n e ->
  stops_at_capture Boe.artifacts n e
    (Boe.on_artifacts (W := W) (capture state note)).
Proof.
  intros Hfail c Hn. unfold Boe.on_artifacts.
  pose proof (Hfail state note (Boe.artifacts c, Boe.driver c)) as Hraise.
  pose proof (capture_writer state note (Boe.artifacts c, Boe.driver c))
    as Hwriter.
  destruct (capture state note (Boe.artifacts c, Boe.driver c)) as [x [a w]].
  cbn [fst snd Boe.artifacts Boe.set_driver Boe.set_artifacts] in *.
  subst a. cbn [counter].
  destruct (decide (counter (Boe.artifacts c) = n)) as [Heq|Hne].
  - right. split; [exact (Hraise Heq)|]. rewrite Heq. reflexivity.
  - left. lia.
Qed.

End Capture.

Create HintDb writer.
#[export] Hint Resolve keeps_writer_ret keeps_writer_raise keeps_writer_gets
  dogc_keeps_on_logger dogc_keeps_log dogc_keeps_on_driver
  dogc_keeps_on_db_conn dogc_keeps_on_logger_driver dogc_keeps_wait_until_true
  boe_keeps_on_logger boe_keeps_log boe_keeps_on_driver boe_keeps_on_db_conn
  boe_keeps_on_logger_driver dogc_stops_capture boe_stops_capture
  : writer.
#[export] Hint Extern 1 (keeps_writer _ (modify _)) =>
  (apply keeps_writer_modify; intros; reflexivity) : writer.

(** One step through an action: a [bind], a [try], a test, or one of the
    actions above. *)
Ltac writer_steps :=
  repeat first
    [ solve [auto with writer]
    | match goal with
      | |- keeps_writer _ (bind _ _) => apply keeps_writer_bind; [|intros ?]
      | |- keeps_writer _ (try_except _ _) =>
          apply keeps_writer_try; [|intros ?]
      | |- stops_at_capture _ _ _ (bind _ _) => apply stops_bind; [|intros ?]
      | |- keeps_writer _ (match ?x with _ => _ end) => destruct x
      | |- keeps_writer _ (if ?x then _ else _) => destruct x
      | |- stops_at_capture _ _ _ (match ?x with _ => _ end) => destruct x
      | |- stops_at_capture _ _ _ (if ?x then _ else _) => destruct x
      | |- stops_at_capture _ _ _ _ => apply stops_of_keeps
      end ].

Section Handlers.
Context {W : Type} `{World W}.

Lemma dogc_keeps_find_cookie :
  keeps_writer Dogc.artifacts (Dogc.find_cookie_accept_button (W := W)).
Proof. unfold Dogc.find_cookie_accept_button. writer_steps. Qed.

Lemma dogc_keeps_route current_state :
  keeps_writer Dogc.artifacts
    (Dogc.maybe_route_to_cookie_state (W := W) current_state).
Proof.
  unfold Dogc.maybe_route_to_cookie_state, Dogc.find_cookie_accept_button.
  writer_steps.
Qed.

Lemma dogc_keeps_first_usable attempted rows :
  keeps_writer Dogc.artifacts (Dogc.first_usable (W := W) attempted rows).
Proof.
  induction rows as [|row rows IH]; cbn [Dogc.first_usable]; cbv zeta;
    writer_steps; exact IH.
Qed.

Lemma dogc_keeps_fetch :
  keeps_writer Dogc.artifacts (Dogc.fetch_pending_daily_journal (W := W)).
Proof.
  unfold Dogc.fetch_pending_daily_journal. writer_steps.
  apply dogc_keeps_first_usable.
Qed.

Lemma dogc_keeps_upsert_daily_journal issue_date issue_url description :
  keeps_writer Dogc.artifacts
    (Dogc.upsert_daily_journal (W := W) issue_date issue_url description).
Proof. unfold Dogc.upsert_daily_journal. writer_steps. Qed.

Lemma dogc_keeps_upsert_issues issues :
  keeps_writer Dogc.artifacts (Dogc.upsert_issues (W := W) issues).
Proof.
  induction issues as [|[[d u] desc] rest IH]; cbn [Dogc.upsert_issues];
    writer_steps;
    first [apply dogc_keeps_upsert_daily_journal|exact IH].
Qed.

Lemma dogc_keeps_upsert_notice id title category department url content
  extra_info :
  keeps_writer Dogc.artifacts
    (Dogc.upsert_notice (W := W) id title category department url content
                        extra_info).
Proof. unfold Dogc.upsert_notice. writer_steps. Qed.

(** The hook leaves the writer alone. *)
Lemma dogc_keeps_hook from_state to_state :
  keeps_writer Dogc.artifacts
    (Dogc.simulate_human_transition (W := W) from_state to_state).
Proof. unfold Dogc.simulate_human_transition. writer_steps. Qed.

Lemma boe_keeps_hook from_state to_state :
  keeps_writer Boe.artifacts
    (Boe.simulate_human_transition (W := W) from_state to_state).
Proof. unfold Boe.simulate_human_transition. writer_steps. Qed.

Lemma boe_keeps_upsert_daily_journal issue_date description :
  keeps_writer Boe.artifacts
    (Boe.upsert_daily_journal (W := W) issue_date description).
Proof. unfold Boe.upsert_daily_journal. writer_steps. Qed.

Lemma boe_keeps_upsert_notice id title category department url content
  extra_info :
  keeps_writer Boe.artifacts
    (Boe.upsert_notice (W := W) id title category department url content
                       extra_info).
Proof. unfold Boe.upsert_notice. writer_steps. Qed.

End Handlers.

#[export] Hint Resolve dogc_keeps_find_cookie dogc_keeps_route dogc_keeps_fetch
  dogc_keeps_upsert_daily_journal dogc_keeps_upsert_issues
  dogc_keeps_upsert_notice dogc_keeps_hook boe_keeps_hook
  boe_keeps_upsert_daily_journal boe_keeps_upsert_notice : writer.

Section Engine.
Context {S C : Type} `{EqDecision S}.
Variable str_of_state : S -> string.
Variable r : Fsm.FSMRunner S C.
Variable writer : C -> ArtifactWriter.
Variable n : Z.
Variable e : exn.

Hypothesis Hhandlers :
  forall state handler,
    Fsm.handlers r state = Some handler ->
    stops_at_capture writer n e handler.
Hypothesis Hhook :
  forall hook, Fsm.on_transition r = Some hook ->
    forall c from_state to_state,
      writer (snd (hook c from_state to_state)) = writer c.

(** One pass of the engine does not get past the attempt when the handlers
    do not and the hook leaves the writer alone. *)
Lemma step_stops state c out c' ev :
  Fsm.step str_of_state r state c = (out, c', ev) ->
  counter (writer c) <= n ->
  counter (writer c') <= n
  \/ (out = Raise e /\ counter (writer c') = n + 1).
Proof.
  unfold Fsm.step. intros Hstep Hn. revert Hstep.
  destruct (Fsm.handlers r state) as [handler|] eqn:Hh.
  - pose proof (Hhandlers state handler Hh c Hn) as Hstop.
    destruct (handler c) as [[next|e1] c1]; cbn [fst snd] in Hstop.
    + destruct Hstop as [Hkeep|[Hraise _]]; [|discriminate].
      destruct (Fsm.on_transition r) as [hook|] eqn:Hon.
      * pose proof (Hhook hook eq_refl c1 state next) as Hk.
        destruct (hook c1 state next) as [[u|e2] c2]; cbn [snd] in Hk;
          intros [= <- <- <-]; left; rewrite Hk; exact Hkeep.
      * intros [= <- <- <-]. left. exact Hkeep.
    + intros [= <- <- <-]. exact Hstop.
  - intros [= <- <- <-]. left. exact Hn.
Qed.

(** Nor does the loop, nor the run. *)
Lemma run_loop_stops budget : forall state c out c' tr,
  Fsm.run_loop str_of_state r budget state c = (out, c', tr) ->
  counter (writer c) <= n ->
  counter (writer c') <= n
  \/ (out = Raise e /\ counter (writer c') = n + 1).
Proof.
  induction budget as [|budget IH]; intros state c out c' tr; cbn [Fsm.run_loop].
  - destruct (decide (state = Fsm.terminal_state r));
      intros [= <- <- <-] Hn; left; exact Hn.
  - destruct (decide (state = Fsm.terminal_state r));
      [intros [= <- <- <-] Hn; left; exact Hn|].
    destruct (Fsm.step str_of_state r state c) as [[out1 c1] ev] eqn:Hstep.
    intros Hloop Hn. pose proof (step_stops _ _ _ _ _ Hstep Hn) as Hs.
    destruct out1 as [next|e1].
    + destruct Hs as [Hkeep|[Hraise _]]; [|discriminate].
      destruct (Fsm.run_loop str_of_state r budget next c1) as [[out2 c2] tr2]
        eqn:Hrest.
      injection Hloop as <- <- <-.
      exact (IH _ _ _ _ _ Hrest Hkeep).
    + injection Hloop as <- <- <-. exact Hs.
Qed.

Lemma run_stops c out c' tr :
  Fsm.run str_of_state r c = (out, c', tr) ->
  counter (writer c) <= n ->
  counter (writer c') <= n
  \/ (out = Raise e /\ counter (writer c') = n + 1).
Proof. apply run_loop_stops. Qed.

End Engine.

Section DogcHandlers.
Context {W : Type} `{World W}.
Variable get_calendar_year_month : Z -> M W (Z * Z * string).
Variable click_previous_month : Z -> M W unit.
Variable click_next_month : Z -> M W unit.
Variable extract_issues :
  Z -> Z -> M (Dogc.CrawlerContext W) (list (date * string * string)).
Variable extract_candidates : M (Dogc.CrawlerContext W) (list Dogc.NoticeCandidate).
Variable extract_detail : M (Dogc.CrawlerContext W) Dogc.NoticeDetail.

Variable n : Z.
Variable e : exn.
Hypothesis Hfail : capture_fails_at n e.
Hypothesis Hissues : forall y m, keeps_writer Dogc.artifacts (extract_issues y m).
Hypothesis Hcandidates : keeps_writer Dogc.artifacts extract_candidates.
Hypothesis Hdetail : keeps_writer Dogc.artifacts extract_detail.

#[local] Hint Resolve Hfail Hissues Hcandidates Hdetail : writer.

(** No handler of the DOGC crawler gets past the attempt that fails. *)
Lemma dogc_handlers_stop state handler :
  Dogc.handlers get_calendar_year_month click_previous_month click_next_month
                extract_issues extract_candidates extract_detail state
  = Some handler ->
  stops_at_capture Dogc.artifacts n e handler.
Proof.
  destruct state; cbn [Dogc.handlers]; intros [= <-].
  - unfold Dogc.state_home. writer_steps.
  - unfold Dogc.state_cookie_consent. writer_steps.
  - unfold Dogc.state_navigate_to_start_month. cbv zeta. writer_steps.
  - unfold Dogc.state_process_month. cbv zeta. writer_steps.
  - unfold Dogc.state_pick_pending_daily_journal. cbv zeta. writer_steps.
  - unfold Dogc.state_open_daily_journal. cbv zeta. writer_steps.
  - unfold Dogc.state_pick_notice_link. writer_steps.
  - unfold Dogc.state_open_notice. cbv zeta. writer_steps.
Qed.

(** Nor does the whole run of the DOGC machine: neither the engine nor the
    hook touches the writer or catches anything. *)
Lemma dogc_run_stops (c c' : Dogc.CrawlerContext W) out tr :
  Fsm.run Dogc.str_of_state
    (Dogc.fsm get_calendar_year_month click_previous_month click_next_month
              extract_issues extract_candidates extract_detail) c
  = (out, c', tr) ->
  counter (Dogc.artifacts c) <= n ->
  counter (Dogc.artifacts c') <= n
  \/ (out = Raise e /\ counter (Dogc.artifacts c') = n + 1).
Proof.
  apply run_stops.
  - apply dogc_handlers_stop.
  - intros hook [= <-] c0 from_state to_state. apply dogc_keeps_hook.
Qed.

End DogcHandlers.

Section BoeHandlers.
Context {W : Type} `{World W}.
Variable n : Z.
Variable e : exn.
Hypothesis Hfail : capture_fails_at n e.

#[local] Hint Resolve Hfail : writer.

Lemma boe_state_home_stops :
  stops_at_capture Boe.artifacts n e (Boe.state_home (W := W)).
Proof. unfold Boe.state_home. writer_steps. Qed.

Lemma boe_state_process_result_item_keeps :
  keeps_writer Boe.artifacts (Boe.state_process_result_item (W := W)).
Proof. unfold Boe.state_process_result_item. writer_steps. Qed.

Lemma boe_state_open_notice_stops
  (extract_notice_detail_from_doc_page
     : M (Boe.CrawlerContext W) BoePages.NoticeDetail) :
  keeps_writer Boe.artifacts extract_notice_detail_from_doc_page ->
  stops_at_capture Boe.artifacts n e
    (BoePages.state_open_notice extract_notice_detail_from_doc_page).
Proof.
  intros Hdetail. unfold BoePages.state_open_notice. cbv zeta. writer_steps.
Qed.

End BoeHandlers.

End WriterFrame.

(* ===================================================================== *)
(** * Failures of the artifact capture *)
(* ===================================================================== *)

Module CaptureFacts.

Import Describe Notions.

Section Capture.
Context {W : Type} `{World W}.

(** [state_home] of [crawler_dogc.py] lets a failure of its capture
    through. *)
Lemma dogc_state_home_capture_raises (c c1 c2 : Dogc.CrawlerContext W) e :
  dogc_home_opening c = (Ok tt, c1) ->
  Dogc.capture Dogc.HOME "homepage_opened" c1 = (Raise e, c2) ->
  Dogc.state_home c = (Raise e, c2).
Proof.
  unfold dogc_home_opening, Dogc.state_home, bind, gets. cbn [fst snd].
  destruct (Dogc.log INFO "FSM state=%s opening URL=%s"
              [VStr (Dogc.value Dogc.HOME); VStr (Dogc.base_url c)] c)
    as [[u0|e0] c0]; [|discriminate].
  destruct (Dogc.on_driver (driver_get (Dogc.base_url c)) c0)
    as [[u1|e1] c1']; [|discriminate].
  destruct (Dogc.on_driver (Dogc.wait_dom_ready (Dogc.timeout_seconds c)) c1')
    as [[u2|e2] c2']; [|discriminate].
  intros Hopen Hcap. inversion Hopen; subst c2'. rewrite Hcap. reflexivity.
Qed.

(** So does [state_home] of [crawler_boe.py]. *)
Lemma boe_state_home_capture_raises (c c1 c2 : Boe.CrawlerContext W) e :
  boe_home_opening c = (Ok tt, c1) ->
  Boe.on_artifacts (Artifacts.capture (Boe.value Boe.HOME) "search_page_opened") c1
  = (Raise e, c2) ->
  Boe.state_home c = (Raise e, c2).
Proof.
  unfold boe_home_opening, Boe.state_home, bind, gets. cbn [fst snd].
  destruct (Boe.log INFO "FSM state=%s opening BOE search page: %s"
              [VStr (Boe.value Boe.HOME); VStr (Boe.base_url c)] c)
    as [[u0|e0] c0]; [|discriminate].
  destruct (Boe.on_driver (driver_get (Boe.base_url c)) c0)
    as [[u1|e1] c1']; [|discriminate].
  destruct (Boe.on_driver (Boe.wait_dom_ready (Boe.timeout_seconds c)) c1')
    as [[u2|e2] c2']; [|discriminate].
  destruct (Boe.on_driver
              (webdriver_wait_until (Boe.timeout_seconds c)
                 (Present [(ID, "desdeFP"); (ID, "hastaFP")])) c2')
    as [[u3|e3] c3']; [|discriminate].
  intros Hopen Hcap. inversion Hopen; subst c3'. rewrite Hcap. reflexivity.
Qed.

(** The except clause of [main] never raises and gives the exit code 1,
    whether its own capture attempt succeeds or fails. *)
Lemma main_except_exit_code fmt args driver_is_not_None run_dir
  (s : Logger * W) :
  fst (Shared.main_except fmt args driver_is_not_None run_dir s) = Ok 1.
Proof.
  unfold Shared.main_except, bind, try_except, Shared.in_logger, Shared.log,
    modify, ret. cbn [fst snd].
  destruct driver_is_not_None; [|reflexivity].
  match goal with
  | |- context [Shared.in_driver ?m ?s0] =>
      destruct (Shared.in_driver m s0) as [[writer|e] s1]
  end; [|reflexivity].
  match goal with
  | |- context [Artifacts.capture ?st ?note ?s0] =>
      destruct (Artifacts.capture st note s0) as [[created|e] [a w]]
  end; reflexivity.
Qed.

Variable get_calendar_year_month : Z -> M W (Z * Z * string).
Variable click_previous_month : Z -> M W unit.
Variable click_next_month : Z -> M W unit.
Variable extract_issues :
  Z -> Z -> M (Dogc.CrawlerContext W) (list (date * string * string)).
Variable extract_candidates : M (Dogc.CrawlerContext W) (list Dogc.NoticeCandidate).
Variable extract_detail : M (Dogc.CrawlerContext W) Dogc.NoticeDetail.

#[local] Abbreviation dogc_fsm :=
  (Dogc.fsm get_calendar_year_month click_previous_month click_next_month
            extract_issues extract_candidates extract_detail).

#[local] Abbreviation dogc_main_try :=
  (Dogc.main_try get_calendar_year_month click_previous_month click_next_month
                 extract_issues extract_candidates extract_detail).

(** An exception of [state_home] leaves the run of the DOGC machine. *)
Lemma dogc_run_home_raises (c c' : Dogc.CrawlerContext W) e :
  Dogc.state_home c = (Raise e, c') ->
  Fsm.run Dogc.str_of_state dogc_fsm c
  = (Raise e, c', [Fsm.HandlerCalled Dogc.HOME]).
Proof.
  intros Hhome.
  apply (FsmFacts.run_first_handler_raises Dogc.str_of_state dogc_fsm c c'
           Dogc.state_home e); try reflexivity; [discriminate|exact Hhome].
Qed.

(** An exception that leaves the run is caught by [main], which returns
    the exit code 1. *)
Lemma dogc_main_try_run_raises args headless run_dir source_id
  start_issue_date end_issue_date (p p1 p2 : Dogc.Process W) writer e c' tr :
  Dogc.p_on_world (build_driver headless) p = (Ok tt, p1) ->
  Dogc.p_on_world (Artifacts.new_writer run_dir) p1 = (Ok writer, p2) ->
  Fsm.run Dogc.str_of_state dogc_fsm
          (Dogc.mkContext (Dogc.p_logger p2) (Dogc.p_world p2) writer
                          (Dogc.arg_slug args) source_id (Dogc.arg_base_url args)
                          (Dogc.arg_daily_base_url args) (Dogc.arg_timeout args)
                          start_issue_date end_issue_date (Dogc.p_db p2)
                          None None None None None)
  = (Raise e, c', tr) ->
  fst (dogc_main_try args headless run_dir source_id start_issue_date
                     end_issue_date p)
  = Ok (1, true).
Proof.
  intros Hbuild Hwriter Hrun.
  unfold Dogc.main_try, bind. rewrite Hbuild.
  unfold try_except, bind. rewrite Hwriter, Hrun.
  unfold Dogc.p_on_logger_world, ret. cbn [fst snd Dogc.p_logger Dogc.p_world].
  pose proof (main_except_exit_code "Crawler failed: %s" [VOpaque "exc"] true
                run_dir (Dogc.logger c', Dogc.driver c')) as Hcode.
  destruct (Shared.main_except "Crawler failed: %s" [VOpaque "exc"] true
              run_dir (Dogc.logger c', Dogc.driver c')) as [x [lg w]].
  simpl in Hcode. subst x. reflexivity.
Qed.

Variable state_prepare_search : M (Boe.CrawlerContext W) Boe.BoeState.
Variable state_parse_results_page : M (Boe.CrawlerContext W) Boe.BoeState.
Variable state_open_notice : M (Boe.CrawlerContext W) Boe.BoeState.
Variable state_open_next_page : M (Boe.CrawlerContext W) Boe.BoeState.

#[local] Abbreviation boe_fsm :=
  (Boe.fsm state_prepare_search state_parse_results_page state_open_notice
           state_open_next_page).

#[local] Abbreviation boe_main_try :=
  (Boe.main_try state_prepare_search state_parse_results_page
                state_open_notice state_open_next_page).

(** The same in [crawler_boe.py], once the window is resolved and is not
    empty. *)
Lemma boe_main_try_run_raises args headless run_dir today source_id
  source_start_at source_base_url (p p0 p1 p2 : Boe.Process W) range writer
  e c' tr :
  Boe.p_on_logger_world
    (Shared.in_logger
       (Boe.resolve_crawl_range today (Boe.p_db p) source_id source_start_at
                                (Boe.arg_day args) (Boe.arg_from_date args)
                                (Boe.arg_to_date args))) p
  = (Ok range, p0) ->
  date_gtb (fst range) (snd range) = false ->
  Boe.p_on_world (build_driver headless) p0 = (Ok tt, p1) ->
  Boe.p_on_world (Artifacts.new_writer run_dir) p1 = (Ok writer, p2) ->
  Fsm.run Boe.str_of_state boe_fsm
          (Boe.mkContext (Boe.p_logger p2) (Boe.p_world p2) writer
                         (Boe.arg_slug args) source_id
                         (if truthy (Boe.arg_base_url args)
                          then or_empty (Boe.arg_base_url args)
                          else if negb (String.eqb source_base_url "")
                               then source_base_url
                               else "https://www.boe.es/buscar/boe.php")
                         (Boe.arg_timeout args) (fst range) (snd range)
                         (Boe.p_db p2) [] None None)
  = (Raise e, c', tr) ->
  fst (boe_main_try args headless run_dir today source_id source_start_at
                    source_base_url p)
  = Ok (1, true).
Proof.
  intros Hrange Hwindow Hbuild Hwriter Hrun.
  unfold Boe.main_try. rewrite Basics.bind_gets. cbv beta.
  unfold bind at 1. rewrite Hrange, Hwindow.
  unfold bind at 1. rewrite Hbuild.
  unfold try_except, bind. rewrite Hwriter, Hrun.
  unfold Boe.p_on_logger_world, ret. cbn [fst snd Boe.p_logger Boe.p_world].
  pose proof (main_except_exit_code "Crawler failed: %s: %r"
                [VStr (exn_name e); VOpaque "exc"] true run_dir
                (Boe.logger c', Boe.driver c')) as Hcode.
  destruct (Shared.main_except "Crawler failed: %s: %r"
              [VStr (exn_name e); VOpaque "exc"] true run_dir
              (Boe.logger c', Boe.driver c')) as [x [lg w]].
  simpl in Hcode. subst x. reflexivity.
Qed.

(** The engine lets the exception of a handler of the BOE machine through,
    whatever the handler and wherever the run stands. *)
Lemma boe_run_handler_raises k state (c c1 c2 : Boe.CrawlerContext W) tr
  handler e :
  Fsm.passes Boe.str_of_state boe_fsm k Boe.HOME c = Some (state, c1, tr) ->
  (k < Z.to_nat (Fsm.max_steps (Fsm.config boe_fsm)))%nat ->
  state <> Boe.DONE ->
  Fsm.handlers boe_fsm state = Some handler ->
  handler c1 = (Raise e, c2) ->
  Fsm.run Boe.str_of_state boe_fsm c
  = (Raise e, c2, tr ++ [Fsm.HandlerCalled state]).
Proof.
  intros Hp Hk Hne Hh He.
  rewrite (EngineFacts.run_after_passes Boe.str_of_state boe_fsm k state c c1
             tr Hp Hk Hne).
  unfold Fsm.step. rewrite Hh, He. reflexivity.
Qed.

End Capture.




(** The attempt of the except clause may fail without consequence. *)
Lemma final_capture_failure_is_logged :
  fst (Stub.dogc_main (Stub.mkStub false [] [true; true] []) Stub.empty_db)
  = Ok 1
  /\ last (Dogc.p_logger
             (snd (Stub.dogc_main (Stub.mkStub false [] [true; true] [])
                                  Stub.empty_db)))
     = Some (mkLog ERROR (Msg "Failed to write error artifacts" [])).
Proof. split; vm_compute; reflexivity. Qed.

End CaptureFacts.

(* ===================================================================== *)
(** * [main]: exit codes and what is left behind *)
(* ===================================================================== *)

Module MainFacts.

Import Sql DateFacts Basics.

Section BoeMain.
Context {W : Type} `{World W}.
Variable state_prepare_search : M (Boe.CrawlerContext W) Boe.BoeState.
Variable state_parse_results_page : M (Boe.CrawlerContext W) Boe.BoeState.
Variable state_open_notice : M (Boe.CrawlerContext W) Boe.BoeState.
Variable state_open_next_page : M (Boe.CrawlerContext W) Boe.BoeState.

#[local] Abbreviation boe_main_try :=
  (Boe.main_try state_prepare_search state_parse_results_page
                state_open_notice state_open_next_page).
#[local] Abbreviation boe_main :=
  (Boe.main state_prepare_search state_parse_results_page
            state_open_notice state_open_next_page).

Lemma boe_except_clause fmt args flag run_dir (p : Boe.Process W) :
  exists p',
    (let* code := Boe.p_on_logger_world
                    (Shared.main_except fmt args flag run_dir) in
     ret (code, flag)) p = (Ok (1, flag), p').
Proof.
  unfold bind, Boe.p_on_logger_world, ret.
  pose proof (CaptureFacts.main_except_exit_code fmt args flag run_dir
                (Boe.p_logger p, Boe.p_world p)) as Hcode.
  destruct (Shared.main_except fmt args flag run_dir
              (Boe.p_logger p, Boe.p_world p)) as [x [lg w]].
  simpl in Hcode. subst x. eauto.
Qed.

(** The [try] block of [main] ends with the exit code 0, or with the exit
    code 1 of its except clause, or with an exception raised while no
    driver is bound. *)
Lemma boe_main_try_outcome args headless run_dir today source_id
  source_start_at source_base_url (p p' : Boe.Process W) out :
  boe_main_try args headless run_dir today source_id source_start_at
               source_base_url p = (out, p') ->
  (exists flag, out = Ok (0, flag)) \/ out = Ok (1, true)
  \/ exists e, out = Raise e.
Proof.
  unfold Boe.main_try. rewrite bind_gets. cbv beta.
  unfold bind at 1.
  destruct (Boe.p_on_logger_world _ p) as [[range|e] p1];
    [|intros [= <- <-]; eauto].
  destruct (date_gtb (fst range) (snd range)).
  { intros [= <- <-]. left. exists false. reflexivity. }
  unfold bind at 1.
  destruct (Boe.p_on_world (build_driver headless) p1) as [[u|e] p2];
    [|intros [= <- <-]; eauto].
  unfold try_except.
  match goal with
  | |- context [match ?body p2 with _ => _ end] =>
      destruct (body p2) as [[res|e] p3] eqn:Hbody
  end.
  - intros [= <- <-]. left. exists true. revert Hbody. unfold bind at 1.
    destruct (Boe.p_on_world (Artifacts.new_writer run_dir) p2)
      as [[writer|e] p4]; [|discriminate].
    unfold bind at 1.
    match goal with
    | |- context [Fsm.run ?str ?fsm ?ctx] =>
        destruct (Fsm.run str fsm ctx) as [[[final|e] c'] tr]
    end; [|discriminate].
    intros [= <- _]. reflexivity.
  - destruct (boe_except_clause "Crawler failed: %s: %r"
                [VStr (exn_name e); VOpaque "exc"] true run_dir p3)
      as [p'' ->].
    intros [= <- <-]. auto.
Qed.

(** X20.  From its first log line on (line 650), with the connection open
    and the row of the source read, BOE's main returns 0 or 1, or it raises
    what driver.quit() raised in the finally clause: no exception of the
    crawl itself leaves main. The set-up before that line (parse_args,
    run_dir.mkdir, build_logger, lines 642-649) is outside the try and is
    not covered, and db_conn.close() in the finally clause is taken not to
    raise. *)
Theorem boe_main_exit_code args headless run_dir today source_id
  source_start_at source_base_url (p : Boe.Process W) :
  let r := fst (boe_main args headless run_dir today source_id source_start_at
                         source_base_url p) in
  r = Ok 0 \/ r = Ok 1
  \/ exists e w, r = Raise e /\ fst (driver_quit w) = Raise e.
Proof.
  intros r. subst r.
  destruct (boe_main args headless run_dir today source_id source_start_at
                     source_base_url p) as [out pf] eqn:Hmain.
  cbn [fst]. revert Hmain.
  unfold Boe.main, Boe.p_log, Shared.log, modify.
  unfold bind at 1. cbn [fst snd]. unfold bind at 1. cbn [fst snd].
  unfold bind at 1. cbn [fst snd]. unfold bind at 1. unfold try_except.
  match goal with
  | |- context [boe_main_try ?a ?h ?d ?t ?s ?st ?b ?p0] =>
      pose proof (boe_main_try_outcome a h d t s st b p0) as Hout;
      destruct (boe_main_try a h d t s st b p0) as [[[code flag]|e] p1]
  end.
  - specialize (Hout _ _ eq_refl).
    assert (Hcode : code = 0 \/ code = 1).
    { destruct Hout as [[f Hf]|[Hf|[e Hf]]]; inversion Hf; auto. }
    unfold bind at 1. cbn [snd fst].
    destruct flag.
    + unfold Boe.p_on_world.
      destruct (driver_quit (Boe.p_world p1)) as [[u|e] w'] eqn:Hquit.
      * intros [= <- <-]. destruct Hcode as [-> | ->]; auto.
      * intros [= <- <-]. right. right. exists e, (Boe.p_world p1).
        rewrite Hquit. auto.
    + intros [= <- <-]. destruct Hcode as [-> | ->]; auto.
  - destruct (boe_except_clause "Crawler failed: %s: %r"
                [VStr (exn_name e); VOpaque "exc"] false run_dir p1)
      as [p'' ->].
    unfold bind at 1. intros [= <- <-]. auto.
Qed.

(** X21.  Without overrides, when the latest persisted issue of the source
    is today's or later and is not 9999-12-31 (so that the day after it
    exists), BOE's main, from its first log line on (line 650) and with the
    connection open and the row of the source read, returns 0 and leaves the
    browser session and the store as they were: no driver is built and
    nothing is written. db_conn.close() in the finally clause is taken not
    to raise. *)
Theorem boe_main_up_to_date args headless run_dir today source_id
  source_start_at source_base_url (p : Boe.Process W) (w nxt : date) :
  truthy (Boe.arg_day args) = false ->
  truthy (Boe.arg_from_date args) = false ->
  truthy (Boe.arg_to_date args) = false ->
  select_max_issue_date source_id (Boe.p_db p) = Some w ->
  date_leb today w = true ->
  add_one_day w = Ok nxt ->
  let r := boe_main args headless run_dir today source_id source_start_at
                    source_base_url p in
  fst r = Ok 0
  /\ Boe.p_world (snd r) = Boe.p_world p
  /\ Boe.p_db (snd r) = Boe.p_db p.
Proof.
  intros Hday Hfrom Hto Hmax Hle Hnext r. subst r.
  assert (Hgt : date_gtb nxt today = true).
  { unfold date_gtb. apply (date_leb_ltb_trans _ w _ Hle).
    apply add_one_day_later. exact Hnext. }
  unfold Boe.main, Boe.main_try, Boe.p_log, Shared.log, modify,
    try_except, bind, gets, Boe.p_on_logger_world, Shared.in_logger,
    Boe.resolve_crawl_range, Boe.lift_res, ret.
  cbn [fst snd Boe.p_logger Boe.p_world Boe.p_db].
  rewrite Hday, Hfrom, Hto. cbn [orb]. rewrite Hmax, Hnext.
  unfold bind, Shared.log, modify, ret.
  cbn [fst snd Boe.p_logger Boe.p_world Boe.p_db]. rewrite Hgt.
  cbn [fst snd Boe.p_logger Boe.p_world Boe.p_db]. auto.
Qed.

End BoeMain.

Section DogcMain.
Context {W : Type} `{World W}.
Variable get_calendar_year_month : Z -> M W (Z * Z * string).
Variable click_previous_month : Z -> M W unit.
Variable click_next_month : Z -> M W unit.
Variable extract_issues :
  Z -> Z -> M (Dogc.CrawlerContext W) (list (date * string * string)).
Variable extract_candidates : M (Dogc.CrawlerContext W) (list Dogc.NoticeCandidate).
Variable extract_detail : M (Dogc.CrawlerContext W) Dogc.NoticeDetail.

#[local] Abbreviation dogc_main_try :=
  (Dogc.main_try get_calendar_year_month click_previous_month click_next_month
                 extract_issues extract_candidates extract_detail).
#[local] Abbreviation dogc_main :=
  (Dogc.main get_calendar_year_month click_previous_month click_next_month
             extract_issues extract_candidates extract_detail).

Lemma dogc_except_clause fmt args flag run_dir (p : Dogc.Process W) :
  exists p',
    (let* code := Dogc.p_on_logger_world
                    (Shared.main_except fmt args flag run_dir) in
     ret (code, flag)) p = (Ok (1, flag), p').
Proof.
  unfold bind, Dogc.p_on_logger_world, ret.
  pose proof (CaptureFacts.main_except_exit_code fmt args flag run_dir
                (Dogc.p_logger p, Dogc.p_world p)) as Hcode.
  destruct (Shared.main_except fmt args flag run_dir
              (Dogc.p_logger p, Dogc.p_world p)) as [x [lg w]].
  simpl in Hcode. subst x. eauto.
Qed.

Lemma dogc_main_try_outcome args headless run_dir source_id start_issue_date
  end_issue_date (p p' : Dogc.Process W) out :
  dogc_main_try args headless run_dir source_id start_issue_date
                end_issue_date p = (out, p') ->
  out = Ok (0, true) \/ out = Ok (1, true) \/ exists e, out = Raise e.
Proof.
  unfold Dogc.main_try. unfold bind at 1.
  destruct (Dogc.p_on_world (build_driver headless) p) as [[u|e] p2];
    [|intros [= <- <-]; eauto].
  unfold try_except.
  match goal with
  | |- context [match ?body p2 with _ => _ end] =>
      destruct (body p2) as [[res|e] p3] eqn:Hbody
  end.
  - intros [= <- <-]. left. revert Hbody. unfold bind at 1.
    destruct (Dogc.p_on_world (Artifacts.new_writer run_dir) p2)
      as [[writer|e] p4]; [|discriminate].
    unfold bind at 1.
    match goal with
    | |- context [Fsm.run ?str ?fsm ?ctx] =>
        destruct (Fsm.run str fsm ctx) as [[[final|e] c'] tr]
    end; [|discriminate].
    intros [= <- _]. reflexivity.
  - destruct (dogc_except_clause "Crawler failed: %s" [VOpaque "exc"] true
                run_dir p3) as [p'' ->].
    intros [= <- <-]. auto.
Qed.

(** What [resolve_source_context] gives: the start date of the command line
    when there is one, which it reads without stripping it, the start date
    of the source otherwise; it only writes to the log. *)
Lemma resolve_source_context_eq (args : Dogc.Args) source_id db_start_date
  (p : Dogc.Process W) :
  exists p',
    Dogc.p_world p' = Dogc.p_world p /\ Dogc.p_db p' = Dogc.p_db p
    /\ Dogc.resolve_source_context args source_id db_start_date p
       = (if truthy (Dogc.arg_start_at args)
          then match strptime_ymd (or_empty (Dogc.arg_start_at args)) with
               | Some override_start => Ok (source_id, override_start)
               | None =>
                   Raise (ValueError
                            (Msg "time data %r does not match format %r"
                                 [VRepr (or_empty (Dogc.arg_start_at args));
                                  VRepr "%Y-%m-%d"]))
               end
          else Ok (source_id, db_start_date),
          p').
Proof.
  unfold Dogc.resolve_source_context, Dogc.p_log, Shared.log, modify, bind.
  cbn [fst snd]. destruct (truthy (Dogc.arg_start_at args)).
  - destruct (strptime_ymd (or_empty (Dogc.arg_start_at args))).
    + eexists. split; [|split; [|reflexivity]]; reflexivity.
    + eexists. split; [|split; [|reflexivity]]; reflexivity.
  - eexists. split; [|split; [|reflexivity]]; reflexivity.
Qed.

(** [main] up to the test of the start date. *)
Lemma dogc_main_eq (args : Dogc.Args) headless run_dir
  (today : date) source_id (db_start_date : date) (p : Dogc.Process W) :
  exists p1,
    Dogc.p_world p1 = Dogc.p_world p /\ Dogc.p_db p1 = Dogc.p_db p
    /\ dogc_main args headless run_dir today source_id db_start_date p
       = match (if truthy (Dogc.arg_start_at args)
                then match strptime_ymd (or_empty (Dogc.arg_start_at args)) with
                     | Some override_start => Ok (source_id, override_start)
                     | None =>
                         Raise (ValueError
                                  (Msg "time data %r does not match format %r"
                                       [VRepr (or_empty (Dogc.arg_start_at args));
                                        VRepr "%Y-%m-%d"]))
                     end
                else Ok (source_id, db_start_date)) with
         | Raise e => (Raise e, p1)
         | Ok source =>
             if date_gtb (snd source) today
             then (Raise (RuntimeError
                            (Msg "start_at ({start_issue_date.isoformat()}) cannot be after today ({end_issue_date.isoformat()})."
                                 [VDate (snd source); VDate today])), p1)
             else
               (let* result :=
                  try_except
                    (dogc_main_try args headless run_dir (fst source)
                                   (snd source) today)
                    (fun exc =>
                       let* code :=
                         Dogc.p_on_logger_world
                           (Shared.main_except "Crawler failed: %s"
                              [VOpaque "exc"] false run_dir) in
                       ret (code, false)) in
                (if snd result then Dogc.p_on_world driver_quit else ret tt) >>
                ret (fst result)) p1
         end.
Proof.
  unfold Dogc.main.
  unfold Dogc.p_log at 1 2 3, Shared.log, modify.
  unfold bind at 1. cbn [fst snd]. unfold bind at 1. cbn [fst snd].
  unfold bind at 1. cbn [fst snd]. unfold bind at 1.
  match goal with
  | |- context [Dogc.resolve_source_context ?a ?s ?d ?p0] =>
      destruct (resolve_source_context_eq a s d p0) as (p' & Hw & Hdb & ->)
  end.
  cbn [Dogc.p_world Dogc.p_db] in Hw, Hdb.
  exists p'. split; [exact Hw|]. split; [exact Hdb|].
  destruct (if truthy (Dogc.arg_start_at args) then _ else _) as [source|e];
    [|reflexivity].
  destruct (date_gtb (snd source) today); reflexivity.
Qed.

(** X22.  DOGC's main lets two errors of the start date through, before the
    try block: ValueError when --start-at is given and is not a date in the
    format %Y-%m-%d, and RuntimeError 'start_at (...) cannot be after today
    (...)' when the start date is after today; in both cases the browser
    session and the store are as they were. *)
Theorem dogc_main_start_date_errors (args : Dogc.Args) headless run_dir
  (today : date) source_id (db_start_date : date) (p : Dogc.Process W) :
  let r := dogc_main args headless run_dir today source_id db_start_date p in
  (truthy (Dogc.arg_start_at args) = true ->
   strptime_ymd (or_empty (Dogc.arg_start_at args)) = None ->
   (exists message, fst r = Raise (ValueError message))
   /\ Dogc.p_world (snd r) = Dogc.p_world p /\ Dogc.p_db (snd r) = Dogc.p_db p)
  /\
  (forall start_issue_date,
     (if truthy (Dogc.arg_start_at args)
      then strptime_ymd (or_empty (Dogc.arg_start_at args))
      else Some db_start_date) = Some start_issue_date ->
     date_gtb start_issue_date today = true ->
     fst r = Raise (RuntimeError
                      (Msg "start_at ({start_issue_date.isoformat()}) cannot be after today ({end_issue_date.isoformat()})."
                           [VDate start_issue_date; VDate today]))
     /\ Dogc.p_world (snd r) = Dogc.p_world p
     /\ Dogc.p_db (snd r) = Dogc.p_db p).
Proof.
  intros r. subst r.
  destruct (dogc_main_eq args headless run_dir today source_id db_start_date p)
    as (p1 & Hw & Hdb & ->).
  split.
  - intros Htruthy Hparse. rewrite Htruthy, Hparse. cbn [fst snd]. eauto.
  - intros start Hstart Hgt. destruct (truthy (Dogc.arg_start_at args)).
    + rewrite Hstart. cbn [fst snd]. rewrite Hgt. cbn [fst snd]. auto.
    + inversion Hstart; subst. cbn [fst snd]. rewrite Hgt. cbn [fst snd]. auto.
Qed.

(** X23.  When the start date is read and is not after today, DOGC's main
    returns 0 or 1, or it raises what driver.quit() raised in the finally
    clause; no exception of the crawl itself leaves main. *)
Theorem dogc_main_exit_code (args : Dogc.Args) headless run_dir
  (today : date) source_id (db_start_date : date) (p : Dogc.Process W)
  (start_issue_date : date) :
  (if truthy (Dogc.arg_start_at args)
   then strptime_ymd (or_empty (Dogc.arg_start_at args))
   else Some db_start_date) = Some start_issue_date ->
  date_leb start_issue_date today = true ->
  let r := fst (dogc_main args headless run_dir today source_id db_start_date
                          p) in
  r = Ok 0 \/ r = Ok 1
  \/ exists e w, r = Raise e /\ fst (driver_quit w) = Raise e.
Proof.
  intros Hstart Hle r. subst r.
  destruct (dogc_main_eq args headless run_dir today source_id db_start_date p)
    as (p1 & _ & _ & ->).
  assert (Hgt : date_gtb start_issue_date today = false).
  { rewrite date_gtb_leb, Hle. reflexivity. }
  assert (Hsrc : (if truthy (Dogc.arg_start_at args)
                  then match strptime_ymd (or_empty (Dogc.arg_start_at args)) with
                       | Some override_start => Ok (source_id, override_start)
                       | None =>
                           Raise (ValueError
                                    (Msg "time data %r does not match format %r"
                                         [VRepr (or_empty (Dogc.arg_start_at args));
                                          VRepr "%Y-%m-%d"]))
                       end
                  else Ok (source_id, db_start_date))
                 = Ok (source_id, start_issue_date)).
  { destruct (truthy (Dogc.arg_start_at args)).
    - rewrite Hstart. reflexivity.
    - inversion Hstart; subst. reflexivity. }
  rewrite Hsrc. cbn [fst snd]. rewrite Hgt.
  match goal with
  | |- context [fst ?t] => destruct t as [out pf] eqn:Hmain
  end.
  cbn [fst]. revert Hmain.
  unfold bind at 1. unfold try_except.
  match goal with
  | |- context [dogc_main_try ?a ?h ?d ?s ?st ?en ?p0] =>
      pose proof (dogc_main_try_outcome a h d s st en p0) as Hout;
      destruct (dogc_main_try a h d s st en p0) as [[[code flag]|e] p2]
  end.
  - specialize (Hout _ _ eq_refl).
    assert (Hcode : code = 0 \/ code = 1).
    { destruct Hout as [Hf|[Hf|[e Hf]]]; inversion Hf; auto. }
    unfold bind at 1. cbn [snd fst].
    destruct flag.
    + unfold Dogc.p_on_world.
      destruct (driver_quit (Dogc.p_world p2)) as [[u|e] w'] eqn:Hquit.
      * intros [= <- <-]. destruct Hcode as [-> | ->]; auto.
      * intros [= <- <-]. right. right. exists e, (Dogc.p_world p2).
        rewrite Hquit. auto.
    + intros [= <- <-]. destruct Hcode as [-> | ->]; auto.
  - destruct (dogc_except_clause "Crawler failed: %s" [VOpaque "exc"] false
                run_dir p2) as [p'' ->].
    unfold bind at 1. intros [= <- <-]. auto.
Qed.

End DogcMain.


Lemma boe_main_up_to_date_witness :
  fst (Cases.boe_main (Stub.d 2024 1 2) Stub.db_one_issue) = Ok 0
  /\ Boe.p_world (snd (Cases.boe_main (Stub.d 2024 1 2) Stub.db_one_issue))
     = Stub.quiet
  /\ Boe.p_db (snd (Cases.boe_main (Stub.d 2024 1 2) Stub.db_one_issue))
     = Stub.db_one_issue.
Proof.
  assert (Hmax : select_max_issue_date 1 Stub.db_one_issue
                 = Some (Stub.d 2024 1 2)) by (vm_compute; reflexivity).
  assert (Hnext : add_one_day (Stub.d 2024 1 2) = Ok (Stub.d 2024 1 3))
    by (vm_compute; reflexivity).
  exact (boe_main_up_to_date Cases.boe_idle Cases.boe_idle Cases.boe_idle
           Cases.boe_idle Cases.boe_args true "run" (Stub.d 2024 1 2) 1
           (Stub.d 2024 1 1) "https://www.boe.es/buscar/boe.php"
           (Boe.mkProcess [] Stub.quiet Stub.db_one_issue)
           (Stub.d 2024 1 2) (Stub.d 2024 1 3)
           eq_refl eq_refl eq_refl Hmax eq_refl Hnext).
Defined.

Lemma dogc_main_exit_code_witness :
  fst (Stub.dogc_main Stub.quiet Stub.empty_db) = Ok 0
  /\ (fst (Stub.dogc_main Stub.quiet Stub.empty_db) = Ok 0
      \/ fst (Stub.dogc_main Stub.quiet Stub.empty_db) = Ok 1
      \/ exists e (w : Stub.StubWorld),
           fst (Stub.dogc_main Stub.quiet Stub.empty_db) = Raise e
           /\ fst (driver_quit w) = Raise e).
Proof.
  split; [vm_compute; reflexivity|].
  exact (dogc_main_exit_code Stub.calendar Stub.click_month Stub.click_month
           Stub.no_issues Stub.no_candidates Stub.empty_detail Stub.dogc_args
           true "run" (Stub.d 2024 1 3) 7 (Stub.d 2024 1 1)
           (Dogc.mkProcess [] Stub.quiet Stub.empty_db) (Stub.d 2024 1 1)
           eq_refl eq_refl).
Defined.

End MainFacts.
